(** * SCTP output path: packet assembly and emission (net/sctp/output.c)

    A shallow embedding of the outbound packetizer of the SCTP stack:
    the packet container, the admission predicates
    [sctp_packet_will_fit] and [sctp_packet_can_append_data], the AUTH
    and SACK bundlers, the append routines, the flush-and-retry driver
    [sctp_packet_transmit_chunk] and the emitter [sctp_packet_transmit].

    C objects are records; the packet reaches its transport and the
    transport its association by nesting, as the C pointers do.  Stateful
    routines run in a state-and-fault monad over a [world]: the packet,
    the owning socket, the clock, the outcomes of the coming buffer
    allocations, and the log of what was freed and what was handed to the
    IP layer.  A read through a NULL association pointer is a [Fault]. *)

From Stdlib Require Import ZArith List Bool Lia.
Import ListNotations.
Local Open Scope Z_scope.

(** ** Machine integers *)

(** Conversions to the C types the source computes in; values are kept as
    [Z] and every conversion is written where the C code has one. *)
Definition u16 (z : Z) : Z := z mod 2 ^ 16.
Definition u32 (z : Z) : Z := z mod 2 ^ 32.
Definition size_t (z : Z) : Z := z mod 2 ^ 64.
Definition ulong (z : Z) : Z := z mod 2 ^ 64.
Definition int (z : Z) : Z := (z + 2 ^ 31) mod 2 ^ 32 - 2 ^ 31.

(** Modelled from the spec: SCTP_PAD4 is a macro of the SCTP headers, which
    are not under src/; the padded length of a chunk is its raw length
    rounded up to a multiple of 4. *)
Definition SCTP_PAD4 (s : Z) : Z := (s + 3) / 4 * 4.

(** Sizes of wire headers (declared in headers outside src/): the IPv6
    header, the SCTP common header, and a DATA chunk header
    (chunk header plus DATA sub-header). *)
Definition sizeof_ipv6hdr : Z := 40.
Definition sizeof_sctphdr : Z := 12.
Definition sizeof_sctp_data_chunk_t : Z := 16.

(** ** Enumerations *)

Inductive sctp_xmit_t : Type :=
| SCTP_XMIT_OK
| SCTP_XMIT_PMTU_FULL
| SCTP_XMIT_RWND_FULL
| SCTP_XMIT_DELAY.

Inductive sctp_cid_t : Type :=
| SCTP_CID_DATA
| SCTP_CID_INIT
| SCTP_CID_INIT_ACK
| SCTP_CID_SACK
| SCTP_CID_HEARTBEAT
| SCTP_CID_HEARTBEAT_ACK
| SCTP_CID_ABORT
| SCTP_CID_SHUTDOWN
| SCTP_CID_SHUTDOWN_ACK
| SCTP_CID_ERROR
| SCTP_CID_COOKIE_ECHO
| SCTP_CID_COOKIE_ACK
| SCTP_CID_ECN_ECNE
| SCTP_CID_ECN_CWR
| SCTP_CID_SHUTDOWN_COMPLETE
| SCTP_CID_AUTH.

Inductive sctp_frtx_t : Type :=
| SCTP_CAN_FRTX
| SCTP_NEED_FRTX
| SCTP_DONT_FRTX.

Inductive sctp_state_t : Type :=
| SCTP_STATE_CLOSED
| SCTP_STATE_COOKIE_WAIT
| SCTP_STATE_COOKIE_ECHOED
| SCTP_STATE_ESTABLISHED
| SCTP_STATE_SHUTDOWN_PENDING
| SCTP_STATE_SHUTDOWN_SENT
| SCTP_STATE_SHUTDOWN_RECEIVED
| SCTP_STATE_SHUTDOWN_ACK_SENT.

Definition xmit_is_ok (v : sctp_xmit_t) : bool :=
  match v with SCTP_XMIT_OK => true | _ => false end.

Definition is_auth_cid (t : sctp_cid_t) : bool :=
  match t with SCTP_CID_AUTH => true | _ => false end.

Definition is_sack_cid (t : sctp_cid_t) : bool :=
  match t with SCTP_CID_SACK => true | _ => false end.

Definition need_frtx (f : sctp_frtx_t) : bool :=
  match f with SCTP_NEED_FRTX => true | _ => false end.

Definition state_established (s : sctp_state_t) : bool :=
  match s with SCTP_STATE_ESTABLISHED => true | _ => false end.

(** ** Objects *)

(** A user message: the hints the packetizer reads and clears. *)
Record sctp_datamsg : Type := Build_datamsg {
  can_delay : bool;
  can_abandon : bool
}.

Definition set_can_abandon (v : bool) (r : sctp_datamsg) : sctp_datamsg :=
  {| can_delay := can_delay r; can_abandon := v |}.

(** A chunk.  [c_addr] stands for the address of the C object: the source
    compares chunks by pointer ([chunk == packet->auth]).  [c_length] is
    ntohs(chunk_hdr->length), [c_skb_len] is skb->len, [c_auth] the flag
    that the peer wants this chunk authenticated, [c_has_asoc] whether
    chunk->asoc is set, [c_transport] the address of the transport. *)
Record sctp_chunk : Type := Build_chunk {
  c_addr : nat;
  c_type : sctp_cid_t;
  c_length : Z;
  c_skb_len : Z;
  c_auth : bool;
  c_has_asoc : bool;
  c_fast_retransmit : sctp_frtx_t;
  c_msg : sctp_datamsg;
  c_resent : bool;
  c_rtt_in_progress : bool;
  c_has_tsn : bool;
  c_tsn : Z;
  c_has_ssn : bool;
  c_ssn : Z;
  c_sent_at : Z;
  c_sent_count : Z;
  c_transport : option nat
}.

Definition set_c_skb_len (v : Z) (r : sctp_chunk) : sctp_chunk :=
  {| c_addr := c_addr r; c_type := c_type r; c_length := c_length r; c_skb_len := v;
     c_auth := c_auth r; c_has_asoc := c_has_asoc r;
     c_fast_retransmit := c_fast_retransmit r; c_msg := c_msg r; c_resent := c_resent r;
     c_rtt_in_progress := c_rtt_in_progress r; c_has_tsn := c_has_tsn r; c_tsn := c_tsn r;
     c_has_ssn := c_has_ssn r; c_ssn := c_ssn r; c_sent_at := c_sent_at r;
     c_sent_count := c_sent_count r; c_transport := c_transport r |}.
Definition set_c_msg (v : sctp_datamsg) (r : sctp_chunk) : sctp_chunk :=
  {| c_addr := c_addr r; c_type := c_type r; c_length := c_length r;
     c_skb_len := c_skb_len r; c_auth := c_auth r; c_has_asoc := c_has_asoc r;
     c_fast_retransmit := c_fast_retransmit r; c_msg := v; c_resent := c_resent r;
     c_rtt_in_progress := c_rtt_in_progress r; c_has_tsn := c_has_tsn r; c_tsn := c_tsn r;
     c_has_ssn := c_has_ssn r; c_ssn := c_ssn r; c_sent_at := c_sent_at r;
     c_sent_count := c_sent_count r; c_transport := c_transport r |}.
Definition set_c_rtt_in_progress (v : bool) (r : sctp_chunk) : sctp_chunk :=
  {| c_addr := c_addr r; c_type := c_type r; c_length := c_length r;
     c_skb_len := c_skb_len r; c_auth := c_auth r; c_has_asoc := c_has_asoc r;
     c_fast_retransmit := c_fast_retransmit r; c_msg := c_msg r; c_resent := c_resent r;
     c_rtt_in_progress := v; c_has_tsn := c_has_tsn r; c_tsn := c_tsn r;
     c_has_ssn := c_has_ssn r; c_ssn := c_ssn r; c_sent_at := c_sent_at r;
     c_sent_count := c_sent_count r; c_transport := c_transport r |}.
Definition set_c_has_tsn (v : bool) (r : sctp_chunk) : sctp_chunk :=
  {| c_addr := c_addr r; c_type := c_type r; c_length := c_length r;
     c_skb_len := c_skb_len r; c_auth := c_auth r; c_has_asoc := c_has_asoc r;
     c_fast_retransmit := c_fast_retransmit r; c_msg := c_msg r; c_resent := c_resent r;
     c_rtt_in_progress := c_rtt_in_progress r; c_has_tsn := v; c_tsn := c_tsn r;
     c_has_ssn := c_has_ssn r; c_ssn := c_ssn r; c_sent_at := c_sent_at r;
     c_sent_count := c_sent_count r; c_transport := c_transport r |}.
Definition set_c_tsn (v : Z) (r : sctp_chunk) : sctp_chunk :=
  {| c_addr := c_addr r; c_type := c_type r; c_length := c_length r;
     c_skb_len := c_skb_len r; c_auth := c_auth r; c_has_asoc := c_has_asoc r;
     c_fast_retransmit := c_fast_retransmit r; c_msg := c_msg r; c_resent := c_resent r;
     c_rtt_in_progress := c_rtt_in_progress r; c_has_tsn := c_has_tsn r; c_tsn := v;
     c_has_ssn := c_has_ssn r; c_ssn := c_ssn r; c_sent_at := c_sent_at r;
     c_sent_count := c_sent_count r; c_transport := c_transport r |}.
Definition set_c_has_ssn (v : bool) (r : sctp_chunk) : sctp_chunk :=
  {| c_addr := c_addr r; c_type := c_type r; c_length := c_length r;
     c_skb_len := c_skb_len r; c_auth := c_auth r; c_has_asoc := c_has_asoc r;
     c_fast_retransmit := c_fast_retransmit r; c_msg := c_msg r; c_resent := c_resent r;
     c_rtt_in_progress := c_rtt_in_progress r; c_has_tsn := c_has_tsn r; c_tsn := c_tsn r;
     c_has_ssn := v; c_ssn := c_ssn r; c_sent_at := c_sent_at r;
     c_sent_count := c_sent_count r; c_transport := c_transport r |}.
Definition set_c_ssn (v : Z) (r : sctp_chunk) : sctp_chunk :=
  {| c_addr := c_addr r; c_type := c_type r; c_length := c_length r;
     c_skb_len := c_skb_len r; c_auth := c_auth r; c_has_asoc := c_has_asoc r;
     c_fast_retransmit := c_fast_retransmit r; c_msg := c_msg r; c_resent := c_resent r;
     c_rtt_in_progress := c_rtt_in_progress r; c_has_tsn := c_has_tsn r; c_tsn := c_tsn r;
     c_has_ssn := c_has_ssn r; c_ssn := v; c_sent_at := c_sent_at r;
     c_sent_count := c_sent_count r; c_transport := c_transport r |}.
Definition set_c_sent_at (v : Z) (r : sctp_chunk) : sctp_chunk :=
  {| c_addr := c_addr r; c_type := c_type r; c_length := c_length r;
     c_skb_len := c_skb_len r; c_auth := c_auth r; c_has_asoc := c_has_asoc r;
     c_fast_retransmit := c_fast_retransmit r; c_msg := c_msg r; c_resent := c_resent r;
     c_rtt_in_progress := c_rtt_in_progress r; c_has_tsn := c_has_tsn r; c_tsn := c_tsn r;
     c_has_ssn := c_has_ssn r; c_ssn := c_ssn r; c_sent_at := v;
     c_sent_count := c_sent_count r; c_transport := c_transport r |}.
Definition set_c_sent_count (v : Z) (r : sctp_chunk) : sctp_chunk :=
  {| c_addr := c_addr r; c_type := c_type r; c_length := c_length r;
     c_skb_len := c_skb_len r; c_auth := c_auth r; c_has_asoc := c_has_asoc r;
     c_fast_retransmit := c_fast_retransmit r; c_msg := c_msg r; c_resent := c_resent r;
     c_rtt_in_progress := c_rtt_in_progress r; c_has_tsn := c_has_tsn r; c_tsn := c_tsn r;
     c_has_ssn := c_has_ssn r; c_ssn := c_ssn r; c_sent_at := c_sent_at r;
     c_sent_count := v; c_transport := c_transport r |}.
Definition set_c_transport (v : option nat) (r : sctp_chunk) : sctp_chunk :=
  {| c_addr := c_addr r; c_type := c_type r; c_length := c_length r;
     c_skb_len := c_skb_len r; c_auth := c_auth r; c_has_asoc := c_has_asoc r;
     c_fast_retransmit := c_fast_retransmit r; c_msg := c_msg r; c_resent := c_resent r;
     c_rtt_in_progress := c_rtt_in_progress r; c_has_tsn := c_has_tsn r; c_tsn := c_tsn r;
     c_has_ssn := c_has_ssn r; c_ssn := c_ssn r; c_sent_at := c_sent_at r;
     c_sent_count := c_sent_count r; c_transport := v |}.

(** The route cache entry of a transport: its address, and what the
    emitter reads of its device. *)
Record dst_entry : Type := Build_dst {
  dst_addr : nat;
  dev_sctp_crc : bool;
  dst_xfrm : bool;
  dev_gso : bool;
  dev_gso_max_segs : Z;
  dev_gso_max_size : Z
}.


(** What one allocated buffer holds: the size asked of alloc_skb, the
    chunks copied in (as they were when copied, in order), the bytes put,
    and the offset of the AUTH chunk whose MAC was patched. *)
Record packet_buf : Type := Build_buf {
  buf_alloc : Z;
  buf_chunks : list sctp_chunk;
  buf_len : Z;
  buf_hmac_at : option Z
}.

Definition set_buf_chunks (v : list sctp_chunk) (r : packet_buf) : packet_buf :=
  {| buf_alloc := buf_alloc r; buf_chunks := v; buf_len := buf_len r;
     buf_hmac_at := buf_hmac_at r |}.
Definition set_buf_len (v : Z) (r : packet_buf) : packet_buf :=
  {| buf_alloc := buf_alloc r; buf_chunks := buf_chunks r; buf_len := v;
     buf_hmac_at := buf_hmac_at r |}.
Definition set_buf_hmac_at (v : option Z) (r : packet_buf) : packet_buf :=
  {| buf_alloc := buf_alloc r; buf_chunks := buf_chunks r; buf_len := buf_len r;
     buf_hmac_at := v |}.

Inductive csum_t : Type :=
| CHECKSUM_NONE
| CHECKSUM_COMPUTED
| CHECKSUM_PARTIAL.

(** The head buffer handed to the IP layer: its own data area, the
    sub-buffers spliced in by skb_gro_receive, the SCTP common header and
    the offload marks. *)
Record sk_buff : Type := Build_skb {
  skb_head : packet_buf;
  skb_frags : list packet_buf;
  skb_source : Z;
  skb_dest : Z;
  skb_vtag : Z;
  skb_csum : csum_t;
  skb_gso : bool;
  skb_gso_segs : Z;
  skb_ignore_df : bool
}.

Definition set_skb_head (v : packet_buf) (r : sk_buff) : sk_buff :=
  {| skb_head := v; skb_frags := skb_frags r; skb_source := skb_source r;
     skb_dest := skb_dest r; skb_vtag := skb_vtag r; skb_csum := skb_csum r;
     skb_gso := skb_gso r; skb_gso_segs := skb_gso_segs r;
     skb_ignore_df := skb_ignore_df r |}.
Definition set_skb_frags (v : list packet_buf) (r : sk_buff) : sk_buff :=
  {| skb_head := skb_head r; skb_frags := v; skb_source := skb_source r;
     skb_dest := skb_dest r; skb_vtag := skb_vtag r; skb_csum := skb_csum r;
     skb_gso := skb_gso r; skb_gso_segs := skb_gso_segs r;
     skb_ignore_df := skb_ignore_df r |}.
Definition set_skb_source (v : Z) (r : sk_buff) : sk_buff :=
  {| skb_head := skb_head r; skb_frags := skb_frags r; skb_source := v;
     skb_dest := skb_dest r; skb_vtag := skb_vtag r; skb_csum := skb_csum r;
     skb_gso := skb_gso r; skb_gso_segs := skb_gso_segs r;
     skb_ignore_df := skb_ignore_df r |}.
Definition set_skb_dest (v : Z) (r : sk_buff) : sk_buff :=
  {| skb_head := skb_head r; skb_frags := skb_frags r; skb_source := skb_source r;
     skb_dest := v; skb_vtag := skb_vtag r; skb_csum := skb_csum r; skb_gso := skb_gso r;
     skb_gso_segs := skb_gso_segs r; skb_ignore_df := skb_ignore_df r |}.
Definition set_skb_vtag (v : Z) (r : sk_buff) : sk_buff :=
  {| skb_head := skb_head r; skb_frags := skb_frags r; skb_source := skb_source r;
     skb_dest := skb_dest r; skb_vtag := v; skb_csum := skb_csum r; skb_gso := skb_gso r;
     skb_gso_segs := skb_gso_segs r; skb_ignore_df := skb_ignore_df r |}.
Definition set_skb_csum (v : csum_t) (r : sk_buff) : sk_buff :=
  {| skb_head := skb_head r; skb_frags := skb_frags r; skb_source := skb_source r;
     skb_dest := skb_dest r; skb_vtag := skb_vtag r; skb_csum := v; skb_gso := skb_gso r;
     skb_gso_segs := skb_gso_segs r; skb_ignore_df := skb_ignore_df r |}.
Definition set_skb_gso (v : bool) (r : sk_buff) : sk_buff :=
  {| skb_head := skb_head r; skb_frags := skb_frags r; skb_source := skb_source r;
     skb_dest := skb_dest r; skb_vtag := skb_vtag r; skb_csum := skb_csum r; skb_gso := v;
     skb_gso_segs := skb_gso_segs r; skb_ignore_df := skb_ignore_df r |}.
Definition set_skb_gso_segs (v : Z) (r : sk_buff) : sk_buff :=
  {| skb_head := skb_head r; skb_frags := skb_frags r; skb_source := skb_source r;
     skb_dest := skb_dest r; skb_vtag := skb_vtag r; skb_csum := skb_csum r;
     skb_gso := skb_gso r; skb_gso_segs := v; skb_ignore_df := skb_ignore_df r |}.
Definition set_skb_ignore_df (v : bool) (r : sk_buff) : sk_buff :=
  {| skb_head := skb_head r; skb_frags := skb_frags r; skb_source := skb_source r;
     skb_dest := skb_dest r; skb_vtag := skb_vtag r; skb_csum := skb_csum r;
     skb_gso := skb_gso r; skb_gso_segs := skb_gso_segs r; skb_ignore_df := v |}.

(** An association: the fields output.c reads or writes, the out-queue
    counters and the two timers it touches included. *)
Record sctp_association : Type := Build_association {
  a_net_header_len : Z;
  a_pathmtu : Z;
  a_state : sctp_state_t;
  a_pmtud_enable : bool;
  a_prsctp_capable : bool;
  a_peer_rwnd : Z;
  a_rwnd : Z;
  a_a_rwnd : Z;
  a_outstanding_bytes : Z;
  a_out_qlen : Z;
  a_peer_sack_generation : Z;
  a_peer_sack_needed : bool;
  a_sack_timer_pending : bool;
  a_autoclose_timeout : Z;
  a_autoclose_timer : option Z;
  a_refcnt : Z;
  a_osacks : Z;
  a_opackets : Z;
  a_outnoroutes : Z;
  a_last_sent_to : option nat
}.

Definition set_a_peer_rwnd (v : Z) (r : sctp_association) : sctp_association :=
  {| a_net_header_len := a_net_header_len r; a_pathmtu := a_pathmtu r;
     a_state := a_state r; a_pmtud_enable := a_pmtud_enable r;
     a_prsctp_capable := a_prsctp_capable r; a_peer_rwnd := v; a_rwnd := a_rwnd r;
     a_a_rwnd := a_a_rwnd r; a_outstanding_bytes := a_outstanding_bytes r;
     a_out_qlen := a_out_qlen r; a_peer_sack_generation := a_peer_sack_generation r;
     a_peer_sack_needed := a_peer_sack_needed r;
     a_sack_timer_pending := a_sack_timer_pending r;
     a_autoclose_timeout := a_autoclose_timeout r;
     a_autoclose_timer := a_autoclose_timer r; a_refcnt := a_refcnt r;
     a_osacks := a_osacks r; a_opackets := a_opackets r; a_outnoroutes := a_outnoroutes r;
     a_last_sent_to := a_last_sent_to r |}.
Definition set_a_a_rwnd (v : Z) (r : sctp_association) : sctp_association :=
  {| a_net_header_len := a_net_header_len r; a_pathmtu := a_pathmtu r;
     a_state := a_state r; a_pmtud_enable := a_pmtud_enable r;
     a_prsctp_capable := a_prsctp_capable r; a_peer_rwnd := a_peer_rwnd r;
     a_rwnd := a_rwnd r; a_a_rwnd := v; a_outstanding_bytes := a_outstanding_bytes r;
     a_out_qlen := a_out_qlen r; a_peer_sack_generation := a_peer_sack_generation r;
     a_peer_sack_needed := a_peer_sack_needed r;
     a_sack_timer_pending := a_sack_timer_pending r;
     a_autoclose_timeout := a_autoclose_timeout r;
     a_autoclose_timer := a_autoclose_timer r; a_refcnt := a_refcnt r;
     a_osacks := a_osacks r; a_opackets := a_opackets r; a_outnoroutes := a_outnoroutes r;
     a_last_sent_to := a_last_sent_to r |}.
Definition set_a_outstanding_bytes (v : Z) (r : sctp_association) : sctp_association :=
  {| a_net_header_len := a_net_header_len r; a_pathmtu := a_pathmtu r;
     a_state := a_state r; a_pmtud_enable := a_pmtud_enable r;
     a_prsctp_capable := a_prsctp_capable r; a_peer_rwnd := a_peer_rwnd r;
     a_rwnd := a_rwnd r; a_a_rwnd := a_a_rwnd r; a_outstanding_bytes := v;
     a_out_qlen := a_out_qlen r; a_peer_sack_generation := a_peer_sack_generation r;
     a_peer_sack_needed := a_peer_sack_needed r;
     a_sack_timer_pending := a_sack_timer_pending r;
     a_autoclose_timeout := a_autoclose_timeout r;
     a_autoclose_timer := a_autoclose_timer r; a_refcnt := a_refcnt r;
     a_osacks := a_osacks r; a_opackets := a_opackets r; a_outnoroutes := a_outnoroutes r;
     a_last_sent_to := a_last_sent_to r |}.
Definition set_a_peer_sack_needed (v : bool) (r : sctp_association) : sctp_association :=
  {| a_net_header_len := a_net_header_len r; a_pathmtu := a_pathmtu r;
     a_state := a_state r; a_pmtud_enable := a_pmtud_enable r;
     a_prsctp_capable := a_prsctp_capable r; a_peer_rwnd := a_peer_rwnd r;
     a_rwnd := a_rwnd r; a_a_rwnd := a_a_rwnd r;
     a_outstanding_bytes := a_outstanding_bytes r; a_out_qlen := a_out_qlen r;
     a_peer_sack_generation := a_peer_sack_generation r; a_peer_sack_needed := v;
     a_sack_timer_pending := a_sack_timer_pending r;
     a_autoclose_timeout := a_autoclose_timeout r;
     a_autoclose_timer := a_autoclose_timer r; a_refcnt := a_refcnt r;
     a_osacks := a_osacks r; a_opackets := a_opackets r; a_outnoroutes := a_outnoroutes r;
     a_last_sent_to := a_last_sent_to r |}.
Definition set_a_sack_timer_pending (v : bool) (r : sctp_association) : sctp_association :=
  {| a_net_header_len := a_net_header_len r; a_pathmtu := a_pathmtu r;
     a_state := a_state r; a_pmtud_enable := a_pmtud_enable r;
     a_prsctp_capable := a_prsctp_capable r; a_peer_rwnd := a_peer_rwnd r;
     a_rwnd := a_rwnd r; a_a_rwnd := a_a_rwnd r;
     a_outstanding_bytes := a_outstanding_bytes r; a_out_qlen := a_out_qlen r;
     a_peer_sack_generation := a_peer_sack_generation r;
     a_peer_sack_needed := a_peer_sack_needed r; a_sack_timer_pending := v;
     a_autoclose_timeout := a_autoclose_timeout r;
     a_autoclose_timer := a_autoclose_timer r; a_refcnt := a_refcnt r;
     a_osacks := a_osacks r; a_opackets := a_opackets r; a_outnoroutes := a_outnoroutes r;
     a_last_sent_to := a_last_sent_to r |}.
Definition set_a_autoclose_timer (v : option Z) (r : sctp_association) : sctp_association :=
  {| a_net_header_len := a_net_header_len r; a_pathmtu := a_pathmtu r;
     a_state := a_state r; a_pmtud_enable := a_pmtud_enable r;
     a_prsctp_capable := a_prsctp_capable r; a_peer_rwnd := a_peer_rwnd r;
     a_rwnd := a_rwnd r; a_a_rwnd := a_a_rwnd r;
     a_outstanding_bytes := a_outstanding_bytes r; a_out_qlen := a_out_qlen r;
     a_peer_sack_generation := a_peer_sack_generation r;
     a_peer_sack_needed := a_peer_sack_needed r;
     a_sack_timer_pending := a_sack_timer_pending r;
     a_autoclose_timeout := a_autoclose_timeout r; a_autoclose_timer := v;
     a_refcnt := a_refcnt r; a_osacks := a_osacks r; a_opackets := a_opackets r;
     a_outnoroutes := a_outnoroutes r; a_last_sent_to := a_last_sent_to r |}.
Definition set_a_refcnt (v : Z) (r : sctp_association) : sctp_association :=
  {| a_net_header_len := a_net_header_len r; a_pathmtu := a_pathmtu r;
     a_state := a_state r; a_pmtud_enable := a_pmtud_enable r;
     a_prsctp_capable := a_prsctp_capable r; a_peer_rwnd := a_peer_rwnd r;
     a_rwnd := a_rwnd r; a_a_rwnd := a_a_rwnd r;
     a_outstanding_bytes := a_outstanding_bytes r; a_out_qlen := a_out_qlen r;
     a_peer_sack_generation := a_peer_sack_generation r;
     a_peer_sack_needed := a_peer_sack_needed r;
     a_sack_timer_pending := a_sack_timer_pending r;
     a_autoclose_timeout := a_autoclose_timeout r;
     a_autoclose_timer := a_autoclose_timer r; a_refcnt := v; a_osacks := a_osacks r;
     a_opackets := a_opackets r; a_outnoroutes := a_outnoroutes r;
     a_last_sent_to := a_last_sent_to r |}.
Definition set_a_osacks (v : Z) (r : sctp_association) : sctp_association :=
  {| a_net_header_len := a_net_header_len r; a_pathmtu := a_pathmtu r;
     a_state := a_state r; a_pmtud_enable := a_pmtud_enable r;
     a_prsctp_capable := a_prsctp_capable r; a_peer_rwnd := a_peer_rwnd r;
     a_rwnd := a_rwnd r; a_a_rwnd := a_a_rwnd r;
     a_outstanding_bytes := a_outstanding_bytes r; a_out_qlen := a_out_qlen r;
     a_peer_sack_generation := a_peer_sack_generation r;
     a_peer_sack_needed := a_peer_sack_needed r;
     a_sack_timer_pending := a_sack_timer_pending r;
     a_autoclose_timeout := a_autoclose_timeout r;
     a_autoclose_timer := a_autoclose_timer r; a_refcnt := a_refcnt r; a_osacks := v;
     a_opackets := a_opackets r; a_outnoroutes := a_outnoroutes r;
     a_last_sent_to := a_last_sent_to r |}.
Definition set_a_opackets (v : Z) (r : sctp_association) : sctp_association :=
  {| a_net_header_len := a_net_header_len r; a_pathmtu := a_pathmtu r;
     a_state := a_state r; a_pmtud_enable := a_pmtud_enable r;
     a_prsctp_capable := a_prsctp_capable r; a_peer_rwnd := a_peer_rwnd r;
     a_rwnd := a_rwnd r; a_a_rwnd := a_a_rwnd r;
     a_outstanding_bytes := a_outstanding_bytes r; a_out_qlen := a_out_qlen r;
     a_peer_sack_generation := a_peer_sack_generation r;
     a_peer_sack_needed := a_peer_sack_needed r;
     a_sack_timer_pending := a_sack_timer_pending r;
     a_autoclose_timeout := a_autoclose_timeout r;
     a_autoclose_timer := a_autoclose_timer r; a_refcnt := a_refcnt r;
     a_osacks := a_osacks r; a_opackets := v; a_outnoroutes := a_outnoroutes r;
     a_last_sent_to := a_last_sent_to r |}.
Definition set_a_outnoroutes (v : Z) (r : sctp_association) : sctp_association :=
  {| a_net_header_len := a_net_header_len r; a_pathmtu := a_pathmtu r;
     a_state := a_state r; a_pmtud_enable := a_pmtud_enable r;
     a_prsctp_capable := a_prsctp_capable r; a_peer_rwnd := a_peer_rwnd r;
     a_rwnd := a_rwnd r; a_a_rwnd := a_a_rwnd r;
     a_outstanding_bytes := a_outstanding_bytes r; a_out_qlen := a_out_qlen r;
     a_peer_sack_generation := a_peer_sack_generation r;
     a_peer_sack_needed := a_peer_sack_needed r;
     a_sack_timer_pending := a_sack_timer_pending r;
     a_autoclose_timeout := a_autoclose_timeout r;
     a_autoclose_timer := a_autoclose_timer r; a_refcnt := a_refcnt r;
     a_osacks := a_osacks r; a_opackets := a_opackets r; a_outnoroutes := v;
     a_last_sent_to := a_last_sent_to r |}.
Definition set_a_last_sent_to (v : option nat) (r : sctp_association) : sctp_association :=
  {| a_net_header_len := a_net_header_len r; a_pathmtu := a_pathmtu r;
     a_state := a_state r; a_pmtud_enable := a_pmtud_enable r;
     a_prsctp_capable := a_prsctp_capable r; a_peer_rwnd := a_peer_rwnd r;
     a_rwnd := a_rwnd r; a_a_rwnd := a_a_rwnd r;
     a_outstanding_bytes := a_outstanding_bytes r; a_out_qlen := a_out_qlen r;
     a_peer_sack_generation := a_peer_sack_generation r;
     a_peer_sack_needed := a_peer_sack_needed r;
     a_sack_timer_pending := a_sack_timer_pending r;
     a_autoclose_timeout := a_autoclose_timeout r;
     a_autoclose_timer := a_autoclose_timer r; a_refcnt := a_refcnt r;
     a_osacks := a_osacks r; a_opackets := a_opackets r; a_outnoroutes := a_outnoroutes r;
     a_last_sent_to := v |}.

(** A peer transport address. *)
Record sctp_transport : Type := Build_transport {
  tp_addr : nat;
  tp_asoc : option sctp_association;
  tp_dst : option dst_entry;
  tp_pathmtu : Z;
  tp_cwnd : Z;
  tp_burst_limited : Z;
  tp_flight_size : Z;
  tp_rto_pending : bool;
  tp_sack_generation : Z
}.

Definition set_tp_asoc (v : option sctp_association) (r : sctp_transport) : sctp_transport :=
  {| tp_addr := tp_addr r; tp_asoc := v; tp_dst := tp_dst r; tp_pathmtu := tp_pathmtu r;
     tp_cwnd := tp_cwnd r; tp_burst_limited := tp_burst_limited r;
     tp_flight_size := tp_flight_size r; tp_rto_pending := tp_rto_pending r;
     tp_sack_generation := tp_sack_generation r |}.
Definition set_tp_flight_size (v : Z) (r : sctp_transport) : sctp_transport :=
  {| tp_addr := tp_addr r; tp_asoc := tp_asoc r; tp_dst := tp_dst r;
     tp_pathmtu := tp_pathmtu r; tp_cwnd := tp_cwnd r;
     tp_burst_limited := tp_burst_limited r; tp_flight_size := v;
     tp_rto_pending := tp_rto_pending r; tp_sack_generation := tp_sack_generation r |}.
Definition set_tp_rto_pending (v : bool) (r : sctp_transport) : sctp_transport :=
  {| tp_addr := tp_addr r; tp_asoc := tp_asoc r; tp_dst := tp_dst r;
     tp_pathmtu := tp_pathmtu r; tp_cwnd := tp_cwnd r;
     tp_burst_limited := tp_burst_limited r; tp_flight_size := tp_flight_size r;
     tp_rto_pending := v; tp_sack_generation := tp_sack_generation r |}.

(** The packet under construction. *)
Record sctp_packet : Type := Build_packet {
  source_port : Z;
  destination_port : Z;
  vtag : Z;
  chunk_list : list sctp_chunk;
  overhead : Z;
  size : Z;
  max_size : Z;
  transport : sctp_transport;
  auth : option sctp_chunk;
  has_cookie_echo : bool;
  has_sack : bool;
  has_auth : bool;
  has_data : bool;
  ipfragok : bool
}.

Definition set_vtag (v : Z) (r : sctp_packet) : sctp_packet :=
  {| source_port := source_port r; destination_port := destination_port r; vtag := v;
     chunk_list := chunk_list r; overhead := overhead r; size := size r;
     max_size := max_size r; transport := transport r; auth := auth r;
     has_cookie_echo := has_cookie_echo r; has_sack := has_sack r; has_auth := has_auth r;
     has_data := has_data r; ipfragok := ipfragok r |}.
Definition set_chunk_list (v : list sctp_chunk) (r : sctp_packet) : sctp_packet :=
  {| source_port := source_port r; destination_port := destination_port r; vtag := vtag r;
     chunk_list := v; overhead := overhead r; size := size r; max_size := max_size r;
     transport := transport r; auth := auth r; has_cookie_echo := has_cookie_echo r;
     has_sack := has_sack r; has_auth := has_auth r; has_data := has_data r;
     ipfragok := ipfragok r |}.
Definition set_size (v : Z) (r : sctp_packet) : sctp_packet :=
  {| source_port := source_port r; destination_port := destination_port r; vtag := vtag r;
     chunk_list := chunk_list r; overhead := overhead r; size := v;
     max_size := max_size r; transport := transport r; auth := auth r;
     has_cookie_echo := has_cookie_echo r; has_sack := has_sack r; has_auth := has_auth r;
     has_data := has_data r; ipfragok := ipfragok r |}.
Definition set_max_size (v : Z) (r : sctp_packet) : sctp_packet :=
  {| source_port := source_port r; destination_port := destination_port r; vtag := vtag r;
     chunk_list := chunk_list r; overhead := overhead r; size := size r; max_size := v;
     transport := transport r; auth := auth r; has_cookie_echo := has_cookie_echo r;
     has_sack := has_sack r; has_auth := has_auth r; has_data := has_data r;
     ipfragok := ipfragok r |}.
Definition set_transport (v : sctp_transport) (r : sctp_packet) : sctp_packet :=
  {| source_port := source_port r; destination_port := destination_port r; vtag := vtag r;
     chunk_list := chunk_list r; overhead := overhead r; size := size r;
     max_size := max_size r; transport := v; auth := auth r;
     has_cookie_echo := has_cookie_echo r; has_sack := has_sack r; has_auth := has_auth r;
     has_data := has_data r; ipfragok := ipfragok r |}.
Definition set_auth (v : option sctp_chunk) (r : sctp_packet) : sctp_packet :=
  {| source_port := source_port r; destination_port := destination_port r; vtag := vtag r;
     chunk_list := chunk_list r; overhead := overhead r; size := size r;
     max_size := max_size r; transport := transport r; auth := v;
     has_cookie_echo := has_cookie_echo r; has_sack := has_sack r; has_auth := has_auth r;
     has_data := has_data r; ipfragok := ipfragok r |}.
Definition set_has_cookie_echo (v : bool) (r : sctp_packet) : sctp_packet :=
  {| source_port := source_port r; destination_port := destination_port r; vtag := vtag r;
     chunk_list := chunk_list r; overhead := overhead r; size := size r;
     max_size := max_size r; transport := transport r; auth := auth r;
     has_cookie_echo := v; has_sack := has_sack r; has_auth := has_auth r;
     has_data := has_data r; ipfragok := ipfragok r |}.
Definition set_has_sack (v : bool) (r : sctp_packet) : sctp_packet :=
  {| source_port := source_port r; destination_port := destination_port r; vtag := vtag r;
     chunk_list := chunk_list r; overhead := overhead r; size := size r;
     max_size := max_size r; transport := transport r; auth := auth r;
     has_cookie_echo := has_cookie_echo r; has_sack := v; has_auth := has_auth r;
     has_data := has_data r; ipfragok := ipfragok r |}.
Definition set_has_auth (v : bool) (r : sctp_packet) : sctp_packet :=
  {| source_port := source_port r; destination_port := destination_port r; vtag := vtag r;
     chunk_list := chunk_list r; overhead := overhead r; size := size r;
     max_size := max_size r; transport := transport r; auth := auth r;
     has_cookie_echo := has_cookie_echo r; has_sack := has_sack r; has_auth := v;
     has_data := has_data r; ipfragok := ipfragok r |}.
Definition set_has_data (v : bool) (r : sctp_packet) : sctp_packet :=
  {| source_port := source_port r; destination_port := destination_port r; vtag := vtag r;
     chunk_list := chunk_list r; overhead := overhead r; size := size r;
     max_size := max_size r; transport := transport r; auth := auth r;
     has_cookie_echo := has_cookie_echo r; has_sack := has_sack r; has_auth := has_auth r;
     has_data := v; ipfragok := ipfragok r |}.
Definition set_ipfragok (v : bool) (r : sctp_packet) : sctp_packet :=
  {| source_port := source_port r; destination_port := destination_port r; vtag := vtag r;
     chunk_list := chunk_list r; overhead := overhead r; size := size r;
     max_size := max_size r; transport := transport r; auth := auth r;
     has_cookie_echo := has_cookie_echo r; has_sack := has_sack r; has_auth := has_auth r;
     has_data := has_data r; ipfragok := v |}.

(** The socket that owns the chunks' buffers. *)
Record sock : Type := Build_sock {
  sk_err : Z;
  sk_nodelay : bool;
  sk_dst_cache : option nat;
  sk_gso : bool;
  sk_gso_max_segs : Z;
  sk_wmem_alloc : Z;
  sk_ecn : bool
}.

Definition set_sk_err (v : Z) (r : sock) : sock :=
  {| sk_err := v; sk_nodelay := sk_nodelay r; sk_dst_cache := sk_dst_cache r;
     sk_gso := sk_gso r; sk_gso_max_segs := sk_gso_max_segs r;
     sk_wmem_alloc := sk_wmem_alloc r; sk_ecn := sk_ecn r |}.
Definition set_sk_dst_cache (v : option nat) (r : sock) : sock :=
  {| sk_err := sk_err r; sk_nodelay := sk_nodelay r; sk_dst_cache := v;
     sk_gso := sk_gso r; sk_gso_max_segs := sk_gso_max_segs r;
     sk_wmem_alloc := sk_wmem_alloc r; sk_ecn := sk_ecn r |}.
Definition set_sk_gso (v : bool) (r : sock) : sock :=
  {| sk_err := sk_err r; sk_nodelay := sk_nodelay r; sk_dst_cache := sk_dst_cache r;
     sk_gso := v; sk_gso_max_segs := sk_gso_max_segs r; sk_wmem_alloc := sk_wmem_alloc r;
     sk_ecn := sk_ecn r |}.
Definition set_sk_gso_max_segs (v : Z) (r : sock) : sock :=
  {| sk_err := sk_err r; sk_nodelay := sk_nodelay r; sk_dst_cache := sk_dst_cache r;
     sk_gso := sk_gso r; sk_gso_max_segs := v; sk_wmem_alloc := sk_wmem_alloc r;
     sk_ecn := sk_ecn r |}.
Definition set_sk_wmem_alloc (v : Z) (r : sock) : sock :=
  {| sk_err := sk_err r; sk_nodelay := sk_nodelay r; sk_dst_cache := sk_dst_cache r;
     sk_gso := sk_gso r; sk_gso_max_segs := sk_gso_max_segs r; sk_wmem_alloc := v;
     sk_ecn := sk_ecn r |}.
Definition set_sk_ecn (v : bool) (r : sock) : sock :=
  {| sk_err := sk_err r; sk_nodelay := sk_nodelay r; sk_dst_cache := sk_dst_cache r;
     sk_gso := sk_gso r; sk_gso_max_segs := sk_gso_max_segs r;
     sk_wmem_alloc := sk_wmem_alloc r; sk_ecn := v |}.

(** Everything one call can read or change. *)
Record world : Type := Build_world {
  pkt : sctp_packet;
  sk : sock;
  jiffies : Z;
  alloc_skb_ok : list bool;
  gro_receive_ok : list bool;
  freed : list nat;
  xmit : list sk_buff
}.

Definition set_pkt (v : sctp_packet) (r : world) : world :=
  {| pkt := v; sk := sk r; jiffies := jiffies r; alloc_skb_ok := alloc_skb_ok r;
     gro_receive_ok := gro_receive_ok r; freed := freed r; xmit := xmit r |}.
Definition set_sk (v : sock) (r : world) : world :=
  {| pkt := pkt r; sk := v; jiffies := jiffies r; alloc_skb_ok := alloc_skb_ok r;
     gro_receive_ok := gro_receive_ok r; freed := freed r; xmit := xmit r |}.
Definition set_alloc_skb_ok (v : list bool) (r : world) : world :=
  {| pkt := pkt r; sk := sk r; jiffies := jiffies r; alloc_skb_ok := v;
     gro_receive_ok := gro_receive_ok r; freed := freed r; xmit := xmit r |}.
Definition set_gro_receive_ok (v : list bool) (r : world) : world :=
  {| pkt := pkt r; sk := sk r; jiffies := jiffies r; alloc_skb_ok := alloc_skb_ok r;
     gro_receive_ok := v; freed := freed r; xmit := xmit r |}.
Definition set_freed (v : list nat) (r : world) : world :=
  {| pkt := pkt r; sk := sk r; jiffies := jiffies r; alloc_skb_ok := alloc_skb_ok r;
     gro_receive_ok := gro_receive_ok r; freed := v; xmit := xmit r |}.
Definition set_xmit (v : list sk_buff) (r : world) : world :=
  {| pkt := pkt r; sk := sk r; jiffies := jiffies r; alloc_skb_ok := alloc_skb_ok r;
     gro_receive_ok := gro_receive_ok r; freed := freed r; xmit := v |}.

(** The local variables of the emitter that live across its loops. *)
Record locals : Type := Build_locals {
  l_head : sk_buff;
  l_nskb : packet_buf;
  l_pkt_size : Z;
  l_has_data : bool;
  l_pktcount : Z;
  l_auth_len : Z;
  l_auth : option Z
}.

Definition set_l_head (v : sk_buff) (r : locals) : locals :=
  {| l_head := v; l_nskb := l_nskb r; l_pkt_size := l_pkt_size r;
     l_has_data := l_has_data r; l_pktcount := l_pktcount r; l_auth_len := l_auth_len r;
     l_auth := l_auth r |}.
Definition set_l_nskb (v : packet_buf) (r : locals) : locals :=
  {| l_head := l_head r; l_nskb := v; l_pkt_size := l_pkt_size r;
     l_has_data := l_has_data r; l_pktcount := l_pktcount r; l_auth_len := l_auth_len r;
     l_auth := l_auth r |}.
Definition set_l_pkt_size (v : Z) (r : locals) : locals :=
  {| l_head := l_head r; l_nskb := l_nskb r; l_pkt_size := v; l_has_data := l_has_data r;
     l_pktcount := l_pktcount r; l_auth_len := l_auth_len r; l_auth := l_auth r |}.
Definition set_l_has_data (v : bool) (r : locals) : locals :=
  {| l_head := l_head r; l_nskb := l_nskb r; l_pkt_size := l_pkt_size r; l_has_data := v;
     l_pktcount := l_pktcount r; l_auth_len := l_auth_len r; l_auth := l_auth r |}.
Definition set_l_pktcount (v : Z) (r : locals) : locals :=
  {| l_head := l_head r; l_nskb := l_nskb r; l_pkt_size := l_pkt_size r;
     l_has_data := l_has_data r; l_pktcount := v; l_auth_len := l_auth_len r;
     l_auth := l_auth r |}.
Definition set_l_auth_len (v : Z) (r : locals) : locals :=
  {| l_head := l_head r; l_nskb := l_nskb r; l_pkt_size := l_pkt_size r;
     l_has_data := l_has_data r; l_pktcount := l_pktcount r; l_auth_len := v;
     l_auth := l_auth r |}.
Definition set_l_auth (v : option Z) (r : locals) : locals :=
  {| l_head := l_head r; l_nskb := l_nskb r; l_pkt_size := l_pkt_size r;
     l_has_data := l_has_data r; l_pktcount := l_pktcount r; l_auth_len := l_auth_len r;
     l_auth := v |}.

(** ** Collaborators

    Routines and constants of the kernel that output.c calls and that are
    not under src/: they are taken as parameters. *)
Class Collaborators : Type := {
  (* payload bytes of a DATA chunk *)
  sctp_data_size : sctp_chunk -> Z;
  (* the chunk factories; [None] is an allocation failure *)
  sctp_make_auth : sctp_association -> option sctp_chunk;
  sctp_make_sack : sctp_association -> option sctp_chunk;
  (* the sequence-number allocators *)
  sctp_association_get_next_tsn : sctp_association -> sctp_chunk -> Z;
  sctp_ssn_next : sctp_association -> sctp_chunk -> Z;
  (* route cache upkeep *)
  sctp_transport_dst_check : sctp_transport -> bool;
  sctp_transport_route : sctp_transport -> sock -> sctp_transport;
  sctp_assoc_sync_pmtu : sock -> sctp_association -> sctp_association;
  (* room kept in front of every buffer for lower-layer headers: a
     constant of the build (LL_MAX_HEADER, plus 48 with tunnels), of which
     only that it is a small non-negative int is used *)
  MAX_HEADER : Z;
  MAX_HEADER_range : 0 <= MAX_HEADER < 2 ^ 16;
  (* the bytes a buffer granted by alloc_skb for a request of n bytes can
     hold (skb->end): the allocator may round a request up, never down *)
  skb_end_offset : Z -> Z;
  skb_end_offset_ge : forall n : Z, n <= skb_end_offset n;
  (* the module parameter sctp_checksum_disable *)
  sctp_checksum_disable : bool
}.

(** ** The monad *)

Inductive fault : Type :=
| NullDeref          (* a read through a NULL pointer *)
| ListCorrupt        (* list_add of an entry that is still on a list *)
| SkbOverPanic.      (* skb_put past the end of the buffer: skb_over_panic *)

Inductive result (A : Type) : Type :=
| Done (a : A) (w : world)
| Fault (f : fault).
Arguments Done {A} a w.
Arguments Fault {A} f.

Definition M (A : Type) : Type := world -> result A.

Definition ret {A : Type} (a : A) : M A := fun w => Done a w.

Definition bind {A B : Type} (m : M A) (k : A -> M B) : M B :=
  fun w => match m w with
           | Done a w' => k a w'
           | Fault f => Fault f
           end.

Definition crash {A : Type} (f : fault) : M A := fun _ => Fault f.

Declare Scope sctp_scope.
Delimit Scope sctp_scope with sctp.
Notation "x <- m ;; k" := (bind m (fun x => k))
  (at level 61, m at next level, right associativity) : sctp_scope.
Notation "m ;;; k" := (bind m (fun _ => k))
  (at level 61, right associativity) : sctp_scope.
Local Open Scope sctp_scope.

Definition get_world : M world := fun w => Done w w.
Definition get_packet : M sctp_packet := fun w => Done (pkt w) w.
Definition put_packet (p : sctp_packet) : M unit := fun w => Done tt (set_pkt p w).
Definition get_sk : M sock := fun w => Done (sk w) w.
Definition put_sk (s : sock) : M unit := fun w => Done tt (set_sk s w).
Definition get_jiffies : M Z := fun w => Done (jiffies w) w.

(** [asoc = transport->asoc] followed by a read of one of its fields. *)
Definition deref_asoc : M sctp_association :=
  fun w => match tp_asoc (transport (pkt w)) with
           | Some asoc => Done asoc w
           | None => Fault NullDeref
           end.

(** A write to a field of the association the transport points to. *)
Definition put_asoc (asoc : sctp_association) : M unit :=
  fun w => Done tt (set_pkt (set_transport (set_tp_asoc (Some asoc) (transport (pkt w))) (pkt w)) w).

Definition sctp_chunk_free (chunk : sctp_chunk) : M unit :=
  fun w => Done tt (set_freed (c_addr chunk :: freed w) w).

(** ** Header inlines *)

(** Modelled from the spec: sctp_chunk_is_data is an inline of the SCTP
    headers, not under src/; a chunk is DATA by its type. *)
Definition sctp_chunk_is_data (chunk : sctp_chunk) : bool :=
  match c_type chunk with SCTP_CID_DATA => true | _ => false end.

(** Modelled from the spec: sctp_packet_empty is an inline of the SCTP
    headers, not under src/; [size] is the running byte count, the
    header overhead included, so the packet is empty while its size is
    its overhead. *)
Definition sctp_packet_empty (packet : sctp_packet) : bool :=
  size packet =? overhead packet.

(** Modelled from the spec: sctp_chunk_assign_tsn and sctp_chunk_assign_ssn
    belong to the chunk constructors, not under src/; they give the chunk
    the next TSN and the next SSN of its stream from the external
    allocators, once. *)
Definition sctp_chunk_assign_tsn `{Collaborators}
    (asoc : sctp_association) (chunk : sctp_chunk) : sctp_chunk :=
  if c_has_tsn chunk then chunk
  else set_c_has_tsn true (set_c_tsn (sctp_association_get_next_tsn asoc chunk) chunk).

Definition sctp_chunk_assign_ssn `{Collaborators}
    (asoc : sctp_association) (chunk : sctp_chunk) : sctp_chunk :=
  if c_has_ssn chunk then chunk
  else set_c_has_ssn true (set_c_ssn (sctp_ssn_next asoc chunk) chunk).

(** ** The packet container *)

Definition sctp_packet_reset (packet : sctp_packet) : sctp_packet :=
  set_auth None
    (set_ipfragok false
       (set_has_auth false
          (set_has_data false
             (set_has_sack false
                (set_has_cookie_echo false
                   (set_size (overhead packet) packet)))))).

(** Initialize the packet structure: [packet] is the storage being
    initialised, of which only [max_size] survives. *)
Definition sctp_packet_init (packet : sctp_packet) (tp : sctp_transport)
    (sport dport : Z) : sctp_packet :=
  let overhead0 :=
    match tp_asoc tp with
    | Some asoc => a_net_header_len asoc
    | None => sizeof_ipv6hdr
    end in
  let overhead1 := size_t (overhead0 + sizeof_sctphdr) in
  set_vtag 0
    (sctp_packet_reset
       {| source_port := sport; destination_port := dport; vtag := vtag packet;
          chunk_list := []; overhead := overhead1; size := size packet;
          max_size := max_size packet; transport := tp; auth := auth packet;
          has_cookie_echo := has_cookie_echo packet; has_sack := has_sack packet;
          has_auth := has_auth packet; has_data := has_data packet;
          ipfragok := ipfragok packet |}).

(** ** Admission predicates *)

Definition sctp_packet_will_fit (packet : sctp_packet) (chunk : sctp_chunk)
    (chunk_len : Z) : sctp_xmit_t * sctp_packet :=
  let psize := size packet in
  let pmtu :=
    match tp_asoc (transport packet) with
    | Some asoc => a_pathmtu asoc
    | None => tp_pathmtu (transport packet)
    end in
  (* Decide if we need to fragment or resubmit later. *)
  if size_t (psize + chunk_len) >? pmtu then
    if sctp_packet_empty packet || (negb (has_data packet) && c_auth chunk) then
      (SCTP_XMIT_OK, set_ipfragok true packet)
    else
      let maxsize := size_t (pmtu - overhead packet) in
      let maxsize :=
        match auth packet with
        | Some a => size_t (maxsize - u32 (SCTP_PAD4 (c_skb_len a)))
        | None => maxsize
        end in
      let retval := if chunk_len >? maxsize then SCTP_XMIT_PMTU_FULL else SCTP_XMIT_OK in
      let retval :=
        if negb (sctp_chunk_is_data chunk) && has_data packet
        then SCTP_XMIT_PMTU_FULL else retval in
      let retval :=
        if size_t (psize + chunk_len) >? max_size packet
        then SCTP_XMIT_PMTU_FULL else retval in
      let retval :=
        if (tp_burst_limited (transport packet) =? 0)
           && (size_t (psize + chunk_len) >? Z.shiftr (tp_cwnd (transport packet)) 1)
        then SCTP_XMIT_PMTU_FULL else retval in
      let retval :=
        if negb (tp_burst_limited (transport packet) =? 0)
           && (size_t (psize + chunk_len)
               >? Z.shiftr (tp_burst_limited (transport packet)) 1)
        then SCTP_XMIT_PMTU_FULL else retval in
      (retval, packet)
  else (SCTP_XMIT_OK, packet).

Section Output.
Context `{Collaborators}.

(** This private function check to see if a chunk can be added. *)
Definition sctp_packet_can_append_data (chunk : sctp_chunk) : M sctp_xmit_t :=
  packet <- get_packet ;;
  let tp := transport packet in
  asoc <- deref_asoc ;;
  let rwnd := a_peer_rwnd asoc in
  let inflight := a_outstanding_bytes asoc in
  let flight_size := tp_flight_size tp in
  let datasize := size_t (sctp_data_size chunk) in
  if (datasize >? rwnd) && (inflight >? 0) then ret SCTP_XMIT_RWND_FULL
  else if negb (need_frtx (c_fast_retransmit chunk)) && (flight_size >=? tp_cwnd tp)
  then ret SCTP_XMIT_RWND_FULL
  else
    s <- get_sk ;;
    if sk_nodelay s then ret SCTP_XMIT_OK
    else if negb (sctp_packet_empty packet) then ret SCTP_XMIT_OK
    else if inflight =? 0 then ret SCTP_XMIT_OK
    else if negb (state_established (a_state asoc)) then ret SCTP_XMIT_OK
    else if u32 (c_skb_len chunk + a_out_qlen asoc)
            >? size_t (size_t (size_t (tp_pathmtu tp - overhead packet)
                               - sizeof_sctp_data_chunk_t) - 4)
    then ret SCTP_XMIT_OK
    else if negb (can_delay (c_msg chunk)) then ret SCTP_XMIT_OK
    else ret SCTP_XMIT_DELAY.

(** This private function does management things when adding DATA chunk;
    it gives back the chunk as it leaves it. *)
Definition sctp_packet_append_data (chunk : sctp_chunk) : M sctp_chunk :=
  packet <- get_packet ;;
  let tp := transport packet in
  let datasize := size_t (sctp_data_size chunk) in
  asoc <- deref_asoc ;;
  let rwnd := u32 (a_peer_rwnd asoc) in
  (* Keep track of how many bytes are in flight over this transport. *)
  let tp := set_tp_flight_size (u32 (tp_flight_size tp + datasize)) tp in
  (* Keep track of how many bytes are in flight to the receiver. *)
  let asoc := set_a_outstanding_bytes (u32 (a_outstanding_bytes asoc + datasize)) asoc in
  (* Update our view of the receiver's rwnd. *)
  let rwnd := if datasize <? rwnd then u32 (rwnd - datasize) else 0 in
  let asoc := set_a_peer_rwnd rwnd asoc in
  (* Has been accepted for transmission. *)
  let chunk :=
    if negb (a_prsctp_capable asoc)
    then set_c_msg (set_can_abandon false (c_msg chunk)) chunk
    else chunk in
  let chunk := sctp_chunk_assign_tsn asoc chunk in
  let chunk := sctp_chunk_assign_ssn asoc chunk in
  put_packet (set_transport (set_tp_asoc (Some asoc) tp) packet) ;;;
  ret chunk.

(** Append a chunk to the offered packet reporting back any inability to
    do so. *)
Definition __sctp_packet_append_chunk (chunk : sctp_chunk) : M sctp_xmit_t :=
  let chunk_len := u16 (SCTP_PAD4 (c_length chunk)) in
  packet <- get_packet ;;
  (* Check to see if this chunk will fit into the packet *)
  let (retval, packet) := sctp_packet_will_fit packet chunk chunk_len in
  put_packet packet ;;;
  if negb (xmit_is_ok retval) then ret retval
  else
    (* We believe that this chunk is OK to add to the packet *)
    chunk <- match c_type chunk with
             | SCTP_CID_DATA =>
                 (* Account for the data being in the packet *)
                 chunk <- sctp_packet_append_data chunk ;;
                 packet <- get_packet ;;
                 put_packet (set_has_data true (set_has_auth true (set_has_sack true packet))) ;;;
                 now <- get_jiffies ;;
                 ret (set_c_sent_count (int (c_sent_count chunk + 1))
                        (set_c_sent_at now chunk))
             | SCTP_CID_COOKIE_ECHO =>
                 packet <- get_packet ;;
                 put_packet (set_has_cookie_echo true packet) ;;;
                 ret chunk
             | SCTP_CID_SACK =>
                 packet <- get_packet ;;
                 put_packet (set_has_sack true packet) ;;;
                 match c_has_asoc chunk, tp_asoc (transport packet) with
                 | true, Some asoc => put_asoc (set_a_osacks (a_osacks asoc + 1) asoc)
                 | _, _ => ret tt
                 end ;;;
                 ret chunk
             | SCTP_CID_AUTH =>
                 packet <- get_packet ;;
                 put_packet (set_has_auth true packet) ;;;
                 ret chunk
             | _ => ret chunk
             end ;;
    (* It is OK to send this chunk.  packet->auth, set in the AUTH case,
       is the chunk itself, so it shows the write to chunk->transport. *)
    packet <- get_packet ;;
    let chunk := set_c_transport (Some (tp_addr (transport packet))) chunk in
    let packet :=
      if is_auth_cid (c_type chunk) then set_auth (Some chunk) packet else packet in
    put_packet (set_size (size_t (size packet + chunk_len))
                  (set_chunk_list (chunk_list packet ++ [chunk]) packet)) ;;;
    ret retval.

(** Try to bundle an auth chunk into the packet. *)
Definition sctp_packet_bundle_auth (chunk : sctp_chunk) : M sctp_xmit_t :=
  pkt <- get_packet ;;
  match tp_asoc (transport pkt) with
  | None => ret SCTP_XMIT_OK
  | Some asoc =>
      if is_auth_cid (c_type chunk) || has_auth pkt then ret SCTP_XMIT_OK
      else if negb (c_auth chunk) then ret SCTP_XMIT_OK
      else
        match sctp_make_auth asoc with
        | None => ret SCTP_XMIT_OK
        | Some auth =>
            retval <- __sctp_packet_append_chunk auth ;;
            (if negb (xmit_is_ok retval) then sctp_chunk_free auth else ret tt) ;;;
            ret retval
        end
  end.

(** Try to bundle a SACK with the packet. *)
Definition sctp_packet_bundle_sack (chunk : sctp_chunk) : M sctp_xmit_t :=
  pkt <- get_packet ;;
  if sctp_chunk_is_data chunk && negb (has_sack pkt) && negb (has_cookie_echo pkt)
  then
    asoc <- deref_asoc ;;
    (* If the SACK timer is running, we have a pending SACK *)
    if a_sack_timer_pending asoc then
      if negb (tp_sack_generation (transport pkt) =? a_peer_sack_generation asoc)
      then ret SCTP_XMIT_OK
      else
        let asoc := set_a_a_rwnd (a_rwnd asoc) asoc in
        put_asoc asoc ;;;
        match sctp_make_sack asoc with
        | Some sack =>
            retval <- __sctp_packet_append_chunk sack ;;
            if negb (xmit_is_ok retval) then
              sctp_chunk_free sack ;;; ret retval
            else
              asoc <- deref_asoc ;;
              let asoc := set_a_peer_sack_needed false asoc in
              (* del_timer, and the reference the timer held *)
              let asoc :=
                if a_sack_timer_pending asoc
                then set_a_refcnt (a_refcnt asoc - 1) (set_a_sack_timer_pending false asoc)
                else asoc in
              put_asoc asoc ;;;
              ret retval
        | None => ret SCTP_XMIT_OK
        end
    else ret SCTP_XMIT_OK
  else ret SCTP_XMIT_OK.

(** Append a chunk to the offered packet reporting back any inability to
    do so. *)
Definition sctp_packet_append_chunk (chunk : sctp_chunk) : M sctp_xmit_t :=
  (* Data chunks are special. *)
  retval <- (if sctp_chunk_is_data chunk
             then sctp_packet_can_append_data chunk
             else ret SCTP_XMIT_OK) ;;
  if negb (xmit_is_ok retval) then ret retval
  else
    (* Try to bundle AUTH chunk *)
    retval <- sctp_packet_bundle_auth chunk ;;
    if negb (xmit_is_ok retval) then ret retval
    else
      (* Try to bundle SACK chunk *)
      retval <- sctp_packet_bundle_sack chunk ;;
      if negb (xmit_is_ok retval) then ret retval
      else __sctp_packet_append_chunk chunk.

(** ** The emitter *)

(** [chunk == packet->auth], a comparison of addresses. *)
Definition is_packet_auth (packet : sctp_packet) (chunk : sctp_chunk) : bool :=
  match auth packet with
  | Some a => Nat.eqb (c_addr a) (c_addr chunk)
  | None => false
  end.

(** alloc_skb: the environment decides; when it has no more outcomes to
    give, the allocation fails. *)
Definition alloc_skb (len : Z) : M (option packet_buf) :=
  fun w =>
    match alloc_skb_ok w with
    | true :: rest =>
        Done (Some {| buf_alloc := len; buf_chunks := []; buf_len := 0;
                      buf_hmac_at := None |})
             (set_alloc_skb_ok rest w)
    | false :: rest => Done None (set_alloc_skb_ok rest w)
    | [] => Done None w
    end.

(** Modelled from the spec: skb_gro_receive belongs to the core buffer
    code, not under src/; it splices the sub-buffer into the super-buffer,
    and the environment decides whether it succeeds. *)
Definition skb_gro_receive (head : sk_buff) (nskb : packet_buf) : M (option sk_buff) :=
  fun w =>
    match gro_receive_ok w with
    | true :: rest =>
        Done (Some (set_skb_frags (skb_frags head ++ [nskb]) head))
             (set_gro_receive_ok rest w)
    | false :: rest => Done None (set_gro_receive_ok rest w)
    | [] => Done None w
    end.

(** Modelled from the spec: sk_setup_caps belongs to the core socket code,
    not under src/; it refreshes the socket's route capabilities from the
    route's device. *)
Definition sk_setup_caps (s : sock) (dst : dst_entry) : sock :=
  set_sk_gso_max_segs (dev_gso_max_segs dst)
    (set_sk_gso (dev_gso dst) (set_sk_dst_cache (Some (dst_addr dst)) s)).

(** The block both sctp_packet_config and the emitter run under
    rcu_read_lock: adopt the transport's route when the socket caches
    another one. *)
Definition refresh_sk_caps : M unit :=
  packet <- get_packet ;;
  s <- get_sk ;;
  match tp_dst (transport packet) with
  | Some dst =>
      if match sk_dst_cache s with
         | Some d => Nat.eqb d (dst_addr dst)
         | None => false
         end
      then ret tt
      else put_sk (sk_setup_caps s dst)
  | None =>
      match sk_dst_cache s with
      | None => ret tt
      | Some _ => crash NullDeref
      end
  end.

(** Modelled from the spec: af_specific->sctp_xmit is the address family's
    transmit primitive, not under src/; the buffer is handed to the IP
    layer, which owns it from then on. *)
Definition sctp_xmit (head : sk_buff) : M unit :=
  fun w => Done tt (set_xmit (xmit w ++ [head]) w).

(** Modelled from the spec: af_specific->ecn_capable is the address
    family's hook, not under src/; it marks the socket's datagrams
    ECT-capable. *)
Definition ecn_capable : M unit :=
  s <- get_sk ;;
  put_sk (set_sk_ecn true s).

Definition sctp_packet_set_owner_w : M unit :=
  s <- get_sk ;;
  put_sk (set_sk_wmem_alloc (sk_wmem_alloc s + 1) s).

(** kfree_skb of the head buffer: its destructor,
    sctp_packet_release_owner, gives the socket reference back. *)
Definition kfree_skb_head : M unit :=
  s <- get_sk ;;
  put_sk (set_sk_wmem_alloc (sk_wmem_alloc s - 1) s).

(** The sizing walk of a GSO round: the size of the next sub-packet and
    the length of the AUTH chunk met, or [None] for [goto nomem]. *)
Fixpoint gso_pkt_size (packet : sctp_packet) (pathmtu : Z) (todo : list sctp_chunk)
    (auth_len pkt_size : Z) : option (Z * Z) :=
  match todo with
  | [] => Some (pkt_size, auth_len)
  | chunk :: rest =>
      let padded := int (u32 (SCTP_PAD4 (c_skb_len chunk))) in
      if is_packet_auth packet chunk then
        gso_pkt_size packet pathmtu rest padded (int (pkt_size + padded))
      else if size_t (int (auth_len + padded) + overhead packet) >? pathmtu then None
      else if u32 (int (pkt_size + padded)) >? pathmtu then Some (pkt_size, auth_len)
      else gso_pkt_size packet pathmtu rest auth_len (int (pkt_size + padded))
  end.

(** The padding of a chunk's buffer to a multiple of 4, in place. *)
Definition pad_chunk (chunk : sctp_chunk) : sctp_chunk :=
  let padding := int (u32 (SCTP_PAD4 (c_skb_len chunk)) - c_skb_len chunk) in
  if padding =? 0 then chunk
  else set_c_skb_len (u32 (c_skb_len chunk + padding)) chunk.

(** Modelled from the spec: skb_put belongs to the core buffer code, not
    under src/.  The room left behind the bytes already put in a buffer
    of the emitter: every such buffer had packet->overhead + MAX_HEADER
    bytes reserved in front by skb_reserve.  A put of more bytes than
    this stops the kernel in skb_over_panic. *)
Definition skb_tailroom (packet : sctp_packet) (b : packet_buf) : Z :=
  skb_end_offset (buf_alloc b) - int (overhead packet + MAX_HEADER) - buf_len b.

(** One turn of the copy loop: [chunk] leaves the head of chunk_list,
    where [rest] stays, and is copied into [l_nskb].  (The chunk's own
    buffer comes from the chunk factories, which allocate it padded: the
    bytes of padding put on it are taken to fit.) *)
Definition copy_chunk (chunk : sctp_chunk) (rest : list sctp_chunk) (l : locals)
  : M locals :=
  packet <- get_packet ;;
  let tp := transport packet in
  let is_auth := is_packet_auth packet chunk in
  let is_data := sctp_chunk_is_data chunk in
  (* list_del_init(&chunk->list) *)
  let packet := set_chunk_list rest packet in
  (* one RTT measurement per round trip and destination *)
  let measure := is_data && negb (c_resent chunk) && negb (tp_rto_pending tp) in
  let chunk := if measure then set_c_rtt_in_progress true chunk else chunk in
  let tp := if measure then set_tp_rto_pending true tp else tp in
  let l := if is_data then set_l_has_data true l else l in
  let chunk := pad_chunk chunk in
  (* the AUTH chunk is the same object as packet->auth *)
  let packet := if is_auth then set_auth (Some chunk) packet else packet in
  let nskb := l_nskb l in
  let l := if is_auth then set_l_auth (Some (buf_len nskb)) l else l in
  (* memcpy(skb_put(nskb, chunk->skb->len), ...) *)
  if skb_tailroom packet nskb <? c_skb_len chunk then crash SkbOverPanic
  else
    let nskb :=
      set_buf_len (buf_len nskb + c_skb_len chunk)
        (set_buf_chunks (buf_chunks nskb ++ [chunk]) nskb) in
    let l := set_l_nskb nskb l in
    let l := set_l_pkt_size (int (l_pkt_size l - u32 (SCTP_PAD4 (c_skb_len chunk)))) l in
    put_packet (set_transport tp packet) ;;;
    (if negb is_data && negb is_auth then sctp_chunk_free chunk else ret tt) ;;;
    ret l.

(** The copy loop of one round: chunks leave the head of chunk_list for
    [l_nskb] until [l_pkt_size] bytes are placed. *)
Fixpoint drain_chunks (todo : list sctp_chunk) (l : locals) : M locals :=
  match todo with
  | [] => ret l
  | chunk :: rest =>
      l <- copy_chunk chunk rest l ;;
      if l_pkt_size l =? 0 then ret l else drain_chunks rest l
  end.

(** After the copy loop: the MAC is computed over the sub-packet, and the
    AUTH chunk goes back to the head of chunk_list when more sub-packets
    follow, else it is released. *)
Definition finish_auth (l : locals) : M locals :=
  let l :=
    match l_auth l with
    | Some off => set_l_nskb (set_buf_hmac_at (Some off) (l_nskb l)) l
    | None => l
    end in
  packet <- get_packet ;;
  match auth packet with
  | Some a =>
      match chunk_list packet with
      | _ :: _ =>
          if existsb (fun c => Nat.eqb (c_addr c) (c_addr a)) (chunk_list packet)
          then crash ListCorrupt
          else put_packet (set_chunk_list (a :: chunk_list packet) packet) ;;; ret l
      | [] =>
          sctp_chunk_free a ;;;
          put_packet (set_auth None packet) ;;;
          ret l
      end
  | None => ret l
  end.

Inductive flow : Type :=
| Fallthrough
| GotoNomem.

(** The do-while loop of the emitter.  [gso] is fixed before the loop.
    Every round after the first takes a buffer from the allocator, so
    the rounds are bounded by the allocations the environment grants:
    [fuel] is one more than that. *)
Fixpoint sub_packets (fuel : nat) (gso : bool) (l : locals) : M (flow * locals) :=
  match fuel with
  | O => ret (GotoNomem, l)
  | S fuel' =>
      packet <- get_packet ;;
      let l := set_l_pktcount (int (l_pktcount l + 1)) l in
      sized <-
        (if gso then
           match gso_pkt_size packet (tp_pathmtu (transport packet))
                   (chunk_list packet) (l_auth_len l) (int (overhead packet)) with
           | None => ret (GotoNomem, l)
           | Some (pkt_size, auth_len) =>
               let l := set_l_auth_len auth_len (set_l_pkt_size pkt_size l) in
               (* Allocate a new skb. *)
               nskb <- alloc_skb (u32 (pkt_size + MAX_HEADER)) ;;
               match nskb with
               | None => ret (GotoNomem, l)
               | Some b => ret (Fallthrough, set_l_nskb b l)
               end
           end
         else ret (Fallthrough, set_l_nskb (skb_head (l_head l)) l)) ;;
      match sized with
      | (GotoNomem, l) => ret (GotoNomem, l)
      | (Fallthrough, l) =>
          let l := set_l_pkt_size (int (l_pkt_size l - overhead packet)) l in
          l <- drain_chunks (chunk_list packet) l ;;
          l <- finish_auth l ;;
          if negb gso then
            ret (Fallthrough, set_l_head (set_skb_head (l_nskb l) (l_head l)) l)
          else
            spliced <- skb_gro_receive (l_head l) (l_nskb l) ;;
            match spliced with
            | None => ret (GotoNomem, l)
            | Some head =>
                let l := set_l_head head l in
                s <- get_sk ;;
                if skb_gso_segs head >=? sk_gso_max_segs s then ret (GotoNomem, l)
                else
                  packet <- get_packet ;;
                  match chunk_list packet with
                  | [] => ret (Fallthrough, l)
                  | _ :: _ => sub_packets fuel' gso l
                  end
            end
      end
  end.

(** The tail of the error paths, from the label [err]: every chunk leaves
    the list, control chunks are released. *)
Fixpoint drop_chunks (todo : list sctp_chunk) : M unit :=
  match todo with
  | [] => ret tt
  | chunk :: rest =>
      packet <- get_packet ;;
      put_packet (set_chunk_list rest packet) ;;;
      (if negb (sctp_chunk_is_data chunk) then sctp_chunk_free chunk else ret tt) ;;;
      drop_chunks rest
  end.

Definition label_out (err : Z) : M Z :=
  packet <- get_packet ;;
  put_packet (sctp_packet_reset packet) ;;;
  ret err.

Definition label_err (err : Z) : M Z :=
  packet <- get_packet ;;
  drop_chunks (chunk_list packet) ;;;
  label_out err.

Definition label_nodst (err : Z) : M Z :=
  kfree_skb_head ;;;
  label_err err.

Definition label_nomem (err : Z) : M Z :=
  packet <- get_packet ;;
  match auth packet with
  | Some a =>
      if existsb (fun c => Nat.eqb (c_addr c) (c_addr a)) (chunk_list packet)
      then ret tt
      else sctp_chunk_free a
  | None => ret tt
  end ;;;
  label_nodst err.

(** The packet is larger than the path MTU and may not be fragmented by
    IP: it must go out as a GSO super-packet. *)
Definition needs_gso (packet : sctp_packet) : bool :=
  (size packet >? tp_pathmtu (transport packet)) && negb (ipfragok packet).

(** The route upkeep before the header is built: a stale route is looked up
    again, and the path MTU resynchronised when the association has PMTU
    discovery on.  The lookup does not move the association. *)
Definition refresh_route (s : sock) (tp : sctp_transport) : sctp_transport :=
  if sctp_transport_dst_check tp then tp
  else
    let tp1 := set_tp_asoc (tp_asoc tp) (sctp_transport_route tp s) in
    match tp_asoc tp with
    | Some asoc =>
        if a_pmtud_enable asoc
        then set_tp_asoc (Some (sctp_assoc_sync_pmtu s asoc)) tp1
        else tp1
    | None => tp1
    end.

(** The tail of the emitter, once the buffers are filled: checksum, ECN,
    statistics, the AUTOCLOSE timer, the GSO marks, and the hand-off to
    IP.  [had_asoc] tells whether [asoc], read on entry, is not NULL. *)
Definition transmit_tail (gso had_asoc : bool) (dst : dst_entry) (err : Z)
    (l : locals) : M Z :=
  packet <- get_packet ;;
  let head := l_head l in
  (* the checksum; for GSO it is left to segmentation *)
  let head :=
    if negb sctp_checksum_disable || gso then
      if negb gso && (negb (dev_sctp_crc dst) || dst_xfrm dst
                      || ipfragok packet)
      then set_skb_csum CHECKSUM_COMPUTED head
      else set_skb_csum CHECKSUM_PARTIAL head
    else head in
  (* IP layer ECN support *)
  ecn_capable ;;;
  (if had_asoc then
     asoc <- deref_asoc ;;
     put_asoc (set_a_last_sent_to (Some (tp_addr (transport packet)))
                 (set_a_opackets (a_opackets asoc + l_pktcount l) asoc))
   else ret tt) ;;;
  (if l_has_data l then
     asoc <- deref_asoc ;;
     now <- get_jiffies ;;
     (* Restart the AUTOCLOSE timer when sending data. *)
     if state_established (a_state asoc)
        && negb (a_autoclose_timeout asoc =? 0)
     then
       let armed :=
         match a_autoclose_timer asoc with
         | Some _ => true
         | None => false
         end in
       let asoc :=
         set_a_autoclose_timer
           (Some (ulong (now + a_autoclose_timeout asoc))) asoc in
       put_asoc (if armed then asoc
                 else set_a_refcnt (a_refcnt asoc + 1) asoc)
     else ret tt
   else ret tt) ;;;
  head <- (if gso then
             refresh_sk_caps ;;;
             ret (set_skb_gso_segs (l_pktcount l) head)
           else ret head) ;;
  packet <- get_packet ;;
  let head := set_skb_ignore_df (ipfragok packet) head in
  (* Dump that on IP! *)
  sctp_xmit head ;;;
  label_out err.

(** All packets are sent to the network through this function.  The
    return value is a normal kernel error return value. *)
Definition sctp_packet_transmit : M Z :=
  packet <- get_packet ;;
  let had_asoc :=
    match tp_asoc (transport packet) with Some _ => true | None => false end in
  let err := 0 in
  (* Do NOT generate a chunkless packet. *)
  match chunk_list packet with
  | [] => ret err
  | _ :: _ =>
      s <- get_sk ;;
      (* Allocate the head skb, or main one if not in GSO *)
      if needs_gso packet && negb (sk_gso s) then label_err err
      else
        let gso := needs_gso packet in
        let pkt_size := if gso then int (overhead packet) else int (size packet) in
        head <- alloc_skb (u32 (pkt_size + MAX_HEADER)) ;;
        match head with
        | None => label_err err
        | Some hbuf =>
            (* Set the owning socket *)
            sctp_packet_set_owner_w ;;;
            put_packet (set_transport (refresh_route s (transport packet)) packet) ;;;
            packet <- get_packet ;;
            match tp_dst (transport packet) with
            | None =>
                (if had_asoc then
                   asoc <- deref_asoc ;;
                   put_asoc (set_a_outnoroutes (a_outnoroutes asoc + 1) asoc)
                 else ret tt) ;;;
                label_nodst err
            | Some dst =>
                (* Build the SCTP header. *)
                let head :=
                  {| skb_head := hbuf; skb_frags := [];
                     skb_source := source_port packet;
                     skb_dest := destination_port packet;
                     skb_vtag := vtag packet; skb_csum := CHECKSUM_NONE;
                     skb_gso := gso; skb_gso_segs := 0; skb_ignore_df := false |} in
                let l :=
                  {| l_head := head; l_nskb := hbuf; l_pkt_size := pkt_size;
                     l_has_data := false; l_pktcount := 0; l_auth_len := 0;
                     l_auth := None |} in
                w0 <- get_world ;;
                looped <- sub_packets (S (length (alloc_skb_ok w0))) gso l ;;
                match looped with
                | (GotoNomem, _) => label_nomem err
                | (Fallthrough, l) => transmit_tail gso had_asoc dst err l
                end
            end
        end
  end.

(** This routine tries to append the chunk to the offered packet.  If
    adding the chunk causes the packet to exceed the path MTU and
    COOKIE_ECHO chunk is not present in the packet, it transmits the
    input packet. *)
Definition sctp_packet_transmit_chunk (chunk : sctp_chunk) (one_packet : bool)
  : M sctp_xmit_t :=
  retval <- sctp_packet_append_chunk chunk ;;
  match retval with
  | SCTP_XMIT_PMTU_FULL =>
      packet <- get_packet ;;
      if negb (has_cookie_echo packet) then
        error <- sctp_packet_transmit ;;
        (if error <? 0
         then s <- get_sk ;; put_sk (set_sk_err (- error) s)
         else ret tt) ;;;
        (* If we have an empty packet, then we can NOT ever return
           PMTU_FULL. *)
        if negb one_packet then sctp_packet_append_chunk chunk
        else ret retval
      else ret retval
  | SCTP_XMIT_RWND_FULL
  | SCTP_XMIT_OK
  | SCTP_XMIT_DELAY => ret retval
  end.

End Output.

(** * Vocabulary of the properties *)

(** The padded length of a chunk, ⌈raw_len/4⌉·4, and the padded bytes of
    a chunk list. *)
Definition padded_length (c : sctp_chunk) : Z := SCTP_PAD4 (c_length c).

Definition padded_sum (l : list sctp_chunk) : Z :=
  fold_right (fun c acc => padded_length c + acc) 0 l.

(** What [__sctp_packet_append_chunk] adds to [size] for a chunk: the
    padded length as its 16-bit [chunk_len] holds it. *)
Definition chunk_len16 (c : sctp_chunk) : Z := u16 (SCTP_PAD4 (c_length c)).

Definition len16_sum (l : list sctp_chunk) : Z :=
  fold_right (fun c acc => chunk_len16 c + acc) 0 l.

(** The size invariant as the code keeps it, in [size_t] arithmetic. *)
Definition size_inv (p : sctp_packet) : Prop :=
  0 <= overhead p < 2 ^ 64 /\
  size p = size_t (overhead p + len16_sum (chunk_list p)).

(** A packet at the start of its cycle: fresh from [sctp_packet_init], or
    drained and put through [sctp_packet_reset]. *)
Inductive started : sctp_packet -> Prop :=
| started_init (p : sctp_packet) (tp : sctp_transport) (sport dport : Z) :
    started (sctp_packet_init p tp sport dport)
| started_reset (p : sctp_packet) :
    chunk_list p = [] -> 0 <= overhead p < 2 ^ 64 ->
    started (sctp_packet_reset p).

(** The append operations: the public one and the raw one. *)
Inductive append_op : Type :=
| Append (chunk : sctp_chunk)
| AppendRaw (chunk : sctp_chunk).

Definition offered (op : append_op) : sctp_chunk :=
  match op with Append c => c | AppendRaw c => c end.

Section Runs.
Context `{Collaborators}.

Definition do_op (op : append_op) : M sctp_xmit_t :=
  match op with
  | Append c => sctp_packet_append_chunk c
  | AppendRaw c => __sctp_packet_append_chunk c
  end.

(** A sequence of append operations, with the verdict of each. *)
Fixpoint run_ops (ops : list append_op) : M (list sctp_xmit_t) :=
  match ops with
  | [] => ret []
  | op :: rest =>
      v <- do_op op ;;
      vs <- run_ops rest ;;
      ret (v :: vs)
  end.

End Runs.

(** [triple P m Q]: from a world in [P], [m] ends in [Q] unless it
    faults. *)
Definition triple {A : Type} (P : world -> Prop) (m : M A)
    (Q : A -> world -> Prop) : Prop :=
  forall w, P w -> match m w with Done a w' => Q a w' | Fault _ => True end.

(** An invariant of the packet that no step of [m] breaks. *)
Definition keeps {A : Type} (I : sctp_packet -> Prop) (m : M A) : Prop :=
  triple (fun w => I (pkt w)) m (fun _ w => I (pkt w)).

(** The fields of a chunk that the append path never writes. *)
Definition same_wire (c c' : sctp_chunk) : Prop :=
  c_addr c' = c_addr c /\ c_type c' = c_type c /\
  c_length c' = c_length c /\ c_skb_len c' = c_skb_len c.

(** The parts of the world that the append path never writes. *)
Definition same_env (w w' : world) : Prop :=
  sk w' = sk w /\ jiffies w' = jiffies w /\
  alloc_skb_ok w' = alloc_skb_ok w /\ gro_receive_ok w' = gro_receive_ok w /\
  xmit w' = xmit w.

Definition has_asoc (p : sctp_packet) : bool :=
  match tp_asoc (transport p) with Some _ => true | None => false end.

(** What an admitted raw append of [c] does: [c'] is the chunk as it sits
    in the list. *)
Record raw_step (c c' : sctp_chunk) (w w' : world) : Prop := Build_raw_step {
  rs_wire : same_wire c c';
  rs_list : chunk_list (pkt w') = chunk_list (pkt w) ++ [c'];
  rs_size : size (pkt w') = size_t (size (pkt w) + chunk_len16 c);
  rs_overhead : overhead (pkt w') = overhead (pkt w);
  rs_max_size : max_size (pkt w') = max_size (pkt w);
  rs_has_data : has_data (pkt w') = has_data (pkt w) || sctp_chunk_is_data c;
  rs_has_sack : has_sack (pkt w') =
                has_sack (pkt w) || sctp_chunk_is_data c || is_sack_cid (c_type c);
  rs_has_auth : has_auth (pkt w') =
                has_auth (pkt w) || sctp_chunk_is_data c || is_auth_cid (c_type c);
  rs_asoc : has_asoc (pkt w') = has_asoc (pkt w);
  rs_env : same_env w w';
  rs_freed : freed w' = freed w
}.

(** A step that writes at most the transport (with its association kept
    in place) and the log of released chunks. *)
Definition quiet (w w' : world) : Prop :=
  exists tp fr,
    w' = set_freed fr (set_pkt (set_transport tp (pkt w)) w) /\
    has_asoc (pkt w') = has_asoc (pkt w).

(** A bundling phase of [sctp_packet_append_chunk]: nothing is bundled, or
    one chunk from the factory [make] goes in by a raw append; [flag] is
    the packet flag that must be clear for the bundler to act. *)
Inductive phase (make : sctp_association -> option sctp_chunk)
    (flag : sctp_packet -> bool) (w w' : world) : Prop :=
| phase_quiet : quiet w w' -> phase make flag w w'
| phase_bundle (a : sctp_association) (b b' : sctp_chunk) (w0 w1 : world) :
    flag (pkt w) = false ->
    make a = Some b ->
    quiet w w0 -> raw_step b b' w0 w1 -> quiet w1 w' ->
    phase make flag w w'.

(** The socket's error slot holds [e]. *)
Definition err_slot_is (e : Z) (w : world) : Prop := sk_err (sk w) = e.

(** A packet as [sctp_packet_reset] leaves it. *)
Definition is_reset (p : sctp_packet) : Prop :=
  size p = overhead p /\ has_cookie_echo p = false /\ has_sack p = false /\
  has_data p = false /\ has_auth p = false /\ ipfragok p = false /\
  auth p = None.

(** A property of the world that no step of [m] breaks. *)
Definition stable {A : Type} (I : world -> Prop) (m : M A) : Prop :=
  triple I m (fun _ w => I w).

(** How every path of the emitter that passes the label [out] ends: with
    value [0], the error slot untouched, the packet reset. *)
Definition emitted (e : Z) (r : Z) (w : world) : Prop :=
  r = 0 /\ err_slot_is e w /\ is_reset (pkt w).

(** A SACK or AUTH chunk that sits behind a DATA chunk in the list. *)
Definition is_sack_or_auth (c : sctp_chunk) : bool :=
  is_sack_cid (c_type c) || is_auth_cid (c_type c).

Fixpoint sack_or_auth_after (seen_data : bool) (l : list sctp_chunk) : bool :=
  match l with
  | [] => false
  | c :: rest =>
      (seen_data && is_sack_or_auth c)
      || sack_or_auth_after (seen_data || sctp_chunk_is_data c) rest
  end.

Definition sack_or_auth_after_data (l : list sctp_chunk) : bool :=
  sack_or_auth_after false l.

(** The order invariant with the flags that carry it. *)
Definition order_inv (p : sctp_packet) : Prop :=
  sack_or_auth_after_data (chunk_list p) = false /\
  (existsb sctp_chunk_is_data (chunk_list p) = true -> has_data p = true) /\
  (has_data p = true -> has_sack p = true /\ has_auth p = true).

(** A run of append operations in which no SACK or AUTH chunk is offered
    to a packet whose [has_data] flag is set. *)
Inductive legal_run `{Collaborators} : list append_op -> world -> world -> Prop :=
| legal_nil (w : world) : legal_run [] w w
| legal_cons (op : append_op) (ops : list append_op) (v : sctp_xmit_t)
    (w w1 w2 : world) :
    (has_data (pkt w) = true -> is_sack_or_auth (offered op) = false) ->
    do_op op w = Done v w1 ->
    legal_run ops w1 w2 ->
    legal_run (op :: ops) w w2.

(** The same run as a function: [Some] world when every operation is
    legal and returns. *)
Fixpoint run_legal `{Collaborators} (ops : list append_op) (w : world) : option world :=
  match ops with
  | [] => Some w
  | op :: rest =>
      if has_data (pkt w) && is_sack_or_auth (offered op) then None
      else match do_op op w with
           | Done _ w1 => run_legal rest w1
           | Fault _ => None
           end
  end.

(** The DATA admission rules as the specification words them, on plain
    integers: RFC 2960 6.1 A, then B with the fast-retransmit exception,
    then Nagle, then pack-or-defer. *)
Definition can_append_data_rules
    (ds rwnd inflight flight cwnd : Z) (frtx : sctp_frtx_t)
    (nagle_off packet_nonempty established : bool)
    (skb_len out_qlen pathmtu ovh : Z) (delay_eligible : bool) : sctp_xmit_t :=
  if (ds >? rwnd) && (inflight >? 0) then SCTP_XMIT_RWND_FULL
  else if negb (need_frtx frtx) && (flight >=? cwnd) then SCTP_XMIT_RWND_FULL
  else if nagle_off || packet_nonempty || (inflight =? 0) || negb established
  then SCTP_XMIT_OK
  else if (skb_len + out_qlen >? pathmtu - ovh - sizeof_sctp_data_chunk_t - 4)
          || negb delay_eligible
  then SCTP_XMIT_OK
  else SCTP_XMIT_DELAY.

(** The fatal failures of the emitter that strike before the first chunk
    is copied: GSO is required but the socket cannot do it; the head
    buffer cannot be allocated; the transport has no route. *)
Inductive fatal `{Collaborators} (w : world) : Prop :=
| fatal_gso_unsupported :
    chunk_list (pkt w) <> [] ->
    needs_gso (pkt w) = true -> sk_gso (sk w) = false ->
    fatal w
| fatal_head_alloc :
    chunk_list (pkt w) <> [] ->
    needs_gso (pkt w) && negb (sk_gso (sk w)) = false ->
    hd false (alloc_skb_ok w) = false ->
    fatal w
| fatal_no_route :
    chunk_list (pkt w) <> [] ->
    needs_gso (pkt w) && negb (sk_gso (sk w)) = false ->
    hd false (alloc_skb_ok w) = true ->
    tp_dst (refresh_route (sk w) (transport (pkt w))) = None ->
    fatal w.

(** ** GSO packing *)

(** The padded length of a chunk as the emitter takes it, from skb->len. *)
Definition padded_skb (c : sctp_chunk) : Z := SCTP_PAD4 (c_skb_len c).

Fixpoint skb_sum (l : list sctp_chunk) : Z :=
  match l with
  | [] => 0
  | c :: rest => padded_skb c + skb_sum rest
  end.

(** The longest run at the head of [l] whose padded lengths fit in [room],
    and what is left. *)
Fixpoint take_fit (room : Z) (l : list sctp_chunk)
  : list sctp_chunk * list sctp_chunk :=
  match l with
  | [] => ([], [])
  | c :: rest =>
      if padded_skb c <=? room then
        let (seg, left) := take_fit (room - padded_skb c) rest in
        (c :: seg, left)
      else ([], l)
  end.

(** The greedy packing: sub-packet after sub-packet takes the longest run
    that fits. *)
Fixpoint gso_split (fuel : nat) (room : Z) (l : list sctp_chunk)
  : list (list sctp_chunk) :=
  match fuel, l with
  | O, _ => []
  | _, [] => []
  | S fuel', _ :: _ =>
      let (seg, left) := take_fit room l in
      seg :: gso_split fuel' room left
  end.

Definition gso_segments (room : Z) (l : list sctp_chunk) : list (list sctp_chunk) :=
  gso_split (length l) room l.

(** The environment grants the next [n] requests. *)
Definition granted (n : nat) (outcomes : list bool) : Prop :=
  exists rest, outcomes = repeat true n ++ rest.

(** The chunks a buffer holds, by address. *)
Definition chunk_stream (b : packet_buf) : list nat := map c_addr (buf_chunks b).

(** A chunk with data in its buffer that fits a sub-packet of [pm] bytes
    behind [ov] bytes of headers. *)
Definition fits_alone (ov pm : Z) (c : sctp_chunk) : Prop :=
  0 < c_skb_len c /\ ov + padded_skb c <= pm.

(** What a round of the GSO loop leaves untouched. *)
Record gso_keep (w w' : world) : Prop := Build_gso_keep {
  gk_overhead : overhead (pkt w') = overhead (pkt w);
  gk_auth : auth (pkt w') = auth (pkt w);
  gk_ipfragok : ipfragok (pkt w') = ipfragok (pkt w);
  gk_pathmtu : tp_pathmtu (transport (pkt w')) = tp_pathmtu (transport (pkt w));
  gk_dst : tp_dst (transport (pkt w')) = tp_dst (transport (pkt w));
  gk_asoc : has_asoc (pkt w') = has_asoc (pkt w);
  gk_sk : sk w' = sk w;
  gk_xmit : xmit w' = xmit w
}.

(** * Sample objects

    A transport on an IPv4 association with a 1500-byte path MTU, its
    packet, socket and world; the collaborators are the simplest that
    fit. *)
Module Sample.

Definition msg : sctp_datamsg := {| can_delay := true; can_abandon := true |}.

Definition chunk (a : nat) (t : sctp_cid_t) (len : Z) : sctp_chunk :=
  {| c_addr := a; c_type := t; c_length := len; c_skb_len := len; c_auth := false;
     c_has_asoc := true; c_fast_retransmit := SCTP_CAN_FRTX; c_msg := msg;
     c_resent := false; c_rtt_in_progress := false; c_has_tsn := false; c_tsn := 0;
     c_has_ssn := false; c_ssn := 0; c_sent_at := 0; c_sent_count := 0;
     c_transport := None |}.

Definition demo : Collaborators :=
  {| sctp_data_size := fun c => u16 (c_length c - sizeof_sctp_data_chunk_t);
     sctp_make_auth := fun _ => Some (chunk 900 SCTP_CID_AUTH 24);
     sctp_make_sack := fun _ => Some (chunk 901 SCTP_CID_SACK 16);
     sctp_association_get_next_tsn := fun _ _ => 7;
     sctp_ssn_next := fun _ _ => 3;
     sctp_transport_dst_check := fun _ => true;
     sctp_transport_route := fun t _ => t;
     sctp_assoc_sync_pmtu := fun _ a => a;
     MAX_HEADER := 128;
     MAX_HEADER_range :=
       conj (proj1 (Z.leb_le 0 128) eq_refl) (proj1 (Z.ltb_lt 128 (2 ^ 16)) eq_refl);
     skb_end_offset := fun n => n;
     skb_end_offset_ge := Z.le_refl;
     sctp_checksum_disable := false |}.

Definition asoc : sctp_association :=
  {| a_net_header_len := 20; a_pathmtu := 1500; a_state := SCTP_STATE_ESTABLISHED;
     a_pmtud_enable := true; a_prsctp_capable := false;
     a_peer_rwnd := 100000; a_rwnd := 60000; a_a_rwnd := 0;
     a_outstanding_bytes := 0; a_out_qlen := 0;
     a_peer_sack_generation := 1; a_peer_sack_needed := false;
     a_sack_timer_pending := false;
     a_autoclose_timeout := 0; a_autoclose_timer := None;
     a_refcnt := 1; a_osacks := 0; a_opackets := 0; a_outnoroutes := 0;
     a_last_sent_to := None |}.

Definition dst : dst_entry :=
  {| dst_addr := 5; dev_sctp_crc := false; dst_xfrm := false; dev_gso := true;
     dev_gso_max_segs := 64; dev_gso_max_size := 65536 |}.

Definition tp : sctp_transport :=
  {| tp_addr := 1; tp_asoc := Some asoc; tp_dst := Some dst; tp_pathmtu := 1500;
     tp_cwnd := 100000; tp_burst_limited := 0; tp_flight_size := 0;
     tp_rto_pending := false; tp_sack_generation := 1 |}.

(** The storage a packet is initialised in. *)
Definition blank : sctp_packet :=
  {| source_port := 0; destination_port := 0; vtag := 0; chunk_list := [];
     overhead := 0; size := 0; max_size := 65536; transport := tp; auth := None;
     has_cookie_echo := false; has_sack := false; has_auth := false;
     has_data := false; ipfragok := false |}.

Definition socket : sock :=
  {| sk_err := 0; sk_nodelay := true; sk_dst_cache := Some 5%nat; sk_gso := true;
     sk_gso_max_segs := 64; sk_wmem_alloc := 1; sk_ecn := false |}.

(** The world around a packet fresh from [sctp_packet_init], with [n]
    buffer allocations granted. *)
Definition world_of (p : sctp_packet) (s : sock) (grants : list bool) : world :=
  {| pkt := p; sk := s; jiffies := 1000; alloc_skb_ok := grants;
     gro_receive_ok := grants; freed := []; xmit := [] |}.

(** The same packet without segmentation offload: [max_size] is the path
    MTU, the socket cannot do GSO. *)
Definition blank_plain : sctp_packet := set_max_size 1500 blank.

Definition socket_plain : sock := set_sk_gso false socket.

(** A world in which the allocator grants nothing. *)
Definition w_plain_nomem : world :=
  world_of (sctp_packet_init blank_plain tp 1000 2000) socket_plain [].

Definition w_plain : world :=
  world_of (sctp_packet_init blank_plain tp 1000 2000) socket_plain [true; true].

Definition w0 : world :=
  world_of (sctp_packet_init blank tp 1000 2000) socket [true; true; true; true].

(** Where a run ends, and with which verdicts. *)
Definition after (ops : list append_op) (w : world) : world :=
  match @run_ops demo ops w with
  | Done _ w' => w'
  | Fault _ => w
  end.

Definition verdicts (ops : list append_op) (w : world) : list sctp_xmit_t :=
  match @run_ops demo ops w with
  | Done vs _ => vs
  | Fault _ => []
  end.

Definition after_legal (ops : list append_op) (w : world) : world :=
  match @run_legal demo ops w with
  | Some w' => w'
  | None => w
  end.

(** The socket's error slot and the verdict after [m]. *)
Definition slot_after {A : Type} (m : M A) (w : world) : option (A * Z) :=
  match m w with
  | Done a w' => Some (a, sk_err (sk w'))
  | Fault _ => None
  end.

(** The world after [m]. *)
Definition end_of {A : Type} (m : M A) (w : world) : world :=
  match m w with
  | Done _ w' => w'
  | Fault _ => w
  end.

(** A plain packet that holds 1480 bytes, overhead included: one DATA
    chunk of 1448 bytes. *)
Definition w_1480 : world :=
  after [Append (chunk 1 SCTP_CID_DATA 1448)] w_plain.

(** The same packet in a world where no buffer can be had. *)
Definition w_1480_nomem : world :=
  after [Append (chunk 1 SCTP_CID_DATA 1448)] w_plain_nomem.

(** The Nagle scenario: Nagle on, 200 bytes in flight, 50 queued, an empty
    packet. *)
Definition asoc_nagle : sctp_association :=
  {| a_net_header_len := 20; a_pathmtu := 1500; a_state := SCTP_STATE_ESTABLISHED;
     a_pmtud_enable := true; a_prsctp_capable := false;
     a_peer_rwnd := 100000; a_rwnd := 60000; a_a_rwnd := 0;
     a_outstanding_bytes := 200; a_out_qlen := 50;
     a_peer_sack_generation := 1; a_peer_sack_needed := false;
     a_sack_timer_pending := false;
     a_autoclose_timeout := 0; a_autoclose_timer := None;
     a_refcnt := 1; a_osacks := 0; a_opackets := 0; a_outnoroutes := 0;
     a_last_sent_to := None |}.

Definition w_nagle : world :=
  world_of
    (sctp_packet_init blank (set_tp_asoc (Some asoc_nagle) tp) 1000 2000)
    {| sk_err := 0; sk_nodelay := false; sk_dst_cache := Some 5%nat; sk_gso := true;
       sk_gso_max_segs := 64; sk_wmem_alloc := 1; sk_ecn := false |}
    [true].

(** A packet on a transport that has no association. *)
Definition w_orphan : world :=
  world_of (sctp_packet_init blank (set_tp_asoc None tp) 1000 2000) socket [true].

(** Two GSO batches on the sample packet (overhead 32, path MTU 1500):
    four DATA chunks of 700 bytes, and three of 800. *)
Definition w_gso4 : world :=
  after [Append (chunk 1 SCTP_CID_DATA 700); Append (chunk 2 SCTP_CID_DATA 700);
         Append (chunk 3 SCTP_CID_DATA 700); Append (chunk 4 SCTP_CID_DATA 700)] w0.

Definition w_gso3 : world :=
  after [Append (chunk 1 SCTP_CID_DATA 800); Append (chunk 2 SCTP_CID_DATA 800);
         Append (chunk 3 SCTP_CID_DATA 800)] w0.

End Sample.

(** * The rest of the file: release and configuration *)

Section Housekeeping.
Context `{Collaborators}.

(** The loop of sctp_packet_free: every chunk leaves the list and is
    released, DATA chunks too. *)
Fixpoint free_chunks (todo : list sctp_chunk) : M unit :=
  match todo with
  | [] => ret tt
  | chunk :: rest =>
      packet <- get_packet ;;
      put_packet (set_chunk_list rest packet) ;;;
      sctp_chunk_free chunk ;;;
      free_chunks rest
  end.

(** Free a packet. *)
Definition sctp_packet_free : M unit :=
  packet <- get_packet ;;
  free_chunks (chunk_list packet).

(** sctp_get_ecne_prepend belongs to the association code, not under
    src/: it is handed [asoc] as the transport holds it, NULL or not, and
    gives the ECNE chunk to send first, if any. *)
Variable sctp_get_ecne_prepend : option sctp_association -> option sctp_chunk.

(** Config a packet: the verification tag, the size limit by the route,
    and the ECNE chunk in front of everything else.  The C function
    returns [packet] itself. *)
Definition sctp_packet_config (vtag0 : Z) (ecn_capable0 : bool) : M unit :=
  packet <- get_packet ;;
  let tp := transport packet in
  let asoc := tp_asoc tp in
  put_packet (set_vtag vtag0 packet) ;;;
  match asoc, tp_dst tp with
  | Some a, Some dst =>
      refresh_sk_caps ;;;
      s <- get_sk ;;
      packet <- get_packet ;;
      if sk_gso s
      then put_packet (set_max_size (dev_gso_max_size dst) packet)
      else put_packet (set_max_size (a_pathmtu a) packet)
  | _, _ =>
      packet <- get_packet ;;
      put_packet (set_max_size (tp_pathmtu tp) packet)
  end ;;;
  packet <- get_packet ;;
  if ecn_capable0 && sctp_packet_empty packet then
    (* If there a is a prepend chunk stick it on the list before any
       other chunks get appended. *)
    match sctp_get_ecne_prepend asoc with
    | Some chunk => sctp_packet_append_chunk chunk ;;; ret tt
    | None => ret tt
    end
  else ret tt.

End Housekeeping.

(** * Vocabulary of the further properties *)

(** The path MTU the admission test goes by: the association's, or the
    transport's when there is none. *)
Definition pmtu_of (p : sctp_packet) : Z :=
  match tp_asoc (transport p) with
  | Some asoc => a_pathmtu asoc
  | None => tp_pathmtu (transport p)
  end.

(** The limits the admission test and the emitter read, none of which an
    append writes: the path MTU the test goes by, the transport's path
    MTU, max_size, the congestion window and the burst limit, and the
    header overhead. *)
Definition limits (p : sctp_packet) : Z * Z * Z * Z * Z * Z :=
  (pmtu_of p, tp_pathmtu (transport p), max_size p,
   tp_cwnd (transport p), tp_burst_limited (transport p), overhead p).

Definition is_cookie_echo_cid (t : sctp_cid_t) : bool :=
  match t with SCTP_CID_COOKIE_ECHO => true | _ => false end.

(** The world after a write to the association the transport points to. *)
Definition with_asoc (a : sctp_association) (w : world) : world :=
  set_pkt (set_transport (set_tp_asoc (Some a) (transport (pkt w))) (pkt w)) w.

(** The world after the release of a chunk. *)
Definition with_freed (c : sctp_chunk) (w : world) : world :=
  set_freed (c_addr c :: freed w) w.

(** What the SACK bundler writes to the association once the SACK is in:
    no SACK is owed any more, and the delayed-SACK timer is stopped, which
    gives back the reference it held. *)
Definition sack_sent (a : sctp_association) : sctp_association :=
  let a := set_a_peer_sack_needed false a in
  if a_sack_timer_pending a
  then set_a_refcnt (a_refcnt a - 1) (set_a_sack_timer_pending false a)
  else a.

(** Two associations that differ at most in what the SACK bundler writes:
    the advertised window, the owed-SACK flag, the delayed-SACK timer and
    the reference it holds. *)
Definition same_but_sack (a a' : sctp_association) : Prop :=
  a' = set_a_refcnt (a_refcnt a')
         (set_a_sack_timer_pending (a_sack_timer_pending a')
            (set_a_peer_sack_needed (a_peer_sack_needed a')
               (set_a_a_rwnd (a_a_rwnd a') a))).

(** A property of the world that the three kinds of write of the append
    path keep: a raw append, a write of the SACK bundler to the
    association, and the release of a chunk. *)
Definition append_closed `{Collaborators} (I : world -> Prop) : Prop :=
  (forall c v w w', I w -> __sctp_packet_append_chunk c w = Done v w' -> I w') /\
  (forall a a' w, I w -> tp_asoc (transport (pkt w)) = Some a ->
                  same_but_sack a a' -> I (with_asoc a' w)) /\
  (forall c w, I w -> I (with_freed c w)).

(** Half the congestion window, or half the burst limit when one is
    set: the cap of the admission test on a packet beyond the path MTU. *)
Definition half_window (p : sctp_packet) : Z :=
  if tp_burst_limited (transport p) =? 0
  then Z.shiftr (tp_cwnd (transport p)) 1
  else Z.shiftr (tp_burst_limited (transport p)) 1.

(** What the admission test keeps of the size: within the path MTU, or
    left to IP fragmentation, or within both max_size and half the
    window. *)
Definition fit_inv (p : sctp_packet) : Prop :=
  size p <= pmtu_of p \/ ipfragok p = true \/
  (size p <= max_size p /\ size p <= half_window p).

(** The flags of a packet mirror its chunk_list: has_data tells of a DATA
    chunk, has_cookie_echo of a COOKIE_ECHO, has_sack of a SACK or a DATA
    chunk, has_auth of an AUTH or a DATA chunk, and [auth] is the last
    AUTH chunk of the list. *)
Definition flags_inv (p : sctp_packet) : Prop :=
  has_data p = existsb sctp_chunk_is_data (chunk_list p) /\
  has_cookie_echo p = existsb (fun c => is_cookie_echo_cid (c_type c)) (chunk_list p) /\
  has_sack p =
    existsb (fun c => sctp_chunk_is_data c || is_sack_cid (c_type c)) (chunk_list p) /\
  has_auth p =
    existsb (fun c => sctp_chunk_is_data c || is_auth_cid (c_type c)) (chunk_list p) /\
  auth p = find (fun c => is_auth_cid (c_type c)) (rev (chunk_list p)).

(** * Further sample objects *)
Module Scene.

(** An association that owes a SACK: the delayed-SACK timer runs and holds
    a reference. *)
Definition asoc_sack : sctp_association :=
  {| a_net_header_len := 20; a_pathmtu := 1500; a_state := SCTP_STATE_ESTABLISHED;
     a_pmtud_enable := true; a_prsctp_capable := false;
     a_peer_rwnd := 100000; a_rwnd := 60000; a_a_rwnd := 0;
     a_outstanding_bytes := 0; a_out_qlen := 0;
     a_peer_sack_generation := 1; a_peer_sack_needed := true;
     a_sack_timer_pending := true;
     a_autoclose_timeout := 0; a_autoclose_timer := None;
     a_refcnt := 2; a_osacks := 0; a_opackets := 0; a_outnoroutes := 0;
     a_last_sent_to := None |}.

Definition w_sack : world :=
  Sample.world_of
    (sctp_packet_init Sample.blank (set_tp_asoc (Some asoc_sack) Sample.tp) 1000 2000)
    Sample.socket [true; true].

(** A chunk that asks for authentication. *)
Definition signed_chunk (a : nat) (t : sctp_cid_t) (len : Z) : sctp_chunk :=
  {| c_addr := a; c_type := t; c_length := len; c_skb_len := len; c_auth := true;
     c_has_asoc := true; c_fast_retransmit := SCTP_CAN_FRTX; c_msg := Sample.msg;
     c_resent := false; c_rtt_in_progress := false; c_has_tsn := false; c_tsn := 0;
     c_has_ssn := false; c_ssn := 0; c_sent_at := 0; c_sent_count := 0;
     c_transport := None |}.

(** An association with AUTOCLOSE after 300 jiffies, the timer idle, on a
    socket without segmentation offload, 100 jiffies before the clock
    wraps around. *)
Definition asoc_autoclose : sctp_association :=
  {| a_net_header_len := 20; a_pathmtu := 1500; a_state := SCTP_STATE_ESTABLISHED;
     a_pmtud_enable := true; a_prsctp_capable := false;
     a_peer_rwnd := 100000; a_rwnd := 60000; a_a_rwnd := 0;
     a_outstanding_bytes := 0; a_out_qlen := 0;
     a_peer_sack_generation := 1; a_peer_sack_needed := false;
     a_sack_timer_pending := false;
     a_autoclose_timeout := 300; a_autoclose_timer := None;
     a_refcnt := 1; a_osacks := 0; a_opackets := 0; a_outnoroutes := 0;
     a_last_sent_to := None |}.

Definition w_autoclose : world :=
  {| pkt := sctp_packet_init Sample.blank_plain
              (set_tp_asoc (Some asoc_autoclose) Sample.tp) 1000 2000;
     sk := Sample.socket_plain; jiffies := 2 ^ 64 - 100;
     alloc_skb_ok := [true; true]; gro_receive_ok := [true; true];
     freed := []; xmit := [] |}.

End Scene.

(** What the emitter owes the socket: the buffers handed to IP so far are
    [x], and the socket's write-memory count is [m]. *)
Definition owes (x : list sk_buff) (m : Z) (w : world) : Prop :=
  xmit w = x /\ sk_wmem_alloc (sk w) = m.

(** How the emitter leaves a packet that had chunks: nothing sent, the
    socket's count as it was and every chunk off the list; or one buffer
    sent, which holds one count of the socket. *)
Definition sent_or_dropped (x : list sk_buff) (m : Z) (w : world) : Prop :=
  (owes x m w /\ chunk_list (pkt w) = []) \/
  (exists head, owes (x ++ [head]) (m + 1) w).

(** The checksum mark of a buffer that goes out on its own: none when the
    checksum is disabled; computed in software when the device cannot do
    the SCTP CRC, the route is transformed, or IP may fragment; else left
    to the device. *)
Definition plain_csum `{Collaborators} (dst : dst_entry) (fragok : bool) : csum_t :=
  if sctp_checksum_disable then CHECKSUM_NONE
  else if negb (dev_sctp_crc dst) || dst_xfrm dst || fragok
       then CHECKSUM_COMPUTED
       else CHECKSUM_PARTIAL.

(** The chunks of a list that are not DATA. *)
Definition control_chunks (l : list sctp_chunk) : list sctp_chunk :=
  filter (fun c => negb (sctp_chunk_is_data c)) l.

(** The addresses the emitter may release: the chunks of the list that are
    not DATA, and the AUTH chunk the packet points to. *)
Definition releasable (p : sctp_packet) : list nat :=
  map c_addr (control_chunks (chunk_list p))
  ++ match auth p with Some a => [c_addr a] | None => [] end.

(** Since the log of released chunks was [f0], only addresses of [R] were
    released, and only addresses of [R] can still be. *)
Definition released_within (f0 R : list nat) (w : world) : Prop :=
  (exists rel, freed w = rel ++ f0 /\ incl rel R) /\
  incl (releasable (pkt w)) R.

(** A DATA chunk on its first transmission: the kind of chunk an RTT
    measurement can start on. *)
Definition starts_rtt (c : sctp_chunk) : bool :=
  sctp_chunk_is_data c && negb (c_resent c).

(** The transport after the copy loop has taken the chunks [l]: the
    measurement flag is raised by the first chunk that can start one,
    unless a measurement was pending already. *)
Definition after_copy (l : list sctp_chunk) (tp : sctp_transport) : sctp_transport :=
  if negb (tp_rto_pending tp) && existsb starts_rtt l
  then set_tp_rto_pending true tp else tp.

(** The association after a packet of [count] sub-packets went to IP at
    time [now] for the transport at [addr]: the packet counter and the
    last destination; and, when DATA was sent on an established
    association with autoclose on, the AUTOCLOSE timer restarted, which
    takes a reference when the timer was not armed. *)
Definition sent_books (now count : Z) (with_data : bool) (addr : nat)
    (a : sctp_association) : sctp_association :=
  let a := set_a_last_sent_to (Some addr) (set_a_opackets (a_opackets a + count) a) in
  if with_data && (state_established (a_state a) && negb (a_autoclose_timeout a =? 0))
  then
    let a' := set_a_autoclose_timer (Some (ulong (now + a_autoclose_timeout a))) a in
    match a_autoclose_timer a with
    | Some _ => a'
    | None => set_a_refcnt (a_refcnt a' + 1) a'
    end
  else a.

Definition tail_transport (now count : Z) (with_data : bool) (tp : sctp_transport)
  : sctp_transport :=
  match tp_asoc tp with
  | Some a => set_tp_asoc (Some (sent_books now count with_data (tp_addr tp) a)) tp
  | None => tp
  end.

(** A packet whose size counts the buffers of its chunks: every queued
    chunk has bytes in its buffer, and [size] is the overhead plus the
    padded buffer lengths.  The appends build such a packet from chunks
    whose buffer holds exactly the chunk (skb->len is the chunk length),
    the emitter sizes its buffers and its copy loop by it. *)
Definition skb_sized (p : sctp_packet) : Prop :=
  Forall (fun c => 0 < c_skb_len c) (chunk_list p) /\
  0 <= overhead p /\
  size p = overhead p + skb_sum (chunk_list p) /\
  size p < 2 ^ 30.

(** The chunk_list of the packet is [L]. *)
Definition listed (L : list sctp_chunk) (w : world) : Prop :=
  chunk_list (pkt w) = L.

(** The copy loop of a round is about to take the whole list: the bytes
    left to place, once the overhead is taken off, are those of the
    chunks queued. *)
Definition drain_ready (l : locals) (w : world) : Prop :=
  Forall (fits_alone 0 (2 ^ 30 - 1)) (chunk_list (pkt w)) /\
  chunk_list (pkt w) <> [] /\
  int (l_pkt_size l - overhead (pkt w)) = skb_sum (chunk_list (pkt w)) /\
  skb_sum (chunk_list (pkt w)) < 2 ^ 31.

(** The chunks a buffer handed to IP carries, by address: those of its own
    data, then those of its fragments, the sub-packets of a GSO
    super-buffer. *)
Definition sent_stream (b : sk_buff) : list nat :=
  chunk_stream (skb_head b) ++ concat (map chunk_stream (skb_frags b)).

(** What the do-while loop of the emitter keeps on a packet without AUTH
    chunk: the chunks placed so far followed by the chunks still queued
    are the chunks [L] of the packet, in order.  (A plain emission builds
    no fragments.) *)
Definition carried (L : list nat) (gso : bool) (l : locals) (w : world) : Prop :=
  auth (pkt w) = None /\
  (gso = false -> skb_frags (l_head l) = []) /\
  sent_stream (l_head l) ++ map c_addr (chunk_list (pkt w)) = L.

(** * Properties *)

(** ** Arithmetic of the conversions *)

Lemma size_t_range (z : Z) : 0 <= size_t z < 2 ^ 64.
Proof. unfold size_t. apply Z.mod_pos_bound. lia. Qed.

Lemma size_t_small (z : Z) : 0 <= z < 2 ^ 64 -> size_t z = z.
Proof. intros Hz. unfold size_t. apply Z.mod_small. exact Hz. Qed.

Lemma size_t_add_l (a b : Z) : size_t (size_t a + b) = size_t (a + b).
Proof. unfold size_t. apply Zplus_mod_idemp_l. Qed.

Lemma u16_small (z : Z) : 0 <= z < 2 ^ 16 -> u16 z = z.
Proof. intros Hz. unfold u16. apply Z.mod_small. exact Hz. Qed.

Lemma u16_range (z : Z) : 0 <= u16 z < 2 ^ 16.
Proof. unfold u16. apply Z.mod_pos_bound. lia. Qed.

Lemma u32_small (z : Z) : 0 <= z < 2 ^ 32 -> u32 z = z.
Proof. intros Hz. unfold u32. apply Z.mod_small. exact Hz. Qed.

Lemma int_small (z : Z) : - 2 ^ 31 <= z < 2 ^ 31 -> int z = z.
Proof. intros Hz. unfold int. rewrite Z.mod_small; lia. Qed.

Lemma SCTP_PAD4_bounds (s : Z) : s <= SCTP_PAD4 s <= s + 3.
Proof.
  unfold SCTP_PAD4.
  pose proof (Z.div_mod (s + 3) 4 ltac:(lia)) as Hd.
  pose proof (Z.mod_pos_bound (s + 3) 4 ltac:(lia)) as Hm.
  lia.
Qed.

Lemma SCTP_PAD4_multiple (s : Z) : SCTP_PAD4 s mod 4 = 0.
Proof. unfold SCTP_PAD4. apply Z.mod_mul. lia. Qed.

(** The rounding is the one the C macro computes, ((s)+3)&~3. *)
Lemma SCTP_PAD4_mask (s : Z) : SCTP_PAD4 s = Z.land (s + 3) (Z.lnot 3).
Proof.
  unfold SCTP_PAD4.
  replace (Z.lnot 3) with (Z.lnot (Z.ones 2)) by reflexivity.
  rewrite <- Z.ldiff_land, Z.ldiff_ones_r by lia.
  rewrite Z.shiftr_div_pow2, Z.shiftl_mul_pow2 by lia.
  reflexivity.
Qed.

Lemma SCTP_PAD4_u16 (s : Z) : 0 <= s <= 65532 -> u16 (SCTP_PAD4 s) = SCTP_PAD4 s.
Proof.
  intros Hs. apply u16_small.
  pose proof (SCTP_PAD4_bounds s) as Hb.
  pose proof (SCTP_PAD4_multiple s) as Hm.
  split; [lia|].
  destruct (Z.eq_dec (SCTP_PAD4 s) 65533) as [E|]; [rewrite E in Hm; discriminate|].
  destruct (Z.eq_dec (SCTP_PAD4 s) 65534) as [E|]; [rewrite E in Hm; discriminate|].
  destruct (Z.eq_dec (SCTP_PAD4 s) 65535) as [E|]; [rewrite E in Hm; discriminate|].
  lia.
Qed.

(** ** Reasoning about the monad *)

Section Triples.

Lemma triple_ret {A : Type} (P : world -> Prop) (a : A) (Q : A -> world -> Prop) :
  (forall w, P w -> Q a w) -> triple P (ret a) Q.
Proof. intros HQ w Hw. apply HQ, Hw. Qed.

Lemma triple_bind {A B : Type} (P : world -> Prop) (m : M A) (k : A -> M B)
    (R : A -> world -> Prop) (Q : B -> world -> Prop) :
  triple P m R -> (forall a, triple (R a) (k a) Q) -> triple P (bind m k) Q.
Proof.
  intros Hm Hk w Hw. unfold bind.
  specialize (Hm w Hw). destruct (m w) as [a w'|f]; [|exact I].
  apply (Hk a w' Hm).
Qed.

Lemma triple_weaken {A : Type} (P P' : world -> Prop) (m : M A)
    (Q Q' : A -> world -> Prop) :
  triple P' m Q' -> (forall w, P w -> P' w) -> (forall a w, Q' a w -> Q a w) ->
  triple P m Q.
Proof.
  intros Hm HP HQ w Hw. specialize (Hm w (HP w Hw)).
  destruct (m w); auto.
Qed.

Lemma triple_done {A : Type} (P : world -> Prop) (m : M A) (Q : A -> world -> Prop)
    (w w' : world) (a : A) :
  triple P m Q -> P w -> m w = Done a w' -> Q a w'.
Proof. intros Hm Hw E. specialize (Hm w Hw). rewrite E in Hm. exact Hm. Qed.

Lemma triple_if {A : Type} (b : bool) (P : world -> Prop) (m1 m2 : M A)
    (Q : A -> world -> Prop) :
  (b = true -> triple P m1 Q) -> (b = false -> triple P m2 Q) ->
  triple P (if b then m1 else m2) Q.
Proof. destruct b; auto. Qed.

End Triples.

Lemma keeps_ret {A : Type} (I : sctp_packet -> Prop) (a : A) : keeps I (ret a).
Proof. apply triple_ret. auto. Qed.

Lemma keeps_bind {A B : Type} (I : sctp_packet -> Prop) (m : M A) (k : A -> M B) :
  keeps I m -> (forall a, keeps I (k a)) -> keeps I (bind m k).
Proof. intros Hm Hk. eapply triple_bind; [exact Hm|]. intros a. apply Hk. Qed.

Lemma keeps_if {A : Type} (I : sctp_packet -> Prop) (b : bool) (m1 m2 : M A) :
  keeps I m1 -> keeps I m2 -> keeps I (if b then m1 else m2).
Proof. destruct b; auto. Qed.

Lemma keeps_free (I : sctp_packet -> Prop) (c : sctp_chunk) : keeps I (sctp_chunk_free c).
Proof. intros w Hw. exact Hw. Qed.

(** ** What the admission test leaves of the packet *)

Lemma will_fit_cases (p : sctp_packet) (c : sctp_chunk) (len : Z) :
  sctp_packet_will_fit p c len = (SCTP_XMIT_OK, p) \/
  sctp_packet_will_fit p c len = (SCTP_XMIT_OK, set_ipfragok true p) \/
  (sctp_packet_will_fit p c len = (SCTP_XMIT_PMTU_FULL, p) /\
   sctp_packet_empty p = false).
Proof.
  unfold sctp_packet_will_fit.
  destruct (size_t (size p + len) >? _); [|left; reflexivity].
  destruct (sctp_packet_empty p) eqn:Ee; cbn [orb]; [right; left; reflexivity|].
  destruct (negb (has_data p) && c_auth c); [right; left; reflexivity|].
  repeat match goal with
         | |- context [if ?b then _ else _] => destruct b
         end; auto.
Qed.

(** An admitted chunk leaves every field of the packet but [ipfragok]. *)
Lemma will_fit_frame (p : sctp_packet) (c : sctp_chunk) (len : Z) :
  (sctp_packet_will_fit p c len = (SCTP_XMIT_PMTU_FULL, p) /\
   sctp_packet_empty p = false) \/
  exists p', sctp_packet_will_fit p c len = (SCTP_XMIT_OK, p') /\
    overhead p' = overhead p /\ chunk_list p' = chunk_list p /\
    size p' = size p /\ max_size p' = max_size p /\
    has_data p' = has_data p /\ has_sack p' = has_sack p /\
    has_auth p' = has_auth p /\ transport p' = transport p.
Proof.
  destruct (will_fit_cases p c len) as [E | [E | (E & He)]]; rewrite E; auto;
    right; eexists; (split; [reflexivity|]); cbn; auto 10.
Qed.

Lemma set_pkt_same (w : world) : set_pkt (pkt w) w = w.
Proof. destruct w; reflexivity. Qed.

Lemma same_env_refl (w : world) : same_env w w.
Proof. unfold same_env. auto. Qed.

Lemma same_env_trans (w1 w2 w3 : world) :
  same_env w1 w2 -> same_env w2 w3 -> same_env w1 w3.
Proof. unfold same_env. intuition congruence. Qed.

Lemma same_wire_refl (c : sctp_chunk) : same_wire c c.
Proof. unfold same_wire. auto. Qed.

Lemma same_wire_trans (a b c : sctp_chunk) :
  same_wire a b -> same_wire b c -> same_wire a c.
Proof. unfold same_wire. intuition congruence. Qed.

Section AppendFacts.
Context `{Collaborators}.

Lemma assign_tsn_wire (a : sctp_association) (c : sctp_chunk) :
  same_wire c (sctp_chunk_assign_tsn a c).
Proof. unfold sctp_chunk_assign_tsn, same_wire. destruct (c_has_tsn c); cbn; auto. Qed.

Lemma assign_ssn_wire (a : sctp_association) (c : sctp_chunk) :
  same_wire c (sctp_chunk_assign_ssn a c).
Proof. unfold sctp_chunk_assign_ssn, same_wire. destruct (c_has_ssn c); cbn; auto. Qed.

(** The accounting of a DATA chunk touches the transport and the
    association only, and keeps the association in place. *)
Lemma append_data_effect (c c' : sctp_chunk) (w w' : world) :
  sctp_packet_append_data c w = Done c' w' ->
  same_wire c c' /\
  exists tp, w' = set_pkt (set_transport tp (pkt w)) w /\
             tp_asoc tp <> None /\ tp_asoc (transport (pkt w)) <> None.
Proof.
  unfold sctp_packet_append_data, bind, get_packet, deref_asoc, put_packet, ret.
  destruct (tp_asoc (transport (pkt w))) as [a|]; [|discriminate].
  intros E. injection E as <- <-. split.
  - eapply same_wire_trans; [|apply assign_ssn_wire].
    eapply same_wire_trans; [|apply assign_tsn_wire].
    destruct (negb _); cbn; unfold same_wire; cbn; auto.
  - eexists. split; [reflexivity|]. cbn. split; discriminate.
Qed.

(** A raw append either refuses with PMTU_FULL and leaves the world as it
    was, or admits the chunk at the tail of the list. *)
Lemma append_raw_effect (c : sctp_chunk) (v : sctp_xmit_t) (w w' : world) :
  __sctp_packet_append_chunk c w = Done v w' ->
  (v = SCTP_XMIT_PMTU_FULL /\ w' = w /\ sctp_packet_empty (pkt w) = false) \/
  (v = SCTP_XMIT_OK /\ exists c', raw_step c c' w w').
Proof.
  unfold __sctp_packet_append_chunk.
  fold (chunk_len16 c). set (len := chunk_len16 c).
  unfold bind at 1, get_packet at 1.
  destruct (will_fit_frame (pkt w) c len) as [(E & He) | (p & E & Hfr)]; rewrite E;
    unfold bind at 1, put_packet at 1; cbn [xmit_is_ok negb].
  { unfold ret. intros E'. injection E' as <- <-. left.
    split; [reflexivity|]. split; [apply set_pkt_same|exact He]. }
  destruct Hfr as (Ho & Hl & Hs & Hm & Hd & Hk & Ha & Ht).
  clear E. unfold bind at 1.
  match goal with |- context [match ?m (set_pkt p w) with _ => _ end] =>
    assert (Hsw : match m (set_pkt p w) with
                  | Done c' w1 =>
                      same_wire c c' /\ overhead (pkt w1) = overhead p /\
                      chunk_list (pkt w1) = chunk_list p /\
                      size (pkt w1) = size p /\ max_size (pkt w1) = max_size p /\
                      has_data (pkt w1) = has_data p || sctp_chunk_is_data c /\
                      has_sack (pkt w1) =
                        has_sack p || sctp_chunk_is_data c || is_sack_cid (c_type c) /\
                      has_auth (pkt w1) =
                        has_auth p || sctp_chunk_is_data c || is_auth_cid (c_type c) /\
                      has_asoc (pkt w1) = has_asoc p /\
                      same_env w w1 /\ freed w1 = freed w
                  | Fault _ => True
                  end);
    [|destruct (m (set_pkt p w)) as [c1 w1|] eqn:Esw; [|discriminate]]
  end.
  { unfold sctp_chunk_is_data; destruct (c_type c) eqn:Et;
      try (unfold bind, get_packet, put_packet, ret; cbn;
           unfold same_wire, same_env; cbn;
           rewrite ?orb_false_r, ?orb_true_r; repeat split; reflexivity).
    - unfold bind at 1.
      destruct (sctp_packet_append_data c (set_pkt p w)) as [c1 w1|] eqn:Ed; [|exact I].
      apply append_data_effect in Ed. destruct Ed as (Hw1 & tp & -> & Hsome & Hsome').
      unfold bind, get_packet, put_packet, get_jiffies, ret. cbn.
      unfold has_asoc. cbn. cbn in Hsome'.
      destruct (tp_asoc tp); [|congruence].
      destruct (tp_asoc (transport p)); [|congruence].
      rewrite ?orb_true_r.
      split; [unfold same_wire in *; cbn; exact Hw1|].
      unfold same_env; cbn; repeat split; reflexivity.
    - unfold bind, get_packet, put_packet, put_asoc, ret, has_asoc. cbn.
      destruct (c_has_asoc c); destruct (tp_asoc (transport p)) eqn:Easoc;
        cbn; rewrite ?Easoc; unfold same_wire, same_env; cbn;
        rewrite ?orb_false_r, ?orb_true_r; repeat split; reflexivity. }
  destruct Hsw as (Hw1 & Ho1 & Hl1 & Hs1 & Hm1 & Hd1 & Hk1 & Ha1 & Hasoc1 & Henv1 & Hfreed1).
  unfold bind, get_packet, put_packet, ret. intros E. injection E as <- <-.
  right. split; [reflexivity|].
  exists (set_c_transport (Some (tp_addr (transport (pkt w1)))) c1).
  assert (Hasoc0 : has_asoc p = has_asoc (pkt w))
    by (unfold has_asoc; rewrite Ht; reflexivity).
  constructor;
    [ unfold same_wire in *; cbn; exact Hw1
    | cbn; destruct (is_auth_cid (c_type c1)); cbn; congruence
    | cbn; destruct (is_auth_cid (c_type c1)); cbn; subst len; congruence
    | cbn; destruct (is_auth_cid (c_type c1)); cbn; congruence
    | cbn; destruct (is_auth_cid (c_type c1)); cbn; congruence
    | cbn; destruct (is_auth_cid (c_type c1)); cbn; congruence
    | cbn; destruct (is_auth_cid (c_type c1)); cbn; congruence
    | cbn; destruct (is_auth_cid (c_type c1)); cbn; congruence
    | cbn; destruct (is_auth_cid (c_type c1)); cbn; unfold has_asoc in *; cbn; congruence
    | unfold same_env in *; cbn; exact Henv1
    | cbn; exact Hfreed1 ].
Qed.

End AppendFacts.

(** ** The bundlers and the public append, step by step *)

Lemma quiet_refl (w : world) : quiet w w.
Proof.
  exists (transport (pkt w)), (freed w). split; [|reflexivity].
  destruct w as [p ? ? ? ? ? ?]. destruct p. reflexivity.
Qed.

Lemma quiet_trans (w1 w2 w3 : world) : quiet w1 w2 -> quiet w2 w3 -> quiet w1 w3.
Proof.
  intros (tp & fr & -> & H1) (tp' & fr' & -> & H2).
  exists tp', fr'. split; [reflexivity|]. cbn in *. congruence.
Qed.

Lemma quiet_free (c : sctp_chunk) (w : world) :
  quiet w (set_freed (c_addr c :: freed w) w).
Proof.
  exists (transport (pkt w)), (c_addr c :: freed w). split; [|reflexivity].
  destruct w as [p ? ? ? ? ? ?]. destruct p. reflexivity.
Qed.

Lemma quiet_put_asoc (a : sctp_association) (w : world) :
  has_asoc (pkt w) = true ->
  quiet w (set_pkt (set_transport (set_tp_asoc (Some a) (transport (pkt w))) (pkt w)) w).
Proof.
  intros Ha. eexists _, (freed w). split.
  - destruct w; reflexivity.
  - cbn. unfold has_asoc in *. cbn. auto.
Qed.

(** What a quiet step leaves of the packet. *)
Lemma quiet_packet (w w' : world) :
  quiet w w' ->
  chunk_list (pkt w') = chunk_list (pkt w) /\ size (pkt w') = size (pkt w) /\
  overhead (pkt w') = overhead (pkt w) /\ max_size (pkt w') = max_size (pkt w) /\
  has_data (pkt w') = has_data (pkt w) /\ has_sack (pkt w') = has_sack (pkt w) /\
  has_auth (pkt w') = has_auth (pkt w) /\
  has_cookie_echo (pkt w') = has_cookie_echo (pkt w) /\
  ipfragok (pkt w') = ipfragok (pkt w) /\ auth (pkt w') = auth (pkt w) /\
  same_env w w'.
Proof.
  intros (tp & fr & -> & _). cbn. unfold same_env. cbn. repeat split; reflexivity.
Qed.

Lemma quiet_empty (w w' : world) :
  quiet w w' -> sctp_packet_empty (pkt w') = sctp_packet_empty (pkt w).
Proof.
  intros Hq. apply quiet_packet in Hq. destruct Hq as (_ & Hs & Ho & _).
  unfold sctp_packet_empty. rewrite Hs, Ho. reflexivity.
Qed.

Section PublicAppend.
Context `{Collaborators}.

(** The DATA admission test only reads. *)
Lemma can_append_data_reads (c : sctp_chunk) (v : sctp_xmit_t) (w w' : world) :
  sctp_packet_can_append_data c w = Done v w' ->
  w' = w /\ v <> SCTP_XMIT_PMTU_FULL.
Proof.
  unfold sctp_packet_can_append_data, bind, get_packet, deref_asoc, get_sk, ret.
  destruct (tp_asoc (transport (pkt w))); [|discriminate].
  repeat match goal with
         | |- context [if ?b then _ else _] => destruct b
         end; intros E; injection E as <- <-; split; (reflexivity || discriminate).
Qed.

Lemma bundle_auth_effect (c : sctp_chunk) (v : sctp_xmit_t) (w w' : world) :
  sctp_packet_bundle_auth c w = Done v w' ->
  phase sctp_make_auth has_auth w w' /\
  (v = SCTP_XMIT_OK \/
   (v = SCTP_XMIT_PMTU_FULL /\ quiet w w' /\ sctp_packet_empty (pkt w') = false)).
Proof.
  unfold sctp_packet_bundle_auth. unfold bind at 1, get_packet at 1.
  destruct (tp_asoc (transport (pkt w))) as [a|] eqn:Ea.
  2:{ intros E. injection E as <- <-. split; [apply phase_quiet, quiet_refl|auto]. }
  destruct (is_auth_cid (c_type c)); cbn [orb].
  { intros E. injection E as <- <-. split; [apply phase_quiet, quiet_refl|auto]. }
  destruct (has_auth (pkt w)) eqn:Hau.
  { intros E. injection E as <- <-. split; [apply phase_quiet, quiet_refl|auto]. }
  destruct (negb (c_auth c)).
  { intros E. injection E as <- <-. split; [apply phase_quiet, quiet_refl|auto]. }
  destruct (sctp_make_auth a) as [b|] eqn:Eb.
  2:{ intros E. injection E as <- <-. split; [apply phase_quiet, quiet_refl|auto]. }
  unfold bind at 1.
  destruct (__sctp_packet_append_chunk b w) as [r w1|] eqn:Er; [|discriminate].
  apply append_raw_effect in Er.
  destruct Er as [(-> & -> & He) | (-> & b' & Hstep)]; cbn [xmit_is_ok negb];
    unfold bind, sctp_chunk_free, ret; intros E; injection E as <- <-.
  - split; [apply phase_quiet, quiet_free|]. right. split; [reflexivity|].
    split; [apply quiet_free|exact He].
  - split; [|auto].
    eapply phase_bundle; eauto using quiet_refl.
Qed.

Lemma bundle_sack_effect (c : sctp_chunk) (v : sctp_xmit_t) (w w' : world) :
  sctp_packet_bundle_sack c w = Done v w' ->
  phase sctp_make_sack has_sack w w' /\
  (v = SCTP_XMIT_OK \/
   (v = SCTP_XMIT_PMTU_FULL /\ quiet w w' /\ sctp_packet_empty (pkt w') = false)).
Proof.
  unfold sctp_packet_bundle_sack. unfold bind at 1, get_packet at 1.
  destruct (sctp_chunk_is_data c); cbn [andb].
  2:{ intros E. injection E as <- <-. split; [apply phase_quiet, quiet_refl|auto]. }
  destruct (has_sack (pkt w)) eqn:Hsa; cbn [negb andb].
  { intros E. injection E as <- <-. split; [apply phase_quiet, quiet_refl|auto]. }
  destruct (has_cookie_echo (pkt w)); cbn [negb].
  { intros E. injection E as <- <-. split; [apply phase_quiet, quiet_refl|auto]. }
  unfold bind at 1, deref_asoc at 1.
  destruct (tp_asoc (transport (pkt w))) as [a|] eqn:Ea; [|discriminate].
  destruct (a_sack_timer_pending a).
  2:{ intros E. injection E as <- <-. split; [apply phase_quiet, quiet_refl|auto]. }
  destruct (negb _).
  { intros E. injection E as <- <-. split; [apply phase_quiet, quiet_refl|auto]. }
  unfold bind at 1, put_asoc at 1.
  assert (Hq0 : quiet w (set_pkt (set_transport
                  (set_tp_asoc (Some (set_a_a_rwnd (a_rwnd a) a)) (transport (pkt w)))
                  (pkt w)) w)).
  { apply quiet_put_asoc. unfold has_asoc. rewrite Ea. reflexivity. }
  set (w0 := set_pkt _ w) in *.
  destruct (sctp_make_sack _) as [b|] eqn:Eb.
  2:{ intros E. injection E as <- <-. split; [apply phase_quiet, Hq0|auto]. }
  unfold bind at 1.
  destruct (__sctp_packet_append_chunk b w0) as [r w1|] eqn:Er; [|discriminate].
  apply append_raw_effect in Er.
  destruct Er as [(-> & -> & He) | (-> & b' & Hstep)]; cbn [xmit_is_ok negb].
  - unfold bind, sctp_chunk_free, ret. intros E. injection E as <- <-.
    assert (Hq : quiet w (set_freed (c_addr b :: freed w0) w0))
      by (eapply quiet_trans; [exact Hq0|apply quiet_free]).
    split; [apply phase_quiet, Hq|]. right. split; [reflexivity|].
    split; [exact Hq|exact He].
  - unfold bind at 1, deref_asoc at 1.
    destruct (tp_asoc (transport (pkt w1))) as [a1|] eqn:Ea1; [|discriminate].
    unfold bind, put_asoc, ret. intros E. injection E as <- <-.
    split; [|auto].
    eapply phase_bundle; [exact Hsa|exact Eb|exact Hq0|exact Hstep|].
    apply quiet_put_asoc. unfold has_asoc. rewrite Ea1. reflexivity.
Qed.

(** The public append: an AUTH phase, a SACK phase, and then the chunk
    itself goes in by a raw append or the world stays as the phases left
    it. *)
Lemma append_chunk_effect (c : sctp_chunk) (v : sctp_xmit_t) (w w' : world) :
  sctp_packet_append_chunk c w = Done v w' ->
  exists w1 w2,
    phase sctp_make_auth has_auth w w1 /\
    phase sctp_make_sack has_sack w1 w2 /\
    ((v <> SCTP_XMIT_OK /\ w' = w2 /\
      (v = SCTP_XMIT_PMTU_FULL -> sctp_packet_empty (pkt w') = false)) \/
     (v = SCTP_XMIT_OK /\ exists c', raw_step c c' w2 w')).
Proof.
  unfold sctp_packet_append_chunk. unfold bind at 1.
  match goal with |- context [match ?m w with _ => _ end] =>
    assert (Hcan : match m w with
                   | Done r w0 => w0 = w /\ r <> SCTP_XMIT_PMTU_FULL
                   | Fault _ => True
                   end);
    [|destruct (m w) as [r w0|]; [destruct Hcan as (-> & Hr0)|discriminate]]
  end.
  { destruct (sctp_chunk_is_data c); [|split; [reflexivity|discriminate]].
    destruct (sctp_packet_can_append_data c w) eqn:E; [|exact I].
    eapply can_append_data_reads, E. }
  destruct (xmit_is_ok r) eqn:Hr; cbn [negb].
  2:{ intros E. injection E as <- <-. exists w, w.
      split; [apply phase_quiet, quiet_refl|].
      split; [apply phase_quiet, quiet_refl|].
      left. split; [intros ->; discriminate|]. split; [reflexivity|].
      intros ->. contradiction. }
  unfold bind at 1.
  destruct (sctp_packet_bundle_auth c w) as [r1 w1|] eqn:E1; [|discriminate].
  apply bundle_auth_effect in E1. destruct E1 as (Hp1 & Hv1).
  destruct (xmit_is_ok r1) eqn:Hr1; cbn [negb].
  2:{ intros E. injection E as <- <-. exists w1, w1.
      split; [exact Hp1|]. split; [apply phase_quiet, quiet_refl|].
      left. split; [intros ->; discriminate|]. split; [reflexivity|].
      intros _. destruct Hv1 as [-> | (_ & _ & He)]; [discriminate|exact He]. }
  unfold bind at 1.
  destruct (sctp_packet_bundle_sack c w1) as [r2 w2|] eqn:E2; [|discriminate].
  apply bundle_sack_effect in E2. destruct E2 as (Hp2 & Hv2).
  destruct (xmit_is_ok r2) eqn:Hr2; cbn [negb].
  2:{ intros E. injection E as <- <-.
      exists w1, w2. split; [exact Hp1|]. split; [exact Hp2|].
      left. split; [intros ->; discriminate|]. split; [reflexivity|].
      intros _. destruct Hv2 as [-> | (_ & _ & He)]; [discriminate|exact He]. }
  intros E. apply append_raw_effect in E.
  exists w1, w2. split; [exact Hp1|]. split; [exact Hp2|].
  destruct E as [(-> & -> & He) | (-> & c' & Hstep)].
  - left. split; [discriminate|]. split; [reflexivity|]. intros _. exact He.
  - right. split; [reflexivity|]. exists c'. exact Hstep.
Qed.

End PublicAppend.

(** ** The size invariant *)

Lemma size_inv_started (p : sctp_packet) : started p -> size_inv p.
Proof.
  intros [p0 tp sport dport | p0 Hl Ho]; unfold size_inv; cbn.
  - split; [apply size_t_range|].
    rewrite Z.add_0_r. symmetry. apply size_t_small, size_t_range.
  - rewrite Hl. cbn. rewrite Z.add_0_r. split; [exact Ho|].
    symmetry. apply size_t_small, Ho.
Qed.

Lemma len16_sum_app (l : list sctp_chunk) (c : sctp_chunk) :
  len16_sum (l ++ [c]) = len16_sum l + chunk_len16 c.
Proof. unfold len16_sum. induction l as [|x l IH]; cbn; lia. Qed.

Lemma size_inv_quiet (w w' : world) : quiet w w' -> size_inv (pkt w) -> size_inv (pkt w').
Proof.
  intros Hq. apply quiet_packet in Hq. destruct Hq as (Hl & Hs & Ho & _).
  unfold size_inv. rewrite Hl, Hs, Ho. auto.
Qed.

Lemma size_inv_raw_step (c c' : sctp_chunk) (w w' : world) :
  raw_step c c' w w' -> size_inv (pkt w) -> size_inv (pkt w').
Proof.
  intros [Hw Hl Hs Ho _ _ _ _ _ _ _] (Hr & Hi). unfold size_inv.
  rewrite Ho, Hs, Hl, Hi, len16_sum_app. split; [exact Hr|].
  rewrite size_t_add_l. f_equal.
  destruct Hw as (_ & _ & Hlen & _). unfold chunk_len16. rewrite Hlen. lia.
Qed.

Lemma size_inv_phase (make : sctp_association -> option sctp_chunk)
    (flag : sctp_packet -> bool) (w w' : world) :
  phase make flag w w' -> size_inv (pkt w) -> size_inv (pkt w').
Proof.
  intros [Hq | a b b' w0 w1 _ _ Hq0 Hstep Hq1] Hi.
  - eapply size_inv_quiet; eauto.
  - eapply size_inv_quiet; [exact Hq1|].
    eapply size_inv_raw_step; [exact Hstep|].
    eapply size_inv_quiet; eauto.
Qed.

Section SizeInvariant.
Context `{Collaborators}.

Lemma size_inv_op (op : append_op) (v : sctp_xmit_t) (w w' : world) :
  do_op op w = Done v w' -> size_inv (pkt w) -> size_inv (pkt w').
Proof.
  destruct op as [c | c]; cbn [do_op]; intros E Hi.
  - apply append_chunk_effect in E.
    destruct E as (w1 & w2 & Hp1 & Hp2 & [(_ & -> & _) | (_ & c' & Hstep)]).
    + eapply size_inv_phase; [exact Hp2|]. eapply size_inv_phase; eauto.
    + eapply size_inv_raw_step; [exact Hstep|].
      eapply size_inv_phase; [exact Hp2|]. eapply size_inv_phase; eauto.
  - apply append_raw_effect in E.
    destruct E as [(_ & -> & _) | (_ & c' & Hstep)]; [exact Hi|].
    eapply size_inv_raw_step; eauto.
Qed.

(** In [size_t] arithmetic and with the 16-bit chunk lengths the code adds,
    the invariant holds after every sequence of appends. *)
Lemma size_inv_run (ops : list append_op) (vs : list sctp_xmit_t) (w w' : world) :
  run_ops ops w = Done vs w' -> size_inv (pkt w) -> size_inv (pkt w').
Proof.
  revert vs w. induction ops as [|op ops IH]; intros vs w; cbn [run_ops].
  - unfold ret. intros E. injection E as <- <-. auto.
  - unfold bind at 1. destruct (do_op op w) as [v w1|] eqn:Eop; [|discriminate].
    unfold bind at 1. destruct (run_ops ops w1) as [vs1 w2|] eqn:Erun; [|discriminate].
    unfold ret. intros E. injection E as <- <-. intros Hi.
    eapply IH; [exact Erun|]. eapply size_inv_op; eauto.
Qed.

End SizeInvariant.

Lemma len16_sum_padded (l : list sctp_chunk) :
  Forall (fun c => 0 <= c_length c <= 65532) l ->
  len16_sum l = padded_sum l /\ 0 <= padded_sum l.
Proof.
  unfold len16_sum, padded_sum.
  induction 1 as [|c l Hc _ IH]; cbn; [lia|].
  destruct IH as (IH1 & IH2). unfold chunk_len16, padded_length in *.
  rewrite IH1, (SCTP_PAD4_u16 _ Hc).
  pose proof (SCTP_PAD4_bounds (c_length c)). lia.
Qed.

(** The size invariant of C1 where the code keeps it: from a packet fresh
    from sctp_packet_init, or drained and reset, and after any sequence of
    append operations, [size] equals [overhead] plus the sum of the
    4-byte-padded lengths of the chunks in chunk_list, as long as every
    chunk in the list has a raw length of at most 65532 (its padded length
    fits the 16-bit [chunk_len]) and the total stays below 2^64.  Beyond
    that length the 16-bit [chunk_len] loses the padded length. *)
Theorem C1_size_is_overhead_plus_padded_chunks `{Collaborators}
    (ops : list append_op) (vs : list sctp_xmit_t) (w w' : world) :
  started (pkt w) ->
  run_ops ops w = Done vs w' ->
  Forall (fun c => 0 <= c_length c <= 65532) (chunk_list (pkt w')) ->
  overhead (pkt w') + padded_sum (chunk_list (pkt w')) < 2 ^ 64 ->
  size (pkt w') = overhead (pkt w') + padded_sum (chunk_list (pkt w')).
Proof.
  intros Hstart Hrun Hlen Hsum.
  apply size_inv_started in Hstart.
  destruct (size_inv_run _ _ _ _ Hrun Hstart) as (Ho & Hs).
  destruct (len16_sum_padded _ Hlen) as (E & Hpos).
  rewrite Hs, E. apply size_t_small. lia.
Qed.

(** The theorem at work: a DATA chunk of 100 bytes and a HEARTBEAT of 38
    on a fresh packet give a size of 32 + 100 + 40. *)
Lemma C1_size_witness :
  size (pkt (Sample.after [Append (Sample.chunk 1 SCTP_CID_DATA 100);
                           Append (Sample.chunk 2 SCTP_CID_HEARTBEAT 38)] Sample.w0))
  = 172.
Proof.
  set (ops := [Append (Sample.chunk 1 SCTP_CID_DATA 100);
               Append (Sample.chunk 2 SCTP_CID_HEARTBEAT 38)]).
  rewrite (@C1_size_is_overhead_plus_padded_chunks Sample.demo ops
             (Sample.verdicts ops Sample.w0) Sample.w0 (Sample.after ops Sample.w0)).
  - vm_compute. reflexivity.
  - apply started_init.
  - vm_compute. reflexivity.
  - vm_compute. repeat constructor; discriminate.
  - vm_compute. reflexivity.
Defined.

(** C1, at the failing input: a chunk whose raw length is 65535 pads to
    65536, which the 16-bit [chunk_len] holds as 0; the chunk is admitted
    to the fresh packet and [size] stays at the overhead, 32, while
    overhead plus padded lengths is 65568.  The emitter sizes its buffer
    by [size], pads the same chunk in an int, and stops in skb_over_panic
    when it copies the 65536 bytes. *)
Lemma C1_long_chunk_counterexample :
  started (pkt Sample.w0) /\
  @run_ops Sample.demo [Append (Sample.chunk 1 SCTP_CID_HEARTBEAT 65535)] Sample.w0
  = Done [SCTP_XMIT_OK]
      (Sample.after [Append (Sample.chunk 1 SCTP_CID_HEARTBEAT 65535)] Sample.w0) /\
  map c_length
    (chunk_list (pkt (Sample.after [Append (Sample.chunk 1 SCTP_CID_HEARTBEAT 65535)]
                        Sample.w0))) = [65535] /\
  size (pkt (Sample.after [Append (Sample.chunk 1 SCTP_CID_HEARTBEAT 65535)] Sample.w0))
  = 32 /\
  overhead (pkt (Sample.after [Append (Sample.chunk 1 SCTP_CID_HEARTBEAT 65535)]
                   Sample.w0))
  + padded_sum
      (chunk_list (pkt (Sample.after [Append (Sample.chunk 1 SCTP_CID_HEARTBEAT 65535)]
                          Sample.w0)))
  = 65568 /\
  @sctp_packet_transmit Sample.demo
    (Sample.after [Append (Sample.chunk 1 SCTP_CID_HEARTBEAT 65535)] Sample.w0)
  = Fault SkbOverPanic.
Proof.
  split; [apply started_init|].
  split; [vm_compute; reflexivity|].
  split; [vm_compute; reflexivity|].
  split; [vm_compute; reflexivity|].
  split; vm_compute; reflexivity.
Qed.

(** ** SACK and AUTH behind DATA *)

Lemma sack_or_auth_after_app (b : bool) (l : list sctp_chunk) (c : sctp_chunk) :
  sack_or_auth_after b (l ++ [c]) =
  sack_or_auth_after b l
  || ((b || existsb sctp_chunk_is_data l) && is_sack_or_auth c).
Proof.
  revert b. induction l as [|x l IH]; intros b; cbn.
  - rewrite !orb_false_r. reflexivity.
  - rewrite IH. destruct b, (is_sack_or_auth x), (sctp_chunk_is_data x),
      (sack_or_auth_after _ l), (existsb _ l), (is_sack_or_auth c); reflexivity.
Qed.

Lemma same_wire_kind (c c' : sctp_chunk) :
  same_wire c c' ->
  sctp_chunk_is_data c' = sctp_chunk_is_data c /\
  is_sack_or_auth c' = is_sack_or_auth c.
Proof.
  intros (_ & Ht & _). unfold sctp_chunk_is_data, is_sack_or_auth.
  rewrite Ht. auto.
Qed.

Lemma order_inv_started (p : sctp_packet) : started p -> order_inv p.
Proof.
  intros [p0 tp sport dport | p0 Hl Ho]; unfold order_inv; cbn.
  - repeat split; discriminate.
  - rewrite Hl. cbn. repeat split; discriminate.
Qed.

Lemma order_inv_quiet (w w' : world) :
  quiet w w' -> order_inv (pkt w) -> order_inv (pkt w').
Proof.
  intros Hq. apply quiet_packet in Hq.
  destruct Hq as (Hl & _ & _ & _ & Hd & Hs & Ha & _).
  unfold order_inv. rewrite Hl, Hd, Hs, Ha. auto.
Qed.

(** A raw append keeps the order as long as no SACK or AUTH chunk comes to
    a packet whose [has_data] is set. *)
Lemma order_inv_raw_step (c c' : sctp_chunk) (w w' : world) :
  raw_step c c' w w' ->
  (has_data (pkt w) = true -> is_sack_or_auth c = false) ->
  order_inv (pkt w) -> order_inv (pkt w').
Proof.
  intros [Hw Hl _ _ _ Hd Hs Ha _ _ _] Hok (Hord & Hex & Hfl).
  apply same_wire_kind in Hw. destruct Hw as (Hkd & Hka).
  unfold order_inv, sack_or_auth_after_data in *.
  rewrite Hl, Hd, Hs, Ha, sack_or_auth_after_app, existsb_app, Hord. cbn.
  rewrite Hkd, Hka, orb_false_r.
  destruct (existsb sctp_chunk_is_data (chunk_list (pkt w))) eqn:Eex.
  - specialize (Hex eq_refl). rewrite Hex in *.
    destruct (Hfl eq_refl) as (-> & ->). rewrite (Hok eq_refl). cbn. auto.
  - cbn. destruct (sctp_chunk_is_data c) eqn:Ed; rewrite ?orb_true_r, ?orb_false_r.
    + cbn. auto.
    + split; [reflexivity|]. split; [discriminate|].
      intros Hd'. destruct (Hfl Hd') as (-> & ->). auto.
Qed.

Section Order.
Context `{Collaborators}.
Hypothesis make_auth_kind :
  forall a b, sctp_make_auth a = Some b -> c_type b = SCTP_CID_AUTH.
Hypothesis make_sack_kind :
  forall a b, sctp_make_sack a = Some b -> c_type b = SCTP_CID_SACK.

(** Once [has_data] is set, the AUTH bundler adds nothing; and what it
    adds never sets [has_data]. *)
Lemma order_inv_auth_phase (w w' : world) :
  phase sctp_make_auth has_auth w w' -> order_inv (pkt w) ->
  order_inv (pkt w') /\ has_data (pkt w') = has_data (pkt w).
Proof.
  intros [Hq | a b b' w0 w1 Hflag Hmake Hq0 Hstep Hq1] Hi.
  - split; [eapply order_inv_quiet; eauto|]. apply quiet_packet in Hq. tauto.
  - assert (Hnd : has_data (pkt w) = false).
    { destruct (has_data (pkt w)) eqn:E; [|reflexivity].
      destruct Hi as (_ & _ & Hfl). destruct (Hfl E) as (_ & Hau). congruence. }
    pose proof (quiet_packet _ _ Hq0) as Hp0.
    pose proof (quiet_packet _ _ Hq1) as Hp1.
    split.
    + eapply order_inv_quiet; [exact Hq1|].
      eapply order_inv_raw_step; [exact Hstep| |eapply order_inv_quiet; eauto].
      intros Hd. destruct Hp0 as (_ & _ & _ & _ & Hd0 & _). congruence.
    + destruct Hp0 as (_ & _ & _ & _ & Hd0 & _).
      destruct Hp1 as (_ & _ & _ & _ & Hd1 & _).
      rewrite Hd1, (rs_has_data _ _ _ _ Hstep), Hd0, Hnd.
      unfold sctp_chunk_is_data. rewrite (make_auth_kind _ _ Hmake). reflexivity.
Qed.

Lemma order_inv_sack_phase (w w' : world) :
  phase sctp_make_sack has_sack w w' -> order_inv (pkt w) ->
  order_inv (pkt w') /\ has_data (pkt w') = has_data (pkt w).
Proof.
  intros [Hq | a b b' w0 w1 Hflag Hmake Hq0 Hstep Hq1] Hi.
  - split; [eapply order_inv_quiet; eauto|]. apply quiet_packet in Hq. tauto.
  - assert (Hnd : has_data (pkt w) = false).
    { destruct (has_data (pkt w)) eqn:E; [|reflexivity].
      destruct Hi as (_ & _ & Hfl). destruct (Hfl E) as (Hsa & _). congruence. }
    pose proof (quiet_packet _ _ Hq0) as Hp0.
    pose proof (quiet_packet _ _ Hq1) as Hp1.
    split.
    + eapply order_inv_quiet; [exact Hq1|].
      eapply order_inv_raw_step; [exact Hstep| |eapply order_inv_quiet; eauto].
      intros Hd. destruct Hp0 as (_ & _ & _ & _ & Hd0 & _). congruence.
    + destruct Hp0 as (_ & _ & _ & _ & Hd0 & _).
      destruct Hp1 as (_ & _ & _ & _ & Hd1 & _).
      rewrite Hd1, (rs_has_data _ _ _ _ Hstep), Hd0, Hnd.
      unfold sctp_chunk_is_data. rewrite (make_sack_kind _ _ Hmake). reflexivity.
Qed.

Lemma order_inv_op (op : append_op) (v : sctp_xmit_t) (w w' : world) :
  do_op op w = Done v w' ->
  (has_data (pkt w) = true -> is_sack_or_auth (offered op) = false) ->
  order_inv (pkt w) -> order_inv (pkt w').
Proof.
  destruct op as [c | c]; cbn [do_op offered]; intros E Hok Hi.
  - apply append_chunk_effect in E.
    destruct E as (w1 & w2 & Hp1 & Hp2 & Hlast).
    destruct (order_inv_auth_phase _ _ Hp1 Hi) as (Hi1 & Hd1).
    destruct (order_inv_sack_phase _ _ Hp2 Hi1) as (Hi2 & Hd2).
    destruct Hlast as [(_ & -> & _) | (_ & c' & Hstep)]; [exact Hi2|].
    eapply order_inv_raw_step; [exact Hstep| |exact Hi2].
    intros Hd. apply Hok. congruence.
  - apply append_raw_effect in E.
    destruct E as [(_ & -> & _) | (_ & c' & Hstep)]; [exact Hi|].
    eapply order_inv_raw_step; eauto.
Qed.

Lemma order_inv_legal_run (ops : list append_op) (w w' : world) :
  legal_run ops w w' -> order_inv (pkt w) -> order_inv (pkt w').
Proof.
  induction 1 as [w | op ops v w w1 w2 Hok Hop _ IH]; intros Hi; [exact Hi|].
  apply IH. eapply order_inv_op; eauto.
Qed.

End Order.

Lemma run_legal_sound `{Collaborators} (ops : list append_op) (w w' : world) :
  run_legal ops w = Some w' -> legal_run ops w w'.
Proof.
  revert w. induction ops as [|op ops IH]; intros w; cbn [run_legal].
  - intros E. injection E as <-. constructor.
  - destruct (has_data (pkt w) && is_sack_or_auth (offered op)) eqn:Eok; [discriminate|].
    destruct (do_op op w) as [v w1|] eqn:Eop; [|discriminate].
    intros E. econstructor; [|exact Eop|apply IH, E].
    intros Hd. rewrite Hd in Eok. exact Eok.
Qed.

(** C2 as stated fails: a SACK chunk offered by sctp_packet_append_chunk to
    a packet that already holds DATA (has_data set) is admitted when it
    fits within the path MTU, and then sits behind the DATA chunk. *)
Lemma C2_direct_sack_counterexample :
  started (pkt Sample.w0) /\
  has_data (pkt (Sample.after [Append (Sample.chunk 1 SCTP_CID_DATA 100)] Sample.w0))
  = true /\
  Sample.verdicts [Append (Sample.chunk 1 SCTP_CID_DATA 100);
                   Append (Sample.chunk 2 SCTP_CID_SACK 16)] Sample.w0
  = [SCTP_XMIT_OK; SCTP_XMIT_OK] /\
  map c_type
    (chunk_list (pkt (Sample.after [Append (Sample.chunk 1 SCTP_CID_DATA 100);
                                    Append (Sample.chunk 2 SCTP_CID_SACK 16)]
                        Sample.w0)))
  = [SCTP_CID_DATA; SCTP_CID_SACK] /\
  sack_or_auth_after_data
    (chunk_list (pkt (Sample.after [Append (Sample.chunk 1 SCTP_CID_DATA 100);
                                    Append (Sample.chunk 2 SCTP_CID_SACK 16)]
                        Sample.w0)))
  = true.
Proof.
  split; [apply started_init|].
  split; [vm_compute; reflexivity|].
  split; [vm_compute; reflexivity|].
  split; vm_compute; reflexivity.
Qed.

(** ** The emitter: what every path leaves behind *)

Lemma stable_ret {A : Type} (I : world -> Prop) (a : A) : stable I (ret a).
Proof. apply triple_ret. auto. Qed.

Lemma stable_bind {A B : Type} (I : world -> Prop) (m : M A) (k : A -> M B) :
  stable I m -> (forall a, stable I (k a)) -> stable I (bind m k).
Proof. intros Hm Hk. eapply triple_bind; [exact Hm|]. intros a. apply Hk. Qed.

Lemma stable_then {A B : Type} (I : world -> Prop) (m : M A) (k : A -> M B)
    (Q : B -> world -> Prop) :
  stable I m -> (forall a, triple I (k a) Q) -> triple I (bind m k) Q.
Proof. intros Hm Hk. eapply triple_bind; [exact Hm|]. intros a. apply Hk. Qed.

Section ErrSlot.
Variable e : Z.

Lemma slot_get_packet : stable (err_slot_is e) get_packet.
Proof. intros w Hw. exact Hw. Qed.

Lemma slot_get_world : stable (err_slot_is e) get_world.
Proof. intros w Hw. exact Hw. Qed.

Lemma slot_get_sk : stable (err_slot_is e) get_sk.
Proof. intros w Hw. exact Hw. Qed.

Lemma slot_get_jiffies : stable (err_slot_is e) get_jiffies.
Proof. intros w Hw. exact Hw. Qed.

Lemma slot_put_packet (p : sctp_packet) : stable (err_slot_is e) (put_packet p).
Proof. intros w Hw. exact Hw. Qed.

Lemma slot_deref_asoc : stable (err_slot_is e) deref_asoc.
Proof. intros w Hw. unfold deref_asoc. destruct (tp_asoc _); auto. Qed.

Lemma slot_put_asoc (a : sctp_association) : stable (err_slot_is e) (put_asoc a).
Proof. intros w Hw. exact Hw. Qed.

Lemma slot_chunk_free (c : sctp_chunk) : stable (err_slot_is e) (sctp_chunk_free c).
Proof. intros w Hw. exact Hw. Qed.

Lemma slot_crash {A : Type} (f : fault) : stable (err_slot_is e) (@crash A f).
Proof. intros w Hw. exact I. Qed.

Lemma slot_alloc_skb (len : Z) : stable (err_slot_is e) (alloc_skb len).
Proof.
  intros w Hw. unfold alloc_skb. destruct (alloc_skb_ok w) as [|[] ?]; exact Hw.
Qed.

Lemma slot_gro_receive (head : sk_buff) (nskb : packet_buf) :
  stable (err_slot_is e) (skb_gro_receive head nskb).
Proof.
  intros w Hw. unfold skb_gro_receive. destruct (gro_receive_ok w) as [|[] ?]; exact Hw.
Qed.

Lemma slot_sctp_xmit (head : sk_buff) : stable (err_slot_is e) (sctp_xmit head).
Proof. intros w Hw. exact Hw. Qed.

Lemma slot_ecn_capable : stable (err_slot_is e) ecn_capable.
Proof. intros w Hw. exact Hw. Qed.

Lemma slot_set_owner_w : stable (err_slot_is e) sctp_packet_set_owner_w.
Proof. intros w Hw. exact Hw. Qed.

Lemma slot_kfree_skb_head : stable (err_slot_is e) kfree_skb_head.
Proof. intros w Hw. exact Hw. Qed.

Lemma slot_refresh_sk_caps : stable (err_slot_is e) refresh_sk_caps.
Proof.
  intros w Hw. unfold refresh_sk_caps, bind, get_packet, get_sk, put_sk, ret, crash.
  destruct (tp_dst (transport (pkt w))) as [d|].
  - destruct (sk_dst_cache (sk w)) as [a|]; [destruct (Nat.eqb a (dst_addr d))|];
      exact Hw.
  - destruct (sk_dst_cache (sk w)); [exact I|exact Hw].
Qed.

End ErrSlot.

Create HintDb sctp_slot.
#[local] Hint Resolve slot_get_packet slot_get_world slot_get_sk slot_get_jiffies
  slot_put_packet slot_deref_asoc slot_put_asoc slot_chunk_free slot_crash
  slot_alloc_skb slot_gro_receive slot_sctp_xmit slot_ecn_capable slot_set_owner_w
  slot_kfree_skb_head slot_refresh_sk_caps stable_ret : sctp_slot.

(** Walks a monadic term, splitting binds and case analyses, and closes the
    leaves with the hints. *)
Ltac stable_walk :=
  lazymatch goal with
  | |- stable _ (bind _ _) =>
      apply stable_bind; [stable_walk | intros ?; stable_walk]
  | |- stable _ (if ?b then _ else _) => destruct b; stable_walk
  | |- stable _ (match ?x with _ => _ end) => destruct x; stable_walk
  | |- _ => solve [auto with sctp_slot]
  end.

Section EmitterSlot.
Context `{Collaborators}.
Variable e : Z.

Lemma slot_copy_chunk (c : sctp_chunk) (rest : list sctp_chunk) (l : locals) :
  stable (err_slot_is e) (copy_chunk c rest l).
Proof. unfold copy_chunk. cbv zeta. stable_walk. Qed.

Lemma slot_drain_chunks (todo : list sctp_chunk) (l : locals) :
  stable (err_slot_is e) (drain_chunks todo l).
Proof.
  revert l. induction todo as [|c rest IH]; intros l; cbn [drain_chunks].
  - auto with sctp_slot.
  - pose proof slot_copy_chunk. stable_walk.
Qed.

Lemma slot_finish_auth (l : locals) : stable (err_slot_is e) (finish_auth l).
Proof. unfold finish_auth. cbv zeta. stable_walk. Qed.

Lemma slot_drop_chunks (todo : list sctp_chunk) :
  stable (err_slot_is e) (drop_chunks todo).
Proof.
  induction todo as [|c rest IH]; cbn [drop_chunks]; [auto with sctp_slot|].
  stable_walk.
Qed.

Lemma slot_sub_packets (fuel : nat) (gso : bool) (l : locals) :
  stable (err_slot_is e) (sub_packets fuel gso l).
Proof.
  revert l. induction fuel as [|fuel IH]; intros l; cbn [sub_packets]; cbv zeta.
  - auto with sctp_slot.
  - pose proof slot_drain_chunks. pose proof slot_finish_auth. stable_walk.
Qed.

End EmitterSlot.

Lemma is_reset_reset (p : sctp_packet) : is_reset (sctp_packet_reset p).
Proof. unfold is_reset. cbn. repeat split; reflexivity. Qed.

Section EmitterExit.
Context `{Collaborators}.
Variable e : Z.

Lemma label_out_exit : triple (err_slot_is e) (label_out 0) (emitted e).
Proof.
  intros w Hw. unfold label_out, bind, get_packet, put_packet, ret, emitted.
  split; [reflexivity|]. split; [exact Hw|]. apply is_reset_reset.
Qed.

Lemma label_err_exit : triple (err_slot_is e) (label_err 0) (emitted e).
Proof.
  unfold label_err. apply stable_then; [apply slot_get_packet|]. intros p.
  apply stable_then; [apply slot_drop_chunks|]. intros _. apply label_out_exit.
Qed.

Lemma label_nodst_exit : triple (err_slot_is e) (label_nodst 0) (emitted e).
Proof.
  unfold label_nodst. apply stable_then; [apply slot_kfree_skb_head|].
  intros _. apply label_err_exit.
Qed.

Lemma label_nomem_exit : triple (err_slot_is e) (label_nomem 0) (emitted e).
Proof.
  unfold label_nomem. apply stable_then; [apply slot_get_packet|]. intros p.
  apply stable_then; [stable_walk|]. intros _. apply label_nodst_exit.
Qed.

(** Walks the emitter down to its exits. *)
Ltac exit_walk :=
  lazymatch goal with
  | |- triple _ (bind _ _) _ =>
      apply stable_then; [stable_walk | intros ?; exit_walk]
  | |- triple _ (if ?b then _ else _) _ => destruct b; exit_walk
  | |- triple _ (match ?x with _ => _ end) _ => destruct x; exit_walk
  | |- _ =>
      first [ apply label_out_exit | apply label_err_exit
            | apply label_nodst_exit | apply label_nomem_exit
            | match goal with Hx : _ |- _ => apply Hx end ]
  end.

Lemma transmit_tail_exit (gso had_asoc : bool) (dst : dst_entry) (l : locals) :
  triple (err_slot_is e) (transmit_tail gso had_asoc dst 0 l) (emitted e).
Proof. unfold transmit_tail. cbv zeta. exit_walk. Qed.

(** Every path of the emitter returns 0 and leaves the socket's error slot
    alone; with no chunk it leaves the world as it is, else the packet
    ends reset. *)
Lemma transmit_exit (w0 : world) :
  err_slot_is e w0 ->
  match sctp_packet_transmit w0 with
  | Done r w' =>
      r = 0 /\ err_slot_is e w' /\
      ((chunk_list (pkt w0) = [] /\ w' = w0) \/
       (chunk_list (pkt w0) <> [] /\ is_reset (pkt w')))
  | Fault _ => True
  end.
Proof.
  intros Hw. unfold sctp_packet_transmit. unfold bind at 1, get_packet at 1.
  cbv zeta.
  destruct (chunk_list (pkt w0)) as [|c0 rest] eqn:El.
  - unfold ret. auto.
  - match goal with |- match ?m w0 with _ => _ end =>
      assert (Hm : triple (err_slot_is e) m (emitted e))
    end.
    { pose proof slot_sub_packets. pose proof transmit_tail_exit. exit_walk. }
    specialize (Hm w0 Hw).
    match goal with |- match ?m w0 with _ => _ end => destruct (m w0) as [r w'|] end;
      [|exact I].
    destruct Hm as (-> & Hs & Hr). split; [reflexivity|]. split; [exact Hs|].
    right. split; [discriminate|exact Hr].
Qed.

End EmitterExit.

(** ** Fatal failures of the emitter *)

Section Fatal.
Context `{Collaborators}.

Lemma drop_chunks_done (todo : list sctp_chunk) (w : world) :
  exists w',
    drop_chunks todo w = Done tt w' /\
    sk w' = sk w /\ xmit w' = xmit w /\
    (todo <> [] -> chunk_list (pkt w') = []) /\ (todo = [] -> w' = w).
Proof.
  revert w. induction todo as [|c rest IH]; intros w; cbn [drop_chunks].
  - exists w. unfold ret. repeat split; auto. intros Hn. contradiction.
  - unfold bind at 1, get_packet at 1. unfold bind at 1, put_packet at 1.
    unfold bind at 1.
    match goal with |- context [match ?m ?w1 with _ => _ end] =>
      assert (Hfree : exists fr, m w1 = Done tt (set_freed fr w1))
    end.
    { destruct (negb (sctp_chunk_is_data c)); unfold sctp_chunk_free, ret;
        eexists; [reflexivity|].
      instantiate (1 := freed w). f_equal. }
    destruct Hfree as (fr & ->).
    match goal with |- context [drop_chunks rest ?w1] =>
      destruct (IH w1) as (w' & E & Hsk & Hx & Hne & Hnil)
    end.
    exists w'. rewrite E. split; [reflexivity|].
    split; [rewrite Hsk; reflexivity|]. split; [rewrite Hx; reflexivity|].
    split; [|discriminate]. intros _.
    destruct rest as [|c1 rest1]; [rewrite (Hnil eq_refl); reflexivity|].
    apply Hne. discriminate.
Qed.

(** From the label [err] on: the chunks are dropped, the packet is reset,
    nothing is sent, and the value is the [err] that was never set. *)
Lemma label_err_done (w : world) :
  exists w',
    label_err 0 w = Done 0 w' /\
    sk w' = sk w /\ xmit w' = xmit w /\
    chunk_list (pkt w') = [] /\ is_reset (pkt w').
Proof.
  unfold label_err. unfold bind at 1, get_packet at 1. unfold bind at 1.
  destruct (drop_chunks_done (chunk_list (pkt w)) w) as (w1 & E & Hsk & Hx & Hne & Hnil).
  rewrite E. unfold label_out, bind, get_packet, put_packet, ret.
  eexists. split; [reflexivity|]. cbn.
  split; [exact Hsk|]. split; [exact Hx|].
  split; [|apply is_reset_reset].
  destruct (chunk_list (pkt w)) as [|c rest] eqn:El.
  - rewrite (Hnil eq_refl). exact El.
  - apply Hne. discriminate.
Qed.

(** What the label [err] releases: the chunks of the list that are not
    DATA, first to last, and nothing else. *)
Lemma drop_chunks_freed (todo : list sctp_chunk) (w w' : world) :
  drop_chunks todo w = Done tt w' ->
  freed w' = rev (map c_addr (control_chunks todo)) ++ freed w.
Proof.
  revert w. induction todo as [|c rest IH]; intros w; cbn [drop_chunks].
  - unfold ret. intros E. injection E as <-. reflexivity.
  - unfold bind at 1, get_packet at 1. unfold bind at 1, put_packet at 1.
    unfold bind at 1. unfold control_chunks. cbn [filter].
    destruct (sctp_chunk_is_data c); cbn [negb]; unfold sctp_chunk_free, ret;
      intros E; apply IH in E; rewrite E; unfold control_chunks; cbn;
      rewrite <- ?app_assoc; reflexivity.
Qed.

Lemma label_err_freed (w w' : world) (r : Z) :
  label_err 0 w = Done r w' ->
  freed w' = rev (map c_addr (control_chunks (chunk_list (pkt w)))) ++ freed w.
Proof.
  unfold label_err. unfold bind at 1, get_packet at 1. unfold bind at 1.
  destruct (drop_chunks (chunk_list (pkt w)) w) as [[] w1|] eqn:E; [|discriminate].
  apply drop_chunks_freed in E.
  unfold label_out, bind, get_packet, put_packet, ret.
  intros E'. injection E' as _ <-. exact E.
Qed.

Lemma fatal_returns_zero (w : world) :
  fatal w ->
  exists w',
    sctp_packet_transmit w = Done 0 w' /\
    xmit w' = xmit w /\ sk_err (sk w') = sk_err (sk w) /\
    chunk_list (pkt w') = [] /\ is_reset (pkt w') /\
    freed w' = rev (map c_addr (control_chunks (chunk_list (pkt w)))) ++ freed w.
Proof.
  intros Hf. unfold sctp_packet_transmit. unfold bind at 1, get_packet at 1.
  cbv zeta.
  destruct Hf as [Hne Hgso Hsk | Hne Hgso Hal | Hne Hgso Hal Hdst];
    (destruct (chunk_list (pkt w)) as [|c0 rest0] eqn:El; [contradiction|]);
    unfold bind at 1, get_sk at 1.
  - rewrite Hgso, Hsk. cbn [negb andb].
    destruct (label_err_done w) as (w' & E & Hs & Hx & Hl & Hr).
    pose proof (label_err_freed _ _ _ E) as Hf. rewrite El in Hf.
    exists w'. rewrite E, Hs. auto 6.
  - rewrite Hgso. unfold bind at 1, alloc_skb at 1.
    destruct (alloc_skb_ok w) as [|[] grants] eqn:Eg; [|discriminate|].
    + destruct (label_err_done w) as (w' & E & Hs & Hx & Hl & Hr).
      pose proof (label_err_freed _ _ _ E) as Hf. rewrite El in Hf.
      exists w'. rewrite E, Hs. auto 6.
    + destruct (label_err_done (set_alloc_skb_ok grants w)) as (w' & E & Hs & Hx & Hl & Hr).
      pose proof (label_err_freed _ _ _ E) as Hf. cbn in Hf. rewrite El in Hf.
      exists w'. rewrite E, Hs. auto 6.
  - rewrite Hgso. unfold bind at 1, alloc_skb at 1.
    destruct (alloc_skb_ok w) as [|[] grants] eqn:Eg; try discriminate.
    unfold bind at 1, sctp_packet_set_owner_w at 1, bind at 1, get_sk at 1, put_sk at 1.
    unfold bind at 1, put_packet at 1. unfold bind at 1, get_packet at 1.
    cbn [pkt set_pkt set_sk set_alloc_skb_ok transport set_transport sk].
    rewrite Hdst.
    unfold bind at 1.
    match goal with |- context [match ?m ?w1 with _ => _ end] =>
      assert (Hstat : exists w2, m w1 = Done tt w2 /\ sk w2 = sk w1 /\ xmit w2 = xmit w1
                                 /\ freed w2 = freed w1 /\
                                 chunk_list (pkt w2) = chunk_list (pkt w1))
    end.
    { destruct (tp_asoc (transport (pkt w))) as [a|] eqn:Ea.
      - unfold bind, deref_asoc, put_asoc. cbn.
        unfold refresh_route. rewrite Ea.
        destruct (sctp_transport_dst_check _); [rewrite Ea|destruct (a_pmtud_enable a)];
          cbn; eexists; repeat split; reflexivity.
      - unfold ret. eexists. repeat split; reflexivity. }
    destruct Hstat as (w2 & -> & Hs2 & Hx2 & Hf2 & Hl2).
    unfold label_nodst, kfree_skb_head, bind, get_sk, put_sk.
    match goal with |- context [label_err 0 ?w3] =>
      destruct (label_err_done w3) as (w' & E & Hs & Hx & Hl & Hr);
      pose proof (label_err_freed _ _ _ E) as Hf
    end.
    exists w'. unfold bind in E. rewrite E. split; [reflexivity|].
    rewrite Hs, Hx. cbn. rewrite Hs2, Hx2. cbn.
    cbn in Hf. rewrite Hf2, Hl2 in Hf. cbn in Hf. rewrite El in Hf. auto 6.
Qed.

End Fatal.

(** ** The flush-and-retry driver *)

Lemma phase_env (make : sctp_association -> option sctp_chunk)
    (flag : sctp_packet -> bool) (w w' : world) :
  phase make flag w w' -> same_env w w'.
Proof.
  intros [Hq | a b b' w0 w1 _ _ Hq0 Hstep Hq1].
  - apply quiet_packet in Hq. tauto.
  - apply quiet_packet in Hq0, Hq1.
    eapply same_env_trans; [|apply Hq1].
    eapply same_env_trans; [apply Hq0|]. exact (rs_env _ _ _ _ Hstep).
Qed.

Section Driver.
Context `{Collaborators}.

(** The append path never writes the socket, the clock, the allocator's
    outcomes or what was handed to IP. *)
Lemma append_chunk_env (c : sctp_chunk) (v : sctp_xmit_t) (w w' : world) :
  sctp_packet_append_chunk c w = Done v w' -> same_env w w'.
Proof.
  intros E. apply append_chunk_effect in E.
  destruct E as (w1 & w2 & Hp1 & Hp2 & Hlast).
  apply phase_env in Hp1, Hp2.
  assert (H12 : same_env w w2) by (eapply same_env_trans; eauto).
  destruct Hlast as [(_ & -> & _) | (_ & c' & Hstep)]; [exact H12|].
  eapply same_env_trans; [exact H12|]. exact (rs_env _ _ _ _ Hstep).
Qed.

(** A PMTU_FULL verdict leaves chunks to flush, on a packet that keeps its
    size invariant. *)
Lemma pmtu_full_leaves_chunks (c : sctp_chunk) (w w' : world) :
  size_inv (pkt w) ->
  sctp_packet_append_chunk c w = Done SCTP_XMIT_PMTU_FULL w' ->
  chunk_list (pkt w') <> [].
Proof.
  intros Hi E.
  assert (Hi' : size_inv (pkt w')) by (apply (size_inv_op (Append c) _ w w' E Hi)).
  apply append_chunk_effect in E.
  destruct E as (w1 & w2 & _ & _ & [(_ & _ & He) | (Hv & _)]); [|discriminate].
  specialize (He eq_refl). intros Hnil.
  destruct Hi' as (Ho & Hs). rewrite Hnil in Hs. cbn in Hs.
  rewrite Z.add_0_r, size_t_small in Hs by exact Ho.
  unfold sctp_packet_empty in He. rewrite Hs, Z.eqb_refl in He. discriminate.
Qed.

Lemma transmit_returns_zero (w w' : world) (r : Z) :
  sctp_packet_transmit w = Done r w' ->
  r = 0 /\ sk_err (sk w') = sk_err (sk w) /\
  (chunk_list (pkt w) <> [] -> is_reset (pkt w')).
Proof.
  intros E. pose proof (transmit_exit (sk_err (sk w)) w eq_refl) as Hx.
  rewrite E in Hx. destruct Hx as (-> & Hs & Hr).
  split; [reflexivity|]. split; [exact Hs|].
  intros Hne. destruct Hr as [(Hnil & _) | (_ & Hr)]; [contradiction|exact Hr].
Qed.

(** The driver, case by case on the verdict of the first append. *)
Lemma transmit_chunk_cases (chunk : sctp_chunk) (one_packet : bool)
    (w w1 : world) (v1 : sctp_xmit_t) :
  sctp_packet_append_chunk chunk w = Done v1 w1 ->
  (v1 <> SCTP_XMIT_PMTU_FULL ->
   sctp_packet_transmit_chunk chunk one_packet w = Done v1 w1) /\
  (v1 = SCTP_XMIT_PMTU_FULL -> has_cookie_echo (pkt w1) = true ->
   sctp_packet_transmit_chunk chunk one_packet w = Done SCTP_XMIT_PMTU_FULL w1) /\
  (v1 = SCTP_XMIT_PMTU_FULL -> has_cookie_echo (pkt w1) = false ->
   forall r w2, sctp_packet_transmit w1 = Done r w2 ->
     sctp_packet_transmit_chunk chunk one_packet w =
     if one_packet then Done SCTP_XMIT_PMTU_FULL w2
     else sctp_packet_append_chunk chunk w2) /\
  (v1 = SCTP_XMIT_PMTU_FULL -> has_cookie_echo (pkt w1) = false ->
   forall f, sctp_packet_transmit w1 = Fault f ->
     sctp_packet_transmit_chunk chunk one_packet w = Fault f).
Proof.
  intros E.
  assert (Hrun : forall k : sctp_xmit_t -> M sctp_xmit_t,
             bind (sctp_packet_append_chunk chunk) k w = k v1 w1)
    by (intros k; unfold bind; rewrite E; reflexivity).
  unfold sctp_packet_transmit_chunk. rewrite Hrun. clear Hrun.
  split; [|split; [|split]]; cycle 3.
  { intros -> Hce f Et. unfold bind at 1, get_packet at 1. rewrite Hce.
    cbn [negb]. unfold bind at 1. rewrite Et. reflexivity. }
  - intros Hv. destruct v1; try reflexivity. contradiction.
  - intros -> Hce. unfold bind, get_packet. rewrite Hce. reflexivity.
  - intros -> Hce r w2 Et. unfold bind at 1, get_packet at 1. rewrite Hce.
    cbn [negb]. unfold bind at 1. rewrite Et.
    destruct (transmit_returns_zero _ _ _ Et) as (-> & _).
    cbn [Z.ltb Z.compare]. unfold bind at 1. unfold ret at 1.
    destruct one_packet; reflexivity.
Qed.

(** The driver never writes the socket's error slot. *)
Lemma transmit_chunk_slot (chunk : sctp_chunk) (one_packet : bool)
    (w w' : world) (v : sctp_xmit_t) :
  sctp_packet_transmit_chunk chunk one_packet w = Done v w' ->
  sk_err (sk w') = sk_err (sk w).
Proof.
  intros E.
  destruct (sctp_packet_append_chunk chunk w) as [v1 w1|f] eqn:E1.
  2:{ unfold sctp_packet_transmit_chunk, bind in E. rewrite E1 in E. discriminate. }
  pose proof (append_chunk_env _ _ _ _ E1) as (Hsk1 & _).
  assert (Hcases := transmit_chunk_cases chunk one_packet w w1 v1 E1).
  destruct v1;
    try (destruct Hcases as (Hok & _); rewrite Hok in E by discriminate;
         injection E as _ <-; rewrite Hsk1; reflexivity).
  destruct Hcases as (_ & Hce & Hfl & _).
  destruct (has_cookie_echo (pkt w1)) eqn:Ece.
  - rewrite (Hce eq_refl eq_refl) in E. injection E as _ <-. rewrite Hsk1. reflexivity.
  - clear Hce. specialize (Hfl eq_refl eq_refl).
    destruct (sctp_packet_transmit w1) as [r w2|f] eqn:Et.
    2:{ unfold sctp_packet_transmit_chunk, bind, get_packet in E.
        rewrite E1, Ece in E. cbn [negb] in E. rewrite Et in E. discriminate. }
    rewrite (Hfl r w2 eq_refl) in E.
    destruct (transmit_returns_zero _ _ _ Et) as (_ & Hsk2 & _).
    destruct one_packet.
    + injection E as _ <-. rewrite Hsk2, Hsk1. reflexivity.
    + apply append_chunk_env in E. destruct E as (Hsk3 & _).
      rewrite Hsk3, Hsk2, Hsk1. reflexivity.
Qed.

End Driver.

(** C3 (amended): the emitter's [err] is never set.  Whenever
    sctp_packet_transmit fails fatally before the first chunk is copied
    (GSO required but unsupported, no head buffer, no route) it returns 0,
    hands nothing to IP, takes every chunk off chunk_list, releases those
    that are not DATA, first to last, and no DATA chunk, and resets the
    packet; no path of the emitter returns another value than 0; and so
    sctp_packet_transmit_chunk never writes the socket's error slot. *)
Theorem C3_emitter_failures_return_zero `{Collaborators}
    (chunk : sctp_chunk) (one_packet : bool) (w : world) :
  (fatal w ->
   exists w',
     sctp_packet_transmit w = Done 0 w' /\
     xmit w' = xmit w /\ sk_err (sk w') = sk_err (sk w) /\
     chunk_list (pkt w') = [] /\ is_reset (pkt w') /\
     freed w' = rev (map c_addr (control_chunks (chunk_list (pkt w)))) ++ freed w) /\
  (forall r w', sctp_packet_transmit w = Done r w' -> r = 0) /\
  (forall v w', sctp_packet_transmit_chunk chunk one_packet w = Done v w' ->
                sk_err (sk w') = sk_err (sk w)).
Proof.
  split; [apply fatal_returns_zero|]. split.
  - intros r w' E. apply (transmit_returns_zero _ _ _ E).
  - intros v w' E. eapply transmit_chunk_slot, E.
Qed.

(** The theorem at work: a HEARTBEAT (chunk 1) and a DATA chunk (chunk 2)
    are queued and no buffer is to be had: the emitter returns 0, sends
    nothing, empties the list, and releases the HEARTBEAT only. *)
Lemma C3_head_alloc_witness :
  exists w',
    @sctp_packet_transmit Sample.demo
      (Sample.after [Append (Sample.chunk 1 SCTP_CID_HEARTBEAT 38);
                     Append (Sample.chunk 2 SCTP_CID_DATA 100)] Sample.w_plain_nomem)
    = Done 0 w' /\
    xmit w' = [] /\
    sk_err (sk w') = 0 /\
    chunk_list (pkt w') = [] /\ is_reset (pkt w') /\
    freed w' = [1%nat].
Proof.
  apply (proj1 (@C3_emitter_failures_return_zero Sample.demo
                  (Sample.chunk 3 SCTP_CID_DATA 40) false
                  (Sample.after [Append (Sample.chunk 1 SCTP_CID_HEARTBEAT 38);
                                 Append (Sample.chunk 2 SCTP_CID_DATA 100)]
                     Sample.w_plain_nomem))).
  apply fatal_head_alloc.
  - vm_compute. discriminate.
  - vm_compute. reflexivity.
  - vm_compute. reflexivity.
Defined.

(** C3 as stated fails: with no buffer to be had the emitter fails on its
    head allocation, yet it returns 0, not a negative value, and sends
    nothing; the driver that offered a 40-byte DATA chunk to the 1480-byte
    packet gets PMTU_FULL, flushes into that failure, leaves the socket's
    error slot at 0 and reports the verdict of its retry, OK. *)
Lemma C3_failure_returns_zero_counterexample :
  hd false (alloc_skb_ok Sample.w_1480_nomem) = false /\
  map c_addr (chunk_list (pkt Sample.w_1480_nomem)) = [1%nat] /\
  Sample.slot_after (@sctp_packet_transmit Sample.demo) Sample.w_1480_nomem
  = Some (0, 0) /\
  xmit (Sample.end_of (@sctp_packet_transmit Sample.demo) Sample.w_1480_nomem) = [] /\
  Sample.slot_after (@sctp_packet_append_chunk Sample.demo
                       (Sample.chunk 2 SCTP_CID_DATA 40)) Sample.w_1480_nomem
  = Some (SCTP_XMIT_PMTU_FULL, 0) /\
  Sample.slot_after (@sctp_packet_transmit_chunk Sample.demo
                       (Sample.chunk 2 SCTP_CID_DATA 40) false) Sample.w_1480_nomem
  = Some (SCTP_XMIT_OK, 0) /\
  xmit (Sample.end_of (@sctp_packet_transmit_chunk Sample.demo
                         (Sample.chunk 2 SCTP_CID_DATA 40) false) Sample.w_1480_nomem)
  = [].
Proof.
  split; [vm_compute; reflexivity|].
  split; [vm_compute; reflexivity|].
  split; [vm_compute; reflexivity|].
  split; [vm_compute; reflexivity|].
  split; [vm_compute; reflexivity|].
  split; vm_compute; reflexivity.
Qed.

(** The scenario, run: the old chunk goes out in one buffer, the new one
    sits alone in the packet, the verdict is OK. *)
Lemma flush_and_retry_scenario :
  Sample.slot_after (@sctp_packet_transmit_chunk Sample.demo
                       (Sample.chunk 2 SCTP_CID_DATA 40) false) Sample.w_1480
  = Some (SCTP_XMIT_OK, 0) /\
  map (fun b => map c_addr (buf_chunks (skb_head b)))
    (xmit (Sample.end_of (@sctp_packet_transmit_chunk Sample.demo
                            (Sample.chunk 2 SCTP_CID_DATA 40) false) Sample.w_1480))
  = [[1%nat]] /\
  map c_addr
    (chunk_list (pkt (Sample.end_of (@sctp_packet_transmit_chunk Sample.demo
                                       (Sample.chunk 2 SCTP_CID_DATA 40) false)
                        Sample.w_1480)))
  = [2%nat] /\
  size (pkt (Sample.end_of (@sctp_packet_transmit_chunk Sample.demo
                              (Sample.chunk 2 SCTP_CID_DATA 40) false) Sample.w_1480))
  = 72.
Proof.
  split; [vm_compute; reflexivity|].
  split; [vm_compute; reflexivity|].
  split; vm_compute; reflexivity.
Qed.

(** ** The DATA admission test *)

(** C5: for a DATA chunk, on a transport with an association,
    sctp_packet_can_append_data decides by the four rules in their order
    and changes nothing.  The comparisons are the specification's ones on
    plain integers as long as the operands are in the range of their C
    types: the data size is not negative, skb->len plus out_qlen fits 32
    bits, and the path MTU leaves room for the overhead, a DATA chunk
    header and 4 bytes. *)
Theorem C5_can_append_data_rules `{Collaborators}
    (chunk : sctp_chunk) (w : world) (asoc : sctp_association) :
  tp_asoc (transport (pkt w)) = Some asoc ->
  0 <= sctp_data_size chunk < 2 ^ 64 ->
  0 <= c_skb_len chunk + a_out_qlen asoc < 2 ^ 32 ->
  0 <= overhead (pkt w) ->
  overhead (pkt w) + sizeof_sctp_data_chunk_t + 4 <= tp_pathmtu (transport (pkt w))
    < 2 ^ 64 ->
  sctp_packet_can_append_data chunk w =
  Done (can_append_data_rules
          (sctp_data_size chunk) (a_peer_rwnd asoc) (a_outstanding_bytes asoc)
          (tp_flight_size (transport (pkt w))) (tp_cwnd (transport (pkt w)))
          (c_fast_retransmit chunk)
          (sk_nodelay (sk w)) (negb (sctp_packet_empty (pkt w)))
          (state_established (a_state asoc))
          (c_skb_len chunk) (a_out_qlen asoc)
          (tp_pathmtu (transport (pkt w))) (overhead (pkt w))
          (can_delay (c_msg chunk)))
       w.
Proof.
  intros Ea Hds Hq Ho Hmtu.
  unfold sctp_packet_can_append_data, can_append_data_rules,
    bind, get_packet, deref_asoc, get_sk, ret.
  rewrite Ea.
  rewrite (size_t_small _ Hds), (u32_small _ Hq).
  unfold sizeof_sctp_data_chunk_t in *.
  rewrite (size_t_small (tp_pathmtu _ - overhead _)) by lia.
  rewrite (size_t_small (tp_pathmtu _ - overhead _ - 16)) by lia.
  rewrite (size_t_small (tp_pathmtu _ - overhead _ - 16 - 4)) by lia.
  destruct (_ && _); [reflexivity|].
  destruct (_ && _); [reflexivity|].
  destruct (sk_nodelay (sk w)); [reflexivity|]. cbn [orb].
  destruct (sctp_packet_empty (pkt w)); cbn [negb orb]; [|reflexivity].
  destruct (a_outstanding_bytes asoc =? 0); [reflexivity|]. cbn [orb].
  destruct (state_established (a_state asoc)); cbn [negb]; [|reflexivity].
  destruct (_ >? _); [reflexivity|]. cbn [orb].
  destruct (can_delay (c_msg chunk)); reflexivity.
Qed.

(** The theorem at work on the Nagle scenario: Nagle on, association
    ESTABLISHED, 200 bytes in flight, an empty packet, a 50-byte chunk, 50
    bytes queued, path MTU 1500, the message may wait: DELAY. *)
Lemma C5_nagle_defer_witness :
  @sctp_packet_can_append_data Sample.demo (Sample.chunk 1 SCTP_CID_DATA 50)
    Sample.w_nagle
  = Done SCTP_XMIT_DELAY Sample.w_nagle.
Proof.
  rewrite (@C5_can_append_data_rules Sample.demo (Sample.chunk 1 SCTP_CID_DATA 50)
             Sample.w_nagle Sample.asoc_nagle).
  - vm_compute. reflexivity.
  - reflexivity.
  - vm_compute. split; [discriminate|reflexivity].
  - vm_compute. split; [discriminate|reflexivity].
  - vm_compute. discriminate.
  - vm_compute. split; [discriminate|reflexivity].
Defined.

(** A chunk marked for fast retransmit passes rule B with the flight at the
    congestion window. *)
Lemma fast_retransmit_ignores_cwnd :
  can_append_data_rules 100 100000 10000 10000 10000 SCTP_NEED_FRTX
    true false true 116 0 1500 32 true = SCTP_XMIT_OK /\
  can_append_data_rules 100 100000 10000 10000 10000 SCTP_CAN_FRTX
    true false true 116 0 1500 32 true = SCTP_XMIT_RWND_FULL.
Proof. split; reflexivity. Qed.

(** ** The accounting of an admitted DATA chunk *)

(** Splits the goal on every condition still in it. *)
Ltac split_ifs :=
  cbn;
  repeat (match goal with
          | |- context [if ?b then _ else _] => destruct b eqn:?
          end; cbn);
  auto.

(** C6: when a DATA chunk of data size [d] is accounted for,
    sctp_packet_append_data adds [d] to the transport's flight_size and to
    the out-queue's outstanding_bytes, sets peer.rwnd to max(0, rwnd - d)
    (it shrinks by min(d, rwnd)), clears the message's can_abandon flag
    unless the peer is PR-SCTP capable, and gives the chunk a TSN and an
    SSN; nothing else of the packet changes.  The counters are 32-bit:
    the sums are exact as long as they fit. *)
Theorem C6_append_data_accounting `{Collaborators}
    (chunk : sctp_chunk) (w : world) (asoc : sctp_association) (d : Z) :
  tp_asoc (transport (pkt w)) = Some asoc ->
  sctp_data_size chunk = d ->
  0 <= d ->
  0 <= tp_flight_size (transport (pkt w)) ->
  tp_flight_size (transport (pkt w)) + d < 2 ^ 32 ->
  0 <= a_outstanding_bytes asoc ->
  a_outstanding_bytes asoc + d < 2 ^ 32 ->
  0 <= a_peer_rwnd asoc < 2 ^ 32 ->
  exists chunk' w' asoc',
    sctp_packet_append_data chunk w = Done chunk' w' /\
    tp_asoc (transport (pkt w')) = Some asoc' /\
    tp_flight_size (transport (pkt w')) = tp_flight_size (transport (pkt w)) + d /\
    a_outstanding_bytes asoc' = a_outstanding_bytes asoc + d /\
    a_peer_rwnd asoc' = Z.max 0 (a_peer_rwnd asoc - d) /\
    a_peer_rwnd asoc - a_peer_rwnd asoc' = Z.min d (a_peer_rwnd asoc) /\
    (a_prsctp_capable asoc = false -> can_abandon (c_msg chunk') = false) /\
    (a_prsctp_capable asoc = true ->
     can_abandon (c_msg chunk') = can_abandon (c_msg chunk)) /\
    c_has_tsn chunk' = true /\ c_has_ssn chunk' = true /\
    same_wire chunk chunk' /\
    quiet w w'.
Proof.
  intros Ea Hd Hd0 Hf0 Hf Ho0 Ho Hr.
  unfold sctp_packet_append_data, bind, get_packet, deref_asoc, put_packet, ret.
  rewrite Ea, Hd.
  assert (Hds : size_t d = d) by (apply size_t_small; lia).
  rewrite Hds. rewrite (u32_small (a_peer_rwnd asoc)) by exact Hr.
  rewrite (u32_small (tp_flight_size _ + d)) by lia.
  rewrite (u32_small (a_outstanding_bytes _ + d)) by lia.
  eexists _, _, _. split; [reflexivity|]. cbn.
  split; [reflexivity|]. split; [reflexivity|]. split; [reflexivity|].
  assert (Hrw : (if d <? a_peer_rwnd asoc then u32 (a_peer_rwnd asoc - d) else 0)
                = Z.max 0 (a_peer_rwnd asoc - d)).
  { destruct (Z.ltb_spec d (a_peer_rwnd asoc)).
    - rewrite u32_small by lia. lia.
    - lia. }
  rewrite Hrw.
  split; [reflexivity|]. split; [cbn; lia|].
  unfold sctp_chunk_assign_ssn, sctp_chunk_assign_tsn.
  split; [|split; [|split; [|split; [|split]]]].
  - intros ->. split_ifs.
  - intros ->. split_ifs.
  - split_ifs.
  - split_ifs.
  - unfold same_wire. split_ifs.
  - eexists _, (freed w). split.
    + destruct w; reflexivity.
    + cbn. unfold has_asoc. cbn. rewrite Ea. reflexivity.
Qed.

(** The theorem at work: a DATA chunk of 116 bytes, 100 of them payload,
    on the sample association (peer rwnd 100000, nothing in flight). *)
Lemma C6_accounting_witness :
  exists chunk' w' asoc',
    @sctp_packet_append_data Sample.demo (Sample.chunk 1 SCTP_CID_DATA 116) Sample.w0
    = Done chunk' w' /\
    tp_asoc (transport (pkt w')) = Some asoc' /\
    tp_flight_size (transport (pkt w')) = 100 /\
    a_outstanding_bytes asoc' = 100 /\
    a_peer_rwnd asoc' = 99900 /\
    can_abandon (c_msg chunk') = false /\
    c_has_tsn chunk' = true /\ c_has_ssn chunk' = true.
Proof.
  destruct (@C6_append_data_accounting Sample.demo (Sample.chunk 1 SCTP_CID_DATA 116)
              Sample.w0 Sample.asoc 100)
    as (c' & w' & a' & E & Ea & Hf & Ho & Hr & _ & Hab & _ & Ht & Hs & _).
  - reflexivity.
  - reflexivity.
  - discriminate.
  - discriminate.
  - reflexivity.
  - discriminate.
  - reflexivity.
  - split; [discriminate|reflexivity].
  - exists c', w', a'. split; [exact E|]. split; [exact Ea|].
    split; [exact Hf|]. split; [exact Ho|]. split; [exact Hr|].
    split; [apply Hab; reflexivity|]. split; [exact Ht|exact Hs].
Defined.

(** ** Oversize chunks on an empty packet *)

Section Oversize.
Context `{Collaborators}.

(** With the association at hand, or for a chunk that is not DATA, an
    admitted raw append returns. *)
Lemma append_raw_returns (c : sctp_chunk) (w : world) :
  has_asoc (pkt w) = true \/ sctp_chunk_is_data c = false ->
  exists v w', __sctp_packet_append_chunk c w = Done v w'.
Proof.
  intros Hok. unfold __sctp_packet_append_chunk.
  unfold bind at 1, get_packet at 1.
  destruct (will_fit_frame (pkt w) c (u16 (SCTP_PAD4 (c_length c))))
    as [(E & _) | (p & E & Hfr)]; rewrite E;
    unfold bind at 1, put_packet at 1; cbn [xmit_is_ok negb].
  { unfold ret. eauto. }
  destruct Hfr as (_ & _ & _ & _ & _ & _ & _ & Ht).
  unfold sctp_chunk_is_data, has_asoc in Hok.
  unfold bind at 1.
  destruct (c_type c) eqn:Et;
    try (unfold bind, get_packet, put_packet, ret; cbn; eauto; fail).
  - unfold bind at 1, sctp_packet_append_data.
    unfold bind at 1, get_packet at 1. unfold bind at 1, deref_asoc at 1.
    cbn [pkt set_pkt]. rewrite Ht.
    destruct (tp_asoc (transport (pkt w))) as [a|];
      [|destruct Hok; discriminate].
    unfold bind, get_packet, put_packet, get_jiffies, ret. cbn. eauto.
  - unfold bind, get_packet, put_packet, put_asoc, ret. cbn.
    destruct (c_has_asoc c); [destruct (tp_asoc (transport p))|]; cbn; eauto.
Qed.

End Oversize.



(** The scenario, run to the end: the chunk is admitted, ipfragok is set,
    and the emitter sends one buffer that holds the chunk, with a data
    area of overhead plus 1600 bytes and the don't-fragment override. *)
Lemma oversize_scenario :
  Sample.verdicts [Append (Sample.chunk 1 SCTP_CID_HEARTBEAT 1600)] Sample.w0
  = [SCTP_XMIT_OK] /\
  ipfragok (pkt (Sample.after [Append (Sample.chunk 1 SCTP_CID_HEARTBEAT 1600)]
                   Sample.w0)) = true /\
  map (fun b => (buf_alloc (skb_head b) - @MAX_HEADER Sample.demo,
                 map c_addr (buf_chunks (skb_head b)), skb_ignore_df b, skb_gso b))
    (xmit (Sample.end_of (@sctp_packet_transmit Sample.demo)
             (Sample.after [Append (Sample.chunk 1 SCTP_CID_HEARTBEAT 1600)]
                Sample.w0)))
  = [(1632, [1%nat], true, false)].
Proof.
  split; [vm_compute; reflexivity|].
  split; vm_compute; reflexivity.
Qed.

(** ** The emitter on a packet without chunks *)

(** C9: sctp_packet_transmit on a packet whose chunk_list is empty returns
    0 and leaves the whole world as it was: no buffer is asked for, no
    chunk released, nothing handed to IP, no field of the packet, the
    transport, the association or the socket written. *)
Theorem C9_transmit_without_chunks_is_a_noop `{Collaborators} (w : world) :
  chunk_list (pkt w) = [] ->
  sctp_packet_transmit w = Done 0 w.
Proof.
  intros Hl. unfold sctp_packet_transmit, bind, get_packet, ret.
  rewrite Hl. reflexivity.
Qed.

Lemma C9_noop_witness :
  @sctp_packet_transmit Sample.demo Sample.w0 = Done 0 Sample.w0.
Proof.
  apply (@C9_transmit_without_chunks_is_a_noop Sample.demo Sample.w0).
  reflexivity.
Defined.

(** ** The association behind the append path *)

Section NullAssociation.
Context `{Collaborators}.

Lemma raw_step_asoc (c c' : sctp_chunk) (w w' : world) :
  raw_step c c' w w' -> has_asoc (pkt w') = has_asoc (pkt w).
Proof. intros Hs. exact (rs_asoc _ _ _ _ Hs). Qed.

Lemma quiet_asoc (w w' : world) : quiet w w' -> has_asoc (pkt w') = has_asoc (pkt w).
Proof. intros (tp & fr & _ & Ha). exact Ha. Qed.

Lemma can_append_data_returns (c : sctp_chunk) (w : world) :
  has_asoc (pkt w) = true ->
  exists v, sctp_packet_can_append_data c w = Done v w.
Proof.
  unfold has_asoc. intros Ha.
  unfold sctp_packet_can_append_data, bind, get_packet, deref_asoc, get_sk, ret.
  destruct (tp_asoc (transport (pkt w))); [|discriminate].
  repeat match goal with
         | |- context [if ?b then _ else _] => destruct b
         end; eauto.
Qed.

Lemma bundle_auth_returns (c : sctp_chunk) (w : world) :
  exists v w', sctp_packet_bundle_auth c w = Done v w' /\
               has_asoc (pkt w') = has_asoc (pkt w).
Proof.
  unfold sctp_packet_bundle_auth. unfold bind at 1, get_packet at 1.
  destruct (tp_asoc (transport (pkt w))) as [a|] eqn:Ea; [|unfold ret; eauto].
  destruct (is_auth_cid (c_type c) || has_auth (pkt w)); [unfold ret; eauto|].
  destruct (negb (c_auth c)); [unfold ret; eauto|].
  destruct (sctp_make_auth a) as [b|]; [|unfold ret; eauto].
  destruct (append_raw_returns b w) as (v & w1 & E).
  { left. unfold has_asoc. rewrite Ea. reflexivity. }
  unfold bind at 1. rewrite E.
  pose proof E as E'. apply append_raw_effect in E'.
  destruct E' as [(-> & -> & _) | (-> & b' & Hstep)]; cbn [xmit_is_ok negb];
    unfold bind, sctp_chunk_free, ret; eexists _, _; (split; [reflexivity|]).
  - reflexivity.
  - exact (rs_asoc _ _ _ _ Hstep).
Qed.

Lemma bundle_sack_returns (c : sctp_chunk) (w : world) :
  has_asoc (pkt w) = true ->
  exists v w', sctp_packet_bundle_sack c w = Done v w' /\
               has_asoc (pkt w') = true.
Proof.
  intros Ha. pose proof Ha as Ha'. unfold has_asoc in Ha'.
  unfold sctp_packet_bundle_sack. unfold bind at 1, get_packet at 1.
  destruct (sctp_chunk_is_data c && negb (has_sack (pkt w))
            && negb (has_cookie_echo (pkt w))); [|unfold ret; eauto].
  unfold bind at 1, deref_asoc at 1.
  destruct (tp_asoc (transport (pkt w))) as [a|] eqn:Ea; [|discriminate].
  destruct (a_sack_timer_pending a); [|unfold ret; eauto].
  destruct (negb _); [unfold ret; eauto|].
  unfold bind at 1, put_asoc at 1.
  set (w0 := set_pkt _ w).
  assert (Ha0 : has_asoc (pkt w0) = true) by reflexivity.
  destruct (sctp_make_sack _) as [b|]; [|unfold ret; eauto].
  destruct (append_raw_returns b w0 (or_introl Ha0)) as (v & w1 & E).
  unfold bind at 1. rewrite E.
  pose proof E as E'. apply append_raw_effect in E'.
  destruct E' as [(-> & -> & _) | (-> & b' & Hstep)]; cbn [xmit_is_ok negb].
  - unfold bind, sctp_chunk_free, ret. eexists _, _. split; [reflexivity|].
    exact Ha0.
  - pose proof (rs_asoc _ _ _ _ Hstep) as Ha1. rewrite Ha0 in Ha1.
    unfold has_asoc in Ha1.
    unfold bind at 1, deref_asoc at 1.
    destruct (tp_asoc (transport (pkt w1))) as [a1|]; [|discriminate].
    unfold bind, put_asoc, ret. eexists _, _. split; [reflexivity|].
    reflexivity.
Qed.

(** With an association behind the transport, the public append returns:
    its path holds no fault. *)
Lemma append_chunk_returns (c : sctp_chunk) (w : world) :
  has_asoc (pkt w) = true ->
  exists v w', sctp_packet_append_chunk c w = Done v w'.
Proof.
  intros Ha. unfold sctp_packet_append_chunk. unfold bind at 1.
  match goal with |- context [match ?m w with _ => _ end] =>
    assert (Hcan : exists r, m w = Done r w)
  end.
  { destruct (sctp_chunk_is_data c); [apply can_append_data_returns, Ha|].
    unfold ret. eauto. }
  destruct Hcan as (r & ->).
  destruct (negb (xmit_is_ok r)); [unfold ret; eauto|].
  destruct (bundle_auth_returns c w) as (r1 & w1 & E1 & Ha1).
  unfold bind at 1. rewrite E1. rewrite Ha in Ha1.
  destruct (negb (xmit_is_ok r1)); [unfold ret; eauto|].
  destruct (bundle_sack_returns c w1 Ha1) as (r2 & w2 & E2 & Ha2).
  unfold bind at 1. rewrite E2.
  destruct (negb (xmit_is_ok r2)); [unfold ret; eauto|].
  apply append_raw_returns. left. exact Ha2.
Qed.

End NullAssociation.

(** C10: to append a DATA chunk through sctp_packet_append_chunk the
    packet's transport must have an association.  Without one,
    sctp_packet_can_append_data reads through the NULL pointer, and so
    does sctp_packet_bundle_sack when it gets to act, while
    sctp_packet_bundle_auth returns OK untouched and sctp_packet_will_fit
    falls back on the transport's path MTU; with one, the public append
    returns and its path holds no NULL read. *)
Theorem C10_data_append_needs_association `{Collaborators}
    (chunk : sctp_chunk) (w : world) :
  sctp_chunk_is_data chunk = true ->
  (has_asoc (pkt w) = false ->
   sctp_packet_can_append_data chunk w = Fault NullDeref /\
   (has_sack (pkt w) = false -> has_cookie_echo (pkt w) = false ->
    sctp_packet_bundle_sack chunk w = Fault NullDeref) /\
   sctp_packet_append_chunk chunk w = Fault NullDeref /\
   sctp_packet_bundle_auth chunk w = Done SCTP_XMIT_OK w /\
   (forall L,
      size_t (size (pkt w) + L) <= tp_pathmtu (transport (pkt w)) ->
      sctp_packet_will_fit (pkt w) chunk L = (SCTP_XMIT_OK, pkt w))) /\
  (has_asoc (pkt w) = true ->
   exists v w', sctp_packet_append_chunk chunk w = Done v w').
Proof.
  intros Hd. split.
  - unfold has_asoc. intros Ha.
    destruct (tp_asoc (transport (pkt w))) as [a|] eqn:Ea; [discriminate|].
    assert (Hcan : sctp_packet_can_append_data chunk w = Fault NullDeref).
    { unfold sctp_packet_can_append_data, bind, get_packet, deref_asoc.
      rewrite Ea. reflexivity. }
    split; [exact Hcan|]. split; [|split; [|split]].
    + intros Hs Hc. unfold sctp_packet_bundle_sack. unfold bind at 1, get_packet at 1.
      rewrite Hd, Hs, Hc. cbn [negb andb].
      unfold bind at 1, deref_asoc at 1. rewrite Ea. reflexivity.
    + unfold sctp_packet_append_chunk, bind. rewrite Hd, Hcan. reflexivity.
    + unfold sctp_packet_bundle_auth, bind, get_packet, ret. rewrite Ea. reflexivity.
    + intros L HL. unfold sctp_packet_will_fit. rewrite Ea.
      destruct (Z.gtb_spec (size_t (size (pkt w) + L)) (tp_pathmtu (transport (pkt w))));
        [lia|reflexivity].
  - apply append_chunk_returns.
Qed.

(** The theorem at work: a DATA chunk on the sample packet, whose transport
    has an association. *)
Lemma C10_with_association_witness :
  exists v w',
    @sctp_packet_append_chunk Sample.demo (Sample.chunk 1 SCTP_CID_DATA 116) Sample.w0
    = Done v w'.
Proof.
  apply (proj2 (@C10_data_append_needs_association Sample.demo
                  (Sample.chunk 1 SCTP_CID_DATA 116) Sample.w0 eq_refl)).
  reflexivity.
Defined.

(** And on a transport without association: the NULL read. *)
Lemma orphan_data_append_faults :
  @sctp_packet_append_chunk Sample.demo (Sample.chunk 1 SCTP_CID_DATA 116)
    Sample.w_orphan = Fault NullDeref /\
  Sample.verdicts [Append (Sample.chunk 2 SCTP_CID_HEARTBEAT 38)] Sample.w_orphan
  = [SCTP_XMIT_OK].
Proof. split; vm_compute; reflexivity. Qed.

(** ** GSO: the greedy packing of the emitter *)

Lemma gso_keep_refl (w : world) : gso_keep w w.
Proof. constructor; reflexivity. Qed.

Lemma gso_keep_trans (w1 w2 w3 : world) :
  gso_keep w1 w2 -> gso_keep w2 w3 -> gso_keep w1 w3.
Proof. intros [] []. constructor; congruence. Qed.

Lemma padded_skb_pos (c : sctp_chunk) : 0 < c_skb_len c -> 0 < padded_skb c.
Proof. unfold padded_skb. pose proof (SCTP_PAD4_bounds (c_skb_len c)). lia. Qed.

Lemma SCTP_PAD4_idem (s : Z) : SCTP_PAD4 (SCTP_PAD4 s) = SCTP_PAD4 s.
Proof.
  unfold SCTP_PAD4.
  replace ((s + 3) / 4 * 4 + 3) with (3 + (s + 3) / 4 * 4) by lia.
  rewrite Z.div_add by lia. replace (3 / 4) with 0 by reflexivity. lia.
Qed.

Lemma skb_sum_app (a b : list sctp_chunk) : skb_sum (a ++ b) = skb_sum a + skb_sum b.
Proof. induction a as [|c a IH]; cbn; lia. Qed.

Lemma skb_sum_nonneg (l : list sctp_chunk) :
  Forall (fun c => 0 < c_skb_len c) l -> 0 <= skb_sum l.
Proof.
  induction 1 as [|c l Hc _ IH]; cbn; [lia|].
  pose proof (padded_skb_pos c Hc). lia.
Qed.

Lemma skb_sum_pos (l : list sctp_chunk) :
  Forall (fun c => 0 < c_skb_len c) l -> l <> [] -> 0 < skb_sum l.
Proof.
  intros Hl Hne. destruct Hl as [|c l Hc Hl]; [contradiction|]. cbn.
  pose proof (padded_skb_pos c Hc). pose proof (skb_sum_nonneg l Hl). lia.
Qed.

(** What [take_fit] takes and leaves. *)
Lemma take_fit_spec (room : Z) (l : list sctp_chunk) :
  Forall (fun c => 0 < c_skb_len c) l ->
  l = fst (take_fit room l) ++ snd (take_fit room l) /\
  (fst (take_fit room l) <> [] -> skb_sum (fst (take_fit room l)) <= room) /\
  Forall (fun c => 0 < c_skb_len c) (fst (take_fit room l)) /\
  Forall (fun c => 0 < c_skb_len c) (snd (take_fit room l)).
Proof.
  intros Hl. revert room. induction Hl as [|c l Hc Hl IH]; intros room; cbn.
  - repeat split; auto. intros Hne. contradiction.
  - destruct (Z.leb_spec (padded_skb c) room) as [Hle|Hgt].
    + specialize (IH (room - padded_skb c)).
      destruct (take_fit (room - padded_skb c) l) as [seg left]. cbn in *.
      destruct IH as (E & Hs & Hf1 & Hf2). repeat split; auto.
      * f_equal. exact E.
      * intros _. destruct seg as [|s seg]; [cbn; lia|].
        specialize (Hs ltac:(discriminate)). cbn in *. lia.
    + cbn. repeat split; auto. intros Hne. contradiction.
Qed.

Lemma take_fit_first (room : Z) (c : sctp_chunk) (l : list sctp_chunk) :
  padded_skb c <= room -> fst (take_fit room (c :: l)) <> [].
Proof.
  intros Hle. cbn. destruct (Z.leb_spec (padded_skb c) room); [|lia].
  destruct (take_fit _ l). cbn. discriminate.
Qed.

Section GsoRounds.
Context `{Collaborators}.
Variables ov pm : Z.
Hypothesis ov_nonneg : 0 <= ov.
Hypothesis pm_int : pm < 2 ^ 30.

Lemma fits_alone_bounds (c : sctp_chunk) :
  fits_alone ov pm c ->
  0 < padded_skb c <= pm - ov /\ 0 < c_skb_len c <= padded_skb c /\
  padded_skb c < 2 ^ 31.
Proof.
  intros (Hpos & Hfit). pose proof (padded_skb_pos c Hpos).
  unfold padded_skb in *. pose proof (SCTP_PAD4_bounds (c_skb_len c)). lia.
Qed.

Lemma fits_alone_pos (l : list sctp_chunk) :
  Forall (fits_alone ov pm) l -> Forall (fun c => 0 < c_skb_len c) l.
Proof. apply Forall_impl. intros c (Hc & _). exact Hc. Qed.

(** The sizing walk agrees with [take_fit]. *)
Lemma gso_pkt_size_fit (p : sctp_packet) (l : list sctp_chunk) (acc : Z) :
  auth p = None -> overhead p = ov ->
  Forall (fits_alone ov pm) l ->
  ov <= acc <= pm ->
  gso_pkt_size p pm l 0 acc
  = Some (acc + skb_sum (fst (take_fit (pm - acc) l)), 0).
Proof.
  intros Hau Hov Hl. revert acc.
  induction Hl as [|c l Hc Hl IH]; intros acc Hacc; cbn [gso_pkt_size take_fit].
  - cbn. f_equal. f_equal. lia.
  - destruct (fits_alone_bounds c Hc) as (Hp & Hlen & Hint).
    unfold is_packet_auth. rewrite Hau. cbv zeta. fold (padded_skb c).
    rewrite (u32_small (padded_skb c)) by lia.
    rewrite (int_small (padded_skb c)) by lia.
    rewrite (int_small (0 + padded_skb c)) by lia.
    rewrite Hov. rewrite size_t_small by lia.
    destruct (Z.gtb_spec (0 + padded_skb c + ov) pm) as [Hgt|_]; [lia|].
    rewrite (int_small (acc + padded_skb c)) by lia.
    rewrite u32_small by lia.
    destruct (Z.gtb_spec (acc + padded_skb c) pm) as [Hgt|Hle];
      destruct (Z.leb_spec (padded_skb c) (pm - acc)) as [Hle'|Hgt']; try lia.
    + cbn. f_equal. f_equal. lia.
    + rewrite IH by lia.
      replace (pm - (acc + padded_skb c)) with (pm - acc - padded_skb c) by lia.
      destruct (take_fit (pm - acc - padded_skb c) l) as [seg left]. cbn.
      f_equal. f_equal. lia.
Qed.

Lemma pad_chunk_len (c : sctp_chunk) :
  fits_alone ov pm c ->
  c_skb_len (pad_chunk c) = padded_skb c /\ c_addr (pad_chunk c) = c_addr c.
Proof.
  intros Hc. destruct (fits_alone_bounds c Hc) as (Hp & Hlen & Hint).
  unfold pad_chunk. fold (padded_skb c).
  rewrite (u32_small (padded_skb c)) by lia.
  unfold padded_skb in *. pose proof (SCTP_PAD4_bounds (c_skb_len c)) as Hb.
  rewrite int_small by lia.
  destruct (Z.eqb_spec (SCTP_PAD4 (c_skb_len c) - c_skb_len c) 0) as [E|E].
  - split; [lia|reflexivity].
  - cbn. split; [|reflexivity]. rewrite u32_small by lia. lia.
Qed.

(** One turn of the copy loop on a packet without AUTH. *)
Lemma copy_chunk_plain (c : sctp_chunk) (rest : list sctp_chunk) (l : locals)
    (w : world) :
  auth (pkt w) = None ->
  fits_alone ov pm c ->
  0 <= l_pkt_size l < 2 ^ 31 ->
  padded_skb c <= skb_tailroom (pkt w) (l_nskb l) ->
  exists l' w',
    copy_chunk c rest l w = Done l' w' /\
    chunk_list (pkt w') = rest /\ gso_keep w w' /\
    alloc_skb_ok w' = alloc_skb_ok w /\ gro_receive_ok w' = gro_receive_ok w /\
    chunk_stream (l_nskb l') = chunk_stream (l_nskb l) ++ [c_addr c] /\
    l_pkt_size l' = l_pkt_size l - padded_skb c /\
    l_head l' = l_head l /\ l_pktcount l' = l_pktcount l /\
    l_auth l' = l_auth l /\ l_auth_len l' = l_auth_len l /\
    skb_tailroom (pkt w') (l_nskb l') =
      skb_tailroom (pkt w) (l_nskb l) - padded_skb c.
Proof.
  intros Hau Hc Hsz Hroom. destruct (fits_alone_bounds c Hc) as (Hp & Hlen & Hint).
  unfold copy_chunk. unfold bind at 1, get_packet at 1. cbv zeta.
  unfold is_packet_auth. rewrite Hau. cbn [negb]. rewrite andb_true_r.
  cbv beta iota.
  set (measure := sctp_chunk_is_data c && negb (c_resent c)
                  && negb (tp_rto_pending (transport (pkt w)))).
  set (c1 := if measure then set_c_rtt_in_progress true c else c).
  assert (Hc1 : fits_alone ov pm c1 /\ c_addr c1 = c_addr c /\
                padded_skb c1 = padded_skb c).
  { subst c1. destruct measure; cbn; auto. }
  destruct Hc1 as (Hc1 & Ha1 & Hp1).
  destruct (pad_chunk_len c1 Hc1) as (Hlen2 & Ha2).
  assert (Hsub : int (l_pkt_size l - u32 (SCTP_PAD4 (c_skb_len (pad_chunk c1))))
                 = l_pkt_size l - padded_skb c).
  { rewrite Hlen2, Hp1. fold (padded_skb c). unfold padded_skb at 1.
    rewrite SCTP_PAD4_idem. fold (padded_skb c).
    rewrite u32_small by lia. apply int_small. lia. }
  assert (Hfits : (skb_tailroom (set_chunk_list rest (pkt w)) (l_nskb l)
                   <? c_skb_len (pad_chunk c1)) = false).
  { apply Z.ltb_ge. rewrite Hlen2, Hp1. exact Hroom. }
  clearbody c1 measure.
  assert (Hl0 : l_nskb (if sctp_chunk_is_data c then set_l_has_data true l else l)
                = l_nskb l) by (destruct (sctp_chunk_is_data c); reflexivity).
  rewrite Hl0, Hfits.
  unfold bind, put_packet, sctp_chunk_free, ret.
  destruct (sctp_chunk_is_data c); cbn [negb]; cbv beta iota;
    (eexists _, _; split; [reflexivity|]); cbn;
    (split; [reflexivity|]);
    (split; [constructor; try reflexivity; cbn; destruct measure; auto|]);
    (split; [reflexivity|]); (split; [reflexivity|]);
    (split; [unfold chunk_stream; cbn; rewrite map_app; cbn;
             rewrite Ha2, Ha1; reflexivity|]);
    (split; [exact Hsub|]);
    (split; [reflexivity|]); (split; [reflexivity|]);
    (split; [reflexivity|]); (split; [reflexivity|]);
    unfold skb_tailroom; cbn; rewrite Hlen2, Hp1; lia.
Qed.

(** The copy loop takes exactly the run that was sized. *)
Lemma drain_exact (seg rest : list sctp_chunk) (l : locals) (w : world) :
  auth (pkt w) = None ->
  Forall (fits_alone ov pm) seg -> seg <> [] ->
  l_pkt_size l = skb_sum seg -> skb_sum seg < 2 ^ 31 ->
  skb_sum seg <= skb_tailroom (pkt w) (l_nskb l) ->
  exists l' w',
    drain_chunks (seg ++ rest) l w = Done l' w' /\
    chunk_list (pkt w') = rest /\ gso_keep w w' /\
    alloc_skb_ok w' = alloc_skb_ok w /\ gro_receive_ok w' = gro_receive_ok w /\
    chunk_stream (l_nskb l') = chunk_stream (l_nskb l) ++ map c_addr seg /\
    l_head l' = l_head l /\ l_pktcount l' = l_pktcount l /\
    l_auth l' = l_auth l /\ l_auth_len l' = l_auth_len l.
Proof.
  intros Hau Hseg. revert l w Hau.
  induction Hseg as [|c seg Hc Hseg IH]; intros l w Hau Hne Hsz Hlt Hroom;
    [contradiction|].
  cbn [app drain_chunks]. cbn [skb_sum] in Hsz, Hlt, Hroom.
  pose proof (skb_sum_nonneg seg (fits_alone_pos seg Hseg)) as Hnn.
  destruct (fits_alone_bounds c Hc) as (Hp & Hlen & Hint).
  destruct (copy_chunk_plain c (seg ++ rest) l w Hau Hc ltac:(lia) ltac:(lia))
    as (l1 & w1 & E & Hl1 & Hk1 & Ha1 & Hg1 & Hs1 & Hz1 & Hh1 & Hc1 & Hu1 & Hn1 & Hr1).
  unfold bind at 1. rewrite E.
  destruct seg as [|c2 seg2].
  - cbn in *. replace (l_pkt_size l1) with 0 by lia. cbn [Z.eqb]. unfold ret.
    exists l1, w1. split; [reflexivity|]. split; [exact Hl1|].
    split; [exact Hk1|]. split; [exact Ha1|]. split; [exact Hg1|].
    split; [exact Hs1|]. auto.
  - assert (Hpos : 0 < skb_sum (c2 :: seg2))
      by (apply skb_sum_pos; [apply fits_alone_pos, Hseg|discriminate]).
    destruct (Z.eqb_spec (l_pkt_size l1) 0) as [E0|_]; [lia|].
    destruct (IH l1 w1) as (l2 & w2 & E2 & Hl2 & Hk2 & Ha2 & Hg2 & Hs2 & Hh2 & Hc2 & Hu2 & Hn2).
    + rewrite (gk_auth _ _ Hk1). exact Hau.
    + discriminate.
    + lia.
    + lia.
    + lia.
    + exists l2, w2. split; [exact E2|].
      split; [exact Hl2|]. split; [eapply gso_keep_trans; eauto|].
      split; [congruence|]. split; [congruence|].
      split; [rewrite Hs2, Hs1, <- app_assoc; reflexivity|].
      repeat split; congruence.
Qed.

Lemma granted_next (n : nat) (outcomes : list bool) :
  granted (S n) outcomes -> exists rest, outcomes = true :: rest /\ granted n rest.
Proof. intros (rest & ->). cbn. eexists. split; [reflexivity|]. exists rest. reflexivity. Qed.

Lemma gso_split_nil (k : nat) (room : Z) : gso_split k room [] = [].
Proof. destruct k; reflexivity. Qed.

(** The do-while loop of a GSO emission builds the sub-packets of the
    greedy packing, one per round. *)
Lemma gso_loop (k : nat) :
  forall (lst : list sctp_chunk) (l : locals) (w : world) (fuel : nat),
    chunk_list (pkt w) = lst -> lst <> [] -> (length lst <= k)%nat ->
    Forall (fits_alone ov pm) lst ->
    auth (pkt w) = None -> overhead (pkt w) = ov ->
    tp_pathmtu (transport (pkt w)) = pm ->
    0 < sk_gso_max_segs (sk w) ->
    skb_gso_segs (l_head l) = 0 ->
    l_auth_len l = 0 -> l_auth l = None ->
    0 <= l_pktcount l -> l_pktcount l + Z.of_nat (length lst) < 2 ^ 31 ->
    granted (length (gso_split k (pm - ov) lst)) (alloc_skb_ok w) ->
    granted (length (gso_split k (pm - ov) lst)) (gro_receive_ok w) ->
    (length (gso_split k (pm - ov) lst) <= fuel)%nat ->
    exists l' w',
      sub_packets fuel true l w = Done (Fallthrough, l') w' /\
      chunk_list (pkt w') = [] /\ gso_keep w w' /\
      l_pktcount l' =
        l_pktcount l + Z.of_nat (length (gso_split k (pm - ov) lst)) /\
      map chunk_stream (skb_frags (l_head l')) =
        map chunk_stream (skb_frags (l_head l))
        ++ map (map c_addr) (gso_split k (pm - ov) lst) /\
      skb_gso_segs (l_head l') = 0 /\ skb_gso (l_head l') = skb_gso (l_head l).
Proof.
  induction k as [|k IH];
    intros lst l w fuel Hlst Hne Hlen Hfit Hau Hov Hpm Hmax Hsegs Hal Hap Hc0 Hc1
           Hga Hgg Hfuel.
  { destruct lst; [contradiction|cbn in Hlen; lia]. }
  destruct lst as [|c tl]; [contradiction|].
  pose proof (Forall_inv Hfit) as Hc.
  destruct (fits_alone_bounds c Hc) as (Hp & Hclen & Hint).
  pose proof (take_fit_spec (pm - ov) (c :: tl) (fits_alone_pos _ Hfit))
    as (Esplit & Hsum & Hpos1 & Hpos2).
  pose proof (take_fit_first (pm - ov) c tl ltac:(lia)) as Hsegne.
  cbn [gso_split] in *.
  destruct (take_fit (pm - ov) (c :: tl)) as [seg left] eqn:Etf.
  cbn [fst snd length] in *. specialize (Hsum Hsegne).
  assert (Hfit' : Forall (fits_alone ov pm) seg /\ Forall (fits_alone ov pm) left).
  { rewrite Esplit in Hfit. apply Forall_app in Hfit. exact Hfit. }
  destruct Hfit' as (Hfseg & Hfleft).
  assert (Hlens : (S (length tl) = length seg + length left)%nat)
    by (change (S (length tl)) with (length (c :: tl));
        rewrite Esplit; apply length_app).
  assert (Hseglen : (0 < length seg)%nat) by (destruct seg; [contradiction|cbn; lia]).
  destruct fuel as [|fuel]; [lia|].
  destruct (granted_next _ _ Hga) as (ra & Ea & Hga').
  destruct (granted_next _ _ Hgg) as (rg & Eg & Hgg').
  cbn [sub_packets]. unfold bind at 1, get_packet at 1. cbv zeta.
  cbn [l_auth_len set_l_pktcount].
  rewrite Hpm, Hlst, Hal, Hov, (int_small ov) by lia.
  rewrite (gso_pkt_size_fit (pkt w) (c :: tl) ov Hau Hov Hfit ltac:(lia)).
  rewrite Etf. cbn [fst].
  unfold bind at 1. unfold bind at 1, alloc_skb at 1. rewrite Ea.
  cbv beta iota. unfold ret at 1. cbv beta iota.
  rewrite Esplit.
  match goal with |- context [bind (drain_chunks (seg ++ left) ?l0) ?k0 ?w0] =>
    destruct (drain_exact seg left l0 w0) as
      (l1 & w1 & Ed & Hl1 & Hk1 & Ha1 & Hg1 & Hs1 & Hh1 & Hn1 & Hu1 & Hz1)
  end.
  { exact Hau. }
  { exact Hfseg. }
  { exact Hsegne. }
  { cbn. replace (ov + skb_sum seg - ov) with (skb_sum seg) by lia.
    apply int_small. pose proof (skb_sum_nonneg seg Hpos1). lia. }
  { lia. }
  { unfold skb_tailroom. cbn. rewrite Hov.
    pose proof MAX_HEADER_range as Hmh.
    pose proof (skb_sum_nonneg seg Hpos1) as Hnn.
    pose proof (skb_end_offset_ge (u32 (ov + skb_sum seg + MAX_HEADER))) as Hend.
    rewrite u32_small in Hend |- * by lia. rewrite int_small by lia. lia. }
  unfold bind at 1. rewrite Ed.
  cbn in Hh1, Hn1, Hu1, Hz1, Hs1, Ha1, Hg1.
  unfold bind at 1, finish_auth at 1. rewrite Hu1, Hap.
  unfold bind at 1, get_packet at 1.
  rewrite (gk_auth _ _ Hk1). cbn [pkt set_alloc_skb_ok auth]. rewrite Hau.
  unfold ret at 1. cbn [negb].
  unfold bind at 1, skb_gro_receive at 1. rewrite Hg1. cbn [gro_receive_ok set_alloc_skb_ok].
  rewrite Eg.
  unfold bind at 1, get_sk at 1. cbn [sk set_gro_receive_ok].
  rewrite (gk_sk _ _ Hk1). cbn [sk set_alloc_skb_ok].
  cbn [skb_gso_segs set_skb_frags l_head set_l_head]. rewrite Hh1. cbn [l_head set_l_pktcount set_l_nskb set_l_pkt_size set_l_auth_len].
  rewrite Hsegs.
  destruct (Z.geb_spec 0 (sk_gso_max_segs (sk w))) as [Hge|_]; [lia|].
  unfold bind at 1, get_packet at 1. cbn [pkt set_gro_receive_ok]. rewrite Hl1.
  assert (Hcount : l_pktcount l1 = l_pktcount l + 1).
  { rewrite Hn1. apply int_small. lia. }
  assert (Hkeep0 : gso_keep w (set_gro_receive_ok rg w1)).
  { apply (gso_keep_trans w (set_alloc_skb_ok ra w)); [constructor; reflexivity|].
    apply (gso_keep_trans _ w1); [exact Hk1|constructor; reflexivity]. }
  destruct left as [|c2 left2].
  - rewrite gso_split_nil. cbn [length map]. unfold ret.
    eexists _, _. split; [reflexivity|]. cbn.
    split; [exact Hl1|]. split; [exact Hkeep0|].
    split; [lia|].
    split; [rewrite map_app; cbn; rewrite Hs1; reflexivity|].
    auto.
  - match goal with |- context [sub_packets fuel true ?l2 ?w2] =>
      destruct (IH (c2 :: left2) l2 w2 fuel) as
        (l3 & w3 & E3 & Hl3 & Hk3 & Hn3 & Hf3 & Hs3 & Hg3)
    end.
    + exact Hl1.
    + discriminate.
    + lia.
    + exact Hfleft.
    + rewrite (gk_auth _ _ Hkeep0). exact Hau.
    + rewrite (gk_overhead _ _ Hkeep0). exact Hov.
    + rewrite (gk_pathmtu _ _ Hkeep0). exact Hpm.
    + rewrite (gk_sk _ _ Hkeep0). exact Hmax.
    + cbn. rewrite ?Hh1. cbn. exact Hsegs.
    + cbn. exact Hz1.
    + cbn. rewrite Hu1. exact Hap.
    + cbn. lia.
    + cbn [l_pktcount set_l_head]. rewrite Hcount.
      rewrite Hlens in Hc1. lia.
    + cbn. rewrite Ha1. cbn. exact Hga'.
    + cbn. exact Hgg'.
    + cbn in Hfuel. lia.
    + exists l3, w3. split; [exact E3|]. split; [exact Hl3|].
      split; [eapply gso_keep_trans; eauto|].
      split; [rewrite Hn3; cbn [l_pktcount set_l_head length]; lia|].
      split.
      { rewrite Hf3. cbn. rewrite map_app. cbn. rewrite ?Hh1. cbn.
        rewrite <- app_assoc. cbn. f_equal. f_equal.
        unfold chunk_stream in Hs1 |- *. rewrite Hs1. reflexivity. }
      split; [exact Hs3|]. rewrite Hg3. cbn. rewrite ?Hh1. reflexivity.
Qed.

End GsoRounds.

(** The greedy packing loses no chunk, keeps the order, and weighs at most
    [room] per sub-packet. *)
Lemma gso_split_spec (room : Z) (k : nat) :
  forall l : list sctp_chunk,
    (length l <= k)%nat ->
    Forall (fun c => 0 < c_skb_len c /\ padded_skb c <= room) l ->
    concat (gso_split k room l) = l /\
    skb_sum l <= Z.of_nat (length (gso_split k room l)) * room /\
    (l <> [] -> gso_split k room l <> []).
Proof.
  induction k as [|k IH]; intros l Hlen Hl.
  { destruct l; [|cbn in Hlen; lia]. cbn. repeat split; auto; lia. }
  destruct l as [|c tl]; [cbn; repeat split; auto; lia|].
  assert (Hpos : Forall (fun c => 0 < c_skb_len c) (c :: tl))
    by (eapply Forall_impl; [|exact Hl]; intros x (Hx & _); exact Hx).
  pose proof (Forall_inv Hl) as (Hc & Hcr).
  pose proof (take_fit_spec room (c :: tl) Hpos) as (Esplit & Hsum & _ & _).
  pose proof (take_fit_first room c tl Hcr) as Hne.
  cbn [gso_split].
  destruct (take_fit room (c :: tl)) as [seg left]. cbn [fst snd] in *.
  specialize (Hsum Hne).
  assert (Hl' : Forall (fun c => 0 < c_skb_len c /\ padded_skb c <= room) left).
  { rewrite Esplit in Hl. apply Forall_app in Hl. tauto. }
  assert (Hlens : (S (length tl) = length seg + length left)%nat)
    by (change (S (length tl)) with (length (c :: tl));
        rewrite Esplit; apply length_app).
  assert (Hseglen : (0 < length seg)%nat) by (destruct seg; [contradiction|cbn; lia]).
  destruct (IH left ltac:(cbn in Hlen; lia) Hl') as (Hcat & Hw & _).
  cbn [concat length]. rewrite Hcat. split; [symmetry; exact Esplit|].
  split; [|discriminate].
  rewrite Esplit, skb_sum_app. lia.
Qed.

Section GsoEmission.
Context `{Collaborators}.

Lemma refresh_route_asoc (s : sock) (tp : sctp_transport) :
  (tp_asoc (refresh_route s tp) = None <-> tp_asoc tp = None).
Proof.
  unfold refresh_route. destruct (sctp_transport_dst_check tp); [tauto|].
  destruct (tp_asoc tp) as [a|] eqn:Ea; [destruct (a_pmtud_enable a)|]; cbn;
    rewrite ?Ea; split; intros E; congruence.
Qed.

(** The tail of a GSO emission: the super-buffer goes to IP with the round
    count as its gso_segs. *)
Lemma transmit_tail_gso (had_asoc : bool) (dst : dst_entry) (l : locals) (w : world) :
  has_asoc (pkt w) = true ->
  tp_dst (transport (pkt w)) <> None ->
  exists w' head,
    transmit_tail true had_asoc dst 0 l w = Done 0 w' /\
    xmit w' = xmit w ++ [head] /\
    skb_gso_segs head = l_pktcount l /\
    skb_frags head = skb_frags (l_head l) /\
    skb_gso head = skb_gso (l_head l).
Proof.
  unfold has_asoc. intros Ha Hd.
  unfold transmit_tail. cbv zeta. rewrite orb_true_r. cbn [negb andb].
  unfold bind at 1, get_packet at 1.
  unfold bind at 1, ecn_capable, bind at 1, get_sk at 1, put_sk at 1.
  destruct (tp_asoc (transport (pkt w))) as [a|] eqn:Ea; [|discriminate].
  destruct (tp_dst (transport (pkt w))) as [d|] eqn:Ed; [|contradiction].
  unfold bind at 1.
  match goal with |- context [match ?m ?w1 with _ => _ end] =>
    assert (H1 : exists a1,
               m w1 = Done tt (set_pkt (set_transport
                                 (set_tp_asoc (Some a1) (transport (pkt w))) (pkt w)) w1))
  end.
  { destruct had_asoc.
    - unfold bind, deref_asoc, put_asoc. cbn. rewrite Ea. eexists. reflexivity.
    - unfold ret. exists a. f_equal. cbn.
      destruct w as [p ? ? ? ? ? ?]. cbn in *. destruct p. cbn in *.
      destruct transport0. cbn in *. subst. reflexivity. }
  destruct H1 as (a1 & ->).
  unfold bind at 1.
  match goal with |- context [match ?m ?w1 with _ => _ end] =>
    assert (H2 : exists a2,
               m w1 = Done tt (set_pkt (set_transport
                                 (set_tp_asoc (Some a2) (transport (pkt w))) (pkt w)) w1))
  end.
  { destruct (l_has_data l); [|unfold ret; exists a1; reflexivity].
    unfold bind, deref_asoc, get_jiffies, put_asoc, ret. cbn.
    destruct (state_established (a_state a1) && negb (a_autoclose_timeout a1 =? 0));
      eexists; reflexivity. }
  destruct H2 as (a2 & ->).
  unfold bind at 1. unfold bind at 1, refresh_sk_caps at 1.
  unfold bind at 1, get_packet at 1. unfold bind at 1, get_sk at 1.
  cbn [pkt set_pkt transport set_transport tp_dst set_tp_asoc sk set_sk].
  rewrite Ed.
  match goal with |- context [if ?b then ret tt else _] => destruct b end;
    unfold put_sk, ret, bind, get_packet, sctp_xmit, label_out, put_packet;
    eexists _, _; (split; [reflexivity|]); cbn; auto.
Qed.

End GsoEmission.

Lemma skb_sum_length (l : list sctp_chunk) :
  Forall (fun c => 0 < c_skb_len c) l -> Z.of_nat (length l) <= skb_sum l.
Proof.
  induction 1 as [|c l Hc Hl IH]; [cbn; lia|].
  cbn [length skb_sum]. pose proof (padded_skb_pos c Hc). lia.
Qed.

Lemma granted_length (n : nat) (outcomes : list bool) :
  granted n outcomes -> (n <= length outcomes)%nat.
Proof. intros (rest & ->). rewrite length_app, repeat_length. lia. Qed.

Lemma concat_map_map {A B : Type} (f : A -> B) (ll : list (list A)) :
  concat (map (map f) ll) = map f (concat ll).
Proof. induction ll as [|x ll IH]; cbn; [|rewrite map_app, IH]; reflexivity. Qed.

(** ** C8: what a GSO emission builds *)

(** C8 (amended).  A GSO emission -- the packet's size exceeds the path MTU,
    fragmentation is not allowed, the socket can do GSO, no AUTH chunk is
    bundled, and every chunk fits a sub-packet of one path MTU behind the
    packet's headers -- for which the environment grants the buffers hands
    IP one super-buffer.  Its sub-packets are those of the greedy packing
    of chunk_list (each takes the longest run of chunks whose padded
    lengths fit in pathmtu - overhead), gso_segs is their number, the
    concatenation of their chunk streams is chunk_list in append order,
    and that number is at least the ceiling of size / pathmtu. *)
Theorem C8_gso_emission_is_the_greedy_packing `{Collaborators}
    (w : world) (ov pm : Z) (lst : list sctp_chunk) (segs : list (list sctp_chunk)) :
  chunk_list (pkt w) = lst ->
  overhead (pkt w) = ov ->
  tp_pathmtu (refresh_route (sk w) (transport (pkt w))) = pm ->
  gso_segments (pm - ov) lst = segs ->
  needs_gso (pkt w) = true ->
  sk_gso (sk w) = true ->
  0 < sk_gso_max_segs (sk w) ->
  auth (pkt w) = None ->
  has_asoc (pkt w) = true ->
  tp_dst (refresh_route (sk w) (transport (pkt w))) <> None ->
  0 <= ov -> pm < 2 ^ 30 ->
  lst <> [] ->
  Forall (fits_alone ov pm) lst ->
  size (pkt w) = ov + skb_sum lst ->
  size (pkt w) < 2 ^ 31 ->
  granted (S (length segs)) (alloc_skb_ok w) ->
  granted (length segs) (gro_receive_ok w) ->
  exists w' head,
    sctp_packet_transmit w = Done 0 w' /\
    xmit w' = xmit w ++ [head] /\
    skb_gso head = true /\
    skb_gso_segs head = Z.of_nat (length segs) /\
    map chunk_stream (skb_frags head) = map (map c_addr) segs /\
    concat (map chunk_stream (skb_frags head)) = map c_addr lst /\
    (size (pkt w) + pm - 1) / pm <= Z.of_nat (length segs).
Proof.
  intros Hlst Hov Hpm Hsegs Hgso Hsk Hmax Hauth Hasoc Hdst Hov0 Hpm30 Hne Hfit Hsize
         Hsize31 Halloc Hgro.
  assert (Hpos : Forall (fun c => 0 < c_skb_len c /\ padded_skb c <= pm - ov) lst).
  { eapply Forall_impl; [|exact Hfit]. unfold fits_alone. intros c (? & ?). lia. }
  destruct (gso_split_spec (pm - ov) (length lst) lst (le_n _) Hpos)
    as (Hcat & Hweight & Hsome).
  fold (gso_segments (pm - ov) lst) in Hcat, Hweight, Hsome. rewrite Hsegs in *.
  specialize (Hsome Hne).
  assert (Hlen : Z.of_nat (length lst) < 2 ^ 31).
  { assert (Hp : Forall (fun c => 0 < c_skb_len c) lst)
      by (eapply Forall_impl; [|exact Hpos]; intros x (Hx & _); exact Hx).
    pose proof (skb_sum_length lst Hp). lia. }
  assert (Hpm0 : 0 < pm).
  { destruct Hfit as [|c l (Hc & Hcpm) _]; [contradiction|].
    pose proof (padded_skb_pos c Hc). lia. }
  assert (Hceil : (size (pkt w) + pm - 1) / pm <= Z.of_nat (length segs)).
  { assert (0 < Z.of_nat (length segs)) by (destruct segs; [contradiction|cbn; lia]).
    assert ((size (pkt w) + pm - 1) / pm < Z.of_nat (length segs) + 1); [|lia].
    apply Z.div_lt_upper_bound; [exact Hpm0|]. nia. }
  destruct (granted_next _ _ Halloc) as (ra & Era & Hra).
  unfold sctp_packet_transmit. unfold bind at 1, get_packet at 1.
  rewrite Hlst. destruct lst as [|c0 tl] eqn:El; [contradiction|]. rewrite <- El in *.
  unfold bind at 1, get_sk at 1. rewrite Hgso, Hsk. cbn [negb andb].
  unfold bind at 1, alloc_skb at 1. rewrite Era.
  unfold bind at 1, sctp_packet_set_owner_w at 1, bind at 1, get_sk at 1, put_sk at 1.
  unfold bind at 1, put_packet at 1.
  unfold bind at 1, get_packet at 1.
  cbn [pkt set_pkt transport set_transport].
  destruct (tp_dst (refresh_route (sk w) (transport (pkt w)))) as [d|] eqn:Ed;
    [|contradiction].
  unfold bind at 1, get_world at 1.
  unfold gso_segments in Hsegs.
  match goal with
  | |- context [bind (sub_packets ?f true ?l0) ?k ?w0] =>
      assert (Hloop : exists l' w2,
                 sub_packets f true l0 w0 = Done (Fallthrough, l') w2 /\
                 gso_keep w0 w2 /\
                 l_pktcount l' = Z.of_nat (length segs) /\
                 map chunk_stream (skb_frags (l_head l')) = map (map c_addr) segs /\
                 skb_gso (l_head l') = true)
  end.
  { match goal with
    | |- context [sub_packets ?f true ?l0 ?w0] =>
        destruct (gso_loop ov pm Hov0 Hpm30 (length lst) lst l0 w0 f)
          as (l' & w2 & Eloop & Hnil & Hkeep & Hcount & Hfrags & Hsegs0 & Hgsoflag)
    end; try rewrite Hsegs; cbn; auto; try lia.
    { pose proof (granted_length _ _ Hra). lia. }
    exists l', w2. rewrite Hsegs in *. cbn in *. auto. }
  destruct Hloop as (l' & w2 & Eloop & Hkeep & Hcount & Hfrags & Hgsoflag).
  unfold bind at 1. rewrite Eloop.
  destruct (transmit_tail_gso
              match tp_asoc (transport (pkt w)) with Some _ => true | None => false end
              d l' w2) as (w' & head & Etail & Hx & Hs & Hf & Hg).
  { rewrite (gk_asoc _ _ Hkeep). unfold has_asoc in *. cbn.
    destruct (tp_asoc (refresh_route (sk w) (transport (pkt w)))) eqn:Ea;
      [reflexivity|].
    apply refresh_route_asoc in Ea. rewrite Ea in Hasoc. discriminate. }
  { rewrite (gk_dst _ _ Hkeep). cbn. rewrite Ed. discriminate. }
  exists w', head. split; [exact Etail|].
  rewrite Hx, (gk_xmit _ _ Hkeep), Hs, Hf, Hg, Hcount, Hfrags, Hgsoflag.
  cbn. repeat split; auto.
  rewrite concat_map_map, Hcat. reflexivity.
Qed.

(** The theorem at work: four DATA chunks of 700 bytes behind 32 bytes of
    headers on a 1500-byte path go out as two sub-packets of two chunks. *)
Lemma C8_two_by_two_witness :
  exists w' head,
    @sctp_packet_transmit Sample.demo Sample.w_gso4 = Done 0 w' /\
    xmit w' = xmit Sample.w_gso4 ++ [head] /\
    skb_gso head = true /\
    skb_gso_segs head = 2 /\
    map chunk_stream (skb_frags head) = [[1; 2]; [3; 4]]%nat /\
    concat (map chunk_stream (skb_frags head)) = [1; 2; 3; 4]%nat /\
    (size (pkt Sample.w_gso4) + 1500 - 1) / 1500 <= 2.
Proof.
  refine (@C8_gso_emission_is_the_greedy_packing Sample.demo Sample.w_gso4 32 1500
            (chunk_list (pkt Sample.w_gso4))
            (gso_segments 1468 (chunk_list (pkt Sample.w_gso4)))
            eq_refl eq_refl eq_refl eq_refl eq_refl eq_refl eq_refl eq_refl eq_refl
            _ _ _ _ _ _ _ _ _).
  - vm_compute. discriminate.
  - lia.
  - lia.
  - vm_compute. discriminate.
  - vm_compute.
    repeat (apply Forall_cons; [split; [reflexivity|discriminate]|]).
    apply Forall_nil.
  - vm_compute. reflexivity.
  - vm_compute. reflexivity.
  - exists [true]. vm_compute. reflexivity.
  - exists [true; true]. vm_compute. reflexivity.
Defined.

(** C8 as stated fails on the count: three DATA chunks of 800 bytes make a
    packet of 2432 bytes, every chunk fits a sub-packet of 1500 bytes, and
    the emitter sends a super-buffer of three sub-packets, one chunk each,
    since two chunks and the headers take 1632 bytes; the ceiling of
    2432 / 1500 is 2. *)
Lemma C8_three_segments_counterexample :
  size (pkt Sample.w_gso3) = 2432 /\
  tp_pathmtu (transport (pkt Sample.w_gso3)) = 1500 /\
  needs_gso (pkt Sample.w_gso3) = true /\
  map (fun c => overhead (pkt Sample.w_gso3) + padded_skb c <=? 1500)
    (chunk_list (pkt Sample.w_gso3)) = [true; true; true] /\
  @sctp_packet_transmit Sample.demo Sample.w_gso3
  = Done 0 (Sample.end_of (@sctp_packet_transmit Sample.demo) Sample.w_gso3) /\
  map (fun b => (skb_gso b, skb_gso_segs b, map chunk_stream (skb_frags b)))
    (xmit (Sample.end_of (@sctp_packet_transmit Sample.demo) Sample.w_gso3))
  = [(true, 3, [[1]; [2]; [3]]%nat)] /\
  (2432 + 1500 - 1) / 1500 = 2.
Proof.
  split; [vm_compute; reflexivity|].
  split; [vm_compute; reflexivity|].
  split; [vm_compute; reflexivity|].
  split; [vm_compute; reflexivity|].
  split; [vm_compute; reflexivity|].
  split; vm_compute; reflexivity.
Qed.

(** * Further properties of the admission test *)

(** X1: sctp_packet_will_fit answers OK or PMTU_FULL only, never RWND_FULL
    nor DELAY; it refuses only a packet that is not empty and only when
    size plus the chunk length exceeds the path MTU it goes by; and of the
    packet it writes at most ipfragok, which it can only set, and only
    when it answers OK. *)
Theorem will_fit_verdicts_and_writes (p : sctp_packet) (c : sctp_chunk) (len : Z) :
  exists v p',
    sctp_packet_will_fit p c len = (v, p') /\
    (v = SCTP_XMIT_OK \/ v = SCTP_XMIT_PMTU_FULL) /\
    (p' = p \/ (v = SCTP_XMIT_OK /\ p' = set_ipfragok true p)) /\
    (v = SCTP_XMIT_PMTU_FULL ->
     p' = p /\ sctp_packet_empty p = false /\
     (has_data p = true \/ c_auth c = false) /\
     size_t (size p + len) > pmtu_of p).
Proof.
  unfold sctp_packet_will_fit, pmtu_of.
  destruct (Z.gtb_spec (size_t (size p + len))
              match tp_asoc (transport p) with
              | Some asoc => a_pathmtu asoc
              | None => tp_pathmtu (transport p)
              end) as [Hgt|Hle].
  2:{ eexists _, _. split; [reflexivity|]. split; [auto|]. split; [auto|].
      discriminate. }
  destruct (sctp_packet_empty p) eqn:Ee; cbn [orb].
  { eexists _, _. split; [reflexivity|]. split; [auto|]. split; [auto|].
    discriminate. }
  destruct (has_data p) eqn:Ed; cbn [negb andb].
  - eexists _, _. split; [reflexivity|].
    split; [|split; [left; reflexivity|intros _; repeat split; auto; lia]].
    repeat match goal with
           | |- context [if ?b then _ else _] => destruct b
           end; auto.
  - destruct (c_auth c) eqn:Ea.
    + eexists _, _. split; [reflexivity|]. split; [auto|]. split; [auto|].
      discriminate.
    + eexists _, _. split; [reflexivity|].
      split; [|split; [left; reflexivity|intros _; repeat split; auto; lia]].
      repeat match goal with
             | |- context [if ?b then _ else _] => destruct b
             end; auto.
Qed.

(** X2: the admission test is monotone in the chunk length: on a packet
    whose size does not wrap, a chunk length that is admitted is admitted
    at every smaller length as well. *)
Theorem will_fit_monotone (p : sctp_packet) (c : sctp_chunk) (len len' : Z) :
  0 <= size p -> 0 <= len' <= len -> size p + len < 2 ^ 64 ->
  fst (sctp_packet_will_fit p c len) = SCTP_XMIT_OK ->
  fst (sctp_packet_will_fit p c len') = SCTP_XMIT_OK.
Proof.
  intros Hs Hl Hw. unfold sctp_packet_will_fit. cbv zeta.
  rewrite (size_t_small (size p + len)), (size_t_small (size p + len')) by lia.
  set (pmtu := match tp_asoc (transport p) with
               | Some asoc => a_pathmtu asoc
               | None => tp_pathmtu (transport p)
               end).
  destruct (Z.gtb_spec (size p + len') pmtu) as [Hgt'|Hle']; [|reflexivity].
  destruct (Z.gtb_spec (size p + len) pmtu) as [Hgt|Hle]; [|lia].
  destruct (sctp_packet_empty p || negb (has_data p) && c_auth c); [reflexivity|].
  cbn [fst].
  set (maxsize := match auth p with
                  | Some a => size_t (size_t (pmtu - overhead p)
                                      - u32 (SCTP_PAD4 (c_skb_len a)))
                  | None => size_t (pmtu - overhead p)
                  end).
  destruct (negb (sctp_chunk_is_data c) && has_data p).
  - (* a control chunk behind DATA: refused at [len] already *)
    repeat match goal with
           | |- context [if ?b then _ else _] => destruct b
           end; intros E; try discriminate E; reflexivity.
  - destruct (Z.gtb_spec len maxsize), (Z.gtb_spec len' maxsize),
      (Z.gtb_spec (size p + len) (max_size p)),
      (Z.gtb_spec (size p + len') (max_size p)),
      (Z.gtb_spec (size p + len) (Z.shiftr (tp_cwnd (transport p)) 1)),
      (Z.gtb_spec (size p + len') (Z.shiftr (tp_cwnd (transport p)) 1)),
      (Z.gtb_spec (size p + len) (Z.shiftr (tp_burst_limited (transport p)) 1)),
      (Z.gtb_spec (size p + len') (Z.shiftr (tp_burst_limited (transport p)) 1)),
      (tp_burst_limited (transport p) =? 0);
      cbn [negb andb]; intros E; try discriminate E; try reflexivity; lia.
Qed.

(** The theorem at work: the sample GSO packet with one DATA chunk of
    1448 bytes takes a DATA chunk of 100 bytes, beyond the path MTU of
    1500; hence it takes one of 40. *)
Lemma will_fit_monotone_witness :
  fst (sctp_packet_will_fit
         (pkt (Sample.after [Append (Sample.chunk 1 SCTP_CID_DATA 1448)] Sample.w0))
         (Sample.chunk 2 SCTP_CID_DATA 100) 40)
  = SCTP_XMIT_OK.
Proof.
  apply (will_fit_monotone
           (pkt (Sample.after [Append (Sample.chunk 1 SCTP_CID_DATA 1448)] Sample.w0))
           (Sample.chunk 2 SCTP_CID_DATA 100) 100 40).
  - vm_compute. discriminate.
  - lia.
  - vm_compute. reflexivity.
  - vm_compute. reflexivity.
Defined.

(** X3: a control chunk never joins a packet that holds DATA once the path
    MTU would be exceeded: with has_data set, a packet that is not empty
    answers PMTU_FULL to every chunk that is not DATA and does not fit,
    whatever the other limits say, and stays as it is. *)
Theorem will_fit_control_behind_data (p : sctp_packet) (c : sctp_chunk) (len : Z) :
  has_data p = true ->
  sctp_chunk_is_data c = false ->
  sctp_packet_empty p = false ->
  size_t (size p + len) > pmtu_of p ->
  sctp_packet_will_fit p c len = (SCTP_XMIT_PMTU_FULL, p).
Proof.
  intros Hd Hc He Hgt. unfold sctp_packet_will_fit. fold (pmtu_of p).
  destruct (Z.gtb_spec (size_t (size p + len)) (pmtu_of p)) as [_|Hle]; [|lia].
  rewrite He, Hd, Hc. cbn [negb andb orb].
  repeat match goal with
         | |- context [if ?b then _ else _] => destruct b
         end; reflexivity.
Qed.

(** The theorem at work: a 100-byte HEARTBEAT offered to the sample packet
    that holds 1448 bytes of DATA. *)
Lemma will_fit_control_behind_data_witness :
  sctp_packet_will_fit (pkt Sample.w_1480) (Sample.chunk 2 SCTP_CID_HEARTBEAT 100) 100
  = (SCTP_XMIT_PMTU_FULL, pkt Sample.w_1480).
Proof.
  apply (will_fit_control_behind_data (pkt Sample.w_1480)
           (Sample.chunk 2 SCTP_CID_HEARTBEAT 100) 100).
  - vm_compute. reflexivity.
  - reflexivity.
  - vm_compute. reflexivity.
  - vm_compute. reflexivity.
Defined.

(** * Further properties of the append path *)

Lemma will_fit_verdict_cases (p : sctp_packet) (c : sctp_chunk) (len : Z) :
  exists v p', sctp_packet_will_fit p c len = (v, p') /\
    ((v = SCTP_XMIT_OK /\ p' = p) \/
     (v = SCTP_XMIT_OK /\ p' = set_ipfragok true p) \/
     (v = SCTP_XMIT_PMTU_FULL /\ p' = p)).
Proof.
  destruct (will_fit_cases p c len) as [E | [E | (E & _)]]; rewrite E;
    eexists _, _; (split; [reflexivity|]); auto.
Qed.

Section RawAppend.
Context `{Collaborators}.

(** The verdict of a raw append is that of the admission test, and an
    admitted chunk leaves the limits, the header fields and the route of
    the packet alone; ipfragok is as the test left it, and has_cookie_echo
    is raised by a COOKIE_ECHO only. *)
Lemma append_raw_verdict (c : sctp_chunk) (v : sctp_xmit_t) (w w' : world) :
  __sctp_packet_append_chunk c w = Done v w' ->
  v = fst (sctp_packet_will_fit (pkt w) c (chunk_len16 c)) /\
  limits (pkt w') = limits (pkt w) /\
  ipfragok (pkt w') = ipfragok (snd (sctp_packet_will_fit (pkt w) c (chunk_len16 c))) /\
  has_cookie_echo (pkt w') =
    has_cookie_echo (pkt w)
    || (xmit_is_ok v && is_cookie_echo_cid (c_type c)) /\
  vtag (pkt w') = vtag (pkt w) /\
  tp_dst (transport (pkt w')) = tp_dst (transport (pkt w)) /\
  tp_addr (transport (pkt w')) = tp_addr (transport (pkt w)).
Proof.
  unfold __sctp_packet_append_chunk.
  fold (chunk_len16 c). set (len := chunk_len16 c).
  unfold bind at 1, get_packet at 1.
  destruct (will_fit_verdict_cases (pkt w) c len)
    as (v0 & p1 & E & [(-> & ->) | [(-> & ->) | (-> & ->)]]); rewrite E;
    unfold bind at 1, put_packet at 1; cbn [xmit_is_ok negb fst snd].
  3:{ unfold ret. intros E'. injection E' as <- <-. cbn.
      rewrite orb_false_r. repeat split; reflexivity. }
  all: destruct (c_type c) eqn:Et; intros E';
    repeat (unfold bind, get_packet, put_packet, put_asoc, get_jiffies, ret,
              sctp_packet_append_data, deref_asoc in E'; cbn in E');
    destruct (tp_asoc (transport (pkt w))) as [a|] eqn:Ea;
    try destruct (c_has_asoc c);
    try discriminate E'; injection E' as <- <-;
    unfold limits, pmtu_of; cbn; rewrite ?Et; cbn;
    rewrite ?Ea; cbn; rewrite ?orb_false_r, ?orb_true_r;
    repeat match goal with
           | |- context [is_auth_cid ?t] => destruct (is_auth_cid t); cbn; rewrite ?Ea
           end;
    repeat split; reflexivity.
Qed.

End RawAppend.

Section BundlerShapes.
Context `{Collaborators}.

(** The AUTH bundler does nothing and says OK, or offers the chunk of
    [sctp_make_auth] to the raw append and releases it when refused. *)
Lemma bundle_auth_shape (c : sctp_chunk) (v : sctp_xmit_t) (w w' : world) :
  sctp_packet_bundle_auth c w = Done v w' ->
  (v = SCTP_XMIT_OK /\ w' = w) \/
  exists a b w1,
    tp_asoc (transport (pkt w)) = Some a /\
    is_auth_cid (c_type c) = false /\ has_auth (pkt w) = false /\
    c_auth c = true /\ sctp_make_auth a = Some b /\
    __sctp_packet_append_chunk b w = Done v w1 /\
    w' = if xmit_is_ok v then w1 else with_freed b w1.
Proof.
  unfold sctp_packet_bundle_auth. unfold bind at 1, get_packet at 1.
  destruct (tp_asoc (transport (pkt w))) as [a|] eqn:Ea.
  2:{ unfold ret. intros E. injection E as <- <-. auto. }
  destruct (is_auth_cid (c_type c)) eqn:Et; cbn [orb].
  { unfold ret. intros E. injection E as <- <-. auto. }
  destruct (has_auth (pkt w)) eqn:Eh.
  { unfold ret. intros E. injection E as <- <-. auto. }
  destruct (c_auth c) eqn:Ec; cbn [negb].
  2:{ unfold ret. intros E. injection E as <- <-. auto. }
  destruct (sctp_make_auth a) as [b|] eqn:Em.
  2:{ unfold ret. intros E. injection E as <- <-. auto. }
  unfold bind at 1.
  destruct (__sctp_packet_append_chunk b w) as [v1 w1|] eqn:Er; [|discriminate].
  intros E. right. exists a, b, w1.
  destruct (xmit_is_ok v1) eqn:Ev; cbn [negb] in E;
    unfold bind, sctp_chunk_free, ret in E; injection E as <- <-;
    rewrite Ev; repeat split; (reflexivity || assumption).
Qed.

(** The SACK bundler does nothing and says OK; or it notes the window it
    is about to advertise and finds no SACK to send; or it offers the
    chunk of [sctp_make_sack] to the raw append, releases it when refused,
    and stops the delayed-SACK timer when admitted. *)
Lemma bundle_sack_shape (c : sctp_chunk) (v : sctp_xmit_t) (w w' : world) :
  sctp_packet_bundle_sack c w = Done v w' ->
  (v = SCTP_XMIT_OK /\ w' = w) \/
  exists a,
    tp_asoc (transport (pkt w)) = Some a /\
    sctp_chunk_is_data c = true /\ has_sack (pkt w) = false /\
    has_cookie_echo (pkt w) = false /\
    a_sack_timer_pending a = true /\
    tp_sack_generation (transport (pkt w)) = a_peer_sack_generation a /\
    ((sctp_make_sack (set_a_a_rwnd (a_rwnd a) a) = None /\
      v = SCTP_XMIT_OK /\ w' = with_asoc (set_a_a_rwnd (a_rwnd a) a) w) \/
     exists b w1,
       sctp_make_sack (set_a_a_rwnd (a_rwnd a) a) = Some b /\
       __sctp_packet_append_chunk b (with_asoc (set_a_a_rwnd (a_rwnd a) a) w)
       = Done v w1 /\
       ((xmit_is_ok v = false /\ w' = with_freed b w1) \/
        (xmit_is_ok v = true /\
         exists a1, tp_asoc (transport (pkt w1)) = Some a1 /\
                    w' = with_asoc (sack_sent a1) w1))).
Proof.
  unfold sctp_packet_bundle_sack. unfold bind at 1, get_packet at 1.
  destruct (sctp_chunk_is_data c) eqn:Ed; cbn [andb].
  2:{ unfold ret. intros E. injection E as <- <-. auto. }
  destruct (has_sack (pkt w)) eqn:Es; cbn [negb andb].
  { unfold ret. intros E. injection E as <- <-. auto. }
  destruct (has_cookie_echo (pkt w)) eqn:Ece; cbn [negb andb].
  { unfold ret. intros E. injection E as <- <-. auto. }
  unfold bind at 1, deref_asoc at 1.
  destruct (tp_asoc (transport (pkt w))) as [a|] eqn:Ea; [|discriminate].
  destruct (a_sack_timer_pending a) eqn:Et.
  2:{ unfold ret. intros E. injection E as <- <-. auto. }
  destruct (Z.eqb_spec (tp_sack_generation (transport (pkt w)))
              (a_peer_sack_generation a)) as [Eg|Eg]; cbn [negb].
  2:{ unfold ret. intros E. injection E as <- <-. auto. }
  unfold bind at 1, put_asoc at 1. fold (with_asoc (set_a_a_rwnd (a_rwnd a) a) w).
  intros E. right. exists a.
  do 6 (split; [reflexivity || assumption|]).
  destruct (sctp_make_sack (set_a_a_rwnd (a_rwnd a) a)) as [b|] eqn:Em.
  2:{ unfold ret in E. injection E as <- <-. left. auto. }
  right. unfold bind at 1 in E.
  destruct (__sctp_packet_append_chunk b _) as [v1 w1|] eqn:Er; [|discriminate].
  exists b, w1. split; [reflexivity|].
  destruct (xmit_is_ok v1) eqn:Ev; cbn [negb] in E.
  - unfold bind at 1, deref_asoc at 1 in E.
    destruct (tp_asoc (transport (pkt w1))) as [a1|] eqn:Ea1; [|discriminate].
    unfold bind, put_asoc, ret in E. injection E as <- <-.
    split; [exact Er|]. right.
    split; [exact Ev|]. exists a1. split; [reflexivity|]. reflexivity.
  - unfold bind, sctp_chunk_free, ret in E. injection E as <- <-.
    split; [exact Er|]. left. split; [exact Ev|reflexivity].
Qed.

End BundlerShapes.

Lemma same_but_sack_refl (a : sctp_association) : same_but_sack a a.
Proof. unfold same_but_sack. destruct a; reflexivity. Qed.

Lemma same_but_sack_a_rwnd (a : sctp_association) (r : Z) :
  same_but_sack a (set_a_a_rwnd r a).
Proof. unfold same_but_sack. destruct a; reflexivity. Qed.

Lemma same_but_sack_sent (a : sctp_association) : same_but_sack a (sack_sent a).
Proof.
  unfold same_but_sack, sack_sent. destruct a; cbn.
  destruct a_sack_timer_pending0; reflexivity.
Qed.

Section InvariantPrinciple.
Context `{Collaborators}.
Variable I : world -> Prop.
Hypothesis closed : append_closed I.

(** The public append is made of the three kinds of write. *)
Lemma append_closed_public (c : sctp_chunk) (v : sctp_xmit_t) (w w' : world) :
  I w -> sctp_packet_append_chunk c w = Done v w' -> I w'.
Proof.
  destruct closed as (Hraw & Hasoc & Hfree).
  intros Hw. unfold sctp_packet_append_chunk. unfold bind at 1.
  assert (Hfirst : forall v0 w0,
             (if sctp_chunk_is_data c then sctp_packet_can_append_data c
              else ret SCTP_XMIT_OK) w = Done v0 w0 -> w0 = w).
  { intros v0 w0. destruct (sctp_chunk_is_data c).
    - intros E. apply can_append_data_reads in E. tauto.
    - unfold ret. intros E. injection E as _ <-. reflexivity. }
  destruct ((if sctp_chunk_is_data c then sctp_packet_can_append_data c
             else ret SCTP_XMIT_OK) w) as [v0 w0|] eqn:E0; [|discriminate].
  rewrite (Hfirst _ _ eq_refl). clear Hfirst E0 w0.
  destruct (xmit_is_ok v0); cbn [negb].
  2:{ unfold ret. intros E. injection E as _ <-. exact Hw. }
  unfold bind at 1.
  destruct (sctp_packet_bundle_auth c w) as [v1 w1|] eqn:E1; [|discriminate].
  assert (Hw1 : I w1).
  { apply bundle_auth_shape in E1.
    destruct E1 as [(_ & ->) | (a & b & w1' & _ & _ & _ & _ & _ & Er & ->)];
      [exact Hw|].
    pose proof (Hraw _ _ _ _ Hw Er) as Hw1'.
    destruct (xmit_is_ok v1); [exact Hw1'|apply Hfree; exact Hw1']. }
  destruct (xmit_is_ok v1); cbn [negb].
  2:{ unfold ret. intros E. injection E as _ <-. exact Hw1. }
  unfold bind at 1.
  destruct (sctp_packet_bundle_sack c w1) as [v2 w2|] eqn:E2; [|discriminate].
  assert (Hw2 : I w2).
  { apply bundle_sack_shape in E2.
    destruct E2 as [(_ & ->) | (a & Ea & _ & _ & _ & _ & _ & Hrest)]; [exact Hw1|].
    pose proof (Hasoc a _ w1 Hw1 Ea (same_but_sack_a_rwnd a (a_rwnd a))) as Hw0.
    destruct Hrest as [(_ & _ & ->) | (b & w1' & _ & Er & Hend)]; [exact Hw0|].
    pose proof (Hraw _ _ _ _ Hw0 Er) as Hw1'.
    destruct Hend as [(_ & ->) | (_ & a1 & Ea1 & ->)].
    - apply Hfree. exact Hw1'.
    - apply (Hasoc a1 _ w1' Hw1' Ea1). apply same_but_sack_sent. }
  destruct (xmit_is_ok v2); cbn [negb].
  2:{ unfold ret. intros E. injection E as _ <-. exact Hw2. }
  intros E. apply (Hraw _ _ _ _ Hw2 E).
Qed.

Lemma append_closed_op (op : append_op) (v : sctp_xmit_t) (w w' : world) :
  I w -> do_op op w = Done v w' -> I w'.
Proof.
  destruct op as [c|c]; cbn [do_op].
  - apply append_closed_public.
  - destruct closed as (Hraw & _). intros Hw E. exact (Hraw _ _ _ _ Hw E).
Qed.

Lemma append_closed_run (ops : list append_op) :
  forall (vs : list sctp_xmit_t) (w w' : world),
    I w -> run_ops ops w = Done vs w' -> I w'.
Proof.
  induction ops as [|op ops IH]; intros vs w w' Hw; cbn [run_ops].
  - unfold ret. intros E. injection E as _ <-. exact Hw.
  - unfold bind at 1.
    destruct (do_op op w) as [v w1|] eqn:E1; [|discriminate].
    unfold bind at 1.
    destruct (run_ops ops w1) as [vs1 w2|] eqn:E2; [|discriminate].
    unfold ret. intros E. injection E as _ <-.
    apply (IH vs1 w1 w2); [|exact E2].
    apply (append_closed_op op v w w1 Hw E1).
Qed.

End InvariantPrinciple.

(** ** The size stays within the limits *)

Lemma will_fit_ok_bound (p p' : sctp_packet) (c : sctp_chunk) (len : Z) :
  sctp_packet_will_fit p c len = (SCTP_XMIT_OK, p') ->
  size_t (size p + len) <= pmtu_of p \/ ipfragok p' = true \/
  (size_t (size p + len) <= max_size p /\ size_t (size p + len) <= half_window p).
Proof.
  unfold sctp_packet_will_fit, half_window. fold (pmtu_of p). cbv zeta.
  destruct (Z.gtb_spec (size_t (size p + len)) (pmtu_of p)) as [Hgt|Hle];
    [|intros _; left; exact Hle].
  destruct (sctp_packet_empty p || negb (has_data p) && c_auth c).
  { intros E. injection E as <-. right. left. reflexivity. }
  destruct (Z.gtb_spec (size_t (size p + len)) (max_size p)),
    (Z.gtb_spec (size_t (size p + len)) (Z.shiftr (tp_cwnd (transport p)) 1)),
    (Z.gtb_spec (size_t (size p + len))
       (Z.shiftr (tp_burst_limited (transport p)) 1)),
    (tp_burst_limited (transport p) =? 0);
    cbn [negb andb]; intros E; try discriminate E; right; right; split; assumption.
Qed.

Section FitInvariant.
Context `{Collaborators}.

Lemma fit_inv_limits (p p' : sctp_packet) :
  limits p' = limits p -> size p' = size p -> ipfragok p' = ipfragok p ->
  fit_inv p -> fit_inv p'.
Proof.
  unfold limits, fit_inv, half_window. intros E Es Ei.
  injection E as -> _ -> Hc Hb _. rewrite Es, Ei, Hc, Hb. tauto.
Qed.

Lemma fit_inv_closed (L : Z * Z * Z * Z * Z * Z) :
  append_closed (fun w => limits (pkt w) = L /\ fit_inv (pkt w)).
Proof.
  split; [|split].
  - intros c v w w' (HL & Hf) E.
    pose proof (append_raw_verdict c v w w' E) as (Hv & Hlim & Hip & _).
    split; [congruence|].
    destruct (append_raw_effect c v w w' E) as [(_ & -> & _) | (-> & c' & Hstep)];
      [exact Hf|].
    destruct (sctp_packet_will_fit (pkt w) c (chunk_len16 c)) as [v0 p1] eqn:Ew.
    cbn [fst snd] in Hv, Hip. subst v0.
    pose proof (will_fit_ok_bound _ _ _ _ Ew) as Hb.
    unfold fit_inv. rewrite (rs_size _ _ _ _ Hstep), Hip.
    unfold limits in Hlim. injection Hlim as -> _ -> Hc Hbl _.
    unfold half_window in *. rewrite Hc, Hbl. exact Hb.
  - intros a a' w (HL & Hf) Ea Hs.
    assert (Hlim : limits (pkt (with_asoc a' w)) = limits (pkt w)).
    { unfold limits, pmtu_of, with_asoc. cbn. rewrite Ea.
      rewrite Hs. reflexivity. }
    split; [congruence|].
    apply (fit_inv_limits (pkt w)); auto.
  - intros c w Hw. exact Hw.
Qed.

(** Every run of appends keeps the limits and the size within them. *)
Lemma fit_inv_run (ops : list append_op) (vs : list sctp_xmit_t) (w w' : world) :
  fit_inv (pkt w) -> run_ops ops w = Done vs w' ->
  limits (pkt w') = limits (pkt w) /\ fit_inv (pkt w').
Proof.
  intros Hf E.
  apply (append_closed_run _ (fit_inv_closed (limits (pkt w))) ops vs w w');
    [split; [reflexivity|exact Hf]|exact E].
Qed.

End FitInvariant.

(** X4: the appends keep the size within the limits.  From a packet whose
    size is within the path MTU the admission test goes by (a fresh one,
    as a rule), every run of public and raw appends leaves [max_size], the
    path MTUs, the congestion window, the burst limit and the overhead as
    they were, and leaves a packet that is within the path MTU, or marked
    for IP fragmentation, or within both [max_size] and half the window
    (the burst limit when one is set).  So a packet that the emitter must
    send by GSO is never larger than [max_size] nor than half the window,
    when the association's path MTU is not above the transport's. *)
Theorem appends_keep_size_within_limits `{Collaborators}
    (ops : list append_op) (vs : list sctp_xmit_t) (w w' : world) :
  fit_inv (pkt w) ->
  run_ops ops w = Done vs w' ->
  limits (pkt w') = limits (pkt w) /\
  fit_inv (pkt w') /\
  (pmtu_of (pkt w) <= tp_pathmtu (transport (pkt w)) ->
   needs_gso (pkt w') = true ->
   size (pkt w') <= max_size (pkt w) /\ size (pkt w') <= half_window (pkt w)).
Proof.
  intros Hf E. destruct (fit_inv_run ops vs w w' Hf E) as (Hlim & Hf').
  split; [exact Hlim|]. split; [exact Hf'|].
  intros Hmtu Hgso. unfold needs_gso in Hgso.
  apply andb_prop in Hgso. destruct Hgso as (Hgt & Hfrag).
  apply Z.gtb_lt in Hgt. apply negb_true_iff in Hfrag.
  unfold limits in Hlim. unfold half_window in *.
  injection Hlim as Hp Ht Hm Hc Hb _.
  rewrite <- Hm, <- Hc, <- Hb.
  destruct Hf' as [Hle | [Hi | Hcap]]; [lia|congruence|exact Hcap].
Qed.

(** X5: no GSO without need.  When [max_size] and the association's path
    MTU are at most the transport's path MTU -- the configuration of a
    socket that cannot do GSO -- no run of appends builds a packet that the
    emitter would have to send by GSO: the size stays within the path MTU
    unless IP fragmentation was allowed. *)
Theorem appends_never_need_gso_within_path_mtu `{Collaborators}
    (ops : list append_op) (vs : list sctp_xmit_t) (w w' : world) :
  fit_inv (pkt w) ->
  pmtu_of (pkt w) <= tp_pathmtu (transport (pkt w)) ->
  max_size (pkt w) <= tp_pathmtu (transport (pkt w)) ->
  run_ops ops w = Done vs w' ->
  needs_gso (pkt w') = false.
Proof.
  intros Hf Hmtu Hmax E. destruct (fit_inv_run ops vs w w' Hf E) as (Hlim & Hf').
  unfold limits in Hlim. injection Hlim as Hp Ht Hm _ _ _.
  unfold needs_gso.
  destruct (ipfragok (pkt w')) eqn:Ei; [apply andb_false_r|].
  cbn [negb]. rewrite andb_true_r.
  destruct (Z.gtb_spec (size (pkt w')) (tp_pathmtu (transport (pkt w'))))
    as [Hgt|Hle]; [|reflexivity].
  destruct Hf' as [Hle | [Hi | (Hcap & _)]]; [lia|congruence|lia].
Qed.

(** The theorem at work: three DATA chunks of 800 bytes on the sample GSO
    packet make 2432 bytes, to be sent by GSO, within [max_size] (65536)
    and half the window (50000). *)
Lemma appends_keep_size_within_limits_witness :
  size (pkt Sample.w_gso3) <= max_size (pkt Sample.w0) /\
  size (pkt Sample.w_gso3) <= half_window (pkt Sample.w0).
Proof.
  refine (proj2 (proj2 (@appends_keep_size_within_limits Sample.demo
            [Append (Sample.chunk 1 SCTP_CID_DATA 800);
             Append (Sample.chunk 2 SCTP_CID_DATA 800);
             Append (Sample.chunk 3 SCTP_CID_DATA 800)]
            [SCTP_XMIT_OK; SCTP_XMIT_OK; SCTP_XMIT_OK]
            Sample.w0 Sample.w_gso3 _ _)) _ _).
  - left. vm_compute. discriminate.
  - vm_compute. reflexivity.
  - vm_compute. discriminate.
  - vm_compute. reflexivity.
Defined.

(** The theorem at work: on the sample packet without GSO, a DATA chunk of
    1448 bytes is admitted and one of 40 more is refused; the packet needs
    no GSO. *)
Lemma appends_never_need_gso_witness :
  needs_gso
    (pkt (Sample.after [Append (Sample.chunk 1 SCTP_CID_DATA 1448);
                        Append (Sample.chunk 2 SCTP_CID_DATA 40)] Sample.w_plain))
  = false.
Proof.
  refine (@appends_never_need_gso_within_path_mtu Sample.demo
            [Append (Sample.chunk 1 SCTP_CID_DATA 1448);
             Append (Sample.chunk 2 SCTP_CID_DATA 40)]
            [SCTP_XMIT_OK; SCTP_XMIT_PMTU_FULL]
            Sample.w_plain _ _ _ _ _).
  - left. vm_compute. discriminate.
  - vm_compute. discriminate.
  - vm_compute. discriminate.
  - vm_compute. reflexivity.
Defined.

(** ** A control chunk and an empty packet *)

Lemma will_fit_ok_if (p : sctp_packet) (c : sctp_chunk) (len : Z) :
  sctp_packet_empty p = true \/ (has_data p = false /\ c_auth c = true) ->
  fst (sctp_packet_will_fit p c len) = SCTP_XMIT_OK.
Proof.
  intros Hx. unfold sctp_packet_will_fit. cbv zeta.
  destruct (size_t (size p + len) >? _); [|reflexivity].
  destruct Hx as [-> | (-> & ->)]; cbn [negb andb orb];
    rewrite ?orb_true_r; reflexivity.
Qed.

Section EmptyPacket.
Context `{Collaborators}.

Hypothesis make_auth_not_data :
  forall a b, sctp_make_auth a = Some b -> sctp_chunk_is_data b = false.

(** On a packet that is empty and holds no DATA, the public append of a
    control chunk ends with OK: behind at most one bundled AUTH chunk the
    chunk is the last of the list. *)
Lemma control_on_empty (c : sctp_chunk) (w : world) :
  sctp_chunk_is_data c = false ->
  sctp_packet_empty (pkt w) = true ->
  has_data (pkt w) = false ->
  exists w' pre c',
    sctp_packet_append_chunk c w = Done SCTP_XMIT_OK w' /\
    chunk_list (pkt w') = chunk_list (pkt w) ++ pre ++ [c'] /\
    (length pre <= 1)%nat /\ same_wire c c' /\ same_env w w'.
Proof.
  intros Hc He Hd. unfold sctp_packet_append_chunk. rewrite Hc.
  unfold bind at 1, ret at 1. cbn [xmit_is_ok negb].
  destruct (bundle_auth_returns c w) as (v1 & w1 & E1 & _).
  unfold bind at 1. rewrite E1.
  assert (Hw1 : v1 = SCTP_XMIT_OK /\
                exists pre, chunk_list (pkt w1) = chunk_list (pkt w) ++ pre /\
                  (length pre <= 1)%nat /\ same_env w w1 /\
                  (sctp_packet_empty (pkt w1) = true \/
                   (has_data (pkt w1) = false /\ c_auth c = true))).
  { apply bundle_auth_shape in E1.
    destruct E1 as [(-> & ->) | (a & b & w1' & Ea & _ & _ & Hca & Hm & Er & ->)].
    - split; [reflexivity|]. exists []. rewrite app_nil_r.
      split; [reflexivity|]. split; [cbn; lia|].
      split; [apply same_env_refl|]. left. exact He.
    - pose proof (append_raw_verdict b v1 w w1' Er) as (Hv & _).
      rewrite (will_fit_ok_if (pkt w) b) in Hv by (left; exact He). subst v1.
      cbn [xmit_is_ok]. split; [reflexivity|].
      destruct (append_raw_effect b _ w w1' Er) as [(Hv & _) | (_ & b' & Hstep)];
        [discriminate|].
      exists [b']. split; [apply (rs_list _ _ _ _ Hstep)|]. split; [cbn; lia|].
      split; [apply (rs_env _ _ _ _ Hstep)|]. right.
      rewrite (rs_has_data _ _ _ _ Hstep), Hd, (make_auth_not_data a b Hm).
      split; [reflexivity|exact Hca]. }
  destruct Hw1 as (-> & pre & Hl1 & Hlen & Henv1 & Hfit). cbn [xmit_is_ok negb].
  unfold bind at 1.
  assert (E2 : sctp_packet_bundle_sack c w1 = Done SCTP_XMIT_OK w1).
  { unfold sctp_packet_bundle_sack, bind, get_packet. rewrite Hc. reflexivity. }
  rewrite E2. cbn [xmit_is_ok negb].
  destruct (append_raw_returns c w1 (or_intror Hc)) as (v & w' & E).
  pose proof (append_raw_verdict c v w1 w' E) as (Hv & _).
  rewrite (will_fit_ok_if (pkt w1) c _ Hfit) in Hv. subst v.
  destruct (append_raw_effect c _ w1 w' E) as [(Hv & _) | (_ & c' & Hstep)];
    [discriminate|].
  exists w', pre, c'. split; [exact E|].
  split; [rewrite (rs_list _ _ _ _ Hstep), Hl1, app_assoc; reflexivity|].
  split; [exact Hlen|]. split; [apply (rs_wire _ _ _ _ Hstep)|].
  apply (same_env_trans w w1 w'); [exact Henv1|apply (rs_env _ _ _ _ Hstep)].
Qed.

End EmptyPacket.

(** X6: an empty packet takes every control chunk.  On a packet that is
    empty and holds no DATA -- a fresh or a reset one -- the public append
    of a chunk that is not DATA cannot fail, whatever the path MTU, the
    window and [max_size]: it returns OK, the chunk ends up last in
    chunk_list behind at most one bundled AUTH chunk, and the socket, the
    clock and what was handed to IP are untouched.  (The AUTH factory is
    taken not to make DATA chunks.) *)
Theorem empty_packet_takes_control_chunk `{Collaborators}
    (c : sctp_chunk) (w : world) :
  (forall a b, sctp_make_auth a = Some b -> sctp_chunk_is_data b = false) ->
  sctp_chunk_is_data c = false ->
  sctp_packet_empty (pkt w) = true ->
  has_data (pkt w) = false ->
  exists w' pre c',
    sctp_packet_append_chunk c w = Done SCTP_XMIT_OK w' /\
    chunk_list (pkt w') = chunk_list (pkt w) ++ pre ++ [c'] /\
    (length pre <= 1)%nat /\ same_wire c c' /\ same_env w w'.
Proof. intros Hk. apply control_on_empty. exact Hk. Qed.

(** The theorem at work: a HEARTBEAT of 3000 bytes on the empty sample
    packet without GSO ([max_size] and path MTU 1500). *)
Lemma empty_packet_takes_control_chunk_witness :
  exists w' pre c',
    @sctp_packet_append_chunk Sample.demo (Sample.chunk 1 SCTP_CID_HEARTBEAT 3000)
      Sample.w_plain = Done SCTP_XMIT_OK w' /\
    chunk_list (pkt w') = chunk_list (pkt Sample.w_plain) ++ pre ++ [c'] /\
    (length pre <= 1)%nat /\
    same_wire (Sample.chunk 1 SCTP_CID_HEARTBEAT 3000) c' /\
    same_env Sample.w_plain w'.
Proof.
  apply (@empty_packet_takes_control_chunk Sample.demo
           (Sample.chunk 1 SCTP_CID_HEARTBEAT 3000) Sample.w_plain).
  - intros a b E. vm_compute in E. injection E as <-. reflexivity.
  - reflexivity.
  - vm_compute. reflexivity.
  - vm_compute. reflexivity.
Defined.

Section ControlDriver.
Context `{Collaborators}.

(** The public append of a control chunk answers OK or PMTU_FULL. *)
Lemma control_append_verdicts (c : sctp_chunk) (v : sctp_xmit_t) (w w' : world) :
  sctp_chunk_is_data c = false ->
  sctp_packet_append_chunk c w = Done v w' ->
  v = SCTP_XMIT_OK \/ v = SCTP_XMIT_PMTU_FULL.
Proof.
  intros Hc. unfold sctp_packet_append_chunk. rewrite Hc.
  unfold bind at 1, ret at 1. cbn [xmit_is_ok negb]. unfold bind at 1.
  destruct (sctp_packet_bundle_auth c w) as [v1 w1|] eqn:E1; [|discriminate].
  assert (Hv1 : v1 = SCTP_XMIT_OK \/ v1 = SCTP_XMIT_PMTU_FULL).
  { apply bundle_auth_shape in E1.
    destruct E1 as [(-> & _) | (a & b & w1' & _ & _ & _ & _ & _ & Er & _)];
      [auto|].
    apply append_raw_effect in Er. destruct Er as [(-> & _) | (-> & _)]; auto. }
  destruct Hv1 as [-> | ->]; cbn [xmit_is_ok negb].
  2:{ unfold ret. intros E. injection E as <- _. auto. }
  unfold bind at 1.
  assert (E2 : sctp_packet_bundle_sack c w1 = Done SCTP_XMIT_OK w1).
  { unfold sctp_packet_bundle_sack, bind, get_packet. rewrite Hc. reflexivity. }
  rewrite E2. cbn [xmit_is_ok negb]. intros E.
  apply append_raw_effect in E. destruct E as [(-> & _) | (-> & _)]; auto.
Qed.

End ControlDriver.

(** X7: with [one_packet] clear, the driver never answers PMTU_FULL to a
    control chunk unless the packet holds a COOKIE_ECHO -- "if we have an
    empty packet, then we can NOT ever return PMTU_FULL".  When the first
    append of a chunk that is not DATA says PMTU_FULL and the packet holds
    no COOKIE_ECHO, the packet is flushed, and once the emitter has
    returned the retry on the reset packet admits the chunk: the driver
    returns OK.  (The packet satisfies the size invariant, and the AUTH
    factory is taken not to make DATA chunks.) *)
Theorem transmit_chunk_admits_control_after_flush `{Collaborators}
    (chunk : sctp_chunk) (w : world) :
  (forall a b, sctp_make_auth a = Some b -> sctp_chunk_is_data b = false) ->
  sctp_chunk_is_data chunk = false ->
  size_inv (pkt w) ->
  (forall w1 r w2,
     sctp_packet_append_chunk chunk w = Done SCTP_XMIT_PMTU_FULL w1 ->
     has_cookie_echo (pkt w1) = false ->
     sctp_packet_transmit w1 = Done r w2 ->
     exists w3 pre c',
       sctp_packet_transmit_chunk chunk false w = Done SCTP_XMIT_OK w3 /\
       chunk_list (pkt w3) = chunk_list (pkt w2) ++ pre ++ [c'] /\
       same_wire chunk c') /\
  (forall v w',
     sctp_packet_transmit_chunk chunk false w = Done v w' ->
     v = SCTP_XMIT_OK \/
     (v = SCTP_XMIT_PMTU_FULL /\ has_cookie_echo (pkt w') = true)).
Proof.
  intros Hk Hc Hi.
  assert (Hflush : forall w1 r w2,
             sctp_packet_append_chunk chunk w = Done SCTP_XMIT_PMTU_FULL w1 ->
             has_cookie_echo (pkt w1) = false ->
             sctp_packet_transmit w1 = Done r w2 ->
             exists w3 pre c',
               sctp_packet_transmit_chunk chunk false w = Done SCTP_XMIT_OK w3 /\
               chunk_list (pkt w3) = chunk_list (pkt w2) ++ pre ++ [c'] /\
               same_wire chunk c').
  { intros w1 r w2 E1 Hce Et.
    destruct (transmit_chunk_cases chunk false w w1 _ E1) as (_ & _ & Hfl & _).
    rewrite (Hfl eq_refl Hce r w2 Et). cbn [negb].
    pose proof (pmtu_full_leaves_chunks _ _ _ Hi E1) as Hne.
    destruct (transmit_returns_zero _ _ _ Et) as (_ & _ & Hr).
    destruct (Hr Hne) as (Hsz & _ & _ & Hd & _).
    destruct (control_on_empty Hk chunk w2 Hc) as (w3 & pre & c' & E & Hl & _ & Hw & _).
    - unfold sctp_packet_empty. rewrite Hsz. apply Z.eqb_refl.
    - exact Hd.
    - exists w3, pre, c'. auto. }
  split; [exact Hflush|].
  intros v w' E.
  destruct (sctp_packet_append_chunk chunk w) as [v1 w1|] eqn:E1.
  2:{ unfold sctp_packet_transmit_chunk, bind in E. rewrite E1 in E. discriminate. }
  destruct (transmit_chunk_cases chunk false w w1 _ E1) as (Hok & Hce & Hfl & Hcr).
  destruct (control_append_verdicts chunk v1 w w1 Hc E1) as [-> | ->].
  - rewrite Hok in E by discriminate. injection E as <- _. auto.
  - destruct (has_cookie_echo (pkt w1)) eqn:Ece.
    + rewrite (Hce eq_refl eq_refl) in E. injection E as <- <-. auto.
    + destruct (sctp_packet_transmit w1) as [r w2|f] eqn:Et.
      * destruct (Hflush w1 r w2 eq_refl Ece Et) as (w3 & _ & _ & E3 & _).
        rewrite E3 in E. injection E as <- _. auto.
      * rewrite (Hcr eq_refl eq_refl f eq_refl) in E. discriminate.
Qed.

(** The theorem at work: a HEARTBEAT of 100 bytes offered to the sample
    packet that holds 1448 bytes of DATA; the packet is flushed and the
    retry admits the chunk. *)
Lemma transmit_chunk_admits_control_witness :
  exists w3 pre c',
    @sctp_packet_transmit_chunk Sample.demo (Sample.chunk 2 SCTP_CID_HEARTBEAT 100)
      false Sample.w_1480 = Done SCTP_XMIT_OK w3 /\
    chunk_list (pkt w3) =
      chunk_list
        (pkt (Sample.end_of (@sctp_packet_transmit Sample.demo)
                (Sample.end_of (@sctp_packet_append_chunk Sample.demo
                                  (Sample.chunk 2 SCTP_CID_HEARTBEAT 100))
                   Sample.w_1480)))
      ++ pre ++ [c'] /\
    same_wire (Sample.chunk 2 SCTP_CID_HEARTBEAT 100) c'.
Proof.
  refine (proj1 (@transmit_chunk_admits_control_after_flush Sample.demo
                   (Sample.chunk 2 SCTP_CID_HEARTBEAT 100) Sample.w_1480 _ _ _)
            _ 0 _ _ _ _).
  - intros a b E. vm_compute in E. injection E as <-. reflexivity.
  - reflexivity.
  - unfold size_inv. vm_compute. repeat split; (discriminate || reflexivity).
  - vm_compute. reflexivity.
  - vm_compute. reflexivity.
  - vm_compute. reflexivity.
Defined.

(** ** The flags mirror the list *)

Section Flags.
Context `{Collaborators}.

(** What an admitted raw append does to the list and to [auth]. *)
Lemma append_raw_auth (c : sctp_chunk) (w w' : world) :
  __sctp_packet_append_chunk c w = Done SCTP_XMIT_OK w' ->
  exists c',
    c_type c' = c_type c /\
    chunk_list (pkt w') = chunk_list (pkt w) ++ [c'] /\
    auth (pkt w') = if is_auth_cid (c_type c) then Some c' else auth (pkt w).
Proof.
  unfold __sctp_packet_append_chunk.
  fold (chunk_len16 c). set (len := chunk_len16 c).
  unfold bind at 1, get_packet at 1.
  destruct (will_fit_verdict_cases (pkt w) c len)
    as (v0 & p1 & E & [(-> & ->) | [(-> & ->) | (-> & ->)]]); rewrite E;
    unfold bind at 1, put_packet at 1; cbn [xmit_is_ok negb fst snd].
  3:{ unfold ret. intros E'. discriminate E'. }
  all: destruct (c_type c) eqn:Et; intros E';
    repeat (unfold bind, get_packet, put_packet, put_asoc, get_jiffies, ret,
              sctp_packet_append_data, deref_asoc in E'; cbn in E');
    destruct (tp_asoc (transport (pkt w))) as [a|] eqn:Ea;
    try destruct (c_has_asoc c);
    try discriminate E'; injection E' as <-;
    cbn; rewrite ?Et; cbn;
    try (unfold sctp_chunk_assign_ssn, sctp_chunk_assign_tsn;
         destruct (c_has_tsn _), (c_has_ssn _), (a_prsctp_capable _); cbn;
         rewrite ?Et; cbn);
    eexists; (split; [|split; reflexivity]); cbn; rewrite ?Et; reflexivity.
Qed.

Lemma flags_inv_closed : append_closed (fun w => flags_inv (pkt w)).
Proof.
  split; [|split].
  - intros c v w w' (Hd & Hce & Hs & Ha & Hau) E.
    pose proof (append_raw_verdict c v w w' E) as (_ & _ & _ & Hce' & _).
    destruct (append_raw_effect c v w w' E) as [(_ & -> & _) | (-> & c1 & Hstep)];
      [repeat split; assumption|].
    destruct (append_raw_auth c w w' E) as (c' & Ht & Hl & Hau').
    assert (Hk : sctp_chunk_is_data c' = sctp_chunk_is_data c)
      by (unfold sctp_chunk_is_data; rewrite Ht; reflexivity).
    unfold flags_inv.
    rewrite (rs_has_data _ _ _ _ Hstep), (rs_has_sack _ _ _ _ Hstep),
      (rs_has_auth _ _ _ _ Hstep), Hce', Hau', Hl, !existsb_app, rev_app_distr.
    cbn [existsb rev app find xmit_is_ok andb]. rewrite Ht, Hk, !orb_false_r.
    rewrite Hd, Hce, Hs, Ha, Hau, <- !orb_assoc.
    repeat split; reflexivity.
  - intros a a' w Hw _ _. exact Hw.
  - intros c w Hw. exact Hw.
Qed.

Lemma flags_inv_started (p : sctp_packet) : started p -> flags_inv p.
Proof.
  intros [p0 tp sp dp | p0 Hl _]; unfold flags_inv; cbn; rewrite ?Hl;
    repeat split; reflexivity.
Qed.

End Flags.

(** X8: the flags mirror the list.  After every run of public and raw
    appends on a packet fresh from sctp_packet_init or reset, has_data is
    set exactly when chunk_list holds a DATA chunk, has_cookie_echo exactly
    when it holds a COOKIE_ECHO, has_sack exactly when it holds a SACK or a
    DATA chunk, has_auth exactly when it holds an AUTH or a DATA chunk, and
    [auth] is the last AUTH chunk of the list, if any. *)
Theorem flags_mirror_chunk_list `{Collaborators}
    (ops : list append_op) (vs : list sctp_xmit_t) (w w' : world) :
  started (pkt w) ->
  run_ops ops w = Done vs w' ->
  flags_inv (pkt w').
Proof.
  intros Hs E.
  apply (append_closed_run _ flags_inv_closed ops vs w w');
    [apply flags_inv_started; exact Hs|exact E].
Qed.

(** The theorem at work: a COOKIE_ECHO, then a DATA chunk, on the sample
    packet. *)
Lemma flags_mirror_chunk_list_witness :
  flags_inv
    (pkt (Sample.after [Append (Sample.chunk 1 SCTP_CID_COOKIE_ECHO 100);
                        Append (Sample.chunk 2 SCTP_CID_DATA 200)] Sample.w0)).
Proof.
  apply (@flags_mirror_chunk_list Sample.demo
           [Append (Sample.chunk 1 SCTP_CID_COOKIE_ECHO 100);
            Append (Sample.chunk 2 SCTP_CID_DATA 200)]
           [SCTP_XMIT_OK; SCTP_XMIT_OK] Sample.w0).
  - apply started_init.
  - vm_compute. reflexivity.
Defined.

(** ** Appends only extend the list *)

Lemma phase_list (make : sctp_association -> option sctp_chunk)
    (flag : sctp_packet -> bool) (w w' : world) :
  phase make flag w w' ->
  exists pre, chunk_list (pkt w') = chunk_list (pkt w) ++ pre /\ (length pre <= 1)%nat.
Proof.
  intros [Hq | a b b' w0 w1 _ _ Hq0 Hstep Hq1].
  - exists []. rewrite app_nil_r. split; [apply (quiet_packet _ _ Hq)|cbn; lia].
  - exists [b']. split; [|cbn; lia].
    destruct (quiet_packet _ _ Hq0) as (Hl0 & _).
    destruct (quiet_packet _ _ Hq1) as (Hl1 & _).
    rewrite Hl1, (rs_list _ _ _ _ Hstep), Hl0. reflexivity.
Qed.

(** X9: an append only extends the list.  Whatever its verdict, the public
    append leaves the chunks that were in chunk_list where they were and
    adds at most three behind them -- a bundled AUTH, a bundled SACK and
    the chunk itself; on OK the chunk is the last one, with its type and
    lengths as offered; on any other verdict the chunk is not added, though
    up to two bundled chunks may be.  The socket, the clock, the allocator
    and the buffers handed to IP are untouched. *)
Theorem append_chunk_only_extends `{Collaborators}
    (c : sctp_chunk) (v : sctp_xmit_t) (w w' : world) :
  sctp_packet_append_chunk c w = Done v w' ->
  same_env w w' /\
  exists bundled,
    (length bundled <= 2)%nat /\
    ((v = SCTP_XMIT_OK /\
      exists c', same_wire c c' /\
                 chunk_list (pkt w') = chunk_list (pkt w) ++ bundled ++ [c']) \/
     (v <> SCTP_XMIT_OK /\
      chunk_list (pkt w') = chunk_list (pkt w) ++ bundled)).
Proof.
  intros E. split; [apply (append_chunk_env c v w w' E)|].
  apply append_chunk_effect in E.
  destruct E as (w1 & w2 & Hp1 & Hp2 & Hend).
  destruct (phase_list _ _ _ _ Hp1) as (pre1 & Hl1 & Hn1).
  destruct (phase_list _ _ _ _ Hp2) as (pre2 & Hl2 & Hn2).
  exists (pre1 ++ pre2). split; [rewrite length_app; lia|].
  destruct Hend as [(Hv & -> & _) | (-> & c' & Hstep)].
  - right. split; [exact Hv|]. rewrite Hl2, Hl1, app_assoc. reflexivity.
  - left. split; [reflexivity|]. exists c'. split; [apply (rs_wire _ _ _ _ Hstep)|].
    rewrite (rs_list _ _ _ _ Hstep), Hl2, Hl1, <- !app_assoc. reflexivity.
Qed.

(** The theorem at work: a DATA chunk of 40 bytes refused by the sample
    packet that holds 1448 bytes. *)
Lemma append_chunk_only_extends_witness :
  same_env Sample.w_1480
    (Sample.end_of (@sctp_packet_append_chunk Sample.demo
                      (Sample.chunk 2 SCTP_CID_DATA 40)) Sample.w_1480) /\
  exists bundled,
    (length bundled <= 2)%nat /\
    ((SCTP_XMIT_PMTU_FULL = SCTP_XMIT_OK /\
      exists c', same_wire (Sample.chunk 2 SCTP_CID_DATA 40) c' /\
                 chunk_list
                   (pkt (Sample.end_of (@sctp_packet_append_chunk Sample.demo
                                          (Sample.chunk 2 SCTP_CID_DATA 40))
                           Sample.w_1480))
                 = chunk_list (pkt Sample.w_1480) ++ bundled ++ [c']) \/
     (SCTP_XMIT_PMTU_FULL <> SCTP_XMIT_OK /\
      chunk_list
        (pkt (Sample.end_of (@sctp_packet_append_chunk Sample.demo
                               (Sample.chunk 2 SCTP_CID_DATA 40)) Sample.w_1480))
      = chunk_list (pkt Sample.w_1480) ++ bundled)).
Proof.
  apply (@append_chunk_only_extends Sample.demo (Sample.chunk 2 SCTP_CID_DATA 40)
           SCTP_XMIT_PMTU_FULL Sample.w_1480).
  vm_compute. reflexivity.
Defined.

(** * Further properties of the bundlers *)

Section BundlerFacts.
Context `{Collaborators}.

(** The transport behind an admitted control chunk: a SACK that knows its
    association counts in [osacks]; nothing else is written. *)
Lemma append_raw_control_transport (c : sctp_chunk) (w w' : world)
    (a : sctp_association) :
  sctp_chunk_is_data c = false ->
  tp_asoc (transport (pkt w)) = Some a ->
  __sctp_packet_append_chunk c w = Done SCTP_XMIT_OK w' ->
  transport (pkt w') =
    if is_sack_cid (c_type c) && c_has_asoc c
    then set_tp_asoc (Some (set_a_osacks (a_osacks a + 1) a)) (transport (pkt w))
    else transport (pkt w).
Proof.
  intros Hc Ea. unfold __sctp_packet_append_chunk.
  fold (chunk_len16 c). set (len := chunk_len16 c).
  unfold bind at 1, get_packet at 1.
  destruct (will_fit_verdict_cases (pkt w) c len)
    as (v0 & p1 & E & [(-> & ->) | [(-> & ->) | (-> & ->)]]); rewrite E;
    unfold bind at 1, put_packet at 1; cbn [xmit_is_ok negb fst snd].
  3:{ unfold ret. intros E'. discriminate E'. }
  all: unfold sctp_chunk_is_data in Hc;
    destruct (c_type c) eqn:Et; try discriminate Hc; intros E';
    repeat (unfold bind, get_packet, put_packet, put_asoc, get_jiffies, ret in E';
            cbn in E');
    rewrite ?Ea in E'; try destruct (c_has_asoc c); cbn in E';
    injection E' as <-; cbn; rewrite ?Et; cbn; reflexivity.
Qed.

(** The admission test reads the association for its path MTU only. *)
Lemma will_fit_with_asoc (w : world) (a a' : sctp_association) (c : sctp_chunk)
    (len : Z) :
  tp_asoc (transport (pkt w)) = Some a -> a_pathmtu a' = a_pathmtu a ->
  fst (sctp_packet_will_fit (pkt (with_asoc a' w)) c len)
  = fst (sctp_packet_will_fit (pkt w) c len).
Proof.
  intros Ea Hp. unfold sctp_packet_will_fit, with_asoc, sctp_packet_empty. cbn.
  rewrite Ea, Hp.
  repeat match goal with
         | |- context [if ?b then _ else _] => destruct b; cbn [fst]
         end; reflexivity.
Qed.

(** The SACK bundler at work: the SACK goes in and the timer is stopped. *)
Lemma bundle_sack_done (c sack : sctp_chunk) (w : world) (a : sctp_association) :
  sctp_chunk_is_data c = true ->
  has_sack (pkt w) = false ->
  has_cookie_echo (pkt w) = false ->
  tp_asoc (transport (pkt w)) = Some a ->
  a_sack_timer_pending a = true ->
  tp_sack_generation (transport (pkt w)) = a_peer_sack_generation a ->
  sctp_make_sack (set_a_a_rwnd (a_rwnd a) a) = Some sack ->
  sctp_chunk_is_data sack = false ->
  fst (sctp_packet_will_fit (pkt w) sack (chunk_len16 sack)) = SCTP_XMIT_OK ->
  exists w' sack',
    sctp_packet_bundle_sack c w = Done SCTP_XMIT_OK w' /\
    raw_step sack sack' (with_asoc (set_a_a_rwnd (a_rwnd a) a) w) w' /\
    tp_asoc (transport (pkt w')) =
      Some (sack_sent
              (if is_sack_cid (c_type sack) && c_has_asoc sack
               then set_a_osacks (a_osacks a + 1) (set_a_a_rwnd (a_rwnd a) a)
               else set_a_a_rwnd (a_rwnd a) a)).
Proof.
  intros Hc Hs Hce Ea Ht Hg Hm Hk Hfit.
  set (a0 := set_a_a_rwnd (a_rwnd a) a) in *.
  assert (Ea0 : tp_asoc (transport (pkt (with_asoc a0 w))) = Some a0) by reflexivity.
  destruct (append_raw_returns sack (with_asoc a0 w) (or_intror Hk)) as (v & w1 & Er).
  pose proof (append_raw_verdict sack v _ w1 Er) as (Hv & _).
  rewrite (will_fit_with_asoc w a a0 sack _ Ea eq_refl), Hfit in Hv. subst v.
  pose proof (append_raw_control_transport sack _ w1 a0 Hk Ea0 Er) as Htp.
  destruct (append_raw_effect sack _ _ w1 Er) as [(Hv & _) | (_ & sack' & Hstep)];
    [discriminate|].
  set (a1 := if is_sack_cid (c_type sack) && c_has_asoc sack
             then set_a_osacks (a_osacks a0 + 1) a0 else a0) in *.
  assert (Ea1 : tp_asoc (transport (pkt w1)) = Some a1).
  { rewrite Htp. subst a1. destruct (is_sack_cid (c_type sack) && c_has_asoc sack);
      reflexivity. }
  exists (with_asoc (sack_sent a1) w1), sack'.
  split.
  - unfold sctp_packet_bundle_sack. unfold bind at 1, get_packet at 1.
    rewrite Hc, Hs, Hce. cbn [negb andb].
    unfold bind at 1, deref_asoc at 1. rewrite Ea, Ht, Hg, Z.eqb_refl. cbn [negb].
    unfold bind at 1, put_asoc at 1. fold a0. rewrite Hm.
    unfold bind at 1. unfold with_asoc in Er. rewrite Er. cbn [xmit_is_ok negb].
    unfold bind at 1, deref_asoc at 1. rewrite Ea1.
    unfold bind, put_asoc, ret. reflexivity.
  - split; [|reflexivity].
    destruct Hstep. constructor; cbn; auto.
Qed.

End BundlerFacts.

(** X10: bundling a SACK stops the delayed-SACK timer.  For a DATA chunk
    offered to a packet with no SACK and no COOKIE_ECHO, on the transport
    the peer last sent on, while the delayed-SACK timer runs: when the
    factory makes a SACK and the SACK passes the admission test, the
    bundler returns OK, the SACK is the new last chunk, has_sack is set,
    the window the SACK advertises is noted in a_rwnd, the owed-SACK flag
    is cleared, the timer is stopped and the reference it held is given
    back, a SACK that knows its association counts in osacks, and no chunk
    is released. *)
Theorem bundle_sack_stops_sack_timer `{Collaborators}
    (c sack : sctp_chunk) (w : world) (a : sctp_association) :
  sctp_chunk_is_data c = true ->
  has_sack (pkt w) = false ->
  has_cookie_echo (pkt w) = false ->
  tp_asoc (transport (pkt w)) = Some a ->
  a_sack_timer_pending a = true ->
  tp_sack_generation (transport (pkt w)) = a_peer_sack_generation a ->
  sctp_make_sack (set_a_a_rwnd (a_rwnd a) a) = Some sack ->
  c_type sack = SCTP_CID_SACK ->
  fst (sctp_packet_will_fit (pkt w) sack (chunk_len16 sack)) = SCTP_XMIT_OK ->
  exists w' a' sack',
    sctp_packet_bundle_sack c w = Done SCTP_XMIT_OK w' /\
    chunk_list (pkt w') = chunk_list (pkt w) ++ [sack'] /\
    same_wire sack sack' /\
    has_sack (pkt w') = true /\
    tp_asoc (transport (pkt w')) = Some a' /\
    a_sack_timer_pending a' = false /\
    a_peer_sack_needed a' = false /\
    a_refcnt a' = a_refcnt a - 1 /\
    a_a_rwnd a' = a_rwnd a /\
    a_osacks a' = a_osacks a + (if c_has_asoc sack then 1 else 0) /\
    freed w' = freed w.
Proof.
  intros Hc Hs Hce Ea Ht Hg Hm Hk Hfit.
  assert (Hnd : sctp_chunk_is_data sack = false)
    by (unfold sctp_chunk_is_data; rewrite Hk; reflexivity).
  destruct (bundle_sack_done c sack w a Hc Hs Hce Ea Ht Hg Hm Hnd Hfit)
    as (w' & sack' & E & Hstep & Ea').
  rewrite Hk in Ea'. cbn [is_sack_cid andb] in Ea'.
  eexists w', _, sack'. split; [exact E|].
  split; [rewrite (rs_list _ _ _ _ Hstep); reflexivity|].
  split; [apply (rs_wire _ _ _ _ Hstep)|].
  split; [rewrite (rs_has_sack _ _ _ _ Hstep), Hk; cbn; apply orb_true_r|].
  split; [exact Ea'|].
  assert (Hfr : freed w' = freed w) by (rewrite (rs_freed _ _ _ _ Hstep); reflexivity).
  destruct (c_has_asoc sack); unfold sack_sent; cbn; rewrite Ht; cbn;
    repeat split; try reflexivity; try exact Hfr; lia.
Qed.

(** The theorem at work: a DATA chunk offered to the empty sample packet
    of an association that owes a SACK. *)
Lemma bundle_sack_stops_sack_timer_witness :
  exists w' a' sack',
    @sctp_packet_bundle_sack Sample.demo (Sample.chunk 1 SCTP_CID_DATA 100)
      Scene.w_sack = Done SCTP_XMIT_OK w' /\
    chunk_list (pkt w') = chunk_list (pkt Scene.w_sack) ++ [sack'] /\
    same_wire (Sample.chunk 901 SCTP_CID_SACK 16) sack' /\
    has_sack (pkt w') = true /\
    tp_asoc (transport (pkt w')) = Some a' /\
    a_sack_timer_pending a' = false /\
    a_peer_sack_needed a' = false /\
    a_refcnt a' = 2 - 1 /\
    a_a_rwnd a' = 60000 /\
    a_osacks a' = 0 + 1 /\
    freed w' = freed Scene.w_sack.
Proof.
  apply (@bundle_sack_stops_sack_timer Sample.demo (Sample.chunk 1 SCTP_CID_DATA 100)
           (Sample.chunk 901 SCTP_CID_SACK 16) Scene.w_sack Scene.asoc_sack);
    vm_compute; reflexivity.
Defined.

(** X11: what the SACK bundler never does.  It answers OK or PMTU_FULL.
    It adds a chunk only with the verdict OK, only for a DATA chunk, only
    to a packet that has neither a SACK nor a COOKIE_ECHO, only while the
    delayed-SACK timer of the association runs, and only on the transport
    whose sack_generation is the peer's.  When it answers PMTU_FULL the
    SACK it made is released, chunk_list is as it was, and of the
    association only a_rwnd is written: the timer keeps running. *)
Theorem bundle_sack_contract `{Collaborators}
    (c : sctp_chunk) (v : sctp_xmit_t) (w w' : world) :
  sctp_packet_bundle_sack c w = Done v w' ->
  (v = SCTP_XMIT_OK \/ v = SCTP_XMIT_PMTU_FULL) /\
  (chunk_list (pkt w') <> chunk_list (pkt w) ->
   v = SCTP_XMIT_OK /\ sctp_chunk_is_data c = true /\
   has_sack (pkt w) = false /\ has_cookie_echo (pkt w) = false /\
   exists a, tp_asoc (transport (pkt w)) = Some a /\
             a_sack_timer_pending a = true /\
             tp_sack_generation (transport (pkt w)) = a_peer_sack_generation a) /\
  (v = SCTP_XMIT_PMTU_FULL ->
   exists a b,
     tp_asoc (transport (pkt w)) = Some a /\
     sctp_make_sack (set_a_a_rwnd (a_rwnd a) a) = Some b /\
     w' = with_freed b (with_asoc (set_a_a_rwnd (a_rwnd a) a) w)).
Proof.
  intros E. apply bundle_sack_shape in E.
  destruct E as [(-> & ->) | (a & Ea & Hd & Hs & Hce & Ht & Hg & Hrest)].
  { split; [auto|]. split; [intros Hn; contradiction|discriminate]. }
  destruct Hrest as [(_ & -> & ->) | (b & w1 & Hm & Er & Hend)].
  { split; [auto|]. split; [intros Hn; cbn in Hn; contradiction|discriminate]. }
  destruct (append_raw_effect b v _ w1 Er) as [(-> & -> & _) | (-> & b' & Hstep)].
  - destruct Hend as [(_ & ->) | (Hv & _)]; [|discriminate].
    split; [auto|]. split; [intros Hn; cbn in Hn; contradiction|].
    intros _. exists a, b. auto.
  - split; [auto|]. split; [|discriminate].
    intros _. split; [reflexivity|]. repeat (split; [assumption|]).
    exists a. auto.
Qed.

(** The theorem at work: the verdict and the end of the run of X10. *)
Lemma bundle_sack_contract_witness :
  (SCTP_XMIT_OK = SCTP_XMIT_OK \/ SCTP_XMIT_OK = SCTP_XMIT_PMTU_FULL) /\
  (chunk_list
     (pkt (Sample.end_of (@sctp_packet_bundle_sack Sample.demo
                            (Sample.chunk 1 SCTP_CID_DATA 100)) Scene.w_sack))
   <> chunk_list (pkt Scene.w_sack) ->
   SCTP_XMIT_OK = SCTP_XMIT_OK /\
   sctp_chunk_is_data (Sample.chunk 1 SCTP_CID_DATA 100) = true /\
   has_sack (pkt Scene.w_sack) = false /\
   has_cookie_echo (pkt Scene.w_sack) = false /\
   exists a, tp_asoc (transport (pkt Scene.w_sack)) = Some a /\
             a_sack_timer_pending a = true /\
             tp_sack_generation (transport (pkt Scene.w_sack))
             = a_peer_sack_generation a) /\
  (SCTP_XMIT_OK = SCTP_XMIT_PMTU_FULL ->
   exists a b,
     tp_asoc (transport (pkt Scene.w_sack)) = Some a /\
     @sctp_make_sack Sample.demo (set_a_a_rwnd (a_rwnd a) a) = Some b /\
     Sample.end_of (@sctp_packet_bundle_sack Sample.demo
                      (Sample.chunk 1 SCTP_CID_DATA 100)) Scene.w_sack
     = with_freed b (with_asoc (set_a_a_rwnd (a_rwnd a) a) Scene.w_sack)).
Proof.
  apply (@bundle_sack_contract Sample.demo (Sample.chunk 1 SCTP_CID_DATA 100)
           SCTP_XMIT_OK Scene.w_sack).
  vm_compute. reflexivity.
Defined.

(** X12: what the AUTH bundler never does.  It answers OK or PMTU_FULL.
    It adds a chunk only with the verdict OK, only on a transport with an
    association, only for a chunk that asks for authentication and is not
    itself an AUTH chunk, and only to a packet whose has_auth is clear, so
    at most once per packet.  When it answers PMTU_FULL the AUTH chunk it
    made is released and nothing else is written. *)
Theorem bundle_auth_contract `{Collaborators}
    (c : sctp_chunk) (v : sctp_xmit_t) (w w' : world) :
  sctp_packet_bundle_auth c w = Done v w' ->
  (v = SCTP_XMIT_OK \/ v = SCTP_XMIT_PMTU_FULL) /\
  (chunk_list (pkt w') <> chunk_list (pkt w) ->
   v = SCTP_XMIT_OK /\ has_asoc (pkt w) = true /\
   c_auth c = true /\ is_auth_cid (c_type c) = false /\
   has_auth (pkt w) = false /\
   exists b', chunk_list (pkt w') = chunk_list (pkt w) ++ [b'] /\
              (is_auth_cid (c_type b') = true ->
               has_auth (pkt w') = true /\ auth (pkt w') = Some b')) /\
  (v = SCTP_XMIT_PMTU_FULL ->
   exists a b,
     tp_asoc (transport (pkt w)) = Some a /\ sctp_make_auth a = Some b /\
     w' = with_freed b w).
Proof.
  intros E. apply bundle_auth_shape in E.
  destruct E as [(-> & ->) | (a & b & w1 & Ea & Ht & Hh & Hc & Hm & Er & ->)].
  { split; [auto|]. split; [intros Hn; contradiction|discriminate]. }
  destruct (append_raw_effect b v w w1 Er) as [(-> & -> & _) | (-> & b1 & Hstep)];
    cbn [xmit_is_ok].
  - split; [auto|]. split; [intros Hn; cbn in Hn; contradiction|].
    intros _. exists a, b. auto.
  - split; [auto|]. split; [|discriminate].
    intros _. split; [reflexivity|].
    split; [unfold has_asoc; rewrite Ea; reflexivity|].
    repeat (split; [assumption|]).
    destruct (append_raw_auth b w w1 Er) as (b' & Htb & Hl & Hau).
    exists b'. split; [exact Hl|]. rewrite Htb. intros Hk.
    rewrite Hk in Hau. split; [|exact Hau].
    rewrite (rs_has_auth _ _ _ _ Hstep), Hk. apply orb_true_r.
Qed.

(** The theorem at work: a HEARTBEAT that asks for authentication, offered
    to the empty sample packet; the AUTH chunk of the factory goes in. *)
Lemma bundle_auth_contract_witness :
  (SCTP_XMIT_OK = SCTP_XMIT_OK \/ SCTP_XMIT_OK = SCTP_XMIT_PMTU_FULL) /\
  (chunk_list
     (pkt (Sample.end_of (@sctp_packet_bundle_auth Sample.demo
                            (Scene.signed_chunk 1 SCTP_CID_HEARTBEAT 100)) Sample.w0))
   <> chunk_list (pkt Sample.w0) ->
   SCTP_XMIT_OK = SCTP_XMIT_OK /\ has_asoc (pkt Sample.w0) = true /\
   c_auth (Scene.signed_chunk 1 SCTP_CID_HEARTBEAT 100) = true /\
   is_auth_cid (c_type (Scene.signed_chunk 1 SCTP_CID_HEARTBEAT 100)) = false /\
   has_auth (pkt Sample.w0) = false /\
   exists b',
     chunk_list
       (pkt (Sample.end_of (@sctp_packet_bundle_auth Sample.demo
                              (Scene.signed_chunk 1 SCTP_CID_HEARTBEAT 100))
               Sample.w0))
     = chunk_list (pkt Sample.w0) ++ [b'] /\
     (is_auth_cid (c_type b') = true ->
      has_auth
        (pkt (Sample.end_of (@sctp_packet_bundle_auth Sample.demo
                               (Scene.signed_chunk 1 SCTP_CID_HEARTBEAT 100))
                Sample.w0)) = true /\
      auth
        (pkt (Sample.end_of (@sctp_packet_bundle_auth Sample.demo
                               (Scene.signed_chunk 1 SCTP_CID_HEARTBEAT 100))
                Sample.w0)) = Some b')) /\
  (SCTP_XMIT_OK = SCTP_XMIT_PMTU_FULL ->
   exists a b,
     tp_asoc (transport (pkt Sample.w0)) = Some a /\
     @sctp_make_auth Sample.demo a = Some b /\
     Sample.end_of (@sctp_packet_bundle_auth Sample.demo
                      (Scene.signed_chunk 1 SCTP_CID_HEARTBEAT 100)) Sample.w0
     = with_freed b Sample.w0).
Proof.
  apply (@bundle_auth_contract Sample.demo
           (Scene.signed_chunk 1 SCTP_CID_HEARTBEAT 100) SCTP_XMIT_OK Sample.w0).
  vm_compute. reflexivity.
Defined.

(** * Further properties of the emitter *)

(** ** One buffer at most, and the socket's count *)

Section Owes.
Variable x : list sk_buff.
Variable m : Z.

Lemma owes_get_packet : stable (owes x m) get_packet.
Proof. intros w Hw. exact Hw. Qed.

Lemma owes_get_world : stable (owes x m) get_world.
Proof. intros w Hw. exact Hw. Qed.

Lemma owes_get_sk : stable (owes x m) get_sk.
Proof. intros w Hw. exact Hw. Qed.

Lemma owes_get_jiffies : stable (owes x m) get_jiffies.
Proof. intros w Hw. exact Hw. Qed.

Lemma owes_put_packet (p : sctp_packet) : stable (owes x m) (put_packet p).
Proof. intros w Hw. exact Hw. Qed.

Lemma owes_deref_asoc : stable (owes x m) deref_asoc.
Proof. intros w Hw. unfold deref_asoc. destruct (tp_asoc _); auto. Qed.

Lemma owes_put_asoc (a : sctp_association) : stable (owes x m) (put_asoc a).
Proof. intros w Hw. exact Hw. Qed.

Lemma owes_chunk_free (c : sctp_chunk) : stable (owes x m) (sctp_chunk_free c).
Proof. intros w Hw. exact Hw. Qed.

Lemma owes_crash {A : Type} (f : fault) : stable (owes x m) (@crash A f).
Proof. intros w Hw. exact I. Qed.

Lemma owes_alloc_skb (len : Z) : stable (owes x m) (alloc_skb len).
Proof.
  intros w Hw. unfold alloc_skb. destruct (alloc_skb_ok w) as [|[] ?]; exact Hw.
Qed.

Lemma owes_gro_receive (head : sk_buff) (nskb : packet_buf) :
  stable (owes x m) (skb_gro_receive head nskb).
Proof.
  intros w Hw. unfold skb_gro_receive. destruct (gro_receive_ok w) as [|[] ?]; exact Hw.
Qed.

Lemma owes_ecn_capable : stable (owes x m) ecn_capable.
Proof. intros w Hw. exact Hw. Qed.

Lemma owes_refresh_sk_caps : stable (owes x m) refresh_sk_caps.
Proof.
  intros w Hw. unfold refresh_sk_caps, bind, get_packet, get_sk, put_sk, ret, crash.
  destruct (tp_dst (transport (pkt w))) as [d|].
  - destruct (sk_dst_cache (sk w)) as [a|]; [destruct (Nat.eqb a (dst_addr d))|];
      exact Hw.
  - destruct (sk_dst_cache (sk w)); [exact I|exact Hw].
Qed.

End Owes.

Create HintDb sctp_owes.
#[local] Hint Resolve owes_get_packet owes_get_world owes_get_sk owes_get_jiffies
  owes_put_packet owes_deref_asoc owes_put_asoc owes_chunk_free owes_crash
  owes_alloc_skb owes_gro_receive owes_ecn_capable owes_refresh_sk_caps
  stable_ret : sctp_owes.

Ltac owes_walk :=
  lazymatch goal with
  | |- stable _ (bind _ _) =>
      apply stable_bind; [owes_walk | intros ?; owes_walk]
  | |- stable _ (if ?b then _ else _) => destruct b; owes_walk
  | |- stable _ (match ?x with _ => _ end) => destruct x; owes_walk
  | |- _ => solve [auto with sctp_owes]
  end.

Section EmitterOwes.
Context `{Collaborators}.
Variable x : list sk_buff.
Variable m : Z.

Lemma owes_copy_chunk (c : sctp_chunk) (rest : list sctp_chunk) (l : locals) :
  stable (owes x m) (copy_chunk c rest l).
Proof. unfold copy_chunk. cbv zeta. owes_walk. Qed.

Lemma owes_drain_chunks (todo : list sctp_chunk) (l : locals) :
  stable (owes x m) (drain_chunks todo l).
Proof.
  revert l. induction todo as [|c rest IH]; intros l; cbn [drain_chunks].
  - auto with sctp_owes.
  - pose proof owes_copy_chunk. owes_walk.
Qed.

Lemma owes_finish_auth (l : locals) : stable (owes x m) (finish_auth l).
Proof. unfold finish_auth. cbv zeta. owes_walk. Qed.

Lemma owes_sub_packets (fuel : nat) (gso : bool) (l : locals) :
  stable (owes x m) (sub_packets fuel gso l).
Proof.
  revert l. induction fuel as [|fuel IH]; intros l; cbn [sub_packets]; cbv zeta.
  - auto with sctp_owes.
  - pose proof owes_drain_chunks. pose proof owes_finish_auth. owes_walk.
Qed.

End EmitterOwes.

Section EmitterEnds.
Context `{Collaborators}.
Variable x : list sk_buff.
Variable m : Z.

Lemma label_err_ends :
  triple (owes x m) (label_err 0) (fun _ => sent_or_dropped x m).
Proof.
  intros w (Hx & Hm). destruct (label_err_done w) as (w' & E & Hs & Hx' & Hl & _).
  rewrite E. left. split; [|exact Hl]. split; [congruence|]. rewrite Hs. exact Hm.
Qed.

Lemma label_nodst_ends :
  triple (owes x (m + 1)) (label_nodst 0) (fun _ => sent_or_dropped x m).
Proof.
  unfold label_nodst.
  apply triple_bind with (R := fun _ => owes x m); [|intros ?; apply label_err_ends].
  intros w (Hx & Hm). unfold kfree_skb_head, bind, get_sk, put_sk.
  split; [exact Hx|]. cbn. lia.
Qed.

Lemma label_nomem_ends :
  triple (owes x (m + 1)) (label_nomem 0) (fun _ => sent_or_dropped x m).
Proof.
  unfold label_nomem. apply stable_then; [apply owes_get_packet|]. intros p.
  apply stable_then; [owes_walk|]. intros _. apply label_nodst_ends.
Qed.

Lemma sctp_xmit_ends (head : sk_buff) :
  triple (owes x (m + 1)) (sctp_xmit head ;;; label_out 0)
    (fun _ => sent_or_dropped x m).
Proof.
  intros w (Hx & Hm). unfold sctp_xmit, label_out, bind, get_packet, put_packet, ret.
  right. exists head. split; cbn; [rewrite Hx; reflexivity|exact Hm].
Qed.

Lemma transmit_tail_ends (gso had_asoc : bool) (dst : dst_entry) (l : locals) :
  triple (owes x (m + 1)) (transmit_tail gso had_asoc dst 0 l)
    (fun _ => sent_or_dropped x m).
Proof.
  unfold transmit_tail. cbv zeta.
  apply stable_then; [apply owes_get_packet|]. intros p.
  apply stable_then; [apply owes_ecn_capable|]. intros _.
  apply stable_then; [owes_walk|]. intros _.
  apply stable_then; [owes_walk|]. intros _.
  apply stable_then; [owes_walk|]. intros head.
  apply stable_then; [apply owes_get_packet|]. intros p'.
  apply sctp_xmit_ends.
Qed.

Lemma set_owner_w_owes :
  triple (owes x m) sctp_packet_set_owner_w (fun _ => owes x (m + 1)).
Proof.
  intros w (Hx & Hm). unfold sctp_packet_set_owner_w, bind, get_sk, put_sk.
  split; [exact Hx|]. cbn. lia.
Qed.

(** The emitter on a packet with chunks. *)
Lemma transmit_ends (w : world) :
  owes x m w ->
  chunk_list (pkt w) <> [] ->
  match sctp_packet_transmit w with
  | Done _ w' => sent_or_dropped x m w'
  | Fault _ => True
  end.
Proof.
  intros Hw Hne. unfold sctp_packet_transmit. unfold bind at 1, get_packet at 1.
  cbv zeta. destruct (chunk_list (pkt w)) as [|c0 rest]; [contradiction|].
  match goal with |- match ?k w with _ => _ end =>
    assert (Hk : triple (owes x m) k (fun _ => sent_or_dropped x m));
    [|exact (Hk w Hw)]
  end.
  apply stable_then; [apply owes_get_sk|]. intros s.
  destruct (needs_gso (pkt w) && negb (sk_gso s)); [apply label_err_ends|].
  apply stable_then; [apply owes_alloc_skb|]. intros [hbuf|];
    [|apply label_err_ends].
  apply triple_bind with (R := fun _ => owes x (m + 1));
    [apply set_owner_w_owes|]. intros _.
  pose proof label_nodst_ends. pose proof label_nomem_ends.
  pose proof transmit_tail_ends. pose proof owes_sub_packets.
  apply stable_then; [apply owes_put_packet|]. intros _.
  apply stable_then; [apply owes_get_packet|]. intros p.
  destruct (tp_dst (transport p)) as [dst|].
  - apply stable_then; [apply owes_get_world|]. intros w0.
    apply stable_then; [apply owes_sub_packets|]. intros [[|] l]; auto.
  - apply stable_then; [owes_walk|]. intros _. auto.
Qed.

End EmitterEnds.

(** X13: one buffer at most, and the socket's count follows it.  When the
    emitter returns from a packet that had chunks, either it handed IP
    exactly one buffer more, and the socket's write-memory count is one
    higher (the buffer holds it until it is released); or it handed IP
    nothing, the count is as it was -- the reference taken for the head
    buffer is given back on the paths that fail after it was taken -- and
    chunk_list is empty.  In both cases the value is 0. *)
Theorem transmit_sends_one_buffer_or_drops_all `{Collaborators}
    (w w' : world) (r : Z) :
  chunk_list (pkt w) <> [] ->
  sctp_packet_transmit w = Done r w' ->
  r = 0 /\
  ((xmit w' = xmit w /\ sk_wmem_alloc (sk w') = sk_wmem_alloc (sk w) /\
    chunk_list (pkt w') = []) \/
   (exists head, xmit w' = xmit w ++ [head] /\
                 sk_wmem_alloc (sk w') = sk_wmem_alloc (sk w) + 1)).
Proof.
  intros Hne E.
  destruct (transmit_returns_zero w w' r E) as (-> & _).
  split; [reflexivity|].
  pose proof (transmit_ends (xmit w) (sk_wmem_alloc (sk w)) w
                (conj eq_refl eq_refl) Hne) as Hend.
  rewrite E in Hend. unfold sent_or_dropped, owes in Hend.
  destruct Hend as [((Hx & Hm) & Hl) | (head & Hx & Hm)]; [left|right]; eauto.
Qed.

(** The theorem at work: the sample packet with 1448 bytes of DATA is sent
    in one buffer; the count goes from 1 to 2. *)
Lemma transmit_sends_one_buffer_witness :
  0 = 0 /\
  ((xmit (Sample.end_of (@sctp_packet_transmit Sample.demo) Sample.w_1480)
    = xmit Sample.w_1480 /\
    sk_wmem_alloc (sk (Sample.end_of (@sctp_packet_transmit Sample.demo) Sample.w_1480))
    = sk_wmem_alloc (sk Sample.w_1480) /\
    chunk_list (pkt (Sample.end_of (@sctp_packet_transmit Sample.demo) Sample.w_1480))
    = []) \/
   (exists head,
      xmit (Sample.end_of (@sctp_packet_transmit Sample.demo) Sample.w_1480)
      = xmit Sample.w_1480 ++ [head] /\
      sk_wmem_alloc
        (sk (Sample.end_of (@sctp_packet_transmit Sample.demo) Sample.w_1480))
      = sk_wmem_alloc (sk Sample.w_1480) + 1)).
Proof.
  apply (@transmit_sends_one_buffer_or_drops_all Sample.demo Sample.w_1480).
  - vm_compute. discriminate.
  - vm_compute. reflexivity.
Defined.

(** ** The plain emission: one buffer, every chunk, in order *)

Section PlainRounds.
Context `{Collaborators}.
Variables ov pm : Z.
Hypothesis ov_nonneg : 0 <= ov.
Hypothesis pm_int : pm < 2 ^ 30.

(** What one turn of the copy loop leaves besides the list. *)
Lemma copy_chunk_more (c : sctp_chunk) (rest : list sctp_chunk) (l l' : locals)
    (w w' : world) :
  auth (pkt w) = None ->
  fits_alone ov pm c ->
  copy_chunk c rest l w = Done l' w' ->
  freed w' = (if sctp_chunk_is_data c then freed w else c_addr c :: freed w) /\
  l_has_data l' = l_has_data l || sctp_chunk_is_data c /\
  buf_alloc (l_nskb l') = buf_alloc (l_nskb l) /\
  buf_hmac_at (l_nskb l') = buf_hmac_at (l_nskb l) /\
  buf_len (l_nskb l') = buf_len (l_nskb l) + padded_skb c /\
  jiffies w' = jiffies w /\
  transport (pkt w') = after_copy [c] (transport (pkt w)).
Proof.
  intros Hau Hc. unfold copy_chunk. unfold bind at 1, get_packet at 1. cbv zeta.
  unfold is_packet_auth. rewrite Hau. cbn [negb]. rewrite andb_true_r.
  cbv beta iota.
  set (measure := sctp_chunk_is_data c && negb (c_resent c)
                  && negb (tp_rto_pending (transport (pkt w)))).
  set (c1 := if measure then set_c_rtt_in_progress true c else c).
  assert (Hc1 : fits_alone ov pm c1 /\ c_addr c1 = c_addr c /\
                padded_skb c1 = padded_skb c).
  { subst c1. destruct measure; cbn; auto. }
  destruct Hc1 as (Hc1 & Ha1 & Hp1).
  destruct (pad_chunk_len ov pm ov_nonneg pm_int c1 Hc1) as (Hlen2 & Ha2).
  assert (Htp : (if measure then set_tp_rto_pending true (transport (pkt w))
                 else transport (pkt w)) = after_copy [c] (transport (pkt w))).
  { subst measure. unfold after_copy, starts_rtt. cbn [existsb].
    rewrite orb_false_r.
    destruct (sctp_chunk_is_data c), (c_resent c),
      (tp_rto_pending (transport (pkt w))); reflexivity. }
  clearbody c1 measure.
  assert (Hl0 : l_nskb (if sctp_chunk_is_data c then set_l_has_data true l else l)
                = l_nskb l) by (destruct (sctp_chunk_is_data c); reflexivity).
  rewrite Hl0.
  destruct (skb_tailroom _ _ <? _); [intros E; discriminate E|].
  unfold bind, put_packet, sctp_chunk_free, ret.
  destruct (sctp_chunk_is_data c); cbn [negb]; cbv beta iota;
    intros E; injection E as <- <-; cbn; rewrite ?orb_true_r, ?orb_false_r;
    rewrite Hlen2, Hp1, ?Ha2, ?Ha1, Htp; repeat split; reflexivity.
Qed.

Lemma after_copy_cons (c : sctp_chunk) (l : list sctp_chunk) (tp : sctp_transport) :
  after_copy l (after_copy [c] tp) = after_copy (c :: l) tp.
Proof.
  unfold after_copy. cbn [existsb]. rewrite orb_false_r.
  destruct (tp_rto_pending tp) eqn:Ep; cbn [negb andb]; rewrite ?Ep; cbn [negb andb];
    [reflexivity|].
  destruct (starts_rtt c); cbn [orb]; [reflexivity|].
  rewrite Ep. reflexivity.
Qed.

(** What the copy loop leaves besides the list, when it takes exactly the
    run that was sized. *)
Lemma drain_more (seg rest : list sctp_chunk) :
  forall (l l' : locals) (w w' : world),
    auth (pkt w) = None ->
    Forall (fits_alone ov pm) seg -> seg <> [] ->
    l_pkt_size l = skb_sum seg -> skb_sum seg < 2 ^ 31 ->
    skb_sum seg <= skb_tailroom (pkt w) (l_nskb l) ->
    drain_chunks (seg ++ rest) l w = Done l' w' ->
    freed w' =
      rev (map c_addr (filter (fun c => negb (sctp_chunk_is_data c)) seg)) ++ freed w /\
    l_has_data l' = l_has_data l || existsb sctp_chunk_is_data seg /\
    buf_alloc (l_nskb l') = buf_alloc (l_nskb l) /\
    buf_hmac_at (l_nskb l') = buf_hmac_at (l_nskb l) /\
    buf_len (l_nskb l') = buf_len (l_nskb l) + skb_sum seg /\
    jiffies w' = jiffies w /\
    transport (pkt w') = after_copy seg (transport (pkt w)).
Proof.
  induction seg as [|c seg IH]; intros l l' w w' Hau Hseg Hne Hsz Hlt Hroom;
    [contradiction|].
  pose proof (Forall_inv Hseg) as Hc. pose proof (Forall_inv_tail Hseg) as Hseg'.
  cbn [app drain_chunks]. cbn [skb_sum] in Hsz, Hlt, Hroom.
  pose proof (skb_sum_nonneg seg (fits_alone_pos ov pm seg Hseg')) as Hnn.
  destruct (fits_alone_bounds ov pm ov_nonneg pm_int c Hc) as (Hp & Hlen & Hint).
  assert (Hroom1 : padded_skb c <= skb_tailroom (pkt w) (l_nskb l)) by lia.
  destruct (copy_chunk_plain ov pm ov_nonneg pm_int c (seg ++ rest) l w Hau Hc
              ltac:(lia) Hroom1)
    as (l1 & w1 & E & Hl1 & Hk1 & _ & _ & _ & Hz1 & _ & _ & _ & _ & Hr1).
  destruct (copy_chunk_more c (seg ++ rest) l l1 w w1 Hau Hc E)
    as (Hf1 & Hd1 & Hb1 & Hh1 & Hn1 & Hj1 & Ht1).
  unfold bind at 1. rewrite E.
  destruct seg as [|c2 seg2].
  - cbn in *. replace (l_pkt_size l1) with 0 by lia. cbn [Z.eqb]. unfold ret.
    intros E'. injection E' as <- <-.
    rewrite Hf1, Hd1, Hb1, Hh1, Hn1, Hj1, Ht1, orb_false_r.
    destruct (sctp_chunk_is_data c); cbn; repeat split; try reflexivity; lia.
  - assert (Hpos : 0 < skb_sum (c2 :: seg2))
      by (apply skb_sum_pos; [apply (fits_alone_pos ov pm), Hseg'|discriminate]).
    destruct (Z.eqb_spec (l_pkt_size l1) 0) as [E0|_]; [lia|].
    intros E2.
    destruct (IH l1 l' w1 w') as (Hf2 & Hd2 & Hb2 & Hh2 & Hn2 & Hj2 & Ht2); auto.
    + rewrite (gk_auth _ _ Hk1). exact Hau.
    + discriminate.
    + lia.
    + lia.
    + lia.
    + rewrite Hf2, Hd2, Hb2, Hh2, Hn2, Hj2, Ht2, Hf1, Hd1, Hb1, Hh1, Hn1, Hj1, Ht1,
        after_copy_cons.
      cbn [filter existsb map rev skb_sum].
      destruct (sctp_chunk_is_data c); cbn [negb orb map rev];
        rewrite <- ?app_assoc, ?orb_false_r, ?orb_true_r, ?orb_assoc; cbn [app orb];
        repeat split; try reflexivity; lia.
Qed.

End PlainRounds.

Section PlainEmission.
Context `{Collaborators}.

Lemma set_transport_same (w : world) :
  set_pkt (set_transport (transport (pkt w)) (pkt w)) w = w.
Proof. destruct w as [p ? ? ? ? ? ?]. destruct p. reflexivity. Qed.

(** The tail of a plain emission: the buffer goes to IP with its checksum
    mark and the don't-fragment override, the books of the association
    are kept, and the packet is reset. *)
Lemma transmit_tail_plain (dst : dst_entry) (l : locals) (w : world) :
  (l_has_data l = true -> has_asoc (pkt w) = true) ->
  transmit_tail false (has_asoc (pkt w)) dst 0 l w =
  Done 0
    (set_pkt
       (sctp_packet_reset
          (set_transport
             (tail_transport (jiffies w) (l_pktcount l) (l_has_data l)
                (transport (pkt w)))
             (pkt w)))
       (set_xmit
          (xmit w ++
           [set_skb_ignore_df (ipfragok (pkt w))
              (if sctp_checksum_disable then l_head l
               else set_skb_csum (plain_csum dst (ipfragok (pkt w))) (l_head l))])
          (set_sk (set_sk_ecn true (sk w)) w))).
Proof.
  unfold has_asoc, tail_transport, sent_books. intros Ha.
  unfold transmit_tail, plain_csum. cbv zeta. rewrite orb_false_r. cbn [negb andb].
  unfold bind at 1, get_packet at 1.
  unfold bind at 1, ecn_capable, bind at 1, get_sk at 1, put_sk at 1.
  destruct sctp_checksum_disable; cbn [negb].
  all: destruct (tp_asoc (transport (pkt w))) as [a|] eqn:Ea.
  1,3: destruct (l_has_data l);
      destruct (state_established (a_state a)) eqn:Es;
      destruct (a_autoclose_timeout a =? 0) eqn:Et;
      destruct (a_autoclose_timer a) eqn:Em;
      unfold bind, deref_asoc, put_asoc, get_jiffies, ret, get_packet, sctp_xmit,
        label_out, put_packet; cbn; rewrite ?Ea; cbn;
      rewrite ?Es, ?Et, ?Em; cbn; rewrite ?Em;
      try destruct (negb (dev_sctp_crc dst) || dst_xfrm dst || ipfragok (pkt w));
      reflexivity.
  all: (destruct (l_has_data l); [specialize (Ha eq_refl); discriminate|]);
    unfold bind, ret, get_packet, sctp_xmit, label_out, put_packet; cbn;
    repeat match goal with
           | |- context [if ?b then _ else _] => destruct b; cbn
           end; reflexivity.
Qed.

Lemma after_copy_keeps (l : list sctp_chunk) (tp : sctp_transport) :
  tp_asoc (after_copy l tp) = tp_asoc tp /\ tp_addr (after_copy l tp) = tp_addr tp /\
  tp_dst (after_copy l tp) = tp_dst tp /\
  tp_rto_pending (after_copy l tp) = tp_rto_pending tp || existsb starts_rtt l.
Proof.
  unfold after_copy. destruct (tp_rto_pending tp) eqn:Ep; cbn [negb andb orb];
    [rewrite Ep; auto|].
  destruct (existsb starts_rtt l); cbn; rewrite ?Ep; auto.
Qed.

(** The plain emission up to its tail: the head buffer is granted, the
    route refreshed, and one round of the loop copies every chunk. *)
Lemma plain_path (w : world) (lst : list sctp_chunk) (d : dst_entry)
    (ra : list bool) :
  chunk_list (pkt w) = lst -> lst <> [] ->
  needs_gso (pkt w) = false ->
  auth (pkt w) = None ->
  alloc_skb_ok w = true :: ra ->
  tp_dst (refresh_route (sk w) (transport (pkt w))) = Some d ->
  Forall (fun c => 0 < c_skb_len c) lst ->
  0 <= overhead (pkt w) ->
  size (pkt w) = overhead (pkt w) + skb_sum lst ->
  size (pkt w) < 2 ^ 30 ->
  exists l' w2,
    sctp_packet_transmit w = transmit_tail false (has_asoc (pkt w)) d 0 l' w2 /\
    chunk_list (pkt w2) = [] /\
    ipfragok (pkt w2) = ipfragok (pkt w) /\
    xmit w2 = xmit w /\ jiffies w2 = jiffies w /\
    sk w2 = set_sk_wmem_alloc (sk_wmem_alloc (sk w) + 1) (sk w) /\
    alloc_skb_ok w2 = ra /\
    freed w2 = rev (map c_addr (control_chunks lst)) ++ freed w /\
    transport (pkt w2) = after_copy lst (refresh_route (sk w) (transport (pkt w))) /\
    l_has_data l' = existsb sctp_chunk_is_data lst /\
    l_pktcount l' = 1 /\
    skb_frags (l_head l') = [] /\ skb_gso (l_head l') = false /\
    skb_csum (l_head l') = CHECKSUM_NONE /\
    skb_source (l_head l') = source_port (pkt w) /\
    skb_dest (l_head l') = destination_port (pkt w) /\
    skb_vtag (l_head l') = vtag (pkt w) /\
    chunk_stream (skb_head (l_head l')) = map c_addr lst /\
    buf_alloc (skb_head (l_head l')) = u32 (size (pkt w) + MAX_HEADER) /\
    buf_len (skb_head (l_head l')) = skb_sum lst.
Proof.
  intros Hlst Hne Hgso Hau Hal Hdst Hpos Hov Hsize Hlt.
  assert (Hnn : 0 <= skb_sum lst) by (apply skb_sum_nonneg; exact Hpos).
  assert (Hfit : Forall (fits_alone 0 (2 ^ 30 - 1)) lst).
  { clear - Hpos Hov Hsize Hlt Hnn.
    assert (Hb : skb_sum lst < 2 ^ 30) by lia. clear Hsize Hlt Hov Hnn.
    induction Hpos as [|c l Hc Hl IH]; constructor.
    - pose proof (skb_sum_nonneg l Hl). cbn in Hb. split; [exact Hc|lia].
    - apply IH. pose proof (padded_skb_pos c Hc). cbn in Hb. lia. }
  unfold sctp_packet_transmit. unfold bind at 1, get_packet at 1.
  rewrite Hlst. destruct lst as [|c0 tl] eqn:El; [contradiction|]. rewrite <- El in *.
  unfold bind at 1, get_sk at 1. rewrite Hgso. cbn [negb andb].
  unfold bind at 1, alloc_skb at 1. rewrite Hal.
  unfold bind at 1, sctp_packet_set_owner_w at 1, bind at 1, get_sk at 1, put_sk at 1.
  unfold bind at 1, put_packet at 1.
  unfold bind at 1, get_packet at 1.
  cbn [pkt set_pkt transport set_transport].
  rewrite Hdst.
  unfold bind at 1, get_world at 1.
  match goal with
  | |- context [bind (sub_packets ?f false ?l0) ?k ?w0] =>
      assert (Hloop : exists l' w2,
                 sub_packets f false l0 w0 = Done (Fallthrough, l') w2 /\
                 chunk_list (pkt w2) = [] /\ gso_keep w0 w2 /\
                 alloc_skb_ok w2 = alloc_skb_ok w0 /\
                 jiffies w2 = jiffies w0 /\
                 transport (pkt w2) = after_copy lst (transport (pkt w0)) /\
                 freed w2 = rev (map c_addr (control_chunks lst)) ++ freed w0 /\
                 l_has_data l' = existsb sctp_chunk_is_data lst /\
                 l_pktcount l' = 1 /\
                 skb_frags (l_head l') = [] /\ skb_gso (l_head l') = false /\
                 skb_csum (l_head l') = CHECKSUM_NONE /\
                 skb_source (l_head l') = source_port (pkt w) /\
                 skb_dest (l_head l') = destination_port (pkt w) /\
                 skb_vtag (l_head l') = vtag (pkt w) /\
                 chunk_stream (skb_head (l_head l')) = map c_addr lst /\
                 buf_alloc (skb_head (l_head l')) = u32 (size (pkt w) + MAX_HEADER) /\
                 buf_len (skb_head (l_head l')) = skb_sum lst)
  end.
  { cbn [sub_packets]. unfold bind at 1, get_packet at 1. cbv zeta.
    unfold bind at 1, ret at 1. cbv beta iota.
    cbn [pkt set_pkt chunk_list set_transport overhead l_pkt_size set_l_pkt_size
         set_l_nskb set_l_pktcount l_head skb_head].
    rewrite Hlst, <- (app_nil_r lst).
    rewrite (int_small (size (pkt w))) by lia.
    match goal with
    | |- context [bind (drain_chunks (lst ++ []) ?l1) ?k ?w1] =>
        assert (Hroom : skb_sum lst <= skb_tailroom (pkt w1) (l_nskb l1));
          [unfold skb_tailroom; cbn;
           pose proof MAX_HEADER_range as Hmh;
           pose proof (skb_end_offset_ge (u32 (size (pkt w) + MAX_HEADER))) as Hend;
           rewrite u32_small in Hend |- * by lia; rewrite int_small by lia; lia
          |destruct (drain_exact 0 (2 ^ 30 - 1) ltac:(lia) ltac:(lia) lst [] l1 w1)
             as (l2 & w2 & E & Hl2 & Hk2 & Ha2 & _ & Hs2 & Hh2 & Hp2 & Hu2 & _);
           [exact Hau|exact Hfit|exact Hne| | |exact Hroom|
            destruct (drain_more 0 (2 ^ 30 - 1) ltac:(lia) ltac:(lia) lst []
                        l1 l2 w1 w2)
              as (Hf2 & Hd2 & Hb2 & _ & Hn2 & Hj2 & Ht2);
            [exact Hau|exact Hfit|exact Hne| | |exact Hroom|exact E|]]]
    end;
      try (cbn; rewrite int_small by lia; lia); try lia.
    unfold bind at 1. rewrite E.
    unfold bind at 1, finish_auth at 1. rewrite Hu2.
    cbn [l_auth]. unfold bind at 1, get_packet at 1.
    rewrite (gk_auth _ _ Hk2). cbn [pkt set_pkt auth set_transport]. rewrite Hau.
    unfold ret. cbn [negb].
    eexists _, _. split; [reflexivity|].
    split; [exact Hl2|]. split; [exact Hk2|]. split; [rewrite Ha2; reflexivity|].
    split; [exact Hj2|]. split; [rewrite app_nil_r; exact Ht2|].
    cbn. rewrite !app_nil_r in *. unfold control_chunks.
    rewrite ?Hh2, ?Hs2, ?Hb2, ?Hn2, ?Hf2, ?Hd2, ?Hp2. cbn.
    repeat split; reflexivity. }
  destruct Hloop as (l' & w2 & Eloop & Hl2 & Hk2 & Ha2 & Hj2 & Ht2 & Hrest).
  unfold bind at 1. rewrite Eloop. exists l', w2.
  split; [reflexivity|]. split; [exact Hl2|].
  split; [rewrite (gk_ipfragok _ _ Hk2); reflexivity|].
  split; [rewrite (gk_xmit _ _ Hk2); reflexivity|].
  split; [rewrite Hj2; reflexivity|].
  split; [rewrite (gk_sk _ _ Hk2); reflexivity|].
  split; [rewrite Ha2; reflexivity|].
  destruct Hrest as (Hf2 & Hrest).
  split; [rewrite Hf2; reflexivity|].
  split; [rewrite Ht2; reflexivity|]. exact Hrest.
Qed.

Lemma has_asoc_refreshed (w w2 : world) (lst : list sctp_chunk) :
  transport (pkt w2) = after_copy lst (refresh_route (sk w) (transport (pkt w))) ->
  has_asoc (pkt w2) = has_asoc (pkt w).
Proof.
  intros Ht2. unfold has_asoc. rewrite Ht2.
  destruct (after_copy_keeps lst (refresh_route (sk w) (transport (pkt w))))
    as (-> & _).
  destruct (tp_asoc (refresh_route (sk w) (transport (pkt w)))) eqn:Ea.
  - destruct (tp_asoc (transport (pkt w))) eqn:Eb; [reflexivity|].
    apply (proj2 (refresh_route_asoc (sk w) _)) in Eb. congruence.
  - apply (proj1 (refresh_route_asoc _ _)) in Ea. rewrite Ea. reflexivity.
Qed.

End PlainEmission.

(** X14: the plain emission.  A packet with chunks and no bundled AUTH
    chunk that needs no GSO, whose size is its overhead plus the padded
    buffer lengths of its chunks, for which a buffer is granted and a
    route is known, goes out in one buffer: the emitter returns 0 and
    hands IP a buffer of size + MAX_HEADER bytes that carries the packet's
    ports and verification tag and every chunk of chunk_list in append
    order, each padded to a multiple of 4; the buffer overrides
    don't-fragment exactly when ipfragok is set, and its checksum is
    computed in software when the device cannot do the SCTP CRC, the route
    is transformed or IP may fragment, left to the device otherwise, and
    left out when checksums are disabled.  Afterwards chunk_list is empty
    and the packet reset; the control chunks are released, in order, and
    the DATA chunks are not. *)
Theorem transmit_plain_packet `{Collaborators}
    (w : world) (lst : list sctp_chunk) (d : dst_entry) (ra : list bool) :
  chunk_list (pkt w) = lst -> lst <> [] ->
  needs_gso (pkt w) = false ->
  auth (pkt w) = None ->
  alloc_skb_ok w = true :: ra ->
  tp_dst (refresh_route (sk w) (transport (pkt w))) = Some d ->
  has_asoc (pkt w) = true \/ existsb sctp_chunk_is_data lst = false ->
  Forall (fun c => 0 < c_skb_len c) lst ->
  0 <= overhead (pkt w) ->
  size (pkt w) = overhead (pkt w) + skb_sum lst ->
  size (pkt w) < 2 ^ 30 ->
  exists w' head,
    sctp_packet_transmit w = Done 0 w' /\
    xmit w' = xmit w ++ [head] /\
    skb_gso head = false /\ skb_frags head = [] /\
    chunk_stream (skb_head head) = map c_addr lst /\
    buf_alloc (skb_head head) = u32 (size (pkt w) + MAX_HEADER) /\
    buf_len (skb_head head) = skb_sum lst /\
    skb_source head = source_port (pkt w) /\
    skb_dest head = destination_port (pkt w) /\
    skb_vtag head = vtag (pkt w) /\
    skb_ignore_df head = ipfragok (pkt w) /\
    skb_csum head = plain_csum d (ipfragok (pkt w)) /\
    chunk_list (pkt w') = [] /\ is_reset (pkt w') /\
    freed w' = rev (map c_addr (control_chunks lst)) ++ freed w /\
    alloc_skb_ok w' = ra.
Proof.
  intros Hlst Hne Hgso Hau Hal Hdst Hasoc Hpos Hov Hsize Hlt.
  destruct (plain_path w lst d ra Hlst Hne Hgso Hau Hal Hdst Hpos Hov Hsize Hlt)
    as (l' & w2 & E & Hl2 & Hi2 & Hx2 & Hj2 & Hs2 & Ha2 & Hf2 & Ht2 & Hd2 & Hc2 &
        Hfr & Hg & Hcs & Hsrc & Hdp & Hvt & Hst & Hba & Hbl).
  pose proof (has_asoc_refreshed w w2 lst Ht2) as Hasoc2.
  rewrite E, <- Hasoc2, transmit_tail_plain.
  2:{ rewrite Hd2, Hasoc2. intros Hx.
      destruct Hasoc as [Hy | Hy]; [exact Hy|congruence]. }
  eexists _, _. split; [reflexivity|].
  cbn. rewrite Hx2, Hi2, Hl2, Hf2, Ha2. cbn.
  split; [reflexivity|].
  unfold plain_csum.
  destruct sctp_checksum_disable; cbn; rewrite ?Hg, ?Hfr, ?Hcs, ?Hsrc, ?Hdp, ?Hvt;
    repeat split; auto; apply is_reset_reset.
Qed.

(** The theorem at work: a HEARTBEAT of 38 bytes and a DATA chunk of 100
    on the sample packet without GSO go out in one buffer of 140 bytes of
    chunks; the HEARTBEAT is released, the DATA chunk is kept. *)
Lemma transmit_plain_packet_witness :
  exists w' head,
    @sctp_packet_transmit Sample.demo
      (Sample.after [Append (Sample.chunk 1 SCTP_CID_HEARTBEAT 38);
                     Append (Sample.chunk 2 SCTP_CID_DATA 100)] Sample.w_plain)
    = Done 0 w' /\
    xmit w' = [] ++ [head] /\
    skb_gso head = false /\ skb_frags head = [] /\
    chunk_stream (skb_head head) = [1; 2]%nat /\
    buf_alloc (skb_head head) = 300 /\
    buf_len (skb_head head) = 140 /\
    skb_source head = 1000 /\
    skb_dest head = 2000 /\
    skb_vtag head = 0 /\
    skb_ignore_df head = false /\
    skb_csum head = CHECKSUM_COMPUTED /\
    chunk_list (pkt w') = [] /\ is_reset (pkt w') /\
    freed w' = [1%nat] /\
    alloc_skb_ok w' = [true].
Proof.
  refine (@transmit_plain_packet Sample.demo
            (Sample.after [Append (Sample.chunk 1 SCTP_CID_HEARTBEAT 38);
                           Append (Sample.chunk 2 SCTP_CID_DATA 100)] Sample.w_plain)
            _ Sample.dst [true] eq_refl _ eq_refl eq_refl eq_refl eq_refl _ _ _ _ _).
  - vm_compute. discriminate.
  - left. vm_compute. reflexivity.
  - vm_compute. repeat constructor.
  - vm_compute. discriminate.
  - vm_compute. reflexivity.
  - vm_compute. reflexivity.
Defined.

(** * Release and configuration *)

Section Release.
Context `{Collaborators}.

Lemma free_chunks_all (todo : list sctp_chunk) :
  forall w : world,
    free_chunks todo w =
    Done tt
      (match todo with
       | [] => w
       | _ :: _ =>
           set_freed (rev (map c_addr todo) ++ freed w)
             (set_pkt (set_chunk_list [] (pkt w)) w)
       end).
Proof.
  induction todo as [|c rest IH]; intros w; cbn [free_chunks]; [reflexivity|].
  unfold bind at 1, get_packet at 1. unfold bind at 1, put_packet at 1.
  unfold bind at 1, sctp_chunk_free at 1. rewrite IH.
  destruct rest as [|c1 rest1]; cbn; [reflexivity|].
  rewrite <- !app_assoc. reflexivity.
Qed.

End Release.

(** X15: sctp_packet_free releases every chunk of the list, DATA chunks
    too, first to last, and empties the list; it writes nothing else.  So
    [size] and the flags stay as they were: a packet freed with chunks in
    it still counts their bytes, and sctp_packet_empty, which goes by the
    size, answers as it did before the release. *)
Theorem packet_free_releases_all_and_keeps_size `{Collaborators} (w : world) :
  exists w',
    sctp_packet_free w = Done tt w' /\
    chunk_list (pkt w') = [] /\
    freed w' = rev (map c_addr (chunk_list (pkt w))) ++ freed w /\
    set_chunk_list (chunk_list (pkt w)) (pkt w') = pkt w /\
    set_freed (freed w) (set_pkt (pkt w) w') = w /\
    sctp_packet_empty (pkt w') = sctp_packet_empty (pkt w).
Proof.
  unfold sctp_packet_free, bind, get_packet. rewrite free_chunks_all.
  eexists. split; [reflexivity|].
  destruct w as [p s j a g f x]. destruct p. cbn.
  destruct chunk_list0; cbn; repeat split; reflexivity.
Qed.

Section Config.
Context `{Collaborators}.

Lemma header_closed (v m : Z) :
  append_closed (fun w => vtag (pkt w) = v /\ max_size (pkt w) = m).
Proof.
  split; [|split].
  - intros c r w w' (Hv & Hm) E.
    pose proof (append_raw_verdict c r w w' E) as (_ & Hlim & _ & _ & Hvt & _).
    unfold limits in Hlim. injection Hlim as _ _ Hmax _ _ _.
    split; congruence.
  - intros a a' w Hw _ _. exact Hw.
  - intros c w Hw. exact Hw.
Qed.

End Config.

(** X16: sctp_packet_config.  It sets the verification tag, and sets
    max_size by the route: with an association and a route, the socket
    first adopts the route when it caches another one, and max_size is the
    device's gso_max_size when the socket can do GSO, the association's
    path MTU when it cannot; without an association or without a route it
    is the transport's path MTU.  Then, when ECN is on and the packet is
    empty, the ECNE chunk of sctp_get_ecne_prepend, if there is one, goes
    in by the public append, whose verdict is not looked at -- and need
    not be, for on a packet that holds no DATA the chunk is always
    admitted, behind at most one bundled AUTH chunk; in every other case
    chunk_list and size stay as they were.  (The ECNE factory and the AUTH
    factory are taken not to make DATA chunks.) *)
Theorem packet_config_sets_limits_and_prepends
    `{Collaborators} (ecne_prepend : option sctp_association -> option sctp_chunk)
    (vtag0 : Z) (ecn_capable0 : bool) (w : world) :
  (forall c, ecne_prepend (tp_asoc (transport (pkt w))) = Some c ->
             sctp_chunk_is_data c = false) ->
  (forall a b, sctp_make_auth a = Some b -> sctp_chunk_is_data b = false) ->
  has_data (pkt w) = false ->
  exists w',
    sctp_packet_config ecne_prepend vtag0 ecn_capable0 w = Done tt w' /\
    vtag (pkt w') = vtag0 /\
    sk w' =
      match tp_asoc (transport (pkt w)), tp_dst (transport (pkt w)) with
      | Some _, Some dst =>
          if match sk_dst_cache (sk w) with
             | Some a => Nat.eqb a (dst_addr dst)
             | None => false
             end
          then sk w else sk_setup_caps (sk w) dst
      | _, _ => sk w
      end /\
    max_size (pkt w') =
      match tp_asoc (transport (pkt w)), tp_dst (transport (pkt w)) with
      | Some a, Some dst =>
          if sk_gso (sk w') then dev_gso_max_size dst else a_pathmtu a
      | _, _ => tp_pathmtu (transport (pkt w))
      end /\
    match (if ecn_capable0 && sctp_packet_empty (pkt w)
           then ecne_prepend (tp_asoc (transport (pkt w))) else None) with
    | Some c =>
        exists pre c',
          chunk_list (pkt w') = chunk_list (pkt w) ++ pre ++ [c'] /\
          (length pre <= 1)%nat /\ same_wire c c'
    | None =>
        chunk_list (pkt w') = chunk_list (pkt w) /\ size (pkt w') = size (pkt w)
    end.
Proof.
  intros Hecne Hauth Hd.
  unfold sctp_packet_config. unfold bind at 1, get_packet at 1. cbv zeta.
  unfold bind at 1, put_packet at 1. unfold bind at 1.
  match goal with |- context [match ?m ?w0 with _ => _ end] =>
    assert (Hlim : exists w1,
               m w0 = Done tt w1 /\
               vtag (pkt w1) = vtag0 /\
               sk w1 =
                 match tp_asoc (transport (pkt w)), tp_dst (transport (pkt w)) with
                 | Some _, Some dst =>
                     if match sk_dst_cache (sk w) with
                        | Some a => Nat.eqb a (dst_addr dst)
                        | None => false
                        end
                     then sk w else sk_setup_caps (sk w) dst
                 | _, _ => sk w
                 end /\
               max_size (pkt w1) =
                 match tp_asoc (transport (pkt w)), tp_dst (transport (pkt w)) with
                 | Some a, Some dst =>
                     if sk_gso (sk w1) then dev_gso_max_size dst else a_pathmtu a
                 | _, _ => tp_pathmtu (transport (pkt w))
                 end /\
               chunk_list (pkt w1) = chunk_list (pkt w) /\
               size (pkt w1) = size (pkt w) /\
               overhead (pkt w1) = overhead (pkt w) /\
               has_data (pkt w1) = has_data (pkt w))
  end.
  { destruct (tp_asoc (transport (pkt w))) as [a|] eqn:Ea;
      [destruct (tp_dst (transport (pkt w))) as [dst|] eqn:Edst|].
    - unfold bind at 1, refresh_sk_caps at 1.
      unfold bind at 1, get_packet at 1. unfold bind at 1, get_sk at 1.
      cbn [pkt set_pkt transport set_vtag sk]. rewrite Edst.
      destruct (match sk_dst_cache (sk w) with
                | Some a0 => Nat.eqb a0 (dst_addr dst)
                | None => false
                end);
        unfold bind, ret, put_sk, get_sk, get_packet, put_packet; cbn;
        match goal with
        | |- context [if ?b then _ else _] => destruct b eqn:Eg
        end; cbn; eexists; (split; [reflexivity|]); cbn; rewrite ?Eg;
        repeat split; reflexivity.
    - unfold bind, get_packet, put_packet. eexists. split; [reflexivity|].
      cbn. repeat split; reflexivity.
    - unfold bind, get_packet, put_packet. eexists. split; [reflexivity|].
      cbn. repeat split; reflexivity. }
  destruct Hlim as (w1 & -> & Hv1 & Hs1 & Hm1 & Hl1 & Hz1 & Ho1 & Hd1).
  unfold bind at 1, get_packet at 1.
  assert (He1 : sctp_packet_empty (pkt w1) = sctp_packet_empty (pkt w))
    by (unfold sctp_packet_empty; rewrite Hz1, Ho1; reflexivity).
  rewrite He1.
  destruct (ecn_capable0 && sctp_packet_empty (pkt w)) eqn:Ecap.
  2:{ unfold ret. exists w1. split; [reflexivity|]. auto. }
  destruct (ecne_prepend (tp_asoc (transport (pkt w)))) as [c|] eqn:Ec.
  2:{ unfold ret. exists w1. split; [reflexivity|]. auto. }
  apply andb_prop in Ecap. destruct Ecap as (_ & Hemp).
  destruct (control_on_empty Hauth c w1 (Hecne c eq_refl))
    as (w2 & pre & c' & E & Hl2 & Hn2 & Hw2 & Henv2).
  { rewrite He1. exact Hemp. }
  { rewrite Hd1. exact Hd. }
  unfold bind at 1. rewrite E. unfold ret. exists w2. split; [reflexivity|].
  destruct (append_closed_public _ (header_closed vtag0 (max_size (pkt w1)))
              c _ w1 w2 (conj Hv1 eq_refl) E) as (Hv2 & Hm2).
  destruct Henv2 as (Hsk2 & _).
  split; [exact Hv2|]. split; [rewrite Hsk2; exact Hs1|].
  split; [rewrite Hm2, Hsk2; exact Hm1|].
  exists pre, c'. rewrite Hl2, Hl1. auto.
Qed.

(** The theorem at work: the sample GSO packet configured with tag 77 and
    ECN on, with an ECNE chunk of 8 bytes to send first. *)
Lemma packet_config_witness :
  exists w',
    @sctp_packet_config Sample.demo
      (fun _ => Some (Sample.chunk 50 SCTP_CID_ECN_ECNE 8)) 77 true Sample.w0
    = Done tt w' /\
    vtag (pkt w') = 77 /\
    sk w' = Sample.socket /\
    max_size (pkt w') = (if sk_gso (sk w') then 65536 else 1500) /\
    exists pre c',
      chunk_list (pkt w') = [] ++ pre ++ [c'] /\
      (length pre <= 1)%nat /\
      same_wire (Sample.chunk 50 SCTP_CID_ECN_ECNE 8) c'.
Proof.
  apply (@packet_config_sets_limits_and_prepends Sample.demo
           (fun _ => Some (Sample.chunk 50 SCTP_CID_ECN_ECNE 8)) 77 true Sample.w0).
  - intros c E. injection E as <-. reflexivity.
  - intros a b E. vm_compute in E. injection E as <-. reflexivity.
  - vm_compute. reflexivity.
Defined.

(** ** What the emitter releases *)

Section Released.
Context `{Collaborators}.
Variables f0 R : list nat.

Lemma released_free (c : sctp_chunk) (w : world) :
  In (c_addr c) R -> released_within f0 R w ->
  released_within f0 R (with_freed c w).
Proof.
  intros Hc ((rel & E & Hin) & Hp). split; [|exact Hp].
  exists (c_addr c :: rel). cbn. rewrite E. split; [reflexivity|].
  intros a [<- | Ha]; auto.
Qed.

(** A step that leaves the log, the list and [auth] alone. *)
Lemma released_same (w w' : world) :
  freed w' = freed w -> chunk_list (pkt w') = chunk_list (pkt w) ->
  auth (pkt w') = auth (pkt w) \/ auth (pkt w') = None ->
  released_within f0 R w -> released_within f0 R w'.
Proof.
  intros Hf Hl Ha ((rel & E & Hin) & Hp). split.
  - exists rel. rewrite Hf. auto.
  - unfold releasable in *. rewrite Hl.
    destruct Ha as [-> | ->]; [exact Hp|].
    rewrite app_nil_r. intros a Hin'. apply Hp. apply in_or_app. auto.
Qed.

Lemma control_head_in (c : sctp_chunk) (rest : list sctp_chunk) :
  incl (map c_addr (control_chunks (c :: rest))) R ->
  (sctp_chunk_is_data c = false -> In (c_addr c) R) /\
  incl (map c_addr (control_chunks rest)) R.
Proof.
  unfold control_chunks. cbn [filter]. intros Hin.
  destruct (sctp_chunk_is_data c); cbn [negb] in Hin.
  - split; [discriminate|exact Hin].
  - split; [intros _; apply Hin; left; reflexivity|].
    intros a Ha. apply Hin. right. exact Ha.
Qed.

Lemma released_copy_chunk (c : sctp_chunk) (rest : list sctp_chunk) (l : locals) :
  incl (map c_addr (control_chunks (c :: rest))) R ->
  stable (released_within f0 R) (copy_chunk c rest l).
Proof.
  intros Hcr w Hw. destruct (control_head_in c rest Hcr) as (Hc & Hrest).
  unfold copy_chunk. unfold bind at 1, get_packet at 1. cbv zeta.
  set (measure := sctp_chunk_is_data c && negb (c_resent c)
                  && negb (tp_rto_pending (transport (pkt w)))).
  set (c1 := pad_chunk (if measure then set_c_rtt_in_progress true c else c)).
  assert (Ha1 : c_addr c1 = c_addr c).
  { subst c1. unfold pad_chunk. destruct measure;
      match goal with |- context [if ?b then _ else _] => destruct b end;
      reflexivity. }
  clearbody c1 measure.
  assert (Hpost : forall tp, 
             incl (releasable
                     (set_transport tp
                        (if is_packet_auth (pkt w) c
                         then set_auth (Some c1) (set_chunk_list rest (pkt w))
                         else set_chunk_list rest (pkt w)))) R).
  { intros tp. destruct Hw as (_ & Hp). unfold releasable in *.
    unfold is_packet_auth.
    destruct (auth (pkt w)) as [a|] eqn:Eau.
    - destruct (Nat.eqb_spec (c_addr a) (c_addr c)) as [Eq|Ne]; cbn; rewrite ?Eau;
        intros x Hx; apply in_app_or in Hx; destruct Hx as [Hx | Hx];
        try (apply Hrest; exact Hx);
        apply Hp; apply in_or_app; right; cbn in *; rewrite ?Ha1, <- ?Eq in Hx;
        exact Hx.
    - cbn. rewrite Eau, app_nil_r. exact Hrest. }
  match goal with
  | |- context [if ?b then crash SkbOverPanic else _] => destruct b
  end; [exact I|].
  unfold bind, put_packet, sctp_chunk_free, ret.
  destruct Hw as (Hrel & _). revert Hpost.
  destruct (is_packet_auth (pkt w) c) eqn:Eia; intros Hpost;
    destruct (sctp_chunk_is_data c) eqn:Ed; cbn [negb andb];
    try (split; [exact Hrel|apply Hpost]).
  match goal with |- released_within _ _ (set_freed _ ?w1) =>
    change (released_within f0 R (with_freed c1 w1))
  end.
  apply released_free; [rewrite Ha1; apply Hc; reflexivity|].
  split; [exact Hrel|apply Hpost].
Qed.

Lemma released_drain_chunks (todo : list sctp_chunk) :
  forall l : locals,
    incl (map c_addr (control_chunks todo)) R ->
    stable (released_within f0 R) (drain_chunks todo l).
Proof.
  induction todo as [|c rest IH]; intros l Hin; cbn [drain_chunks].
  - apply stable_ret.
  - destruct (control_head_in c rest Hin) as (_ & Hrest).
    apply stable_bind; [apply released_copy_chunk; exact Hin|].
    intros l1. destruct (l_pkt_size l1 =? 0); [apply stable_ret|].
    apply IH. exact Hrest.
Qed.

Lemma released_auth_in (w : world) (a : sctp_chunk) :
  released_within f0 R w -> auth (pkt w) = Some a -> In (c_addr a) R.
Proof.
  intros (_ & Hp) Ea. apply Hp. unfold releasable. rewrite Ea.
  apply in_or_app. right. left. reflexivity.
Qed.

Lemma released_list_in (w : world) :
  released_within f0 R w -> incl (map c_addr (control_chunks (chunk_list (pkt w)))) R.
Proof.
  intros (_ & Hp) a Ha. apply Hp. unfold releasable. apply in_or_app. auto.
Qed.

Lemma released_finish_auth (l : locals) :
  stable (released_within f0 R) (finish_auth l).
Proof.
  intros w Hw. unfold finish_auth. cbv zeta.
  unfold bind at 1, get_packet at 1.
  destruct (auth (pkt w)) as [a|] eqn:Ea; [|exact Hw].
  pose proof (released_auth_in w a Hw Ea) as Hin.
  destruct (chunk_list (pkt w)) as [|c rest] eqn:El.
  - unfold bind, sctp_chunk_free, get_packet, put_packet, ret.
    destruct Hw as ((rel & E & Hrel) & Hp). split.
    + exists (c_addr a :: rel). cbn. rewrite E. split; [reflexivity|].
      intros x [<- | Hx]; auto.
    + unfold releasable. cbn. rewrite El. cbn. intros x [].
  - destruct (existsb _ _); [exact I|].
    unfold bind, put_packet, ret.
    destruct Hw as (Hrel & Hp). split; [exact Hrel|].
    unfold releasable in *. cbn. rewrite Ea. rewrite El, Ea in Hp.
    unfold control_chunks in *. cbn [filter] in *.
    destruct (sctp_chunk_is_data a); cbn [negb]; [exact Hp|].
    cbn [map app]. intros x [<- | Hx]; [exact Hin|apply Hp; exact Hx].
Qed.

(** The steps that leave the log, the list and [auth] alone. *)
Lemma released_get_packet : stable (released_within f0 R) get_packet.
Proof. intros w Hw. exact Hw. Qed.

Lemma released_get_world : stable (released_within f0 R) get_world.
Proof. intros w Hw. exact Hw. Qed.

Lemma released_get_sk : stable (released_within f0 R) get_sk.
Proof. intros w Hw. exact Hw. Qed.

Lemma released_get_jiffies : stable (released_within f0 R) get_jiffies.
Proof. intros w Hw. exact Hw. Qed.

Lemma released_deref_asoc : stable (released_within f0 R) deref_asoc.
Proof. intros w Hw. unfold deref_asoc. destruct (tp_asoc _); auto. Qed.

Lemma released_put_asoc (a : sctp_association) :
  stable (released_within f0 R) (put_asoc a).
Proof. intros w Hw. exact Hw. Qed.

Lemma released_crash {A : Type} (f : fault) :
  stable (released_within f0 R) (@crash A f).
Proof. intros w Hw. exact I. Qed.

Lemma released_alloc_skb (len : Z) : stable (released_within f0 R) (alloc_skb len).
Proof.
  intros w Hw. unfold alloc_skb. destruct (alloc_skb_ok w) as [|[] ?]; exact Hw.
Qed.

Lemma released_gro_receive (head : sk_buff) (nskb : packet_buf) :
  stable (released_within f0 R) (skb_gro_receive head nskb).
Proof.
  intros w Hw. unfold skb_gro_receive. destruct (gro_receive_ok w) as [|[] ?]; exact Hw.
Qed.

Lemma released_sctp_xmit (head : sk_buff) :
  stable (released_within f0 R) (sctp_xmit head).
Proof. intros w Hw. exact Hw. Qed.

Lemma released_ecn_capable : stable (released_within f0 R) ecn_capable.
Proof. intros w Hw. exact Hw. Qed.

Lemma released_set_owner_w : stable (released_within f0 R) sctp_packet_set_owner_w.
Proof. intros w Hw. exact Hw. Qed.

Lemma released_kfree_skb_head : stable (released_within f0 R) kfree_skb_head.
Proof. intros w Hw. exact Hw. Qed.

Lemma released_refresh_sk_caps : stable (released_within f0 R) refresh_sk_caps.
Proof.
  intros w Hw. unfold refresh_sk_caps, bind, get_packet, get_sk, put_sk, ret, crash.
  destruct (tp_dst (transport (pkt w))) as [d|].
  - destruct (sk_dst_cache (sk w)) as [a|]; [destruct (Nat.eqb a (dst_addr d))|];
      exact Hw.
  - destruct (sk_dst_cache (sk w)); [exact I|exact Hw].
Qed.

Lemma released_label_out : stable (released_within f0 R) (label_out 0).
Proof.
  intros w Hw. unfold label_out, bind, get_packet, put_packet, ret.
  apply (released_same w); auto.
Qed.

End Released.

Create HintDb sctp_released.
#[local] Hint Resolve released_get_packet released_get_world released_get_sk
  released_get_jiffies released_deref_asoc released_put_asoc released_crash
  released_alloc_skb released_gro_receive released_sctp_xmit released_ecn_capable
  released_set_owner_w released_kfree_skb_head released_refresh_sk_caps
  released_label_out released_finish_auth stable_ret : sctp_released.

Ltac released_walk :=
  lazymatch goal with
  | |- stable _ (bind _ _) =>
      apply stable_bind; [released_walk | intros ?; released_walk]
  | |- stable _ (if ?b then _ else _) => destruct b; released_walk
  | |- stable _ (match ?x with _ => _ end) => destruct x; released_walk
  | |- _ => solve [auto with sctp_released]
  end.

Section ReleasedEmitter.
Context `{Collaborators}.
Variables f0 R : list nat.

Lemma released_sub_packets (fuel : nat) (gso : bool) :
  forall l : locals, stable (released_within f0 R) (sub_packets fuel gso l).
Proof.
  induction fuel as [|fuel IH]; intros l; cbn [sub_packets]; cbv zeta.
  - apply stable_ret.
  - intros w Hw. unfold bind at 1, get_packet at 1.
    pose proof (released_list_in f0 R w Hw) as Hin.
    match goal with |- match ?k w with _ => _ end =>
      assert (Hk : stable (released_within f0 R) k); [|exact (Hk w Hw)]
    end.
    pose proof (fun l0 => released_drain_chunks f0 R (chunk_list (pkt w)) l0 Hin).
    released_walk.
Qed.

Lemma released_drop_chunks (todo : list sctp_chunk) :
  incl (map c_addr (control_chunks todo)) R ->
  stable (released_within f0 R) (drop_chunks todo).
Proof.
  induction todo as [|c rest IH]; intros Hin; cbn [drop_chunks].
  - apply stable_ret.
  - destruct (control_head_in R c rest Hin) as (Hc & Hrest).
    intros w Hw. unfold bind at 1, get_packet at 1. unfold bind at 1, put_packet at 1.
    match goal with |- match ?k ?w1 with _ => _ end =>
      assert (Hk : stable (released_within f0 R) k);
      [|apply (Hk w1)]
    end.
    + apply stable_bind; [|intros _; apply IH; exact Hrest].
      destruct (sctp_chunk_is_data c); cbn [negb]; [apply stable_ret|].
      intros w1 Hw1. apply released_free; [apply Hc; reflexivity|exact Hw1].
    + destruct Hw as (Hrel & Hp). split; [exact Hrel|].
      unfold releasable in *. cbn.
      intros x Hx. apply in_app_or in Hx. destruct Hx as [Hx | Hx].
      * apply Hrest. exact Hx.
      * apply Hp. apply in_or_app. right. exact Hx.
Qed.

Lemma released_label_err : stable (released_within f0 R) (label_err 0).
Proof.
  intros w Hw. unfold label_err. unfold bind at 1, get_packet at 1.
  match goal with |- match ?k w with _ => _ end =>
    assert (Hk : stable (released_within f0 R) k); [|exact (Hk w Hw)]
  end.
  apply stable_bind; [|intros _; apply released_label_out].
  apply released_drop_chunks. apply (released_list_in f0 R w Hw).
Qed.

Lemma released_label_nodst : stable (released_within f0 R) (label_nodst 0).
Proof.
  unfold label_nodst. apply stable_bind; [apply released_kfree_skb_head|].
  intros _. apply released_label_err.
Qed.

Lemma released_label_nomem : stable (released_within f0 R) (label_nomem 0).
Proof.
  intros w Hw. unfold label_nomem. unfold bind at 1, get_packet at 1.
  match goal with |- match ?k w with _ => _ end =>
    assert (Hk : stable (released_within f0 R) k); [|exact (Hk w Hw)]
  end.
  apply stable_bind; [|intros _; apply released_label_nodst].
  destruct (auth (pkt w)) as [a|] eqn:Ea; [|apply stable_ret].
  destruct (existsb _ _); [apply stable_ret|].
  intros w1 Hw1. apply released_free; [|exact Hw1].
  apply (released_auth_in f0 R w a Hw Ea).
Qed.

Lemma released_transmit_tail (gso had_asoc : bool) (dst : dst_entry) (l : locals) :
  stable (released_within f0 R) (transmit_tail gso had_asoc dst 0 l).
Proof. unfold transmit_tail. cbv zeta. released_walk. Qed.

Lemma released_transmit : stable (released_within f0 R) sctp_packet_transmit.
Proof.
  intros w Hw. unfold sctp_packet_transmit. unfold bind at 1, get_packet at 1.
  cbv zeta. destruct (chunk_list (pkt w)) as [|c0 rest] eqn:El; [exact Hw|].
  unfold bind at 1, get_sk at 1.
  destruct (needs_gso (pkt w) && negb (sk_gso (sk w)));
    [apply released_label_err; exact Hw|].
  unfold bind at 1, alloc_skb at 1.
  assert (Herr : forall ra, match label_err 0 (set_alloc_skb_ok ra w) with
                            | Done _ w' => released_within f0 R w'
                            | Fault _ => True
                            end).
  { intros ra. apply released_label_err. apply (released_same f0 R w); auto. }
  destruct (alloc_skb_ok w) as [|[|] ra];
    [apply released_label_err; exact Hw| |apply Herr].
  unfold bind at 1, sctp_packet_set_owner_w at 1, bind at 1, get_sk at 1, put_sk at 1.
  unfold bind at 1, put_packet at 1.
  match goal with |- match ?k ?w2 with _ => _ end =>
    assert (Hk : stable (released_within f0 R) k);
    [|apply (Hk w2)]
  end.
  - pose proof released_label_nodst. pose proof released_label_nomem.
    pose proof released_transmit_tail. pose proof released_sub_packets.
    released_walk.
  - apply (released_same f0 R w); auto.
Qed.

End ReleasedEmitter.

(** X17: the emitter never releases a DATA chunk.  On every path on which
    sctp_packet_transmit returns -- sent in one buffer or as a GSO
    super-buffer, or failed for want of a buffer, of a route or of GSO
    support -- the chunks it has released are chunks of chunk_list that are
    not DATA, or the AUTH chunk the packet points to: "free data chunks
    after they've been acknowledged or have failed", not here. *)
Theorem transmit_releases_only_control_chunks `{Collaborators}
    (w w' : world) (r : Z) :
  sctp_packet_transmit w = Done r w' ->
  exists released,
    freed w' = released ++ freed w /\
    incl released (releasable (pkt w)) /\
    forall c, In c (chunk_list (pkt w)) -> sctp_chunk_is_data c = true ->
              ~ In (c_addr c) (releasable (pkt w)) -> ~ In (c_addr c) released.
Proof.
  intros E.
  pose proof (released_transmit (freed w) (releasable (pkt w)) w) as Hr.
  rewrite E in Hr. destruct Hr as ((rel & Hf & Hin) & _).
  - split; [exists []; split; [reflexivity|intros x []]|apply incl_refl].
  - exists rel. split; [exact Hf|]. split; [exact Hin|].
    intros c _ _ Hn Hc. apply Hn. apply Hin. exact Hc.
Qed.

(** The theorem at work: the packet of a HEARTBEAT and a DATA chunk; the
    HEARTBEAT, at address 1, is the only chunk released. *)
Lemma transmit_releases_only_control_chunks_witness :
  exists released,
    freed (Sample.end_of (@sctp_packet_transmit Sample.demo)
             (Sample.after [Append (Sample.chunk 1 SCTP_CID_HEARTBEAT 38);
                            Append (Sample.chunk 2 SCTP_CID_DATA 100)] Sample.w_plain))
    = released ++ [] /\
    incl released [1%nat] /\
    forall c,
      In c (chunk_list
              (pkt (Sample.after [Append (Sample.chunk 1 SCTP_CID_HEARTBEAT 38);
                                  Append (Sample.chunk 2 SCTP_CID_DATA 100)]
                      Sample.w_plain))) ->
      sctp_chunk_is_data c = true ->
      ~ In (c_addr c) [1%nat] -> ~ In (c_addr c) released.
Proof.
  apply (@transmit_releases_only_control_chunks Sample.demo
           (Sample.after [Append (Sample.chunk 1 SCTP_CID_HEARTBEAT 38);
                          Append (Sample.chunk 2 SCTP_CID_DATA 100)] Sample.w_plain)
           _ 0).
  vm_compute. reflexivity.
Defined.

(** ** Refusals for the window leave no trace *)

Section BundlerVerdicts.
Context `{Collaborators}.

Lemma bundle_auth_verdicts (c : sctp_chunk) (v : sctp_xmit_t) (w w' : world) :
  sctp_packet_bundle_auth c w = Done v w' ->
  v = SCTP_XMIT_OK \/ v = SCTP_XMIT_PMTU_FULL.
Proof.
  intros E. apply bundle_auth_shape in E.
  destruct E as [(-> & _) | (a & b & w1 & _ & _ & _ & _ & _ & Er & _)]; [auto|].
  apply append_raw_effect in Er. destruct Er as [(-> & _) | (-> & _)]; auto.
Qed.

Lemma bundle_sack_verdicts (c : sctp_chunk) (v : sctp_xmit_t) (w w' : world) :
  sctp_packet_bundle_sack c w = Done v w' ->
  v = SCTP_XMIT_OK \/ v = SCTP_XMIT_PMTU_FULL.
Proof.
  intros E. apply bundle_sack_shape in E.
  destruct E as [(-> & _) | (a & _ & _ & _ & _ & _ & _ & Hrest)]; [auto|].
  destruct Hrest as [(_ & -> & _) | (b & w1 & _ & Er & _)]; [auto|].
  apply append_raw_effect in Er. destruct Er as [(-> & _) | (-> & _)]; auto.
Qed.

End BundlerVerdicts.

(** X18: a DATA chunk refused for the window leaves no trace.  When the
    public append answers RWND_FULL or DELAY, the chunk is a DATA chunk
    that sctp_packet_can_append_data turned down, and the world is exactly
    as it was: nothing was bundled, nothing released, no counter moved.
    (PMTU_FULL is different: bundled chunks may stay behind.) *)
Theorem append_chunk_window_refusal_is_clean `{Collaborators}
    (c : sctp_chunk) (v : sctp_xmit_t) (w w' : world) :
  sctp_packet_append_chunk c w = Done v w' ->
  v = SCTP_XMIT_RWND_FULL \/ v = SCTP_XMIT_DELAY ->
  w' = w /\ sctp_chunk_is_data c = true /\
  sctp_packet_can_append_data c w = Done v w.
Proof.
  intros E Hv. unfold sctp_packet_append_chunk in E. unfold bind at 1 in E.
  destruct (sctp_chunk_is_data c) eqn:Ed.
  - destruct (sctp_packet_can_append_data c w) as [v0 w0|] eqn:E0; [|discriminate].
    destruct (can_append_data_reads c v0 w w0 E0) as (-> & Hn).
    destruct (xmit_is_ok v0) eqn:Ev; cbn [negb] in E.
    2:{ unfold ret in E. injection E as <- <-. auto. }
    exfalso. unfold bind at 1 in E.
    destruct (sctp_packet_bundle_auth c w) as [v1 w1|] eqn:E1; [|discriminate].
    destruct (bundle_auth_verdicts c v1 w w1 E1) as [-> | ->];
      cbn [xmit_is_ok negb] in E.
    2:{ unfold ret in E. injection E as <- _. destruct Hv; discriminate. }
    unfold bind at 1 in E.
    destruct (sctp_packet_bundle_sack c w1) as [v2 w2|] eqn:E2; [|discriminate].
    destruct (bundle_sack_verdicts c v2 w1 w2 E2) as [-> | ->];
      cbn [xmit_is_ok negb] in E.
    2:{ unfold ret in E. injection E as <- _. destruct Hv; discriminate. }
    apply append_raw_effect in E.
    destruct E as [(-> & _) | (-> & _)]; destruct Hv; discriminate.
  - exfalso. unfold ret at 1 in E. cbn [xmit_is_ok negb] in E.
    destruct (control_append_verdicts c v w w' Ed) as [-> | ->];
      [|destruct Hv; discriminate|destruct Hv; discriminate].
    unfold sctp_packet_append_chunk, bind at 1. rewrite Ed. exact E.
Qed.

(** The theorem at work: Nagle defers a small DATA chunk on the empty
    packet of the Nagle scenario. *)
Lemma append_chunk_window_refusal_witness :
  Sample.end_of (@sctp_packet_append_chunk Sample.demo
                   (Sample.chunk 1 SCTP_CID_DATA 100)) Sample.w_nagle
  = Sample.w_nagle /\
  sctp_chunk_is_data (Sample.chunk 1 SCTP_CID_DATA 100) = true /\
  @sctp_packet_can_append_data Sample.demo (Sample.chunk 1 SCTP_CID_DATA 100)
    Sample.w_nagle = Done SCTP_XMIT_DELAY Sample.w_nagle.
Proof.
  apply (@append_chunk_window_refusal_is_clean Sample.demo
           (Sample.chunk 1 SCTP_CID_DATA 100) SCTP_XMIT_DELAY Sample.w_nagle).
  - vm_compute. reflexivity.
  - right. reflexivity.
Defined.

(** ** What an admitted chunk carries *)

(** X19: an admitted chunk is stamped.  When the raw append answers OK,
    the chunk at the tail of chunk_list carries the address of the
    packet's transport.  A chunk that is not DATA is queued as it was
    offered otherwise.  A DATA chunk also carries the time of the append
    and a send count one higher (an int), a TSN and an SSN, and its
    address, type, length and buffer length are those offered. *)
Theorem raw_append_stamps_the_chunk `{Collaborators}
    (c : sctp_chunk) (w w' : world) :
  __sctp_packet_append_chunk c w = Done SCTP_XMIT_OK w' ->
  exists c',
    chunk_list (pkt w') = chunk_list (pkt w) ++ [c'] /\
    c_transport c' = Some (tp_addr (transport (pkt w))) /\
    same_wire c c' /\
    (sctp_chunk_is_data c = false ->
     c' = set_c_transport (Some (tp_addr (transport (pkt w)))) c) /\
    (sctp_chunk_is_data c = true ->
     c_sent_at c' = jiffies w /\
     c_sent_count c' = int (c_sent_count c + 1) /\
     c_has_tsn c' = true /\ c_has_ssn c' = true /\
     c_resent c' = c_resent c /\ c_rtt_in_progress c' = c_rtt_in_progress c).
Proof.
  unfold __sctp_packet_append_chunk.
  fold (chunk_len16 c). set (len := chunk_len16 c).
  unfold bind at 1, get_packet at 1.
  destruct (will_fit_verdict_cases (pkt w) c len)
    as (v0 & p1 & E & [(-> & ->) | [(-> & ->) | (-> & ->)]]); rewrite E;
    unfold bind at 1, put_packet at 1; cbn [xmit_is_ok negb fst snd].
  3:{ unfold ret. intros E'. discriminate E'. }
  all: unfold sctp_chunk_is_data; destruct (c_type c) eqn:Et; intros E';
    repeat (unfold bind, get_packet, put_packet, put_asoc, get_jiffies, ret,
              sctp_packet_append_data, deref_asoc in E'; cbn in E');
    destruct (tp_asoc (transport (pkt w))) as [a|] eqn:Ea;
    try destruct (c_has_asoc c);
    try discriminate E'; injection E' as <-;
    cbn; rewrite ?Et; cbn;
    try (unfold sctp_chunk_assign_ssn, sctp_chunk_assign_tsn;
         destruct (c_has_tsn _) eqn:Etsn, (c_has_ssn _) eqn:Essn,
           (a_prsctp_capable _); cbn;
         rewrite ?Et; cbn);
    eexists; (split; [reflexivity|]); unfold same_wire; cbn; rewrite ?Et;
    repeat split; try reflexivity; try discriminate; auto.
Qed.

(** The theorem at work: a DATA chunk of 100 bytes on the sample packet, at
    time 1000, on the transport at address 1. *)
Lemma raw_append_stamps_the_chunk_witness :
  exists c',
    chunk_list
      (pkt (Sample.after [AppendRaw (Sample.chunk 1 SCTP_CID_DATA 100)] Sample.w0))
    = chunk_list (pkt Sample.w0) ++ [c'] /\
    c_transport c' = Some 1%nat /\
    same_wire (Sample.chunk 1 SCTP_CID_DATA 100) c' /\
    (sctp_chunk_is_data (Sample.chunk 1 SCTP_CID_DATA 100) = false ->
     c' = set_c_transport (Some 1%nat) (Sample.chunk 1 SCTP_CID_DATA 100)) /\
    (sctp_chunk_is_data (Sample.chunk 1 SCTP_CID_DATA 100) = true ->
     c_sent_at c' = 1000 /\
     c_sent_count c' = int (0 + 1) /\
     c_has_tsn c' = true /\ c_has_ssn c' = true /\
     c_resent c' = false /\ c_rtt_in_progress c' = false).
Proof.
  apply (@raw_append_stamps_the_chunk Sample.demo (Sample.chunk 1 SCTP_CID_DATA 100)
           Sample.w0).
  vm_compute. reflexivity.
Defined.


(** ** The books of an emission *)

(** X20 (sctp_packet_transmit, the statistics and timers of a plain
    emission).  Let a packet without AUTH chunk that needs no GSO be
    emitted in one buffer, and let [a] be the association of its transport
    once the route is refreshed.  Then the emitter returns 0, and
    afterwards: the association has counted exactly one more packet and
    remembers the transport's address as the last destination; the socket
    is marked ECN capable; an RTT measurement is pending on the transport
    exactly when one was pending or the packet carried a DATA chunk on
    its first transmission.  When the packet carried DATA, the association
    is ESTABLISHED and its autoclose timeout is not 0, the AUTOCLOSE timer
    expires at jiffies + timeout, a sum of unsigned long values that
    wraps around at 2^64, and the association gained a reference exactly
    when the timer was idle; in every other case timer and reference
    count are as before. *)
Theorem transmit_keeps_the_books `{Collaborators}
    (w : world) (lst : list sctp_chunk) (d : dst_entry) (ra : list bool)
    (a : sctp_association) :
  chunk_list (pkt w) = lst -> lst <> [] ->
  needs_gso (pkt w) = false ->
  auth (pkt w) = None ->
  alloc_skb_ok w = true :: ra ->
  tp_dst (refresh_route (sk w) (transport (pkt w))) = Some d ->
  tp_asoc (refresh_route (sk w) (transport (pkt w))) = Some a ->
  Forall (fun c => 0 < c_skb_len c) lst ->
  0 <= overhead (pkt w) ->
  size (pkt w) = overhead (pkt w) + skb_sum lst ->
  size (pkt w) < 2 ^ 30 ->
  exists w' a',
    sctp_packet_transmit w = Done 0 w' /\
    tp_asoc (transport (pkt w')) = Some a' /\
    a_opackets a' = a_opackets a + 1 /\
    a_last_sent_to a' =
      Some (tp_addr (refresh_route (sk w) (transport (pkt w)))) /\
    sk_ecn (sk w') = true /\
    tp_rto_pending (transport (pkt w')) =
      tp_rto_pending (refresh_route (sk w) (transport (pkt w)))
      || existsb starts_rtt lst /\
    (existsb sctp_chunk_is_data lst = true ->
     state_established (a_state a) = true ->
     a_autoclose_timeout a <> 0 ->
     a_autoclose_timer a' = Some (ulong (jiffies w + a_autoclose_timeout a)) /\
     a_refcnt a' =
       a_refcnt a + match a_autoclose_timer a with Some _ => 0 | None => 1 end) /\
    (existsb sctp_chunk_is_data lst = false \/
     state_established (a_state a) = false \/ a_autoclose_timeout a = 0 ->
     a_autoclose_timer a' = a_autoclose_timer a /\ a_refcnt a' = a_refcnt a).
Proof.
  intros Hlst Hne Hgso Hau Hal Hdst Hasoc Hpos Hov Hsize Hlt.
  destruct (plain_path w lst d ra Hlst Hne Hgso Hau Hal Hdst Hpos Hov Hsize Hlt)
    as (l' & w2 & E & Hl2 & Hi2 & Hx2 & Hj2 & Hs2 & Ha2 & Hf2 & Ht2 & Hd2 & Hc2 & _).
  pose proof (has_asoc_refreshed w w2 lst Ht2) as Hasoc2.
  destruct (after_copy_keeps lst (refresh_route (sk w) (transport (pkt w))))
    as (Ka & Kd & _ & Kr).
  assert (Hhas : has_asoc (pkt w2) = true).
  { unfold has_asoc. rewrite Ht2, Ka, Hasoc. reflexivity. }
  rewrite E, <- Hasoc2, transmit_tail_plain by (intros _; exact Hhas).
  eexists _, _. split; [reflexivity|].
  cbn [pkt set_pkt sk set_sk set_xmit sctp_packet_reset transport set_transport
       set_size set_has_cookie_echo set_has_sack set_has_auth set_has_data
       set_ipfragok set_auth].
  unfold tail_transport. rewrite Ht2, Ka, Hasoc, Hj2, Hc2, Hd2, Kd.
  cbn [tp_asoc set_tp_asoc tp_rto_pending].
  split; [reflexivity|].
  unfold sent_books. cbn [a_state a_autoclose_timeout a_autoclose_timer
                         set_a_last_sent_to set_a_opackets].
  destruct (existsb sctp_chunk_is_data lst) eqn:Ed;
    destruct (state_established (a_state a)) eqn:Es;
    destruct (Z.eqb_spec (a_autoclose_timeout a) 0) as [Et|Et];
    destruct (a_autoclose_timer a) eqn:Em; cbn [andb negb orb];
    rewrite ?Kr;
    (split; [reflexivity|]); (split; [reflexivity|]); (split; [reflexivity|]);
    (split; [reflexivity|]); split.
  all: try (intros Hd He Hz;
            first [discriminate Hd | discriminate He | exfalso; lia
                  | cbn; split; [reflexivity|lia]]).
  all: intros [Hx|[Hx|Hx]];
    first [discriminate Hx | exfalso; lia | cbn; rewrite ?Em; split; reflexivity].
Qed.

(** The theorem at work: a HEARTBEAT and a first-time DATA chunk leave for
    an established association with autoclose after 300 jiffies and an
    idle timer, 100 jiffies before the clock wraps: one packet counted,
    destination 1 remembered, ECN on, a measurement pending, the timer set
    to 200, and a reference taken. *)
Lemma transmit_keeps_the_books_witness :
  exists w' a',
    @sctp_packet_transmit Sample.demo
      (Sample.after [Append (Sample.chunk 1 SCTP_CID_HEARTBEAT 38);
                     Append (Sample.chunk 2 SCTP_CID_DATA 100)] Scene.w_autoclose)
    = Done 0 w' /\
    tp_asoc (transport (pkt w')) = Some a' /\
    a_opackets a' = 0 + 1 /\
    a_last_sent_to a' = Some 1%nat /\
    sk_ecn (sk w') = true /\
    tp_rto_pending (transport (pkt w')) = false || true /\
    (true = true -> true = true -> 300 <> 0 ->
     a_autoclose_timer a' = Some 200 /\ a_refcnt a' = 1 + 1) /\
    (true = false \/ true = false \/ 300 = 0 ->
     a_autoclose_timer a' = None /\ a_refcnt a' = 1).
Proof.
  refine (@transmit_keeps_the_books Sample.demo
            (Sample.after [Append (Sample.chunk 1 SCTP_CID_HEARTBEAT 38);
                           Append (Sample.chunk 2 SCTP_CID_DATA 100)]
               Scene.w_autoclose)
            _ Sample.dst [true] _ eq_refl _ eq_refl eq_refl eq_refl eq_refl
            eq_refl _ _ _ _).
  - vm_compute. discriminate.
  - vm_compute. repeat constructor.
  - vm_compute. discriminate.
  - vm_compute. reflexivity.
  - vm_compute. reflexivity.
Defined.

(** ** The flush: what the emitter leaves of the packet *)

Section Listed.
Context `{Collaborators}.
Variable L : list sctp_chunk.

Lemma listed_get_packet : stable (listed L) get_packet.
Proof. intros w Hw. exact Hw. Qed.

Lemma listed_get_world : stable (listed L) get_world.
Proof. intros w Hw. exact Hw. Qed.

Lemma listed_get_sk : stable (listed L) get_sk.
Proof. intros w Hw. exact Hw. Qed.

Lemma listed_get_jiffies : stable (listed L) get_jiffies.
Proof. intros w Hw. exact Hw. Qed.

Lemma listed_put_sk (s : sock) : stable (listed L) (put_sk s).
Proof. intros w Hw. exact Hw. Qed.

Lemma listed_deref_asoc : stable (listed L) deref_asoc.
Proof. intros w Hw. unfold deref_asoc. destruct (tp_asoc _); auto. Qed.

Lemma listed_put_asoc (a : sctp_association) : stable (listed L) (put_asoc a).
Proof. intros w Hw. exact Hw. Qed.

Lemma listed_chunk_free (c : sctp_chunk) : stable (listed L) (sctp_chunk_free c).
Proof. intros w Hw. exact Hw. Qed.

Lemma listed_crash {A : Type} (f : fault) : stable (listed L) (@crash A f).
Proof. intros w Hw. exact I. Qed.

Lemma listed_sctp_xmit (head : sk_buff) : stable (listed L) (sctp_xmit head).
Proof. intros w Hw. exact Hw. Qed.

Lemma listed_ecn_capable : stable (listed L) ecn_capable.
Proof. intros w Hw. exact Hw. Qed.

Lemma listed_refresh_sk_caps : stable (listed L) refresh_sk_caps.
Proof.
  intros w Hw. unfold refresh_sk_caps, bind, get_packet, get_sk, put_sk, ret, crash.
  destruct (tp_dst (transport (pkt w))) as [d|].
  - destruct (sk_dst_cache (sk w)) as [a|]; [destruct (Nat.eqb a (dst_addr d))|];
      exact Hw.
  - destruct (sk_dst_cache (sk w)); [exact I|exact Hw].
Qed.

(** sctp_packet_reset writes the size and the flags, not the list. *)
Lemma listed_label_out (e : Z) : stable (listed L) (label_out e).
Proof. intros w Hw. exact Hw. Qed.

End Listed.

Create HintDb sctp_listed.
#[local] Hint Resolve listed_get_packet listed_get_world listed_get_sk
  listed_get_jiffies listed_put_sk listed_deref_asoc listed_put_asoc
  listed_chunk_free listed_crash listed_sctp_xmit listed_ecn_capable
  listed_refresh_sk_caps listed_label_out stable_ret : sctp_listed.

Ltac listed_walk :=
  lazymatch goal with
  | |- stable _ (bind _ _) =>
      apply stable_bind; [listed_walk | intros ?; listed_walk]
  | |- stable _ (if ?b then _ else _) => destruct b; listed_walk
  | |- stable _ (match ?x with _ => _ end) => destruct x; listed_walk
  | |- _ => solve [auto with sctp_listed]
  end.

Section Drained.
Context `{Collaborators}.

(** The tail of the emitter does not touch the list. *)
Lemma listed_transmit_tail (L : list sctp_chunk) (gso had_asoc : bool)
    (dst : dst_entry) (e : Z) (l : locals) :
  stable (listed L) (transmit_tail gso had_asoc dst e l).
Proof. unfold transmit_tail. cbv zeta. listed_walk. Qed.

Lemma triple_any {A : Type} (m : M A) :
  triple (fun _ => True) m (fun _ _ => True).
Proof. intros w _. destruct (m w); exact I. Qed.

(** The error labels leave no chunk on the list. *)
Lemma label_err_drained :
  triple (fun _ => True) (label_err 0) (fun _ w => chunk_list (pkt w) = []).
Proof.
  intros w _. destruct (label_err_done w) as (w' & E & _ & _ & Hl & _).
  rewrite E. exact Hl.
Qed.

Lemma label_nodst_drained :
  triple (fun _ => True) (label_nodst 0) (fun _ w => chunk_list (pkt w) = []).
Proof.
  unfold label_nodst.
  apply triple_bind with (R := fun _ _ => True); [apply triple_any|].
  intros _. apply label_err_drained.
Qed.

Lemma label_nomem_drained :
  triple (fun _ => True) (label_nomem 0) (fun _ w => chunk_list (pkt w) = []).
Proof.
  unfold label_nomem.
  apply triple_bind with (R := fun _ _ => True); [apply triple_any|]. intros p.
  apply triple_bind with (R := fun _ _ => True); [apply triple_any|].
  intros _. apply label_nodst_drained.
Qed.

(** One turn of the copy loop, whatever the packet's AUTH pointer: the
    chunk leaves the list and its padded buffer length leaves the count. *)
Lemma copy_chunk_takes (c : sctp_chunk) (rest : list sctp_chunk) (l l' : locals)
    (w w' : world) :
  fits_alone 0 (2 ^ 30 - 1) c ->
  0 <= l_pkt_size l < 2 ^ 31 ->
  copy_chunk c rest l w = Done l' w' ->
  chunk_list (pkt w') = rest /\ l_pkt_size l' = l_pkt_size l - padded_skb c.
Proof.
  intros Hc Hsz.
  destruct (fits_alone_bounds 0 (2 ^ 30 - 1) ltac:(lia) ltac:(lia) c Hc)
    as (Hp & Hlen & Hint).
  unfold copy_chunk. unfold bind at 1, get_packet at 1. cbv zeta.
  set (measure := sctp_chunk_is_data c && negb (c_resent c)
                  && negb (tp_rto_pending (transport (pkt w)))).
  set (c1 := if measure then set_c_rtt_in_progress true c else c).
  assert (Hc1 : fits_alone 0 (2 ^ 30 - 1) c1 /\ padded_skb c1 = padded_skb c).
  { subst c1. destruct measure; cbn; auto. }
  destruct Hc1 as (Hc1 & Hp1).
  destruct (pad_chunk_len 0 (2 ^ 30 - 1) ltac:(lia) ltac:(lia) c1 Hc1) as (Hlen2 & _).
  assert (Hsub : int (l_pkt_size l - u32 (SCTP_PAD4 (c_skb_len (pad_chunk c1))))
                 = l_pkt_size l - padded_skb c).
  { rewrite Hlen2, Hp1. fold (padded_skb c). unfold padded_skb at 1.
    rewrite SCTP_PAD4_idem. fold (padded_skb c).
    rewrite u32_small by lia. apply int_small. lia. }
  clearbody c1 measure.
  match goal with
  | |- context [if ?b then crash SkbOverPanic else _] => destruct b
  end; [intros E; discriminate E|].
  unfold bind, put_packet, sctp_chunk_free, ret.
  destruct (is_packet_auth (pkt w) c), (sctp_chunk_is_data c); cbn [negb andb];
    intros E; injection E as <- <-; cbn; (split; [reflexivity|exact Hsub]).
Qed.

(** The copy loop empties a list that is sized by the bytes to place. *)
Lemma drain_takes_all (todo : list sctp_chunk) :
  forall (l l' : locals) (w w' : world),
    Forall (fits_alone 0 (2 ^ 30 - 1)) todo -> todo <> [] ->
    l_pkt_size l = skb_sum todo -> skb_sum todo < 2 ^ 31 ->
    drain_chunks todo l w = Done l' w' ->
    chunk_list (pkt w') = [].
Proof.
  induction todo as [|c rest IH]; intros l l' w w' Hfit Hne Hsz Hlt;
    [contradiction|].
  pose proof (Forall_inv Hfit) as Hc. pose proof (Forall_inv_tail Hfit) as Hrest.
  cbn [drain_chunks]. cbn [skb_sum] in Hsz, Hlt.
  pose proof (skb_sum_nonneg rest (fits_alone_pos 0 (2 ^ 30 - 1) rest Hrest)) as Hnn.
  destruct (fits_alone_bounds 0 (2 ^ 30 - 1) ltac:(lia) ltac:(lia) c Hc)
    as (Hp & Hlen & Hint).
  unfold bind at 1.
  destruct (copy_chunk c rest l w) as [l1 w1|] eqn:E; [|discriminate].
  destruct (copy_chunk_takes c rest l l1 w w1 Hc ltac:(lia) E) as (Hl1 & Hz1).
  destruct rest as [|c2 rest2].
  - destruct (l_pkt_size l1 =? 0); cbn [drain_chunks]; unfold ret;
      intros E'; injection E' as _ <-; exact Hl1.
  - assert (Hpos : 0 < skb_sum (c2 :: rest2))
      by (apply skb_sum_pos; [apply (fits_alone_pos 0 (2 ^ 30 - 1)), Hrest
                             |discriminate]).
    destruct (Z.eqb_spec (l_pkt_size l1) 0) as [E0|_]; [lia|].
    apply IH; [exact Hrest|discriminate|lia|lia].
Qed.

Lemma finish_auth_drained (l : locals) :
  stable (listed []) (finish_auth l).
Proof.
  intros w Hw. unfold listed in *. unfold finish_auth. cbv zeta.
  unfold bind at 1, get_packet at 1. rewrite Hw.
  destruct (auth (pkt w)); unfold bind, sctp_chunk_free, get_packet, put_packet, ret;
    cbn; first [exact Hw | reflexivity].
Qed.

(** Where the do-while loop is left for the tail, the list is empty: a
    GSO emission loops until it is, a plain one takes the whole list in
    its one round when the size counts the buffers. *)
Lemma sub_packets_drained (fuel : nat) (gso : bool) :
  forall l : locals,
    triple (fun w => gso = false -> drain_ready l w)
      (sub_packets fuel gso l)
      (fun r w' => fst r = Fallthrough -> chunk_list (pkt w') = []).
Proof.
  induction fuel as [|fuel IH]; intros l; cbn [sub_packets]; cbv zeta.
  { apply triple_ret. intros w _ Hf. discriminate Hf. }
  destruct gso.
  - apply (triple_weaken _ (fun _ => True) _ _
             (fun r w' => fst r = Fallthrough -> chunk_list (pkt w') = []));
      [|auto|auto].
    apply triple_bind with (R := fun _ _ => True); [apply triple_any|]. intros p.
    apply triple_bind with (R := fun _ _ => True); [apply triple_any|].
    intros [[|] l1]; [|apply triple_ret; intros w _ Hf; discriminate Hf].
    apply triple_bind with (R := fun _ _ => True); [apply triple_any|]. intros l2.
    apply triple_bind with (R := fun _ _ => True); [apply triple_any|]. intros l3.
    cbn [negb].
    apply triple_bind with (R := fun _ _ => True); [apply triple_any|].
    intros [head|]; [|apply triple_ret; intros w _ Hf; discriminate Hf].
    apply triple_bind with (R := fun _ _ => True); [apply triple_any|]. intros s.
    destruct (skb_gso_segs head >=? sk_gso_max_segs s);
      [apply triple_ret; intros w _ Hf; discriminate Hf|].
    intros w _. unfold bind, get_packet.
    destruct (chunk_list (pkt w)) as [|c rest] eqn:El.
    + unfold ret. intros _. exact El.
    + apply IH. intros Hf. discriminate Hf.
  - intros w Hr. specialize (Hr eq_refl).
    destruct Hr as (Hfit & Hne & Hsz & Hlt).
    unfold bind at 1, get_packet at 1. unfold bind at 1, ret at 1. cbv beta iota.
    unfold bind at 1.
    match goal with
    | |- context [drain_chunks ?t ?l0 w] =>
        destruct (drain_chunks t l0 w) as [l2 w2|] eqn:Ed; [|exact I];
        apply drain_takes_all in Ed; [|exact Hfit|exact Hne|exact Hsz|exact Hlt]
    end.
    unfold bind at 1.
    pose proof (finish_auth_drained l2 w2 Ed) as Hfa.
    destruct (finish_auth l2 w2) as [l3 w3|]; [|exact I].
    cbn [negb]. unfold ret. intros _. exact Hfa.
Qed.

(** The emitter leaves no chunk on the list: a GSO emission always, a
    plain one when the size of the packet counts the buffers of its
    chunks. *)
Lemma transmit_drains (w w' : world) (r : Z) :
  needs_gso (pkt w) = true \/ skb_sized (pkt w) ->
  sctp_packet_transmit w = Done r w' ->
  chunk_list (pkt w') = [].
Proof.
  intros Hor E.
  assert (Hplain : needs_gso (pkt w) = false ->
                   Forall (fits_alone 0 (2 ^ 30 - 1)) (chunk_list (pkt w)) /\
                   0 <= overhead (pkt w) /\
                   size (pkt w) = overhead (pkt w) + skb_sum (chunk_list (pkt w)) /\
                   size (pkt w) < 2 ^ 30 /\ 0 <= skb_sum (chunk_list (pkt w))).
  { intros Hg. destruct Hor as [Hgso | (Hpos & Hov & Hsize & Hlt)]; [congruence|].
    assert (Hnn : 0 <= skb_sum (chunk_list (pkt w))) by (apply skb_sum_nonneg, Hpos).
    split; [|auto].
    assert (Hb : skb_sum (chunk_list (pkt w)) < 2 ^ 30) by lia.
    clear - Hpos Hb. induction Hpos as [|c l Hc Hl IH]; constructor.
    - pose proof (skb_sum_nonneg l Hl). cbn in Hb. split; [exact Hc|lia].
    - apply IH. pose proof (padded_skb_pos c Hc). cbn in Hb. lia. }
  clear Hor.
  revert E. unfold sctp_packet_transmit. unfold bind at 1, get_packet at 1. cbv zeta.
  destruct (chunk_list (pkt w)) as [|c0 tl] eqn:El.
  { unfold ret. intros E. injection E as _ <-. exact El. }
  intros E.
  match type of E with
  | ?k w = _ =>
      assert (Hk : triple (fun w0 => pkt w0 = pkt w) k
                     (fun _ w1 => chunk_list (pkt w1) = []));
        [|exact (triple_done _ _ _ _ _ _ Hk eq_refl E)]
  end.
  clear E.
  apply triple_bind with (R := fun _ w0 => pkt w0 = pkt w);
    [intros w0 Hw0; exact Hw0|]. intros s.
  destruct (needs_gso (pkt w) && negb (sk_gso s));
    [eapply triple_weaken;
       [apply label_err_drained|intros; exact I|intros ? ? Hq; exact Hq]|].
  apply triple_bind with (R := fun _ w0 => pkt w0 = pkt w).
  { intros w0 Hw0. unfold alloc_skb. destruct (alloc_skb_ok w0) as [|[] ?]; exact Hw0. }
  intros [hbuf|]; [|eapply triple_weaken;
       [apply label_err_drained|intros; exact I|intros ? ? Hq; exact Hq]].
  apply triple_bind with (R := fun _ w0 => pkt w0 = pkt w);
    [intros w0 Hw0; exact Hw0|]. intros _.
  apply triple_bind
    with (R := fun _ w0 => pkt w0 = set_transport (refresh_route s (transport (pkt w)))
                                      (pkt w));
    [intros w0 Hw0; reflexivity|]. intros _.
  intros w0 Hw0. unfold bind at 1, get_packet at 1. rewrite Hw0.
  cbn [transport set_transport].
  destruct (tp_dst (refresh_route s (transport (pkt w)))) as [d|].
  2:{ match goal with
      | |- match bind ?m ?k w0 with _ => _ end =>
          apply (triple_bind (fun _ => True) m k (fun _ _ => True));
            [apply triple_any|intros _; apply label_nodst_drained|exact I]
      end. }
  unfold bind at 1, get_world at 1.
  match goal with
  | |- match bind (sub_packets ?f ?g ?l0) ?k w0 with _ => _ end =>
      apply (triple_bind (fun w1 => g = false -> drain_ready l0 w1)
               (sub_packets f g l0) k
               (fun r w1 => fst r = Fallthrough -> chunk_list (pkt w1) = []));
        [apply sub_packets_drained| |]
  end.
  - intros [[|] l1].
    + intros w1 Hw1. specialize (Hw1 eq_refl).
      apply (listed_transmit_tail [] _ _ _ _ _ w1 Hw1).
    + eapply triple_weaken;
       [apply label_nomem_drained|intros; exact I|intros ? ? Hq; exact Hq].
  - intros Hg. destruct (Hplain Hg) as (Hfit & Hov & Hsize & Hlt & Hnn).
    unfold drain_ready. rewrite Hw0. cbn [chunk_list overhead set_transport].
    rewrite El, Hg. cbn [l_pkt_size].
    split; [exact Hfit|]. split; [discriminate|].
    rewrite (int_small (size (pkt w))) by lia.
    split; [rewrite int_small; lia|lia].
Qed.

End Drained.

(** ** A SACK or AUTH chunk offered to a packet that holds DATA *)

Section DirectOffer.
Context `{Collaborators}.

(** The flags mirror the list along a run in which no SACK or AUTH chunk
    is offered behind DATA, as along every run. *)
Lemma flags_inv_legal_run (ops : list append_op) (w w' : world) :
  legal_run ops w w' -> flags_inv (pkt w) -> flags_inv (pkt w').
Proof.
  induction 1 as [w | op ops v w w1 w2 _ Hop _ IH]; intros Hi; [exact Hi|].
  apply IH.
  exact (append_closed_op (fun w0 => flags_inv (pkt w0)) flags_inv_closed
           op v w w1 Hi Hop).
Qed.

(** The public append of a SACK or AUTH chunk to a packet whose has_auth
    is set bundles nothing, and admits the chunk when the packet stays
    within the path MTU. *)
Lemma direct_offer_admitted (c : sctp_chunk) (w : world) :
  is_sack_or_auth c = true ->
  has_auth (pkt w) = true ->
  size_t (size (pkt w) + chunk_len16 c) <= pmtu_of (pkt w) ->
  exists w' c',
    sctp_packet_append_chunk c w = Done SCTP_XMIT_OK w' /\
    chunk_list (pkt w') = chunk_list (pkt w) ++ [c'] /\ same_wire c c'.
Proof.
  intros Hk Ha Hfit.
  assert (Hd : sctp_chunk_is_data c = false).
  { unfold is_sack_or_auth, sctp_chunk_is_data in *.
    destruct (c_type c); try reflexivity; discriminate Hk. }
  unfold sctp_packet_append_chunk. rewrite Hd.
  unfold bind at 1, ret at 1. cbn [xmit_is_ok negb].
  unfold bind at 1.
  assert (Eauth : sctp_packet_bundle_auth c w = Done SCTP_XMIT_OK w).
  { unfold sctp_packet_bundle_auth, bind, get_packet. rewrite Ha, orb_true_r.
    destruct (tp_asoc (transport (pkt w))); reflexivity. }
  rewrite Eauth. cbn [xmit_is_ok negb].
  unfold bind at 1.
  assert (Esack : sctp_packet_bundle_sack c w = Done SCTP_XMIT_OK w).
  { unfold sctp_packet_bundle_sack, bind, get_packet. rewrite Hd. reflexivity. }
  rewrite Esack. cbn [xmit_is_ok negb].
  destruct (append_raw_returns c w (or_intror Hd)) as (v & w' & E).
  pose proof (append_raw_verdict c v w w' E) as (Hv & _).
  assert (Hok : v = SCTP_XMIT_OK).
  { rewrite Hv. unfold sctp_packet_will_fit. cbv zeta.
    fold (pmtu_of (pkt w)).
    destruct (Z.gtb_spec (size_t (size (pkt w) + chunk_len16 c)) (pmtu_of (pkt w)));
      [lia|reflexivity]. }
  clear Hv. subst v.
  destruct (append_raw_effect c _ w w' E) as [(Hx & _) | (_ & c' & Hstep)];
    [discriminate Hx|].
  exists w', c'. split; [exact E|].
  split; [exact (rs_list _ _ _ _ Hstep)|exact (rs_wire _ _ _ _ Hstep)].
Qed.

End DirectOffer.

(** C2 (amended): the bundlers add no SACK and no AUTH chunk once [has_data]
    is set, and after any sequence of append operations in which no SACK or
    AUTH chunk is offered to a packet whose [has_data] is set, chunk_list
    holds no SACK and no AUTH chunk behind a DATA chunk.  A SACK or AUTH
    chunk [c] that is then offered to the packet by
    sctp_packet_append_chunk, when has_data is set, is admitted whenever
    the size with its padded length stays within the path MTU the
    admission test goes by: the verdict is OK, the chunk is the last of
    the list, and it sits behind a DATA chunk.  (The factories are taken
    to make chunks of their kind.) *)
Theorem C2_no_sack_or_auth_behind_data `{Collaborators}
    (ops : list append_op) (w w' : world) (c : sctp_chunk) :
  (forall a b, sctp_make_auth a = Some b -> c_type b = SCTP_CID_AUTH) ->
  (forall a b, sctp_make_sack a = Some b -> c_type b = SCTP_CID_SACK) ->
  started (pkt w) ->
  legal_run ops w w' ->
  sack_or_auth_after_data (chunk_list (pkt w')) = false /\
  (has_data (pkt w') = true ->
   is_sack_or_auth c = true ->
   size_t (size (pkt w') + chunk_len16 c) <= pmtu_of (pkt w') ->
   exists w'' c',
     sctp_packet_append_chunk c w' = Done SCTP_XMIT_OK w'' /\
     chunk_list (pkt w'') = chunk_list (pkt w') ++ [c'] /\
     same_wire c c' /\
     sack_or_auth_after_data (chunk_list (pkt w'')) = true).
Proof.
  intros Hauth Hsack Hstart Hrun.
  pose proof (flags_inv_legal_run ops w w' Hrun (flags_inv_started _ Hstart))
    as (Hfd & _).
  apply order_inv_started in Hstart.
  destruct (order_inv_legal_run Hauth Hsack ops w w' Hrun Hstart)
    as (Hord & _ & Hflags).
  split; [exact Hord|].
  intros Hd Hk Hfit. destruct (Hflags Hd) as (_ & Ha).
  destruct (direct_offer_admitted c w' Hk Ha Hfit) as (w'' & c' & E & Hl & Hw).
  exists w'', c'. split; [exact E|]. split; [exact Hl|]. split; [exact Hw|].
  unfold sack_or_auth_after_data. rewrite Hl, sack_or_auth_after_app.
  rewrite <- Hfd, Hd. cbn [orb andb].
  assert (Hk' : is_sack_or_auth c' = true).
  { destruct Hw as (_ & Ht & _). unfold is_sack_or_auth in *. rewrite Ht. exact Hk. }
  rewrite Hk'. apply orb_true_r.
Qed.

(** The theorem at work: a SACK offered first, then two DATA chunks; an
    AUTH chunk of 24 bytes offered next is admitted and sits last. *)
Lemma C2_order_witness :
  sack_or_auth_after_data
    (chunk_list (pkt (Sample.after_legal
                        [Append (Sample.chunk 1 SCTP_CID_SACK 16);
                         Append (Sample.chunk 2 SCTP_CID_DATA 100);
                         Append (Sample.chunk 3 SCTP_CID_DATA 200)] Sample.w0)))
  = false /\
  (true = true -> true = true -> 372 <= 1500 ->
   exists w'' c',
     @sctp_packet_append_chunk Sample.demo (Sample.chunk 4 SCTP_CID_AUTH 24)
       (Sample.after_legal
          [Append (Sample.chunk 1 SCTP_CID_SACK 16);
           Append (Sample.chunk 2 SCTP_CID_DATA 100);
           Append (Sample.chunk 3 SCTP_CID_DATA 200)] Sample.w0)
     = Done SCTP_XMIT_OK w'' /\
     chunk_list (pkt w'')
     = chunk_list (pkt (Sample.after_legal
                          [Append (Sample.chunk 1 SCTP_CID_SACK 16);
                           Append (Sample.chunk 2 SCTP_CID_DATA 100);
                           Append (Sample.chunk 3 SCTP_CID_DATA 200)] Sample.w0))
       ++ [c'] /\
     same_wire (Sample.chunk 4 SCTP_CID_AUTH 24) c' /\
     sack_or_auth_after_data (chunk_list (pkt w'')) = true).
Proof.
  apply (@C2_no_sack_or_auth_behind_data Sample.demo
           [Append (Sample.chunk 1 SCTP_CID_SACK 16);
            Append (Sample.chunk 2 SCTP_CID_DATA 100);
            Append (Sample.chunk 3 SCTP_CID_DATA 200)] Sample.w0
           (Sample.after_legal
              [Append (Sample.chunk 1 SCTP_CID_SACK 16);
               Append (Sample.chunk 2 SCTP_CID_DATA 100);
               Append (Sample.chunk 3 SCTP_CID_DATA 200)] Sample.w0)
           (Sample.chunk 4 SCTP_CID_AUTH 24)).
  - intros a b E. injection E as <-. reflexivity.
  - intros a b E. injection E as <-. reflexivity.
  - apply started_init.
  - apply (@run_legal_sound Sample.demo). vm_compute. reflexivity.
Defined.

(** ** What is sent and what is left *)

Lemma triple_conj {A : Type} (P1 P2 : world -> Prop) (m : M A)
    (Q1 Q2 : A -> world -> Prop) :
  triple P1 m Q1 -> triple P2 m Q2 ->
  triple (fun w => P1 w /\ P2 w) m (fun a w => Q1 a w /\ Q2 a w).
Proof.
  intros H1 H2 w (Hp1 & Hp2). specialize (H1 w Hp1). specialize (H2 w Hp2).
  destruct (m w); [split; assumption|exact I].
Qed.

Ltac nomem :=
  first [exact I | unfold ret; cbn; intros Hf; discriminate Hf].

Lemma triple_assume {A : Type} (phi : Prop) (P : world -> Prop) (m : M A)
    (Q : A -> world -> Prop) :
  (phi -> triple P m Q) -> triple (fun w => P w /\ phi) m Q.
Proof. intros Hm w (Hp & Hphi). exact (Hm Hphi w Hp). Qed.

Section Carried.
Context `{Collaborators}.

(** One turn of the copy loop on a packet without AUTH chunk, whatever the
    chunk's length: if the copy returns, the chunk has left the list for
    the buffer. *)
Lemma copy_chunk_moves (c : sctp_chunk) (rest : list sctp_chunk) (l l' : locals)
    (w w' : world) :
  auth (pkt w) = None ->
  copy_chunk c rest l w = Done l' w' ->
  chunk_list (pkt w') = rest /\ auth (pkt w') = None /\
  chunk_stream (l_nskb l') = chunk_stream (l_nskb l) ++ [c_addr c] /\
  l_head l' = l_head l.
Proof.
  intros Hau. unfold copy_chunk. unfold bind at 1, get_packet at 1. cbv zeta.
  unfold is_packet_auth. rewrite Hau. cbn [negb]. rewrite andb_true_r.
  cbv beta iota.
  set (measure := sctp_chunk_is_data c && negb (c_resent c)
                  && negb (tp_rto_pending (transport (pkt w)))).
  set (c1 := pad_chunk (if measure then set_c_rtt_in_progress true c else c)).
  assert (Ha1 : c_addr c1 = c_addr c).
  { subst c1. unfold pad_chunk. destruct measure;
      match goal with |- context [if ?b then _ else _] => destruct b end;
      reflexivity. }
  clearbody c1 measure.
  match goal with
  | |- context [if ?b then crash SkbOverPanic else _] => destruct b
  end; [intros E; discriminate E|].
  unfold bind, put_packet, sctp_chunk_free, ret.
  destruct (sctp_chunk_is_data c); cbn [negb]; cbv beta iota;
    intros E; injection E as <- <-; cbn;
    (split; [reflexivity|]); (split; [exact Hau|]);
    (split; [unfold chunk_stream; cbn; rewrite map_app; cbn; rewrite Ha1;
             reflexivity|]); reflexivity.
Qed.

(** The copy loop moves a prefix of the list to the buffer, in order. *)
Lemma drain_moves_prefix (todo : list sctp_chunk) :
  forall (l l' : locals) (w w' : world),
    auth (pkt w) = None ->
    chunk_list (pkt w) = todo ->
    drain_chunks todo l w = Done l' w' ->
    auth (pkt w') = None /\ l_head l' = l_head l /\
    chunk_stream (l_nskb l') ++ map c_addr (chunk_list (pkt w')) =
      chunk_stream (l_nskb l) ++ map c_addr todo.
Proof.
  induction todo as [|c rest IH]; intros l l' w w' Hau Hl; cbn [drain_chunks].
  - unfold ret. intros E. injection E as <- <-. rewrite Hl. auto.
  - unfold bind at 1.
    destruct (copy_chunk c rest l w) as [l1 w1|] eqn:E; [|discriminate].
    destruct (copy_chunk_moves c rest l l1 w w1 Hau E) as (Hl1 & Hau1 & Hs1 & Hh1).
    destruct (l_pkt_size l1 =? 0).
    + unfold ret. intros E'. injection E' as <- <-.
      rewrite Hl1, Hs1, <- app_assoc. auto.
    + intros E'. destruct (IH l1 l' w1 w' Hau1 Hl1 E') as (Hau2 & Hh2 & Hs2).
      rewrite Hs2, Hs1, <- app_assoc. split; [exact Hau2|].
      split; [congruence|reflexivity].
Qed.

Lemma finish_auth_none (l : locals) (w : world) :
  auth (pkt w) = None ->
  exists l', finish_auth l w = Done l' w /\
             l_head l' = l_head l /\
             chunk_stream (l_nskb l') = chunk_stream (l_nskb l).
Proof.
  intros Hau. unfold finish_auth. cbv zeta. unfold bind, get_packet.
  rewrite Hau. unfold ret. eexists. split; [reflexivity|].
  destruct (l_auth l); split; reflexivity.
Qed.

(** The loop keeps the chunks in order: where it is left for the tail,
    what the head buffer carries, followed by what is still queued, is
    what was there at the start. *)
Lemma sub_packets_carry (L : list nat) (fuel : nat) (gso : bool) :
  forall l : locals,
    triple (carried L gso l) (sub_packets fuel gso l)
      (fun r w' =>
         fst r = Fallthrough ->
         sent_stream (l_head (snd r)) ++ map c_addr (chunk_list (pkt w')) = L).
Proof.
  induction fuel as [|fuel IH]; intros l; cbn [sub_packets]; cbv zeta.
  { apply triple_ret. intros w _ Hf. discriminate Hf. }
  intros w (Hau & Hfr & HL). unfold bind at 1, get_packet at 1.
  destruct gso.
  - (* a GSO round *)
    unfold bind at 1.
    destruct (gso_pkt_size _ _ _ _ _) as [[ps al]|]; [|nomem].
    unfold bind at 1, alloc_skb at 1.
    destruct (alloc_skb_ok w) as [|[] grants] eqn:Eg; try nomem.
    cbv beta iota. unfold ret at 1. cbv beta iota.
    unfold bind at 1.
    match goal with
    | |- context [drain_chunks ?t ?l0 ?w0] =>
        destruct (drain_chunks t l0 w0) as [l2 w2|] eqn:Ed; [|nomem];
        destruct (drain_moves_prefix t l0 l2 w0 w2 Hau eq_refl Ed)
          as (Hau2 & Hh2 & Hs2)
    end.
    cbn in Hh2, Hs2.
    unfold bind at 1.
    destruct (finish_auth_none l2 w2 Hau2) as (l3 & -> & Hh3 & Hs3).
    cbn [negb].
    unfold bind at 1, skb_gro_receive at 1.
    destruct (gro_receive_ok w2) as [|[] outcomes] eqn:Er; try nomem.
    unfold bind at 1, get_sk at 1.
    destruct (_ >=? _); [nomem|].
    unfold bind at 1, get_packet at 1. cbn [pkt set_gro_receive_ok].
    assert (Hnew : sent_stream (set_skb_frags (skb_frags (l_head l3) ++ [l_nskb l3])
                                  (l_head l3))
                   ++ map c_addr (chunk_list (pkt w2)) = L).
    { unfold sent_stream in *. cbn. rewrite map_app, concat_app. cbn.
      rewrite app_nil_r, Hs3, Hh3, Hh2, <- !app_assoc. cbn.
      rewrite Hs2, <- HL, <- !app_assoc. reflexivity. }
    destruct (chunk_list (pkt w2)) as [|c rest] eqn:El.
    + unfold ret. intros _. cbn [snd l_head set_l_head pkt set_gro_receive_ok].
      rewrite El. exact Hnew.
    + apply IH. split; [exact Hau2|]. split; [discriminate|].
      cbn [l_head set_l_head pkt set_gro_receive_ok]. rewrite El. exact Hnew.
  - (* the one round of a plain emission *)
    specialize (Hfr eq_refl).
    unfold bind at 1, ret at 1. cbv beta iota.
    unfold bind at 1.
    match goal with
    | |- context [drain_chunks ?t ?l0 ?w0] =>
        destruct (drain_chunks t l0 w0) as [l2 w2|] eqn:Ed; [|exact I];
        destruct (drain_moves_prefix t l0 l2 w0 w2 Hau eq_refl Ed)
          as (Hau2 & Hh2 & Hs2)
    end.
    cbn in Hh2, Hs2.
    unfold bind at 1.
    destruct (finish_auth_none l2 w2 Hau2) as (l3 & -> & Hh3 & Hs3).
    cbn [negb]. unfold ret. intros _. cbn [snd l_head set_l_head].
    unfold sent_stream in *. cbn. rewrite Hh3, Hh2. cbn. rewrite Hfr in *.
    cbn in *. rewrite app_nil_r in *. rewrite Hs3, Hs2. exact HL.
Qed.

Section Sent.
Variable x : list sk_buff.
Variable m : Z.

(** The tail hands IP the head buffer with the chunks it carries. *)
Lemma transmit_tail_sends (gso had_asoc : bool) (dst : dst_entry) (l : locals) :
  triple (owes x m) (transmit_tail gso had_asoc dst 0 l)
    (fun _ w => exists head, xmit w = x ++ [head] /\
                             sent_stream head = sent_stream (l_head l)).
Proof.
  unfold transmit_tail. cbv zeta.
  apply stable_then; [apply owes_get_packet|]. intros p.
  apply stable_then; [apply owes_ecn_capable|]. intros _.
  apply stable_then; [owes_walk|]. intros _.
  apply stable_then; [owes_walk|]. intros _.
  match goal with
  | |- triple _ (bind (if gso then _ else ret ?h0) _) _ =>
      assert (Hh0 : sent_stream h0 = sent_stream (l_head l))
        by (repeat match goal with
                   | |- context [if ?b then _ else _] => destruct b
                   end; reflexivity);
      apply triple_bind
        with (R := fun h w => owes x m w /\ sent_stream h = sent_stream (l_head l))
  end.
  - destruct gso.
    + apply triple_bind with (R := fun _ => owes x m);
        [apply owes_refresh_sk_caps|].
      intros _. apply triple_ret. intros w Hw. split; [exact Hw|exact Hh0].
    + apply triple_ret. intros w Hw. split; [exact Hw|exact Hh0].
  - intros head w ((Hx & _) & Hh).
    unfold bind, get_packet, sctp_xmit, label_out, put_packet, ret. cbn.
    eexists. split; [rewrite Hx; reflexivity|exact Hh].
Qed.

(** The error labels hand nothing to IP. *)
Lemma label_err_sends_nothing :
  stable (fun w => xmit w = x) (label_err 0).
Proof.
  intros w Hx. destruct (label_err_done w) as (w' & E & _ & Hx' & _).
  rewrite E, Hx'. exact Hx.
Qed.

Lemma label_nodst_sends_nothing :
  stable (fun w => xmit w = x) (label_nodst 0).
Proof.
  unfold label_nodst. apply stable_bind; [|intros _; apply label_err_sends_nothing].
  intros w Hx. exact Hx.
Qed.

Lemma label_nomem_sends_nothing :
  stable (fun w => xmit w = x) (label_nomem 0).
Proof.
  unfold label_nomem. apply stable_bind; [intros w Hx; exact Hx|]. intros p.
  apply stable_bind; [|intros _; apply label_nodst_sends_nothing].
  destruct (auth p); [destruct (existsb _ _)|]; intros w Hx; exact Hx.
Qed.

End Sent.

(** What the emitter sends and what it leaves: when it has handed IP a
    buffer for a packet without AUTH chunk, the chunks the buffer carries
    followed by the chunks still on the list are the chunks of the packet
    as they were queued. *)
Lemma transmit_sends_in_order (w w' : world) (r : Z) (head : sk_buff) :
  auth (pkt w) = None ->
  sctp_packet_transmit w = Done r w' ->
  xmit w' = xmit w ++ [head] ->
  sent_stream head ++ map c_addr (chunk_list (pkt w')) =
    map c_addr (chunk_list (pkt w)).
Proof.
  intros Hau E Hsent.
  assert (Hnot : forall w0 : world, xmit w0 = xmit w -> xmit w0 = xmit w ++ [head]
                                    -> False).
  { intros w0 H0 H1. rewrite H0 in H1. apply (f_equal (@length _)) in H1.
    rewrite length_app in H1. cbn in H1. lia. }
  revert E. unfold sctp_packet_transmit. unfold bind at 1, get_packet at 1. cbv zeta.
  destruct (chunk_list (pkt w)) as [|c0 tl] eqn:El.
  { unfold ret. intros E. injection E as _ <-. exfalso. eauto. }
  intros E. revert Hsent.
  match type of E with
  | ?k w = _ =>
      assert (Hk : triple (fun w0 => pkt w0 = pkt w /\ owes (xmit w)
                                       (sk_wmem_alloc (sk w)) w0) k
                     (fun _ w1 =>
                        xmit w1 = xmit w ++ [head] ->
                        sent_stream head ++ map c_addr (chunk_list (pkt w1)) =
                          map c_addr (c0 :: tl)));
        [|exact (triple_done _ _ _ _ _ _ Hk (conj eq_refl (conj eq_refl eq_refl)) E)]
  end.
  clear E w'.
  assert (Herr : forall P : world -> Prop,
             (forall w0, P w0 -> xmit w0 = xmit w) ->
             triple P (label_err 0)
               (fun _ w1 => xmit w1 = xmit w ++ [head] ->
                            sent_stream head ++ map c_addr (chunk_list (pkt w1)) =
                              map c_addr (c0 :: tl))).
  { intros P HP w0 Hw0. pose proof (label_err_sends_nothing (xmit w) w0 (HP w0 Hw0)) as Hs.
    destruct (label_err 0 w0); [|exact I]. intros Hx. exfalso. eauto. }
  apply triple_bind
    with (R := fun _ w0 => pkt w0 = pkt w /\ owes (xmit w) (sk_wmem_alloc (sk w)) w0);
    [intros w0 Hw0; exact Hw0|]. intros s.
  destruct (needs_gso (pkt w) && negb (sk_gso s));
    [apply Herr; intros w0 (_ & Hx & _); exact Hx|].
  apply triple_bind
    with (R := fun o w0 =>
                 (pkt w0 = pkt w /\ owes (xmit w) (sk_wmem_alloc (sk w)) w0) /\
                 (forall b, o = Some b -> buf_chunks b = [])).
  { intros w0 Hw0. unfold alloc_skb.
    destruct (alloc_skb_ok w0) as [|[] ?]; (split; [exact Hw0|]);
      intros b Hb; try discriminate Hb. injection Hb as <-. reflexivity. }
  intros [hbuf|]; [|apply Herr; intros w0 ((_ & Hx & _) & _); exact Hx].
  apply triple_bind
    with (R := fun _ w0 => (pkt w0 = pkt w /\
                            owes (xmit w) (sk_wmem_alloc (sk w) + 1) w0) /\
                           buf_chunks hbuf = []).
  { intros w0 ((Hp & Hx & Hm) & Hb).
    unfold sctp_packet_set_owner_w, bind, get_sk, put_sk. cbn.
    split; [|exact (Hb hbuf eq_refl)].
    split; [exact Hp|]. split; [exact Hx|]. cbn. lia. }
  intros _.
  apply triple_assume. intros Hbuf.
  apply triple_bind
    with (R := fun _ w0 =>
                 pkt w0 = set_transport (refresh_route s (transport (pkt w))) (pkt w) /\
                 owes (xmit w) (sk_wmem_alloc (sk w) + 1) w0).
  { intros w0 (Hp & Hx). split; [reflexivity|exact Hx]. }
  intros _.
  intros w0 (Hw0 & Hx0). unfold bind at 1, get_packet at 1. rewrite Hw0.
  cbn [transport set_transport].
  destruct (tp_dst (refresh_route s (transport (pkt w)))) as [d|].
  2:{ match goal with
      | |- match bind ?m0 ?k0 w0 with _ => _ end =>
          pose proof (triple_bind (fun w1 => xmit w1 = xmit w) m0 k0
                        (fun _ w1 => xmit w1 = xmit w)
                        (fun _ w1 => xmit w1 = xmit w)) as Hb
      end.
      match type of Hb with
      | ?A -> ?B -> _ =>
          assert (Ha : A);
            [|assert (Hc : B);
              [|specialize (Hb Ha Hc w0 (proj1 Hx0))]]
      end.
      - destruct (match tp_asoc (transport (pkt w)) with
                  | Some _ => true | None => false end).
        + intros w1 Hx1. unfold bind, deref_asoc, put_asoc.
          destruct (tp_asoc (transport (pkt w1))); [exact Hx1|exact I].
        + intros w1 Hx1. exact Hx1.
      - intros _. apply label_nodst_sends_nothing.
      - match goal with
        | |- match ?e with _ => _ end =>
            destruct e; [|exact I]
        end.
        intros Hx. exfalso. eauto. }
  unfold bind at 1, get_world at 1.
  match goal with
  | |- match bind (sub_packets ?f ?g ?l0) ?k w0 with _ => _ end =>
      pose proof (triple_conj _ _ _ _ _
                    (sub_packets_carry (map c_addr (c0 :: tl)) f g l0)
                    (owes_sub_packets (xmit w) (sk_wmem_alloc (sk w) + 1) f g l0))
        as Hloop;
      apply (triple_bind _ (sub_packets f g l0) k _ _ Hloop)
  end.
  - intros [[|] l1].
    + apply (triple_weaken _
               (fun w1 => (listed (chunk_list (pkt w1)) w1 /\
                           sent_stream (l_head l1)
                           ++ map c_addr (chunk_list (pkt w1)) =
                             map c_addr (c0 :: tl)) /\
                          owes (xmit w) (sk_wmem_alloc (sk w) + 1) w1) _ _
               (fun _ w2 =>
                  xmit w2 = xmit w ++ [head] ->
                  sent_stream head ++ map c_addr (chunk_list (pkt w2)) =
                    map c_addr (c0 :: tl)));
        [|intros w1 (Hc & Ho); split; [split; [reflexivity|exact (Hc eq_refl)]
                                      |exact Ho]
         |auto].
      intros w1 ((Hl1 & Hc1) & Ho1).
      pose proof (listed_transmit_tail (chunk_list (pkt w1)) (needs_gso (pkt w))
                    match tp_asoc (transport (pkt w)) with
                    | Some _ => true | None => false end d 0 l1 w1 Hl1)
        as Hkeep.
      pose proof (transmit_tail_sends (xmit w) (sk_wmem_alloc (sk w) + 1)
                    (needs_gso (pkt w))
                    match tp_asoc (transport (pkt w)) with
                    | Some _ => true | None => false end d l1 w1 Ho1) as Hsend.
      destruct (transmit_tail (needs_gso (pkt w))
                  match tp_asoc (transport (pkt w)) with
                  | Some _ => true | None => false end d 0 l1 w1) as [r2 w2|];
        [|exact I].
      destruct Hsend as (head0 & Hx2 & Hs2). intros Hx.
      rewrite Hx2 in Hx. apply app_inj_tail in Hx. destruct Hx as (_ & <-).
      unfold listed in Hkeep. rewrite Hkeep, Hs2. exact Hc1.
    + intros w1 (_ & Ho1).
      pose proof (label_nomem_sends_nothing (xmit w) w1 (proj1 Ho1)) as Hs.
      destruct (label_nomem 0 w1); [|exact I]. intros Hx. exfalso. eauto.
  - split; [|exact Hx0].
    unfold carried. rewrite Hw0. cbn [auth set_transport chunk_list l_head skb_frags].
    split; [exact Hau|]. split; [reflexivity|].
    rewrite El. unfold sent_stream, chunk_stream. cbn. rewrite Hbuf. reflexivity.
Qed.

End Carried.

Section PlainFlush.
Context `{Collaborators}.

(** The plain emission hands IP one buffer with every chunk of the list,
    in order, and leaves the packet drained and reset. *)
Lemma plain_sends_all (w : world) (d : dst_entry) (ra : list bool) :
  skb_sized (pkt w) ->
  chunk_list (pkt w) <> [] ->
  needs_gso (pkt w) = false ->
  auth (pkt w) = None ->
  has_asoc (pkt w) = true \/
    existsb sctp_chunk_is_data (chunk_list (pkt w)) = false ->
  alloc_skb_ok w = true :: ra ->
  tp_dst (refresh_route (sk w) (transport (pkt w))) = Some d ->
  exists w' head,
    sctp_packet_transmit w = Done 0 w' /\
    xmit w' = xmit w ++ [head] /\
    skb_frags head = [] /\
    chunk_stream (skb_head head) = map c_addr (chunk_list (pkt w)) /\
    chunk_list (pkt w') = [] /\ is_reset (pkt w').
Proof.
  intros (Hpos & Hov & Hsize & Hlt) Hne Hgso Hau Hasoc Hal Hdst.
  destruct (plain_path w (chunk_list (pkt w)) d ra eq_refl Hne Hgso Hau Hal Hdst
              Hpos Hov Hsize Hlt)
    as (l' & w2 & E & Hl2 & Hi2 & Hx2 & Hj2 & Hs2 & Ha2 & Hf2 & Ht2 & Hd2 & Hc2 &
        Hfr & Hg & Hcs & Hsrc & Hdp & Hvt & Hst & Hba & Hbl).
  pose proof (has_asoc_refreshed w w2 _ Ht2) as Hasoc2.
  rewrite E, <- Hasoc2, transmit_tail_plain.
  2:{ rewrite Hd2, Hasoc2. intros Hx.
      destruct Hasoc as [Hy | Hy]; [exact Hy|congruence]. }
  eexists _, _. split; [reflexivity|].
  cbn. rewrite Hx2, Hl2. split; [reflexivity|].
  destruct sctp_checksum_disable; cbn; rewrite ?Hfr, ?Hst;
    repeat split; auto; apply is_reset_reset.
Qed.

End PlainFlush.


